(** * Resource binding in DiligentCore: signatures, default signatures,
      byte-code patching and state transitions

    A shallow embedding of
    - [Graphics/GraphicsEngineOpenGL/src/PipelineResourceSignatureGLImpl.cpp]
      (the OpenGL resource signature),
    - [Graphics/GraphicsEngineVulkan/src/PipelineStateVkImpl.cpp]
      (default signatures and the pipeline layout of the Vulkan back end),
    - the transition modes documented in
      [Graphics/GraphicsEngine/interface/DeviceContext.h]
      (the resource state tracker).

    C++ [Uint32] values are integers in [Z] with the wrap-around written out,
    [std::vector] and C arrays are lists read with [!!] and written with
    [<[ _ := _ ]>], enumerations are inductive types, [throw] is a
    constructor of the result type.  Functions and constants that the
    sources call but that are declared in other translation units are the
    fields of the interfaces [ResourceFlags], [SignatureBase],
    [PipelineEnv], [CacheEnv] and [ShaderEnv].  The definitions come first and the theorems follow them;
    the closed examples, which run the definitions on one instance of the
    interfaces, end the file. *)

From Stdlib Require Import ZArith Lia Bool.
From stdpp Require Import base option list gmap strings.

Local Open Scope Z_scope.

(** ** Machine integers *)

Definition Uint32_modulus : Z := 2 ^ 32.

(** [a + b] on [Uint32] operands. *)
Definition Uint32_add (a b : Z) : Z := (a + b) mod Uint32_modulus.

Definition is_Uint32 (a : Z) : Prop := 0 <= a < Uint32_modulus.

(** ** Resource descriptions shared by the back ends *)

(** [SHADER_RESOURCE_TYPE]; [SHADER_RESOURCE_TYPE_LAST] is
    [SHADER_RESOURCE_TYPE_ACCEL_STRUCT = 8]. *)
Inductive SHADER_RESOURCE_TYPE : Set :=
| SHADER_RESOURCE_TYPE_UNKNOWN
| SHADER_RESOURCE_TYPE_CONSTANT_BUFFER
| SHADER_RESOURCE_TYPE_TEXTURE_SRV
| SHADER_RESOURCE_TYPE_BUFFER_SRV
| SHADER_RESOURCE_TYPE_TEXTURE_UAV
| SHADER_RESOURCE_TYPE_BUFFER_UAV
| SHADER_RESOURCE_TYPE_SAMPLER
| SHADER_RESOURCE_TYPE_INPUT_ATTACHMENT
| SHADER_RESOURCE_TYPE_ACCEL_STRUCT.

#[global] Instance SHADER_RESOURCE_TYPE_eq_dec : EqDecision SHADER_RESOURCE_TYPE.
Proof. solve_decision. Defined.

Inductive SHADER_RESOURCE_VARIABLE_TYPE : Set :=
| SHADER_RESOURCE_VARIABLE_TYPE_STATIC
| SHADER_RESOURCE_VARIABLE_TYPE_MUTABLE
| SHADER_RESOURCE_VARIABLE_TYPE_DYNAMIC.

#[global] Instance SHADER_RESOURCE_VARIABLE_TYPE_eq_dec :
  EqDecision SHADER_RESOURCE_VARIABLE_TYPE.
Proof. solve_decision. Defined.

(** [PipelineResourceDesc]: the stage mask [ShaderStages] and [Flags] are bit
    sets, [ArraySize] is a [Uint32]. *)
Record PipelineResourceDesc : Type := mkPipelineResourceDesc {
  ShaderStages : Z;
  Name : string;
  ArraySize : Z;
  ResourceType : SHADER_RESOURCE_TYPE;
  VarType : SHADER_RESOURCE_VARIABLE_TYPE;
  Flags : Z
}.

#[global] Instance PipelineResourceDesc_eq_dec : EqDecision PipelineResourceDesc.
Proof. solve_decision. Defined.

(** Modelled from the spec: [ImmutableSamplerDesc] is declared in a header
    that is not among the sources; the specification gives an immutable
    sampler a stage-visibility mask and the name it is matched by. *)
Record ImmutableSamplerDesc : Type := mkImmutableSamplerDesc {
  ImtblSam_ShaderStages : Z;
  SamplerOrTextureName : string
}.

#[global] Instance ImmutableSamplerDesc_eq_dec : EqDecision ImmutableSamplerDesc.
Proof. solve_decision. Defined.

(** [PipelineResourceSignatureDesc], with the fields
    [CreateDefaultSignature] fills in.  [NumResources] and
    [NumImmutableSamplers] are the lengths of the two arrays. *)
Record PipelineResourceSignatureDesc : Type := mkPipelineResourceSignatureDesc {
  SignName : string;
  Resources : list PipelineResourceDesc;
  ImmutableSamplers : list ImmutableSamplerDesc;
  BindingIndex : Z;
  SRBAllocationGranularity : Z;
  UseCombinedTextureSamplers : bool;
  CombinedSamplerSuffix : option string
}.

#[global] Instance PipelineResourceSignatureDesc_eq_dec :
  EqDecision PipelineResourceSignatureDesc.
Proof. solve_decision. Defined.

Definition NumResources (Desc : PipelineResourceSignatureDesc) : Z :=
  Z.of_nat (length (Resources Desc)).

Definition NumImmutableSamplers (Desc : PipelineResourceSignatureDesc) : Z :=
  Z.of_nat (length (ImmutableSamplers Desc)).

(** ** The OpenGL resource signature: data *)

(** [BINDING_RANGE]; [BINDING_RANGE_COUNT == 4] is the size of [TBindings] and
    [BINDING_RANGE_UNKNOWN == ~0u] is not an index into it. *)
Inductive BINDING_RANGE : Set :=
| BINDING_RANGE_UNIFORM_BUFFER
| BINDING_RANGE_TEXTURE
| BINDING_RANGE_IMAGE
| BINDING_RANGE_STORAGE_BUFFER
| BINDING_RANGE_UNKNOWN.

#[global] Instance BINDING_RANGE_eq_dec : EqDecision BINDING_RANGE.
Proof. solve_decision. Defined.

Definition BINDING_RANGE_COUNT : nat := 4.

(** Position of a range in a [TBindings] array. *)
Definition range_index (Range : BINDING_RANGE) : option nat :=
  match Range with
  | BINDING_RANGE_UNIFORM_BUFFER => Some 0%nat
  | BINDING_RANGE_TEXTURE => Some 1%nat
  | BINDING_RANGE_IMAGE => Some 2%nat
  | BINDING_RANGE_STORAGE_BUFFER => Some 3%nat
  | BINDING_RANGE_UNKNOWN => None
  end.

Definition GetBindingRangeName (Range : BINDING_RANGE) : string :=
  match Range with
  | BINDING_RANGE_UNIFORM_BUFFER => "Uniform buffer"
  | BINDING_RANGE_TEXTURE => "Texture"
  | BINDING_RANGE_IMAGE => "Image"
  | BINDING_RANGE_STORAGE_BUFFER => "Storage buffer"
  | BINDING_RANGE_UNKNOWN => "Unknown"
  end.

(** [TBindings] is [std::array<Uint32, BINDING_RANGE_COUNT>]. *)
Definition TBindings_zero : list Z := replicate BINDING_RANGE_COUNT 0.

(** [PipelineResourceSignatureGLImpl::ResourceAttribs]. *)
Record ResourceAttribs : Type := mkResourceAttribs {
  CacheOffset : Z;
  SamplerInd : Z;
  ImtblSamplerAssigned : bool
}.

#[global] Instance ResourceAttribs_eq_dec : EqDecision ResourceAttribs.
Proof. solve_decision. Defined.

(** [ResourcesCompatible]: the sampler index is ignored. *)
Definition ResourcesCompatible (lhs rhs : ResourceAttribs) : bool :=
  (CacheOffset lhs =? CacheOffset rhs) &&
  Bool.eqb (ImtblSamplerAssigned lhs) (ImtblSamplerAssigned rhs).

(** What [CreateLayout] leaves behind: the attribute array, the member
    [m_BindingCount] and the local [StaticResCounter] that sizes the static
    cache. *)
Record Layout : Type := mkLayout {
  lay_Attribs : list ResourceAttribs;
  lay_BindingCount : list Z;
  lay_StaticResCounter : list Z
}.

(** The members of [PipelineResourceSignatureGLImpl] that layout, hash and
    compatibility read and write. *)
Record PipelineResourceSignatureGLImpl : Type := mkSignatureGL {
  m_Desc : PipelineResourceSignatureDesc;
  m_pResourceAttribs : list ResourceAttribs;
  m_BindingCount : list Z;
  m_Hash : Z
}.

(** Sum of the array sizes of the resources selected by [sel]. *)
Definition sum_ArraySize (sel : PipelineResourceDesc -> bool)
  (rs : list PipelineResourceDesc) : Z :=
  foldr (fun r acc => if sel r then ArraySize r + acc else acc) 0 rs.

Arguments sum_ArraySize _ _ : simpl never.

Definition is_sampler (r : PipelineResourceDesc) : bool :=
  bool_decide (ResourceType r = SHADER_RESOURCE_TYPE_SAMPLER).

Definition is_static (r : PipelineResourceDesc) : bool :=
  bool_decide (VarType r = SHADER_RESOURCE_VARIABLE_TYPE_STATIC).

(** The scenario of the specification: one static uniform buffer of array
    size 1 and one dynamic texture of array size 4. *)
Definition scenario_Desc : PipelineResourceSignatureDesc :=
  mkPipelineResourceSignatureDesc "scenario"
    [ mkPipelineResourceDesc 1 "g_Constants" 1
        SHADER_RESOURCE_TYPE_CONSTANT_BUFFER SHADER_RESOURCE_VARIABLE_TYPE_STATIC 0;
      mkPipelineResourceDesc 1 "g_Textures" 4
        SHADER_RESOURCE_TYPE_TEXTURE_SRV SHADER_RESOURCE_VARIABLE_TYPE_DYNAMIC 0 ]
    [] 0 1 false None.

(** An empty description with a given binding index. *)
Definition empty_Desc (Binding : Z) : PipelineResourceSignatureDesc :=
  mkPipelineResourceSignatureDesc "empty" [] [] Binding 1 false None.

(** ** What the sources take from other translation units

    The constants, helper functions and device services that the two source
    files use but do not define are the fields of interfaces; every
    definition below that needs one takes it as an implicit argument, and
    every theorem holds for all of them. *)

(** The values of [PIPELINE_RESOURCE_FLAGS]. *)
Class ResourceFlags : Type := {
  PIPELINE_RESOURCE_FLAG_UNKNOWN : Z;
  PIPELINE_RESOURCE_FLAG_COMBINED_SAMPLER : Z;
  PIPELINE_RESOURCE_FLAG_FORMATTED_BUFFER : Z;
  PIPELINE_RESOURCE_FLAG_RUNTIME_ARRAY : Z
}.

(** What the OpenGL signature takes from its header and its base class: the
    three invalid indices, the member
    [FindImmutableSampler(ShaderStages, Name)], the free function
    [Diligent::FindImmutableSampler(ImmutableSamplers, NumImmutableSamplers,
    ShaderStages, Name, Suffix)], the member
    [FindAssignedSampler(ResDesc, DefaultValue)], the description hash, the
    hash combiner and the comparison of two descriptions. *)
Class SignatureBase : Type := {
  InvalidCacheOffset : Z;
  InvalidSamplerInd : Z;
  InvalidImmutableSamplerIndex : Z;
  FindImmutableSampler_member :
    PipelineResourceSignatureDesc -> Z -> string -> Z;
  FindImmutableSampler :
    list ImmutableSamplerDesc -> Z -> string -> option string -> Z;
  FindAssignedSampler :
    PipelineResourceSignatureDesc -> PipelineResourceDesc -> Z -> Z;
  CalculatePipelineResourceSignatureDescHash :
    PipelineResourceSignatureDesc -> Z;
  HashCombine : Z -> Z -> Z;
  PipelineResourceSignaturesCompatible :
    PipelineResourceSignatureDesc -> PipelineResourceSignatureDesc -> bool
}.

(** *** An instance for the closed examples

    The closed examples at the end of the file run the definitions on
    concrete inputs, so they need values for the constants and stand-ins for
    the helpers of the other translation units.  The descriptions of the
    examples declare no immutable sampler and assign no sampler, so the
    look-ups answer "not found". *)

Definition ex_InvalidIndex : Z := 4294967295.
Definition ex_InvalidSamplerInd : Z := 2147483647.

Definition ex_ResourceFlags : ResourceFlags :=
  {| PIPELINE_RESOURCE_FLAG_UNKNOWN := 0;
     PIPELINE_RESOURCE_FLAG_COMBINED_SAMPLER := 2;
     PIPELINE_RESOURCE_FLAG_FORMATTED_BUFFER := 4;
     PIPELINE_RESOURCE_FLAG_RUNTIME_ARRAY := 8 |}.

Definition ex_FindImmutableSampler_member
  (_ : PipelineResourceSignatureDesc) (_ : Z) (_ : string) : Z := ex_InvalidIndex.

Definition ex_FindImmutableSampler
  (_ : list ImmutableSamplerDesc) (_ : Z) (_ : string) (_ : option string) : Z :=
  ex_InvalidIndex.

Definition ex_FindAssignedSampler
  (_ : PipelineResourceSignatureDesc) (_ : PipelineResourceDesc) (Default : Z) : Z :=
  Default.

Definition ex_DescHash (Desc : PipelineResourceSignatureDesc) : Z :=
  Z.of_nat (length (Resources Desc)) + BindingIndex Desc.

Definition ex_HashCombine (Hash v : Z) : Z := (31 * Hash + v) mod 2 ^ 64.

(** Two descriptions with the same binding index, resources and immutable
    samplers. *)
Definition ex_SignaturesCompatible (Desc0 Desc1 : PipelineResourceSignatureDesc)
  : bool :=
  (BindingIndex Desc0 =? BindingIndex Desc1) &&
  bool_decide (Resources Desc0 = Resources Desc1) &&
  bool_decide (ImmutableSamplers Desc0 = ImmutableSamplers Desc1).

Definition ex_SignatureBase : SignatureBase :=
  {| InvalidCacheOffset := ex_InvalidIndex;
     InvalidSamplerInd := ex_InvalidSamplerInd;
     InvalidImmutableSamplerIndex := ex_InvalidIndex;
     FindImmutableSampler_member := ex_FindImmutableSampler_member;
     FindImmutableSampler := ex_FindImmutableSampler;
     FindAssignedSampler := ex_FindAssignedSampler;
     CalculatePipelineResourceSignatureDescHash := ex_DescHash;
     HashCombine := ex_HashCombine;
     PipelineResourceSignaturesCompatible := ex_SignaturesCompatible |}.

(** ** The Vulkan pipeline state: data *)

(** [SPIRVShaderResourceAttribs::ResourceType]; [NumResourceTypes == 12]. *)
Module SPIRVResourceType.
Inductive t : Set :=
| UniformBuffer
| ROStorageBuffer
| RWStorageBuffer
| UniformTexelBuffer
| StorageTexelBuffer
| StorageImage
| SampledImage
| AtomicCounter
| SeparateImage
| SeparateSampler
| InputAttachment
| AccelerationStructure.
End SPIRVResourceType.

#[global] Instance SPIRVResourceType_eq_dec : EqDecision SPIRVResourceType.t.
Proof. solve_decision. Defined.

(** One reflected shader resource.  [ResourceDim] is the value of a
    [RESOURCE_DIMENSION]; the two decoration offsets are word indices into the
    SPIR-V of the shader. *)
Record SPIRVShaderResourceAttribs : Type := mkSPIRVShaderResourceAttribs {
  SPIRV_Name : string;
  SPIRV_Type : SPIRVResourceType.t;
  ResourceDim : Z;
  SPIRV_ArraySize : Z;
  IsMS : bool;
  BindingDecorationOffset : nat;
  DescriptorSetDecorationOffset : nat
}.

(** Modelled from the spec: [SPIRVShaderResources] is defined outside the
    sources; the Shader Reflection Adapter of the specification yields the
    list of resources a shader references, and [ProcessResources] calls its
    handler once on each of them, in order.  The other fields are the
    accessors the pipeline state calls. *)
Record SPIRVShaderResources : Type := mkSPIRVShaderResources {
  SR_Resources : list SPIRVShaderResourceAttribs;
  IsUsingCombinedSamplers : bool;
  GetCombinedSamplerSuffix : string;
  GetNumSepSmplrs : Z
}.

(** A [ShaderVkImpl] object: its address and what the pipeline state reads
    of it.  A [const ShaderVkImpl*] is the object it points at, and two
    pointers are equal when the addresses are. *)
Record ShaderVkImpl : Type := mkShaderVkImpl {
  Shader_Address : nat;
  Shader_Name : string;
  GetShaderResources : SPIRVShaderResources
}.

(** [PipelineStateVkImpl::ShaderStageInfo]: the stage type, the shaders of
    the stage and, in parallel, the byte code of each. *)
Record ShaderStageInfo : Type := mkShaderStageInfo {
  Stage_Type : Z;
  Shaders : list ShaderVkImpl;
  SPIRVs : list (list Z)
}.

Record ShaderResourceVariableDesc : Type := mkShaderResourceVariableDesc {
  Var_ShaderStages : Z;
  Var_Name : string;
  Var_Type : SHADER_RESOURCE_VARIABLE_TYPE
}.

Record PipelineResourceLayoutDesc : Type := mkPipelineResourceLayoutDesc {
  DefaultVariableType : SHADER_RESOURCE_VARIABLE_TYPE;
  Variables : list ShaderResourceVariableDesc;
  Layout_ImmutableSamplers : list ImmutableSamplerDesc
}.

(** What [CreateDefaultSignature] reads of the create info. *)
Record PipelineStateDesc : Type := mkPipelineStateDesc {
  PSO_Name : string;
  ResourceLayout : PipelineResourceLayoutDesc;
  PSO_SRBAllocationGranularity : Z;
  PipelineType : Z
}.

(** The descriptor types [DvpValidateResourceLimits] counts. *)
Module DescriptorType.
Inductive t : Set :=
| Sampler
| CombinedImageSampler
| SeparateImage
| StorageImage
| UniformTexelBuffer
| StorageTexelBuffer
| StorageTexelBuffer_ReadOnly
| UniformBuffer
| UniformBufferDynamic
| StorageBuffer
| StorageBuffer_ReadOnly
| StorageBufferDynamic
| StorageBufferDynamic_ReadOnly
| InputAttachment
| AccelerationStructure.
End DescriptorType.

#[global] Instance DescriptorType_eq_dec : EqDecision DescriptorType.t.
Proof. solve_decision. Defined.

(** [PipelineResourceSignatureVkImpl::ResourceAttribs] and
    [ImmutableSamplerAttribs], as far as the pipeline state reads them. *)
Record ResourceAttribsVk : Type := mkResourceAttribsVk {
  Vk_BindingIndex : Z;
  Vk_DescrSet : Z;
  Vk_DescrType : DescriptorType.t;
  Vk_ArraySize : Z
}.

Record ImmutableSamplerAttribsVk : Type := mkImmutableSamplerAttribsVk {
  Sam_BindingIndex : Z;
  Sam_DescrSet : Z
}.

(** What the pipeline state reads of a [PipelineResourceSignatureVkImpl]:
    its description and the two attribute arrays. *)
Record PipelineResourceSignatureVkImpl : Type := mkSignatureVk {
  Vk_Desc : PipelineResourceSignatureDesc;
  Vk_ResourceAttribs : list ResourceAttribsVk;
  Vk_ImmutableSamplerAttribs : list ImmutableSamplerAttribsVk
}.

(** [ResourceAttribution]: the signature a shader resource was found in and
    its index there, as a resource or as an immutable sampler. *)
Record ResourceAttribution : Type := mkResourceAttribution {
  pSignature : option PipelineResourceSignatureVkImpl;
  ResourceIndex : Z;
  ImmutableSamplerIndex : Z
}.

(** What leaves a function of the pipeline state: a value, an exception
    ([LOG_ERROR_AND_THROW]), or an access the language leaves undefined (an
    index outside an array, a null signature). *)
Inductive Error : Type :=
| RuntimeSizedArray (Resource Shader : string)
| ResourceMergeError (Resource PropertyName : string)
| CombinedSamplerSuffixNotCompatible
| FailedToCreateSignature
| ResourceNotInSignature (Shader Resource : string)
| NotCompatibleWithImmutableSampler (Shader Resource : string)
| IncompatibleResourceDeclaration (Shader Resource : string).

Inductive Result (A : Type) : Type :=
| Ok (a : A)
| Throw (e : Error)
| Undefined.

Arguments Ok {A} a.
Arguments Throw {A} e.
Arguments Undefined {A}.

Definition Result_bind {A B : Type} (f : A -> Result B) (m : Result A) : Result B :=
  match m with
  | Ok a => f a
  | Throw e => Throw e
  | Undefined => Undefined
  end.

#[global] Instance Result_mbind : MBind Result := @Result_bind.
#[global] Instance Result_mret : MRet Result := @Ok.

(** Reading an array element. *)
Definition at_index {A : Type} (l : list A) (i : nat) : Result A :=
  match l !! i with
  | Some a => Ok a
  | None => Undefined
  end.

(** A [for] loop over [l] that threads a state and stops at the first
    exception. *)
Fixpoint for_each {A St : Type} (body : St -> A -> Result St)
  (l : list A) (st : St) : Result St :=
  match l with
  | [] => Ok st
  | a :: l' => st' ← body st a; for_each body l' st'
  end.

(** State of [CreateDefaultSignature]: the set [UniqueResources], keyed by
    name and stage mask and holding the attributes first seen under the key;
    the vector [Resources]; and [pCombinedSamplerSuffix]. *)
Record DefaultSignatureState : Type := mkDefaultSignatureState {
  UniqueResources : gmap (string * Z) SPIRVShaderResourceAttribs;
  dss_Resources : list PipelineResourceDesc;
  pCombinedSamplerSuffix : option string
}.

(** Device limits and features [DvpValidateResourceLimits] reads. *)
Record DeviceLimits : Type := mkDeviceLimits {
  maxDescriptorSetSamplers : Z;
  maxDescriptorSetSampledImages : Z;
  maxDescriptorSetStorageImages : Z;
  maxDescriptorSetStorageBuffers : Z;
  maxDescriptorSetStorageBuffersDynamic : Z;
  maxDescriptorSetUniformBuffers : Z;
  maxDescriptorSetUniformBuffersDynamic : Z;
  maxDescriptorSetInputAttachments : Z;
  maxDescriptorSetAccelerationStructures : Z;
  maxPerStageResources : Z;
  maxPerStageDescriptorSamplers : Z;
  maxPerStageDescriptorSampledImages : Z;
  maxPerStageDescriptorStorageImages : Z;
  maxPerStageDescriptorStorageBuffers : Z;
  maxPerStageDescriptorUniformBuffers : Z;
  maxPerStageDescriptorInputAttachments : Z;
  maxPerStageDescriptorAccelerationStructures : Z
}.

Record DescriptorIndexing : Type := mkDescriptorIndexing {
  shaderSampledImageArrayNonUniformIndexing : bool;
  shaderStorageImageArrayNonUniformIndexing : bool;
  shaderUniformTexelBufferArrayNonUniformIndexing : bool;
  shaderStorageTexelBufferArrayNonUniformIndexing : bool;
  shaderUniformBufferArrayNonUniformIndexing : bool;
  shaderStorageBufferArrayNonUniformIndexing : bool;
  shaderInputAttachmentArrayNonUniformIndexing : bool;
  shaderSampledImageArrayNonUniformIndexingNative : bool;
  shaderStorageImageArrayNonUniformIndexingNative : bool;
  shaderUniformBufferArrayNonUniformIndexingNative : bool;
  shaderStorageBufferArrayNonUniformIndexingNative : bool;
  shaderInputAttachmentArrayNonUniformIndexingNative : bool
}.

(** Modelled from the spec: [LOG_WARNING_MESSAGE] and [DEV_CHECK_ERR] are
    macros of a header that is not among the sources.  The specification has
    violations of the limits reported in development builds, not thrown: a
    message is logged, by [DEV_CHECK_ERR] when its condition is false.  The
    two constructors keep apart which macro a message went through. *)
Inductive DvpMessage : Type :=
| NonUniformIndexingNotSupported (Signature Resource : string)
| NonUniformIndexingEmulated (Signature Resource : string)
| TotalCountExceedsLimit (What : string) (Count Limit : Z)
| PerStageCountExceedsLimit (Stage : Z) (What : string) (Count Limit : Z).

Inductive Diagnostic : Type :=
| LOG_WARNING_MESSAGE (msg : DvpMessage)
| DEV_CHECK_ERR (msg : DvpMessage).

(** What the pipeline state takes from elsewhere: the index
    [FindPipelineResourceLayoutVariable] answers when it finds nothing and
    the look-up itself, the invalid resource index, the device's
    [CreatePipelineResourceSignature] (which may hand back a null
    signature), the attribution of a shader resource to the signatures of
    the pipeline with its [operator bool], the compatibility check that
    throws on a mismatch (here: answers [false]), the creation of the
    pipeline layout by [m_PipelineLayout.Create(GetDevice(), m_Signatures,
    m_SignatureCount)], which is handed the device (here: what the pipeline
    state reads of a device, its limits and its two records of descriptor
    indexing) and may throw, the first descriptor set the pipeline layout
    gives to a signature, and the numbering of the shader stages of a
    pipeline. *)
Class PipelineEnv : Type := {
  InvalidPipelineResourceLayoutVariableIndex : Z;
  InvalidResourceIndex : Z;
  FindPipelineResourceLayoutVariable :
    PipelineResourceLayoutDesc -> string -> Z -> option string -> Z;
  CreatePipelineResourceSignature :
    PipelineResourceSignatureDesc -> bool -> option PipelineResourceSignatureVkImpl;
  GetResourceAttribution :
    list (option PipelineResourceSignatureVkImpl) -> string -> Z -> ResourceAttribution;
  ResourceAttribution_bool : ResourceAttribution -> bool;
  ValidatePipelineResourceCompatibility :
    PipelineResourceDesc -> SHADER_RESOURCE_TYPE -> Z -> Z -> bool;
  PipelineLayout_Create :
    DeviceLimits -> DescriptorIndexing -> DescriptorIndexing ->
    list (option PipelineResourceSignatureVkImpl) -> Result unit;
  GetFirstDescrSetIndex :
    list (option PipelineResourceSignatureVkImpl) -> Z -> Z;
  MAX_SHADERS_IN_PIPELINE : nat;
  GetShaderTypePipelineIndex : Z -> Z -> nat;
  GetShaderTypeFromPipelineIndex : nat -> Z -> Z
}.

(** *** Inputs of the closed examples

    Two stages, vertex and pixel, each with one shader that declares the 2D
    texture ["g_Tex"]; the pixel shader declares it with array size [n].
    The vertex shader of the examples is the object at address 1, the pixel
    shader the object at address 2.
    The values of [SHADER_TYPE_VERTEX], [SHADER_TYPE_PIXEL] and
    [RESOURCE_DIM_TEX_2D] only need to be what they are in the engine for the
    examples to read well. *)

Definition SHADER_TYPE_VERTEX : Z := 1.
Definition SHADER_TYPE_PIXEL : Z := 2.
Definition RESOURCE_DIM_TEX_2D : Z := 4.

Definition g_Tex (n : Z) : SPIRVShaderResourceAttribs :=
  mkSPIRVShaderResourceAttribs "g_Tex" SPIRVResourceType.SeparateImage
    RESOURCE_DIM_TEX_2D n false 2 4.

Definition shader_with (Name_ : string) (rs : list SPIRVShaderResourceAttribs)
  : ShaderVkImpl :=
  mkShaderVkImpl (if String.eqb Name_ "VS" then 1 else 2) Name_
    (mkSPIRVShaderResources rs false "" 0).

Definition two_stages (n : Z) : list ShaderStageInfo :=
  [ mkShaderStageInfo SHADER_TYPE_VERTEX [shader_with "VS" [g_Tex 1]]
      [[7; 7; 7; 7; 7; 7]];
    mkShaderStageInfo SHADER_TYPE_PIXEL [shader_with "PS" [g_Tex n]]
      [[9; 9; 9; 9; 9; 9]] ].

(** A layout without variables, and one whose variable ["g_Tex"] covers the
    vertex and the pixel stage. *)
Definition layout_no_variables : PipelineResourceLayoutDesc :=
  mkPipelineResourceLayoutDesc SHADER_RESOURCE_VARIABLE_TYPE_STATIC [] [].

Definition layout_shared_variable : PipelineResourceLayoutDesc :=
  mkPipelineResourceLayoutDesc SHADER_RESOURCE_VARIABLE_TYPE_STATIC
    [mkShaderResourceVariableDesc 3 "g_Tex" SHADER_RESOURCE_VARIABLE_TYPE_MUTABLE] [].

Definition PSO_with (LayoutDesc : PipelineResourceLayoutDesc) : PipelineStateDesc :=
  mkPipelineStateDesc "PSO" LayoutDesc 1 0.

(** A stand-in for [FindPipelineResourceLayoutVariable]: the first variable
    of the layout that is visible in the stage and has the name, the suffix
    being appended to the name of the variable when there is one. *)
Fixpoint ex_find_variable (Vars : list ShaderResourceVariableDesc)
  (Name_ : string) (Stage : Z) (Suffix : option string) (i : Z) : Z :=
  match Vars with
  | [] => 4294967295
  | Var :: rest =>
      if negb (Z.land (Var_ShaderStages Var) Stage =? 0) &&
         String.eqb Name_ (Var_Name Var +:+ default "" Suffix)
      then i
      else ex_find_variable rest Name_ Stage Suffix (i + 1)
  end.

Definition ex_FindPipelineResourceLayoutVariable
  (LayoutDesc : PipelineResourceLayoutDesc) (Name_ : string) (Stage : Z)
  (Suffix : option string) : Z :=
  ex_find_variable (Variables LayoutDesc) Name_ Stage Suffix 0.

(** Stand-ins for the other helpers of the Vulkan back end.  The device
    numbers the bindings of a signature in declaration order; a shader
    resource is attributed to the first signature that declares its name for
    the stage; the compatibility check compares the type and the array size;
    the device creates every pipeline layout; the first descriptor set of a
    signature is the number of signatures before it. *)

Definition ex_DescriptorType (T : SHADER_RESOURCE_TYPE) : DescriptorType.t :=
  match T with
  | SHADER_RESOURCE_TYPE_CONSTANT_BUFFER => DescriptorType.UniformBuffer
  | SHADER_RESOURCE_TYPE_TEXTURE_SRV => DescriptorType.SeparateImage
  | SHADER_RESOURCE_TYPE_BUFFER_SRV => DescriptorType.StorageBuffer_ReadOnly
  | SHADER_RESOURCE_TYPE_TEXTURE_UAV => DescriptorType.StorageImage
  | SHADER_RESOURCE_TYPE_BUFFER_UAV => DescriptorType.StorageBuffer
  | SHADER_RESOURCE_TYPE_INPUT_ATTACHMENT => DescriptorType.InputAttachment
  | SHADER_RESOURCE_TYPE_ACCEL_STRUCT => DescriptorType.AccelerationStructure
  | SHADER_RESOURCE_TYPE_SAMPLER
  | SHADER_RESOURCE_TYPE_UNKNOWN => DescriptorType.Sampler
  end.

Definition ex_CreatePipelineResourceSignature
  (Desc : PipelineResourceSignatureDesc) (_ : bool)
  : option PipelineResourceSignatureVkImpl :=
  Some (mkSignatureVk Desc
          (imap (fun i r => mkResourceAttribsVk (Z.of_nat i) 0
                              (ex_DescriptorType (ResourceType r)) (ArraySize r))
             (Resources Desc))
          []).

Fixpoint ex_GetResourceAttribution
  (m_Signatures : list (option PipelineResourceSignatureVkImpl))
  (Name_ : string) (Stage : Z) : ResourceAttribution :=
  match m_Signatures with
  | [] => mkResourceAttribution None 4294967295 4294967295
  | None :: rest => ex_GetResourceAttribution rest Name_ Stage
  | Some Sig :: rest =>
      match list_find (fun r => Name r = Name_ /\ Z.land (ShaderStages r) Stage <> 0)
              (Resources (Vk_Desc Sig)) with
      | Some (i, _) => mkResourceAttribution (Some Sig) (Z.of_nat i) 4294967295
      | None => ex_GetResourceAttribution rest Name_ Stage
      end
  end.

Definition ex_ResourceAttribution_bool (RA : ResourceAttribution) : bool :=
  bool_decide (is_Some (pSignature RA)) &&
  (negb (ResourceIndex RA =? 4294967295) ||
   negb (ImmutableSamplerIndex RA =? 4294967295)).

Definition ex_ValidatePipelineResourceCompatibility
  (ResDesc : PipelineResourceDesc) (Type_ : SHADER_RESOURCE_TYPE)
  (Flags_ ArraySize_ : Z) : bool :=
  bool_decide (ResourceType ResDesc = Type_) && (ArraySize_ <=? ArraySize ResDesc).

Definition ex_GetFirstDescrSetIndex
  (m_Signatures : list (option PipelineResourceSignatureVkImpl)) (Binding : Z) : Z :=
  Z.of_nat (length (filter is_Some (take (Z.to_nat Binding) m_Signatures))).

Definition ex_MAX_SHADERS_IN_PIPELINE : nat := 6.

Definition ex_GetShaderTypePipelineIndex (Stage _ : Z) : nat :=
  Z.to_nat (Z.log2 Stage).

Definition ex_GetShaderTypeFromPipelineIndex (ShaderInd : nat) (_ : Z) : Z :=
  2 ^ Z.of_nat ShaderInd.

Definition ex_PipelineEnv : PipelineEnv :=
  {| InvalidPipelineResourceLayoutVariableIndex := 4294967295;
     InvalidResourceIndex := 4294967295;
     FindPipelineResourceLayoutVariable := ex_FindPipelineResourceLayoutVariable;
     CreatePipelineResourceSignature := ex_CreatePipelineResourceSignature;
     GetResourceAttribution := ex_GetResourceAttribution;
     ResourceAttribution_bool := ex_ResourceAttribution_bool;
     ValidatePipelineResourceCompatibility := ex_ValidatePipelineResourceCompatibility;
     PipelineLayout_Create := fun _ _ _ _ => Ok tt;
     GetFirstDescrSetIndex := ex_GetFirstDescrSetIndex;
     MAX_SHADERS_IN_PIPELINE := ex_MAX_SHADERS_IN_PIPELINE;
     GetShaderTypePipelineIndex := ex_GetShaderTypePipelineIndex;
     GetShaderTypeFromPipelineIndex := ex_GetShaderTypeFromPipelineIndex |}.

(** An explicit signature that declares ["g_Tex"] for the vertex and the
    pixel stage, at binding 5 of its descriptor set 1. *)
Definition g_Tex_Signature : PipelineResourceSignatureVkImpl :=
  mkSignatureVk
    (mkPipelineResourceSignatureDesc "explicit"
       [mkPipelineResourceDesc 3 "g_Tex" 1 SHADER_RESOURCE_TYPE_TEXTURE_SRV
          SHADER_RESOURCE_VARIABLE_TYPE_MUTABLE 0]
       [] 0 1 false None)
    [mkResourceAttribsVk 5 1 DescriptorType.SeparateImage 1]
    [].

(** The two stages after the patching against [g_Tex_Signature]. *)
Definition two_stages_patched : list ShaderStageInfo :=
  [ mkShaderStageInfo SHADER_TYPE_VERTEX [shader_with "VS" [g_Tex 1]]
      [[7; 7; 5; 7; 1; 7]];
    mkShaderStageInfo SHADER_TYPE_PIXEL [shader_with "PS" [g_Tex 1]]
      [[9; 9; 5; 9; 1; 9]] ].

(** A device that allows nothing, and one that supports every kind of
    non-uniform indexing. *)
Definition no_limits : DeviceLimits :=
  mkDeviceLimits 0 0 0 0 0 0 0 0 0 0 0 0 0 0 0 0 0.

Definition all_indexing : DescriptorIndexing :=
  mkDescriptorIndexing true true true true true true true true true true true true.

Section SignatureGL.

Context {RF : ResourceFlags} {SB : SignatureBase}.

(** ** The OpenGL resource signature: operations *)

(** [Desc.Flags & PIPELINE_RESOURCE_FLAG_FORMATTED_BUFFER] as a condition. *)
Definition is_formatted_buffer (Desc : PipelineResourceDesc) : bool :=
  negb (Z.land (Flags Desc) PIPELINE_RESOURCE_FLAG_FORMATTED_BUFFER =? 0).

Definition PipelineResourceToBindingRange (Desc : PipelineResourceDesc)
  : BINDING_RANGE :=
  match ResourceType Desc with
  | SHADER_RESOURCE_TYPE_CONSTANT_BUFFER => BINDING_RANGE_UNIFORM_BUFFER
  | SHADER_RESOURCE_TYPE_TEXTURE_SRV => BINDING_RANGE_TEXTURE
  | SHADER_RESOURCE_TYPE_BUFFER_SRV =>
      if is_formatted_buffer Desc
      then BINDING_RANGE_TEXTURE else BINDING_RANGE_STORAGE_BUFFER
  | SHADER_RESOURCE_TYPE_TEXTURE_UAV => BINDING_RANGE_IMAGE
  | SHADER_RESOURCE_TYPE_BUFFER_UAV =>
      if is_formatted_buffer Desc
      then BINDING_RANGE_IMAGE else BINDING_RANGE_STORAGE_BUFFER
  | SHADER_RESOURCE_TYPE_INPUT_ATTACHMENT => BINDING_RANGE_TEXTURE
  | SHADER_RESOURCE_TYPE_SAMPLER
  | SHADER_RESOURCE_TYPE_ACCEL_STRUCT
  | SHADER_RESOURCE_TYPE_UNKNOWN => BINDING_RANGE_UNKNOWN
  end.

(** One iteration of the resource loop of [CreateLayout]: the attributes
    constructed at [m_pResourceAttribs + i] and the two counter arrays after
    it.  [None] is an access outside a [TBindings] array, which is what
    indexing it with [BINDING_RANGE_UNKNOWN] is. *)
Definition CreateLayout_resource (Desc : PipelineResourceSignatureDesc)
  (ResDesc : PipelineResourceDesc) (BindingCount StaticResCounter : list Z)
  : option (ResourceAttribs * list Z * list Z) :=
  if decide (ResourceType ResDesc = SHADER_RESOURCE_TYPE_SAMPLER) then
    let ImtblSamplerIdx :=
      FindImmutableSampler_member Desc (ShaderStages ResDesc) (Name ResDesc) in
    Some (mkResourceAttribs
            InvalidCacheOffset
            (if ImtblSamplerIdx =? InvalidImmutableSamplerIndex
             then InvalidSamplerInd else ImtblSamplerIdx)
            (negb (ImtblSamplerIdx =? InvalidImmutableSamplerIndex)),
          BindingCount, StaticResCounter)
  else
    let Range := PipelineResourceToBindingRange ResDesc in
    let ImtblSamplerIdx :=
      if decide (ResourceType ResDesc = SHADER_RESOURCE_TYPE_TEXTURE_SRV)
      then FindImmutableSampler (ImmutableSamplers Desc)
             (ShaderStages ResDesc) (Name ResDesc) None
      else InvalidImmutableSamplerIndex in
    let SamplerIdx :=
      if decide (ResourceType ResDesc = SHADER_RESOURCE_TYPE_TEXTURE_SRV)
      then if negb (ImtblSamplerIdx =? InvalidImmutableSamplerIndex)
           then ImtblSamplerIdx
           else FindAssignedSampler Desc ResDesc InvalidSamplerInd
      else InvalidSamplerInd in
    k ← range_index Range;
    CacheOffset ← BindingCount !! k;
    let Attribs :=
      mkResourceAttribs CacheOffset SamplerIdx
        (negb (ImtblSamplerIdx =? InvalidImmutableSamplerIndex)) in
    let BindingCount' :=
      <[k := Uint32_add CacheOffset (ArraySize ResDesc)]> BindingCount in
    if decide (VarType ResDesc = SHADER_RESOURCE_VARIABLE_TYPE_STATIC) then
      Counter ← StaticResCounter !! k;
      Some (Attribs, BindingCount',
            <[k := Uint32_add Counter (ArraySize ResDesc)]> StaticResCounter)
    else Some (Attribs, BindingCount', StaticResCounter).

(** The loop [for (Uint32 i = 0; i < m_Desc.NumResources; ++i)]. *)
Fixpoint CreateLayout_loop (Desc : PipelineResourceSignatureDesc)
  (rs : list PipelineResourceDesc) (BindingCount StaticResCounter : list Z)
  : option Layout :=
  match rs with
  | [] => Some (mkLayout [] BindingCount StaticResCounter)
  | ResDesc :: rs' =>
      '(Attribs, BindingCount', StaticResCounter') ←
        CreateLayout_resource Desc ResDesc BindingCount StaticResCounter;
      L ← CreateLayout_loop Desc rs' BindingCount' StaticResCounter';
      Some (mkLayout (Attribs :: lay_Attribs L)
              (lay_BindingCount L) (lay_StaticResCounter L))
  end.

(** [CreateLayout]: both counter arrays start at zero.  The creation of the
    back-end sampler objects does not take part in the layout. *)
Definition CreateLayout (Desc : PipelineResourceSignatureDesc) : option Layout :=
  CreateLayout_loop Desc (Resources Desc) TBindings_zero TBindings_zero.

(** The loop of [CalculateHash], from index [i], [n] iterations to go. *)
Fixpoint CalculateHash_loop (Attribs : list ResourceAttribs) (Hash : Z)
  (i n : nat) : option Z :=
  match n with
  | O => Some Hash
  | S n' =>
      Attr ← Attribs !! i;
      CalculateHash_loop Attribs (HashCombine Hash (CacheOffset Attr)) (S i) n'
  end.

Definition CalculateHash (Desc : PipelineResourceSignatureDesc)
  (Attribs : list ResourceAttribs) : option Z :=
  if (NumResources Desc =? 0) && (NumImmutableSamplers Desc =? 0) then Some 0
  else CalculateHash_loop Attribs
         (CalculatePipelineResourceSignatureDescHash Desc)
         0 (length (Resources Desc)).

(** The constructor: [CreateLayout()], then [m_Hash = CalculateHash()].  The
    static variable managers and the SRB allocator it also sets up are not
    read by the operations below. *)
Definition PipelineResourceSignatureGLImpl_ctor
  (Desc : PipelineResourceSignatureDesc) : option PipelineResourceSignatureGLImpl :=
  L ← CreateLayout Desc;
  Hash ← CalculateHash Desc (lay_Attribs L);
  Some (mkSignatureGL Desc (lay_Attribs L) (lay_BindingCount L) Hash).

(** The loop of [IsCompatibleWith], from index [r], [n] iterations to go. *)
Fixpoint IsCompatibleWith_loop (This Other : list ResourceAttribs)
  (r n : nat) : option bool :=
  match n with
  | O => Some true
  | S n' =>
      lhs ← This !! r;
      rhs ← Other !! r;
      if negb (ResourcesCompatible lhs rhs) then Some false
      else IsCompatibleWith_loop This Other (S r) n'
  end.

(** [IsCompatibleWith], on two objects of a store of signatures: [this] and
    [&Other] are addresses, so that [this == &Other] is what it is in the
    source. *)
Definition IsCompatibleWith (heap : gmap nat PipelineResourceSignatureGLImpl)
  (this Other : nat) : option bool :=
  if decide (this = Other) then Some true
  else
    S ← heap !! this;
    T ← heap !! Other;
    if negb (m_Hash S =? m_Hash T) then Some false
    else if bool_decide (m_BindingCount S ≠ m_BindingCount T) then Some false
    else if negb (PipelineResourceSignaturesCompatible (m_Desc S) (m_Desc T))
    then Some false
    else IsCompatibleWith_loop (m_pResourceAttribs S) (m_pResourceAttribs T)
           0 (length (Resources (m_Desc S))).

(** *** Specification-side definitions for the layout *)

(** The resources that take cache slots in [Range]. *)
Definition in_range (Range : BINDING_RANGE) (r : PipelineResourceDesc) : bool :=
  negb (is_sampler r) && bool_decide (PipelineResourceToBindingRange r = Range).

(** Sum of the array sizes of the resources of [Range]. *)
Definition range_total (Range : BINDING_RANGE)
  (rs : list PipelineResourceDesc) : Z :=
  sum_ArraySize (in_range Range) rs.

(** Sum of the array sizes of the static resources of [Range]. *)
Definition static_total (Range : BINDING_RANGE)
  (rs : list PipelineResourceDesc) : Z :=
  sum_ArraySize (fun r => in_range Range r && is_static r) rs.

(** A valid description, as far as the layout needs it: every array size is
    at least 1, no resource is an acceleration structure or of unknown type
    (the OpenGL back end has no binding range for them), and the slots fit
    in a [Uint32]. *)
Definition valid_resource (r : PipelineResourceDesc) : Prop :=
  1 <= ArraySize r /\
  ResourceType r <> SHADER_RESOURCE_TYPE_ACCEL_STRUCT /\
  ResourceType r <> SHADER_RESOURCE_TYPE_UNKNOWN.

Definition valid_desc (Desc : PipelineResourceSignatureDesc) : Prop :=
  Forall valid_resource (Resources Desc) /\
  sum_ArraySize (fun r => negb (is_sampler r)) (Resources Desc) < Uint32_modulus.

(** The counters [cs] can still take the resources [rs] without wrapping
    around; [sel Range] selects the resources counted in [Range]. *)
Definition counters_fit (sel : BINDING_RANGE -> PipelineResourceDesc -> bool)
  (cs : list Z) (rs : list PipelineResourceDesc) : Prop :=
  forall Range k c, range_index Range = Some k -> cs !! k = Some c ->
    0 <= c /\ c + sum_ArraySize (sel Range) rs < Uint32_modulus.

(** What the layout records for resource [r], the counters being [bc] when
    the loop starts and [prefix] being the resources before [r]. *)
Definition attrib_spec (Desc : PipelineResourceSignatureDesc) (bc : list Z)
  (prefix : list PipelineResourceDesc) (r : PipelineResourceDesc)
  (a : ResourceAttribs) : Prop :=
  if is_sampler r then
    CacheOffset a = InvalidCacheOffset /\
    ImtblSamplerAssigned a =
      negb (FindImmutableSampler_member Desc (ShaderStages r) (Name r)
            =? InvalidImmutableSamplerIndex)
  else
    exists k c,
      range_index (PipelineResourceToBindingRange r) = Some k /\
      bc !! k = Some c /\
      CacheOffset a = c + range_total (PipelineResourceToBindingRange r) prefix.

End SignatureGL.

(** ** The Vulkan pipeline state: operations *)

Section PipelineVk.

Context {RF : ResourceFlags} {PE : PipelineEnv}.

(** [GetShaderResourceTypeAndFlags]: the two out-parameters as a pair. *)
Definition GetShaderResourceTypeAndFlags (Type_ : SPIRVResourceType.t)
  : SHADER_RESOURCE_TYPE * Z :=
  match Type_ with
  | SPIRVResourceType.UniformBuffer =>
      (SHADER_RESOURCE_TYPE_CONSTANT_BUFFER, PIPELINE_RESOURCE_FLAG_UNKNOWN)
  | SPIRVResourceType.ROStorageBuffer =>
      (SHADER_RESOURCE_TYPE_BUFFER_SRV, PIPELINE_RESOURCE_FLAG_UNKNOWN)
  | SPIRVResourceType.RWStorageBuffer =>
      (SHADER_RESOURCE_TYPE_BUFFER_UAV, PIPELINE_RESOURCE_FLAG_UNKNOWN)
  | SPIRVResourceType.UniformTexelBuffer =>
      (SHADER_RESOURCE_TYPE_BUFFER_SRV, PIPELINE_RESOURCE_FLAG_FORMATTED_BUFFER)
  | SPIRVResourceType.StorageTexelBuffer =>
      (SHADER_RESOURCE_TYPE_BUFFER_UAV, PIPELINE_RESOURCE_FLAG_FORMATTED_BUFFER)
  | SPIRVResourceType.StorageImage =>
      (SHADER_RESOURCE_TYPE_TEXTURE_UAV, PIPELINE_RESOURCE_FLAG_UNKNOWN)
  | SPIRVResourceType.SampledImage =>
      (SHADER_RESOURCE_TYPE_TEXTURE_SRV, PIPELINE_RESOURCE_FLAG_COMBINED_SAMPLER)
  | SPIRVResourceType.AtomicCounter =>
      (SHADER_RESOURCE_TYPE_BUFFER_UAV, PIPELINE_RESOURCE_FLAG_UNKNOWN)
  | SPIRVResourceType.SeparateImage =>
      (SHADER_RESOURCE_TYPE_TEXTURE_SRV, PIPELINE_RESOURCE_FLAG_UNKNOWN)
  | SPIRVResourceType.SeparateSampler =>
      (SHADER_RESOURCE_TYPE_SAMPLER, PIPELINE_RESOURCE_FLAG_UNKNOWN)
  | SPIRVResourceType.InputAttachment =>
      (SHADER_RESOURCE_TYPE_INPUT_ATTACHMENT, PIPELINE_RESOURCE_FLAG_UNKNOWN)
  | SPIRVResourceType.AccelerationStructure =>
      (SHADER_RESOURCE_TYPE_ACCEL_STRUCT, PIPELINE_RESOURCE_FLAG_UNKNOWN)
  end.

(** [VerifyResourceMerge]: the first property that differs is reported. *)
Definition VerifyResourceMerge (ExistingRes NewResAttribs : SPIRVShaderResourceAttribs)
  : Result unit :=
  if negb (bool_decide (SPIRV_Type ExistingRes = SPIRV_Type NewResAttribs)) then
    Throw (ResourceMergeError (SPIRV_Name NewResAttribs) "type")
  else if negb (ResourceDim ExistingRes =? ResourceDim NewResAttribs) then
    Throw (ResourceMergeError (SPIRV_Name NewResAttribs) "resource dimension")
  else if negb (SPIRV_ArraySize ExistingRes =? SPIRV_ArraySize NewResAttribs) then
    Throw (ResourceMergeError (SPIRV_Name NewResAttribs) "array size")
  else if negb (Bool.eqb (IsMS ExistingRes) (IsMS NewResAttribs)) then
    Throw (ResourceMergeError (SPIRV_Name NewResAttribs) "mutlisample state")
  else Ok tt.

(** The stage mask and the variable type a reflected resource gets: those of
    the layout variable found for it, or the stage of the shader and the
    default variable type. *)
Definition resolve_variable (LayoutDesc : PipelineResourceLayoutDesc)
  (StageType : Z) (ShaderResources : SPIRVShaderResources)
  (Attribs : SPIRVShaderResourceAttribs)
  : Result (Z * SHADER_RESOURCE_VARIABLE_TYPE) :=
  let SamplerSuffix :=
    if IsUsingCombinedSamplers ShaderResources &&
       bool_decide (SPIRV_Type Attribs = SPIRVResourceType.SeparateSampler)
    then Some (GetCombinedSamplerSuffix ShaderResources) else None in
  let VarIndex :=
    FindPipelineResourceLayoutVariable LayoutDesc (SPIRV_Name Attribs)
      StageType SamplerSuffix in
  if negb (VarIndex =? InvalidPipelineResourceLayoutVariableIndex) then
    Var ← at_index (Variables LayoutDesc) (Z.to_nat VarIndex);
    Ok (Var_ShaderStages Var, Var_Type Var)
  else Ok (StageType, DefaultVariableType LayoutDesc).

(** The handler [CreateDefaultSignature] passes to [ProcessResources]. *)
Definition CreateDefaultSignature_resource (PSODesc : PipelineStateDesc)
  (StageType : Z) (pShader : ShaderVkImpl)
  (st : DefaultSignatureState) (Attribs : SPIRVShaderResourceAttribs)
  : Result DefaultSignatureState :=
  '(ShaderStages, VarType) ←
    resolve_variable (ResourceLayout PSODesc) StageType
      (GetShaderResources pShader) Attribs;
  match UniqueResources st !! (SPIRV_Name Attribs, ShaderStages) with
  | None =>
      if SPIRV_ArraySize Attribs =? 0 then
        Throw (RuntimeSizedArray (SPIRV_Name Attribs) (Shader_Name pShader))
      else
        let '(ResType, Flags) := GetShaderResourceTypeAndFlags (SPIRV_Type Attribs) in
        Ok (mkDefaultSignatureState
              (<[(SPIRV_Name Attribs, ShaderStages) := Attribs]> (UniqueResources st))
              (dss_Resources st ++
                 [mkPipelineResourceDesc ShaderStages (SPIRV_Name Attribs)
                    (SPIRV_ArraySize Attribs) ResType VarType Flags])
              (pCombinedSamplerSuffix st))
  | Some ExistingRes =>
      _ ← VerifyResourceMerge ExistingRes Attribs;
      Ok st
  end.

(** The body of the loop over the shaders of a stage: the resources, then
    the combined sampler suffix. *)
Definition CreateDefaultSignature_shader (PSODesc : PipelineStateDesc)
  (StageType : Z) (st : DefaultSignatureState) (pShader : ShaderVkImpl)
  : Result DefaultSignatureState :=
  let ShaderResources := GetShaderResources pShader in
  st' ← for_each (CreateDefaultSignature_resource PSODesc StageType pShader)
          (SR_Resources ShaderResources) st;
  if IsUsingCombinedSamplers ShaderResources &&
     (0 <? GetNumSepSmplrs ShaderResources) then
    match pCombinedSamplerSuffix st' with
    | Some Suffix =>
        if negb (String.eqb Suffix (GetCombinedSamplerSuffix ShaderResources))
        then Throw CombinedSamplerSuffixNotCompatible
        else Ok st'
    | None =>
        Ok (mkDefaultSignatureState (UniqueResources st') (dss_Resources st')
              (Some (GetCombinedSamplerSuffix ShaderResources)))
    end
  else Ok st'.

Definition CreateDefaultSignature_stage (PSODesc : PipelineStateDesc)
  (st : DefaultSignatureState) (Stage : ShaderStageInfo)
  : Result DefaultSignatureState :=
  for_each (CreateDefaultSignature_shader PSODesc (Stage_Type Stage))
    (Shaders Stage) st.

(** The two nested loops of [CreateDefaultSignature]. *)
Definition CreateDefaultSignature_collect (PSODesc : PipelineStateDesc)
  (ShaderStages : list ShaderStageInfo) : Result DefaultSignatureState :=
  for_each (CreateDefaultSignature_stage PSODesc) ShaderStages
    (mkDefaultSignatureState ∅ [] None).

(** The description handed to the device. *)
Definition default_signature_desc (PSODesc : PipelineStateDesc)
  (st : DefaultSignatureState) : PipelineResourceSignatureDesc :=
  mkPipelineResourceSignatureDesc
    ("Implicit signature of PSO '" +:+ PSO_Name PSODesc +:+ "'")
    (dss_Resources st)
    (Layout_ImmutableSamplers (ResourceLayout PSODesc))
    0
    (PSO_SRBAllocationGranularity PSODesc)
    (bool_decide (pCombinedSamplerSuffix st <> None))
    (pCombinedSamplerSuffix st).

(** [CreateDefaultSignature]: a null signature when no shader has a
    resource. *)
Definition CreateDefaultSignature (PSODesc : PipelineStateDesc)
  (ShaderStages : list ShaderStageInfo)
  : Result (option PipelineResourceSignatureVkImpl) :=
  st ← CreateDefaultSignature_collect PSODesc ShaderStages;
  if negb (bool_decide (dss_Resources st = [])) then
    match CreatePipelineResourceSignature (default_signature_desc PSODesc st) true with
    | Some pSignature => Ok (Some pSignature)
    | None => Throw FailedToCreateSignature
    end
  else Ok None.

(** [SPIRV[Offset] = Value] on a [std::vector<uint32_t>]. *)
Definition write_word (SPIRV : list Z) (Offset : nat) (Value : Z) : Result (list Z) :=
  if decide (Offset < length SPIRV)%nat then Ok (<[Offset := Value]> SPIRV)
  else Undefined.

(** [~0u]. *)
Definition Uint32_max : Z := Uint32_modulus - 1.

(** The binding and the descriptor set of a reflected resource, from its
    attribution. *)
Definition resolve_binding (pShader : ShaderVkImpl)
  (Sig : PipelineResourceSignatureVkImpl)
  (ResAttribution : ResourceAttribution)
  (SPIRVAttribs : SPIRVShaderResourceAttribs) : Result (Z * Z) :=
  let '(Type_, Flags_) := GetShaderResourceTypeAndFlags (SPIRV_Type SPIRVAttribs) in
  if negb (ResourceIndex ResAttribution =? InvalidResourceIndex) then
    ResDesc ← at_index (Resources (Vk_Desc Sig))
                (Z.to_nat (ResourceIndex ResAttribution));
    if negb (ValidatePipelineResourceCompatibility ResDesc Type_ Flags_
               (SPIRV_ArraySize SPIRVAttribs))
    then Throw (IncompatibleResourceDeclaration (Shader_Name pShader)
                  (SPIRV_Name SPIRVAttribs))
    else
      ResAttribs ← at_index (Vk_ResourceAttribs Sig)
                     (Z.to_nat (ResourceIndex ResAttribution));
      Ok (Vk_BindingIndex ResAttribs, Vk_DescrSet ResAttribs)
  else if negb (ImmutableSamplerIndex ResAttribution =? InvalidResourceIndex) then
    if negb (bool_decide (Type_ = SHADER_RESOURCE_TYPE_SAMPLER))
    then Throw (NotCompatibleWithImmutableSampler (Shader_Name pShader)
                  (SPIRV_Name SPIRVAttribs))
    else
      SamAttribs ← at_index (Vk_ImmutableSamplerAttribs Sig)
                     (Z.to_nat (ImmutableSamplerIndex ResAttribution));
      Ok (Sam_BindingIndex SamAttribs, Sam_DescrSet SamAttribs)
  else Ok (Uint32_max, Uint32_max).

(** The handler [InitPipelineLayout] passes to [ProcessResources]: the byte
    code of the shader before and after. *)
Definition InitPipelineLayout_resource
  (m_Signatures : list (option PipelineResourceSignatureVkImpl))
  (ShaderType : Z) (pShader : ShaderVkImpl)
  (SPIRV : list Z) (SPIRVAttribs : SPIRVShaderResourceAttribs) : Result (list Z) :=
  let ResAttribution :=
    GetResourceAttribution m_Signatures (SPIRV_Name SPIRVAttribs) ShaderType in
  if negb (ResourceAttribution_bool ResAttribution) then
    Throw (ResourceNotInSignature (Shader_Name pShader) (SPIRV_Name SPIRVAttribs))
  else
    match pSignature ResAttribution with
    | None => Undefined
    | Some Sig =>
        '(ResourceBinding, DescriptorSet) ←
          resolve_binding pShader Sig ResAttribution SPIRVAttribs;
        SPIRV' ← write_word SPIRV (BindingDecorationOffset SPIRVAttribs)
                   ResourceBinding;
        write_word SPIRV' (DescriptorSetDecorationOffset SPIRVAttribs)
          (Uint32_add
             (GetFirstDescrSetIndex m_Signatures (BindingIndex (Vk_Desc Sig)))
             DescriptorSet)
    end.

(** The loop over the shaders of a stage, from index [i]. *)
Fixpoint InitPipelineLayout_shaders
  (m_Signatures : list (option PipelineResourceSignatureVkImpl))
  (ShaderType : Z) (Shaders_ : list ShaderVkImpl) (i : nat)
  (SPIRVs_ : list (list Z)) : Result (list (list Z)) :=
  match Shaders_ with
  | [] => Ok SPIRVs_
  | pShader :: rest =>
      SPIRV ← at_index SPIRVs_ i;
      SPIRV' ← for_each
                 (InitPipelineLayout_resource m_Signatures ShaderType pShader)
                 (SR_Resources (GetShaderResources pShader)) SPIRV;
      InitPipelineLayout_shaders m_Signatures ShaderType rest (S i)
        (<[i := SPIRV']> SPIRVs_)
  end.

(** The loop over the stages. *)
Fixpoint InitPipelineLayout_stages
  (m_Signatures : list (option PipelineResourceSignatureVkImpl))
  (ShaderStages : list ShaderStageInfo) : Result (list ShaderStageInfo) :=
  match ShaderStages with
  | [] => Ok []
  | Stage :: rest =>
      SPIRVs' ← InitPipelineLayout_shaders m_Signatures (Stage_Type Stage)
                  (Shaders Stage) 0 (SPIRVs Stage);
      rest' ← InitPipelineLayout_stages m_Signatures rest;
      Ok (mkShaderStageInfo (Stage_Type Stage) (Shaders Stage) SPIRVs' :: rest')
  end.

(** *** Validation of the device limits (development builds) *)

(** The locals of [DvpValidateResourceLimits] and what it has logged. *)
Record DvpState : Type := mkDvpState {
  DescriptorCount : DescriptorType.t -> Z;
  PerStageDescriptorCount : nat -> DescriptorType.t -> Z;
  ShaderStagePresented : nat -> bool;
  dvp_log : list Diagnostic
}.

(** [Count[DescIndex] += ArraySize]. *)
Definition add_count (Count : DescriptorType.t -> Z) (DescIndex : DescriptorType.t)
  (n : Z) : DescriptorType.t -> Z :=
  fun d => if decide (d = DescIndex) then Uint32_add (Count d) n else Count d.

(** The stages of a mask in the order [ExtractLSB] takes them out: one per
    set bit, lowest first. *)
Definition stage_bits (ShaderStages_ : Z) : list Z :=
  (fun i => 2 ^ Z.of_nat i) <$>
  filter (fun i => Z.testbit ShaderStages_ (Z.of_nat i) = true) (seq 0 32).

(** [DEV_CHECK_ERR(Expr, ...)]. *)
Definition check_err (Expr : bool) (msg : DvpMessage) : list Diagnostic :=
  if Expr then [] else [DEV_CHECK_ERR msg].

(** The two indexing capabilities of a descriptor type. *)
Definition NonUniformIndexing (Feats Props : DescriptorIndexing)
  (d : DescriptorType.t) : bool * bool :=
  match d with
  | DescriptorType.Sampler => (true, true)
  | DescriptorType.CombinedImageSampler
  | DescriptorType.SeparateImage =>
      (shaderSampledImageArrayNonUniformIndexing Feats,
       shaderSampledImageArrayNonUniformIndexingNative Props)
  | DescriptorType.StorageImage =>
      (shaderStorageImageArrayNonUniformIndexing Feats,
       shaderStorageImageArrayNonUniformIndexingNative Props)
  | DescriptorType.UniformTexelBuffer =>
      (shaderUniformTexelBufferArrayNonUniformIndexing Feats,
       shaderSampledImageArrayNonUniformIndexingNative Props)
  | DescriptorType.StorageTexelBuffer
  | DescriptorType.StorageTexelBuffer_ReadOnly =>
      (shaderStorageTexelBufferArrayNonUniformIndexing Feats,
       shaderStorageBufferArrayNonUniformIndexingNative Props)
  | DescriptorType.UniformBuffer
  | DescriptorType.UniformBufferDynamic =>
      (shaderUniformBufferArrayNonUniformIndexing Feats,
       shaderUniformBufferArrayNonUniformIndexingNative Props)
  | DescriptorType.StorageBuffer
  | DescriptorType.StorageBuffer_ReadOnly
  | DescriptorType.StorageBufferDynamic
  | DescriptorType.StorageBufferDynamic_ReadOnly =>
      (shaderStorageBufferArrayNonUniformIndexing Feats,
       shaderStorageBufferArrayNonUniformIndexingNative Props)
  | DescriptorType.InputAttachment =>
      (shaderInputAttachmentArrayNonUniformIndexing Feats,
       shaderInputAttachmentArrayNonUniformIndexingNative Props)
  | DescriptorType.AccelerationStructure => (true, true)
  end.

(** The body of the loop over the resources of a signature. *)
Definition Dvp_resource (PSODesc : PipelineStateDesc)
  (Feats Props : DescriptorIndexing) (SignatureName : string)
  (st : DvpState) (Res : PipelineResourceDesc * ResourceAttribsVk) : DvpState :=
  let '(ResDesc, ResAttr) := Res in
  let DescIndex := Vk_DescrType ResAttr in
  let PerStage :=
    foldl (fun '(Count, Presented) Stage =>
             let ShaderInd := GetShaderTypePipelineIndex Stage (PipelineType PSODesc) in
             ((fun s => if decide (s = ShaderInd)
                        then add_count (Count s) DescIndex (Vk_ArraySize ResAttr)
                        else Count s),
              (fun s => if decide (s = ShaderInd) then true else Presented s)))
      (PerStageDescriptorCount st, ShaderStagePresented st)
      (stage_bits (ShaderStages ResDesc)) in
  let Warnings :=
    if negb (Z.land (Flags ResDesc) PIPELINE_RESOURCE_FLAG_RUNTIME_ARRAY =? 0) then
      let '(Supported, Native) := NonUniformIndexing Feats Props DescIndex in
      if negb Supported then
        [LOG_WARNING_MESSAGE
           (NonUniformIndexingNotSupported SignatureName (Name ResDesc))]
      else if negb Native then
        [LOG_WARNING_MESSAGE
           (NonUniformIndexingEmulated SignatureName (Name ResDesc))]
      else []
    else [] in
  mkDvpState
    (add_count (DescriptorCount st) DescIndex (Vk_ArraySize ResAttr))
    (fst PerStage) (snd PerStage)
    (dvp_log st ++ Warnings).

(** The body of the loop over the signatures; a null signature is skipped.
    The two arrays of a signature have [NumResources] entries each. *)
Definition Dvp_signature (PSODesc : PipelineStateDesc)
  (Feats Props : DescriptorIndexing)
  (st : DvpState) (pSignature_ : option PipelineResourceSignatureVkImpl) : DvpState :=
  match pSignature_ with
  | None => st
  | Some Sig =>
      foldl (Dvp_resource PSODesc Feats Props (SignName (Vk_Desc Sig))) st
        (zip (Resources (Vk_Desc Sig)) (Vk_ResourceAttribs Sig))
  end.

(** The checks of the total descriptor counts. *)
Definition Dvp_check_total (Limits : DeviceLimits)
  (Count : DescriptorType.t -> Z) : list Diagnostic :=
  let NumSampledImages :=
    Uint32_add (Uint32_add (Count DescriptorType.CombinedImageSampler)
                  (Count DescriptorType.SeparateImage))
      (Count DescriptorType.UniformTexelBuffer) in
  let NumStorageImages :=
    Uint32_add (Uint32_add (Count DescriptorType.StorageImage)
                  (Count DescriptorType.StorageTexelBuffer))
      (Count DescriptorType.StorageTexelBuffer_ReadOnly) in
  let NumStorageBuffers :=
    Uint32_add (Count DescriptorType.StorageBuffer)
      (Count DescriptorType.StorageBuffer_ReadOnly) in
  let NumDynamicStorageBuffers :=
    Uint32_add (Count DescriptorType.StorageBufferDynamic)
      (Count DescriptorType.StorageBufferDynamic_ReadOnly) in
  let NumSamplers := Count DescriptorType.Sampler in
  let NumUniformBuffers := Count DescriptorType.UniformBuffer in
  let NumDynamicUniformBuffers := Count DescriptorType.UniformBufferDynamic in
  let NumInputAttachments := Count DescriptorType.InputAttachment in
  let NumAccelerationStructures := Count DescriptorType.AccelerationStructure in
  check_err (NumSamplers <=? maxDescriptorSetSamplers Limits)
    (TotalCountExceedsLimit "samplers" NumSamplers
       (maxDescriptorSetSamplers Limits)) ++
  check_err (NumSampledImages <=? maxDescriptorSetSampledImages Limits)
    (TotalCountExceedsLimit "sampled images" NumSampledImages
       (maxDescriptorSetSampledImages Limits)) ++
  check_err (NumStorageImages <=? maxDescriptorSetStorageImages Limits)
    (TotalCountExceedsLimit "storage images" NumStorageImages
       (maxDescriptorSetStorageImages Limits)) ++
  check_err (NumStorageBuffers <=? maxDescriptorSetStorageBuffers Limits)
    (TotalCountExceedsLimit "storage buffers" NumStorageBuffers
       (maxDescriptorSetStorageBuffers Limits)) ++
  check_err (NumDynamicStorageBuffers <=? maxDescriptorSetStorageBuffersDynamic Limits)
    (TotalCountExceedsLimit "dynamic storage buffers" NumDynamicStorageBuffers
       (maxDescriptorSetStorageBuffersDynamic Limits)) ++
  check_err (NumUniformBuffers <=? maxDescriptorSetUniformBuffers Limits)
    (TotalCountExceedsLimit "uniform buffers" NumUniformBuffers
       (maxDescriptorSetUniformBuffers Limits)) ++
  check_err (NumDynamicUniformBuffers <=? maxDescriptorSetUniformBuffersDynamic Limits)
    (TotalCountExceedsLimit "dynamic uniform buffers" NumDynamicUniformBuffers
       (maxDescriptorSetUniformBuffersDynamic Limits)) ++
  check_err (NumInputAttachments <=? maxDescriptorSetInputAttachments Limits)
    (TotalCountExceedsLimit "input attachments" NumInputAttachments
       (maxDescriptorSetInputAttachments Limits)) ++
  check_err (NumAccelerationStructures <=? maxDescriptorSetAccelerationStructures Limits)
    (TotalCountExceedsLimit "acceleration structures" NumAccelerationStructures
       (maxDescriptorSetAccelerationStructures Limits)).

(** The checks of one shader stage. *)
Definition Dvp_check_stage (PSODesc : PipelineStateDesc) (Limits : DeviceLimits)
  (ShaderInd : nat) (NumDesc : DescriptorType.t -> Z) : list Diagnostic :=
  let ShaderType := GetShaderTypeFromPipelineIndex ShaderInd (PipelineType PSODesc) in
  let NumSampledImages :=
    Uint32_add (Uint32_add (NumDesc DescriptorType.CombinedImageSampler)
                  (NumDesc DescriptorType.SeparateImage))
      (NumDesc DescriptorType.UniformTexelBuffer) in
  let NumStorageImages :=
    Uint32_add (Uint32_add (NumDesc DescriptorType.StorageImage)
                  (NumDesc DescriptorType.StorageTexelBuffer))
      (NumDesc DescriptorType.StorageTexelBuffer_ReadOnly) in
  let NumStorageBuffers :=
    Uint32_add (Uint32_add (Uint32_add (NumDesc DescriptorType.StorageBuffer)
                              (NumDesc DescriptorType.StorageBuffer_ReadOnly))
                  (NumDesc DescriptorType.StorageBufferDynamic))
      (NumDesc DescriptorType.StorageBufferDynamic_ReadOnly) in
  let NumUniformBuffers :=
    Uint32_add (NumDesc DescriptorType.UniformBuffer)
      (NumDesc DescriptorType.UniformBufferDynamic) in
  let NumSamplers := NumDesc DescriptorType.Sampler in
  let NumInputAttachments := NumDesc DescriptorType.InputAttachment in
  let NumAccelerationStructures := NumDesc DescriptorType.AccelerationStructure in
  let NumResources_ :=
    Uint32_add (Uint32_add (Uint32_add (Uint32_add (Uint32_add (Uint32_add
      NumSampledImages NumStorageImages) NumStorageBuffers) NumUniformBuffers)
      NumSamplers) NumInputAttachments) NumAccelerationStructures in
  check_err (NumResources_ <=? maxPerStageResources Limits)
    (PerStageCountExceedsLimit ShaderType "resources" NumResources_
       (maxPerStageResources Limits)) ++
  check_err (NumSamplers <=? maxPerStageDescriptorSamplers Limits)
    (PerStageCountExceedsLimit ShaderType "samplers" NumSamplers
       (maxPerStageDescriptorSamplers Limits)) ++
  check_err (NumSampledImages <=? maxPerStageDescriptorSampledImages Limits)
    (PerStageCountExceedsLimit ShaderType "sampled images" NumSampledImages
       (maxPerStageDescriptorSampledImages Limits)) ++
  check_err (NumStorageImages <=? maxPerStageDescriptorStorageImages Limits)
    (PerStageCountExceedsLimit ShaderType "storage images" NumStorageImages
       (maxPerStageDescriptorStorageImages Limits)) ++
  check_err (NumStorageBuffers <=? maxPerStageDescriptorStorageBuffers Limits)
    (PerStageCountExceedsLimit ShaderType "storage buffers" NumStorageBuffers
       (maxPerStageDescriptorStorageBuffers Limits)) ++
  check_err (NumUniformBuffers <=? maxPerStageDescriptorUniformBuffers Limits)
    (PerStageCountExceedsLimit ShaderType "uniform buffers" NumUniformBuffers
       (maxPerStageDescriptorUniformBuffers Limits)) ++
  check_err (NumInputAttachments <=? maxPerStageDescriptorInputAttachments Limits)
    (PerStageCountExceedsLimit ShaderType "input attachments" NumInputAttachments
       (maxPerStageDescriptorInputAttachments Limits)) ++
  check_err (NumAccelerationStructures
             <=? maxPerStageDescriptorAccelerationStructures Limits)
    (PerStageCountExceedsLimit ShaderType "acceleration structures"
       NumAccelerationStructures
       (maxPerStageDescriptorAccelerationStructures Limits)).

(** [DvpValidateResourceLimits]: it returns nothing and throws nothing; what
    it does is log. *)
Definition DvpValidateResourceLimits (PSODesc : PipelineStateDesc)
  (Limits : DeviceLimits) (Feats Props : DescriptorIndexing)
  (m_Signatures : list (option PipelineResourceSignatureVkImpl))
  : list Diagnostic :=
  let st :=
    foldl (Dvp_signature PSODesc Feats Props)
      (mkDvpState (fun _ => 0) (fun _ _ => 0) (fun _ => false) [])
      m_Signatures in
  dvp_log st ++
  Dvp_check_total Limits (DescriptorCount st) ++
  mjoin ((fun ShaderInd =>
            if ShaderStagePresented st ShaderInd
            then Dvp_check_stage PSODesc Limits ShaderInd
                   (PerStageDescriptorCount st ShaderInd)
            else []) <$> seq 0 MAX_SHADERS_IN_PIPELINE).

(** [InitPipelineLayout]: the implicit signature when the pipeline uses one,
    the validation of the limits in a development build, the creation of
    the pipeline layout on the device, then the remapping of the bindings
    in the byte code of every shader.  The build
    configuration ([#ifdef DILIGENT_DEVELOPMENT]) is the first argument.  The
    result is what was logged about the limits, and the signatures and stages
    of the pipeline, or the exception.  The members [m_ShaderResources] and
    [m_ResourceAttibutions], which a development build fills for later
    validation, are not read here. *)
Definition InitPipelineLayout (DILIGENT_DEVELOPMENT : bool)
  (PSODesc : PipelineStateDesc)
  (Limits : DeviceLimits) (Feats Props : DescriptorIndexing)
  (m_UsingImplicitSignature : bool)
  (m_Signatures : list (option PipelineResourceSignatureVkImpl))
  (ShaderStages : list ShaderStageInfo)
  : list Diagnostic *
    Result (list (option PipelineResourceSignatureVkImpl) * list ShaderStageInfo) :=
  let Signatures :=
    if m_UsingImplicitSignature then
      pSignature_ ← CreateDefaultSignature PSODesc ShaderStages;
      Ok (pSignature_ :: tail m_Signatures)
    else Ok m_Signatures in
  match Signatures with
  | Ok m_Signatures' =>
      (if DILIGENT_DEVELOPMENT
       then DvpValidateResourceLimits PSODesc Limits Feats Props m_Signatures'
       else [],
       _ ← PipelineLayout_Create Limits Feats Props m_Signatures';
       ShaderStages' ← InitPipelineLayout_stages m_Signatures' ShaderStages;
       Ok (m_Signatures', ShaderStages'))
  | Throw e => ([], Throw e)
  | Undefined => ([], Undefined)
  end.

(** *** Specification-side definitions for the default signature *)

(** Two reflected declarations agree on what [VerifyResourceMerge] compares. *)
Definition declared_alike (E A : SPIRVShaderResourceAttribs) : Prop :=
  SPIRV_Type E = SPIRV_Type A /\ ResourceDim E = ResourceDim A /\
  SPIRV_ArraySize E = SPIRV_ArraySize A /\ IsMS E = IsMS A.

(** The key under which a resource of the signature was entered. *)
Definition res_key (r : PipelineResourceDesc) : string * Z :=
  (Name r, ShaderStages r).

(** Invariant of the loops of [CreateDefaultSignature]: no runtime-sized
    array was entered, the vector [Resources] has one entry per key of
    [UniqueResources], and that entry carries the attributes first seen under
    the key. *)
Definition dss_inv (st : DefaultSignatureState) : Prop :=
  (forall k E, UniqueResources st !! k = Some E -> SPIRV_ArraySize E <> 0) /\
  NoDup (res_key <$> dss_Resources st) /\
  (forall r, r ∈ dss_Resources st -> is_Some (UniqueResources st !! res_key r)) /\
  (forall k E, UniqueResources st !! k = Some E ->
     exists r, r ∈ dss_Resources st /\ res_key r = k /\
       ArraySize r = SPIRV_ArraySize E /\
       (ResourceType r, Flags r) = GetShaderResourceTypeAndFlags (SPIRV_Type E)).

(** The declaration [A], reflected from [pShader] in a stage of type
    [StageType], is accounted for in [st]: the key it resolves to holds a
    declaration that agrees with it. *)
Definition accounted (PSODesc : PipelineStateDesc) (StageType : Z)
  (pShader : ShaderVkImpl) (A : SPIRVShaderResourceAttribs)
  (st : DefaultSignatureState) : Prop :=
  exists stages vt E,
    resolve_variable (ResourceLayout PSODesc) StageType
      (GetShaderResources pShader) A = Ok (stages, vt) /\
    UniqueResources st !! (SPIRV_Name A, stages) = Some E /\
    declared_alike E A.

(** What [FindPipelineResourceLayoutVariable] promises: the index of a
    variable of the layout, or the invalid index. *)
Definition find_variable_in_range (LayoutDesc : PipelineResourceLayoutDesc) : Prop :=
  forall Name_ Stage Suffix,
    let i := FindPipelineResourceLayoutVariable LayoutDesc Name_ Stage Suffix in
    i = InvalidPipelineResourceLayoutVariableIndex \/
    (0 <= i /\ (Z.to_nat i < length (Variables LayoutDesc))%nat).

(** *** Specification-side definitions for the byte-code patching *)

(** The byte code [code'] has the length of [code] and differs from it at
    most at the decoration offsets of the resources of [pShader]. *)
Definition patched_only_at (pShader : ShaderVkImpl) (code code' : list Z) : Prop :=
  length code' = length code /\
  forall k,
    (forall A, A ∈ SR_Resources (GetShaderResources pShader) ->
       k <> BindingDecorationOffset A /\ k <> DescriptorSetDecorationOffset A) ->
    code' !! k = code !! k.

(** The decoration offsets of the resources of a shader, and what the
    handler writes for the resource [A]: the binding [b] at its binding
    decoration offset and the descriptor set at its descriptor-set decoration
    offset. *)
Definition decoration_offsets (pShader : ShaderVkImpl) : list nat :=
  A ← SR_Resources (GetShaderResources pShader);
  [BindingDecorationOffset A; DescriptorSetDecorationOffset A].

Definition patched_words
  (m_Signatures : list (option PipelineResourceSignatureVkImpl))
  (ShaderType : Z) (pShader : ShaderVkImpl)
  (A : SPIRVShaderResourceAttribs) (code' : list Z) : Prop :=
  let RA := GetResourceAttribution m_Signatures (SPIRV_Name A) ShaderType in
  exists Sig b s,
    pSignature RA = Some Sig /\
    resolve_binding pShader Sig RA A = Ok (b, s) /\
    code' !! BindingDecorationOffset A = Some b /\
    code' !! DescriptorSetDecorationOffset A =
      Some (Uint32_add
              (GetFirstDescrSetIndex m_Signatures (BindingIndex (Vk_Desc Sig))) s).

End PipelineVk.

(** ** The resource state tracker *)

(** [RESOURCE_STATE_TRANSITION_MODE] of [DeviceContext.h]. *)
Inductive RESOURCE_STATE_TRANSITION_MODE : Set :=
| RESOURCE_STATE_TRANSITION_MODE_NONE
| RESOURCE_STATE_TRANSITION_MODE_TRANSITION
| RESOURCE_STATE_TRANSITION_MODE_VERIFY.

(** Modelled from the spec: the states of a resource are declared in a
    header that is not among the sources; the specification lists [UNKNOWN],
    [UNDEFINED] and the usage states. *)
Inductive RESOURCE_STATE : Set :=
| RESOURCE_STATE_UNKNOWN
| RESOURCE_STATE_UNDEFINED
| RESOURCE_STATE_VERTEX_BUFFER
| RESOURCE_STATE_INDEX_BUFFER
| RESOURCE_STATE_RENDER_TARGET
| RESOURCE_STATE_UNORDERED_ACCESS
| RESOURCE_STATE_DEPTH_WRITE
| RESOURCE_STATE_SHADER_RESOURCE
| RESOURCE_STATE_COPY_DEST
| RESOURCE_STATE_COPY_SOURCE
| RESOURCE_STATE_PRESENT.

#[global] Instance RESOURCE_STATE_eq_dec : EqDecision RESOURCE_STATE.
Proof. solve_decision. Defined.

(** What the tracker hands to the back end, and what it reports. *)
Inductive TrackerEvent : Set :=
| StateBarrier (Resource : nat) (OldState NewState : RESOURCE_STATE)
| UAVBarrier (Resource : nat)
| ValidationFailure (Resource : nat) (Recorded Required : RESOURCE_STATE).

Definition event_resource (e : TrackerEvent) : nat :=
  match e with
  | StateBarrier r _ _ => r
  | UAVBarrier r => r
  | ValidationFailure r _ _ => r
  end.

(** Modelled from the spec: the Resource State Tracker is implemented by the
    device contexts of the back ends, which are not among the sources.  A
    command asks for a resource in a required state under a transition mode.
    [NONE] neither reads nor writes the recorded state.  [VERIFY] reads it
    and reports a failure when it differs from the required state (none when
    the state is unknown, as [DeviceContext.h] says); it never writes.
    [TRANSITION] reads it; an [UNKNOWN] resource is skipped; otherwise, when
    the recorded state differs from the required one, a barrier is emitted
    and the required state recorded; when both are unordered access, a UAV
    barrier is emitted.  A resource without recorded state is not tracked. *)
Definition request_state (states : gmap nat RESOURCE_STATE) (Resource : nat)
  (Required : RESOURCE_STATE) (Mode : RESOURCE_STATE_TRANSITION_MODE)
  : gmap nat RESOURCE_STATE * list TrackerEvent :=
  match Mode with
  | RESOURCE_STATE_TRANSITION_MODE_NONE => (states, [])
  | RESOURCE_STATE_TRANSITION_MODE_VERIFY =>
      match states !! Resource with
      | Some Recorded =>
          if decide (Recorded = RESOURCE_STATE_UNKNOWN) then (states, [])
          else if decide (Recorded = Required) then (states, [])
          else (states, [ValidationFailure Resource Recorded Required])
      | None => (states, [])
      end
  | RESOURCE_STATE_TRANSITION_MODE_TRANSITION =>
      match states !! Resource with
      | Some Recorded =>
          if decide (Recorded = RESOURCE_STATE_UNKNOWN) then (states, [])
          else if decide (Recorded = Required) then
            if decide (Required = RESOURCE_STATE_UNORDERED_ACCESS)
            then (states, [UAVBarrier Resource])
            else (states, [])
          else (<[Resource := Required]> states,
                [StateBarrier Resource Recorded Required])
      | None => (states, [])
      end
  end.

(** What happens to the tracker: a command requests a state for a resource,
    or the application sets the recorded state of a resource itself (the
    explicit reset of the specification). *)
Inductive TrackerOp : Set :=
| Request (Resource : nat) (Required : RESOURCE_STATE)
    (Mode : RESOURCE_STATE_TRANSITION_MODE)
| SetState (Resource : nat) (State : RESOURCE_STATE).

Definition tracker_step (st : gmap nat RESOURCE_STATE * list TrackerEvent)
  (op : TrackerOp) : gmap nat RESOURCE_STATE * list TrackerEvent :=
  match op with
  | Request Resource Required Mode =>
      let '(states', events) := request_state (fst st) Resource Required Mode in
      (states', snd st ++ events)
  | SetState Resource State => (<[Resource := State]> (fst st), snd st)
  end.

(** The tracker after a sequence of operations, with everything emitted. *)
Definition tracker_run (states : gmap nat RESOURCE_STATE) (ops : list TrackerOp)
  : gmap nat RESOURCE_STATE * list TrackerEvent :=
  foldl tracker_step (states, []) ops.

(** The operation does not set the state of [Resource] explicitly. *)
Definition not_reset (Resource : nat) (op : TrackerOp) : Prop :=
  match op with
  | Request _ _ _ => True
  | SetState r _ => r <> Resource
  end.

(** A tracker with a buffer in state [UNKNOWN] and a texture used as render
    target, and commands that ask for both. *)
Definition ex_states : gmap nat RESOURCE_STATE :=
  <[1%nat := RESOURCE_STATE_UNKNOWN]>
    (<[2%nat := RESOURCE_STATE_RENDER_TARGET]> ∅).

Definition ex_ops : list TrackerOp :=
  [ Request 1 RESOURCE_STATE_COPY_DEST RESOURCE_STATE_TRANSITION_MODE_TRANSITION;
    Request 2 RESOURCE_STATE_SHADER_RESOURCE RESOURCE_STATE_TRANSITION_MODE_TRANSITION;
    Request 1 RESOURCE_STATE_SHADER_RESOURCE RESOURCE_STATE_TRANSITION_MODE_VERIFY;
    SetState 2 RESOURCE_STATE_UNKNOWN;
    Request 1 RESOURCE_STATE_UNORDERED_ACCESS RESOURCE_STATE_TRANSITION_MODE_TRANSITION ].

(** ** The OpenGL resource signature: resource caches *)

(** Modelled from the spec: [ShaderResourceCacheGL] is defined outside the
    sources.  By the specification a cache maps each slot to the record of
    the resource bound there, and the OpenGL cache has the slots of the four
    binding ranges; [GetConstUB], [GetConstTexture], [GetConstImage] and
    [GetConstSSBO] read a slot of one range.  The records carry what the
    signature reads: the buffer of a uniform-buffer slot, the buffer view of
    a storage-buffer slot, and view, texture and sampler of a texture or
    image slot.  A null pointer is [None], any other the address of the
    object. *)
Record CachedResourceView : Type := mkCachedResourceView {
  pView : option nat;
  pTexture : option nat;
  pSampler : option nat
}.

Record ShaderResourceCacheGL : Type := mkShaderResourceCacheGL {
  cache_UBs : list (option nat);
  cache_Textures : list CachedResourceView;
  cache_Images : list CachedResourceView;
  cache_SSBOs : list (option nat)
}.

(** Modelled from the spec: [LOG_ERROR_MESSAGE] is a macro of a header that
    is not among the sources; by the specification a static slot that was
    never populated fails validation, "logged, not fatal".  The messages are
    the two the signature composes. *)
Inductive GLMessage : Type :=
| NoResourceAssigned (VarName : string) (ArrInd : Z) (Signature : string)
| NoResourceBound (VarName : string) (ArrInd : Z) (Shader PSO : string).

(** What the signature does to a cache it is handed, in the order it does
    it: the calls of the setters of [ShaderResourceCacheGL], the messages it
    logs in between, and the calls of [ValidateResourceViewDimension], which
    checks a bound view against the dimension the shader expects. *)
Inductive CacheCall : Type :=
| Cache_Initialize (Counts : list Z)
| SetUniformBuffer (Offset : Z) (pBuff : option nat)
| SetSSBO (Offset : Z) (pBuffView : option nat)
| SetTexture (Offset : Z) (pTexView : option nat) (SetSampler_ : bool)
| SetTexelBuffer (Offset : Z) (pBuffView : option nat)
| SetTexImage (Offset : Z) (pTexView : option nat)
| SetBufImage (Offset : Z) (pBuffView : option nat)
| SetSampler (Offset : Z) (pSampler_ : option nat)
| SetStaticResourcesInitialized
| LOG_ERROR_MESSAGE (msg : GLMessage)
| ValidateResourceViewDimension (ResName : string) (ArraySize_ ArrInd : Z)
    (pView_ : option nat) (IsTextureView : bool)
    (ResourceDim_ : Z) (IsMultisample : bool).

(** What the cache operations of the signature take from the headers of the
    back end: [GetResourceIndexRange] of the base class, the member
    [GetImmutableSamplerIdx], and the four queries of
    [ShaderResourceCacheGL] that tell whether a slot is bound. *)
Class CacheEnv : Type := {
  GetResourceIndexRange :
    PipelineResourceSignatureGLImpl -> SHADER_RESOURCE_VARIABLE_TYPE -> nat * nat;
  GetImmutableSamplerIdx : ResourceAttribs -> Z;
  IsUBBound : ShaderResourceCacheGL -> Z -> bool;
  IsSSBOBound : ShaderResourceCacheGL -> Z -> bool;
  IsTextureBound : ShaderResourceCacheGL -> Z -> bool -> bool;
  IsImageBound : ShaderResourceCacheGL -> Z -> bool -> bool
}.

(** [ShaderResourcesGL::GLResourceAttribs], as far as the validation reads
    it. *)
Record GLResourceAttribs : Type := mkGLResourceAttribs {
  GL_Name : string;
  GL_ArraySize : Z
}.

Section CacheGL.

Context {RF : ResourceFlags} {SB : SignatureBase} {CE : CacheEnv}.

(** The loop [for (Uint32 ArrInd = 0; ArrInd < ArraySize; ++ArrInd)]: the
    calls of the iterations in order, or [None] when one of them reads
    outside an array. *)
Definition for_ArrInd (ArraySize_ : Z) (body : Z -> option (list CacheCall))
  : option (list CacheCall) :=
  mjoin <$> mapM body (Z.of_nat <$> seq 0 (Z.to_nat ArraySize_)).

(** The message [CopyStaticResources] logs for a null source resource. *)
Definition log_unassigned (Desc : PipelineResourceSignatureDesc)
  (ResDesc : PipelineResourceDesc) (ArrInd : Z) (p : option nat)
  : list CacheCall :=
  match p with
  | None => [LOG_ERROR_MESSAGE
               (NoResourceAssigned (Name ResDesc) ArrInd (SignName Desc))]
  | Some _ => []
  end.

(** The body of the resource loop of [CopyStaticResources]. *)
Definition CopyStaticResources_resource (Desc : PipelineResourceSignatureDesc)
  (SrcResourceCache : ShaderResourceCacheGL)
  (ResDesc : PipelineResourceDesc) (ResAttr : ResourceAttribs)
  : option (list CacheCall) :=
  if decide (ResourceType ResDesc = SHADER_RESOURCE_TYPE_SAMPLER) then Some []
  else
    match PipelineResourceToBindingRange ResDesc with
    | BINDING_RANGE_UNIFORM_BUFFER =>
        for_ArrInd (ArraySize ResDesc) (fun ArrInd =>
          let Offset := Uint32_add (CacheOffset ResAttr) ArrInd in
          pBuffer ← cache_UBs SrcResourceCache !! Z.to_nat Offset;
          Some (log_unassigned Desc ResDesc ArrInd pBuffer ++
                [SetUniformBuffer Offset pBuffer]))
    | BINDING_RANGE_STORAGE_BUFFER =>
        for_ArrInd (ArraySize ResDesc) (fun ArrInd =>
          let Offset := Uint32_add (CacheOffset ResAttr) ArrInd in
          pBufferView ← cache_SSBOs SrcResourceCache !! Z.to_nat Offset;
          Some (log_unassigned Desc ResDesc ArrInd pBufferView ++
                [SetSSBO Offset pBufferView]))
    | BINDING_RANGE_TEXTURE =>
        for_ArrInd (ArraySize ResDesc) (fun ArrInd =>
          let Offset := Uint32_add (CacheOffset ResAttr) ArrInd in
          SrcCachedRes ← cache_Textures SrcResourceCache !! Z.to_nat Offset;
          Some (log_unassigned Desc ResDesc ArrInd (pView SrcCachedRes) ++
                if bool_decide (ResourceType ResDesc = SHADER_RESOURCE_TYPE_TEXTURE_SRV)
                   || bool_decide (ResourceType ResDesc
                                   = SHADER_RESOURCE_TYPE_INPUT_ATTACHMENT)
                then
                  let HasImmutableSampler :=
                    negb (GetImmutableSamplerIdx ResAttr
                          =? InvalidImmutableSamplerIndex) in
                  [SetTexture Offset (pView SrcCachedRes) (negb HasImmutableSampler)]
                else if bool_decide (ResourceType ResDesc
                                     = SHADER_RESOURCE_TYPE_BUFFER_SRV)
                then [SetTexelBuffer Offset (pView SrcCachedRes)]
                else []))
    | BINDING_RANGE_IMAGE =>
        for_ArrInd (ArraySize ResDesc) (fun ArrInd =>
          let Offset := Uint32_add (CacheOffset ResAttr) ArrInd in
          SrcCachedRes ← cache_Images SrcResourceCache !! Z.to_nat Offset;
          Some (log_unassigned Desc ResDesc ArrInd (pView SrcCachedRes) ++
                if bool_decide (ResourceType ResDesc = SHADER_RESOURCE_TYPE_TEXTURE_UAV)
                then [SetTexImage Offset (pView SrcCachedRes)]
                else if bool_decide (ResourceType ResDesc
                                     = SHADER_RESOURCE_TYPE_BUFFER_UAV)
                        || bool_decide (ResourceType ResDesc
                                        = SHADER_RESOURCE_TYPE_BUFFER_SRV)
                then [SetBufImage Offset (pView SrcCachedRes)]
                else []))
    | BINDING_RANGE_UNKNOWN => Some []
    end.

(** The loop [for (Uint32 r = StaticResIdxRange.first;
    r < StaticResIdxRange.second; ++r)]. *)
Definition CopyStaticResources_loop (this : PipelineResourceSignatureGLImpl)
  (SrcResourceCache : ShaderResourceCacheGL) (first second : nat)
  : option (list CacheCall) :=
  mjoin <$>
  mapM (fun r =>
          ResDesc ← Resources (m_Desc this) !! r;
          ResAttr ← m_pResourceAttribs this !! r;
          CopyStaticResources_resource (m_Desc this) SrcResourceCache
            ResDesc ResAttr)
    (seq first (second - first)).

(** [CopyStaticResources]: what is done to [DstResourceCache].  The static
    cache [m_pStaticResCache] of the signature is the third argument; the
    build configuration is the first. *)
Definition CopyStaticResources (DILIGENT_DEVELOPMENT : bool)
  (this : PipelineResourceSignatureGLImpl)
  (m_pStaticResCache : option ShaderResourceCacheGL)
  : option (list CacheCall) :=
  match m_pStaticResCache with
  | None => Some []
  | Some SrcResourceCache =>
      let StaticResIdxRange :=
        GetResourceIndexRange this SHADER_RESOURCE_VARIABLE_TYPE_STATIC in
      calls ← CopyStaticResources_loop this SrcResourceCache
                (fst StaticResIdxRange) (snd StaticResIdxRange);
      Some (calls ++
            if DILIGENT_DEVELOPMENT then [SetStaticResourcesInitialized] else [])
  end.

(** The body of the resource loop of [InitSRBResourceCache];
    [m_ImmutableSamplers] is the array of the sampler objects [CreateLayout]
    had the device create. *)
Definition InitSRBResourceCache_resource (m_ImmutableSamplers : list (option nat))
  (ResDesc : PipelineResourceDesc) (ResAttr : ResourceAttribs)
  : option (list CacheCall) :=
  if decide (ResourceType ResDesc <> SHADER_RESOURCE_TYPE_TEXTURE_SRV) then Some []
  else
    let ImtblSamplerIdx := GetImmutableSamplerIdx ResAttr in
    if negb (ImtblSamplerIdx =? InvalidImmutableSamplerIndex) then
      pSampler_ ← m_ImmutableSamplers !! Z.to_nat ImtblSamplerIdx;
      for_ArrInd (ArraySize ResDesc) (fun ArrInd =>
        Some [SetSampler (Uint32_add (CacheOffset ResAttr) ArrInd) pSampler_])
    else Some [].

(** [InitSRBResourceCache]: what is done to [ResourceCache]. *)
Definition InitSRBResourceCache (this : PipelineResourceSignatureGLImpl)
  (m_ImmutableSamplers : list (option nat)) : option (list CacheCall) :=
  calls ← mapM (fun r =>
                  ResDesc ← Resources (m_Desc this) !! r;
                  ResAttr ← m_pResourceAttribs this !! r;
                  InitSRBResourceCache_resource m_ImmutableSamplers ResDesc ResAttr)
            (seq 0 (length (Resources (m_Desc this))));
  Some (Cache_Initialize (m_BindingCount this) :: mjoin calls).

(** The loops of [DvpValidateCommittedResource] thread [BindingsOK] and log
    as they go. *)
Fixpoint Dvp_slots (body : Z -> option (bool * list CacheCall))
  (ArrInds : list Z) (BindingsOK : bool) : option (bool * list CacheCall) :=
  match ArrInds with
  | [] => Some (BindingsOK, [])
  | ArrInd :: rest =>
      '(Bound, calls) ← body ArrInd;
      '(BindingsOK', calls') ← Dvp_slots body rest (BindingsOK && Bound);
      Some (BindingsOK', calls ++ calls')
  end.

Definition log_unbound (GLAttribs : GLResourceAttribs) (ArrInd : Z)
  (ShaderName PSOName : string) : list CacheCall :=
  [LOG_ERROR_MESSAGE (NoResourceBound (GL_Name GLAttribs) ArrInd ShaderName PSOName)].

(** [DvpValidateCommittedResource] (development builds): the answer, and
    what was logged and validated on the way. *)
Definition DvpValidateCommittedResource (this : PipelineResourceSignatureGLImpl)
  (GLAttribs : GLResourceAttribs) (ResourceDim_ : Z) (IsMultisample : bool)
  (ResIndex : nat) (ResourceCache : ShaderResourceCacheGL)
  (ShaderName PSOName : string) : option (bool * list CacheCall) :=
  ResDesc ← Resources (m_Desc this) !! ResIndex;
  ResAttr ← m_pResourceAttribs this !! ResIndex;
  if decide (ResourceType ResDesc = SHADER_RESOURCE_TYPE_SAMPLER)
  then Some (true, [])
  else
    let ArrInds := Z.of_nat <$> seq 0 (Z.to_nat (ArraySize ResDesc)) in
    match PipelineResourceToBindingRange ResDesc with
    | BINDING_RANGE_UNIFORM_BUFFER =>
        Dvp_slots (fun ArrInd =>
          if negb (IsUBBound ResourceCache (Uint32_add (CacheOffset ResAttr) ArrInd))
          then Some (false, log_unbound GLAttribs ArrInd ShaderName PSOName)
          else Some (true, [])) ArrInds true
    | BINDING_RANGE_STORAGE_BUFFER =>
        Dvp_slots (fun ArrInd =>
          if negb (IsSSBOBound ResourceCache (Uint32_add (CacheOffset ResAttr) ArrInd))
          then Some (false, log_unbound GLAttribs ArrInd ShaderName PSOName)
          else Some (true, [])) ArrInds true
    | BINDING_RANGE_TEXTURE =>
        Dvp_slots (fun ArrInd =>
          let Offset := Uint32_add (CacheOffset ResAttr) ArrInd in
          let IsTexView :=
            bool_decide (ResourceType ResDesc = SHADER_RESOURCE_TYPE_TEXTURE_SRV)
            || bool_decide (ResourceType ResDesc
                            = SHADER_RESOURCE_TYPE_INPUT_ATTACHMENT) in
          if negb (IsTextureBound ResourceCache Offset IsTexView)
          then Some (false, log_unbound GLAttribs ArrInd ShaderName PSOName)
          else
            Tex ← cache_Textures ResourceCache !! Z.to_nat Offset;
            Some (true,
                  [ValidateResourceViewDimension (Name ResDesc) (ArraySize ResDesc)
                     ArrInd (pView Tex) (bool_decide (pTexture Tex <> None))
                     ResourceDim_ IsMultisample])) ArrInds true
    | BINDING_RANGE_IMAGE =>
        Dvp_slots (fun ArrInd =>
          let Offset := Uint32_add (CacheOffset ResAttr) ArrInd in
          let IsTexView :=
            bool_decide (ResourceType ResDesc = SHADER_RESOURCE_TYPE_TEXTURE_SRV)
            || bool_decide (ResourceType ResDesc
                            = SHADER_RESOURCE_TYPE_TEXTURE_UAV) in
          if negb (IsImageBound ResourceCache Offset IsTexView)
          then Some (false, log_unbound GLAttribs ArrInd ShaderName PSOName)
          else
            Img ← cache_Images ResourceCache !! Z.to_nat Offset;
            Some (true,
                  [ValidateResourceViewDimension (Name ResDesc) (ArraySize ResDesc)
                     ArrInd (pView Img) (bool_decide (pTexture Img <> None))
                     ResourceDim_ IsMultisample])) ArrInds true
    | BINDING_RANGE_UNKNOWN => Some (true, [])
    end.

(** *** Specification-side definitions for the caches *)

(** No static resource follows one that is not static, which is what the
    sorting by variable type that [CreateLayout] verifies comes to for the
    static cache. *)
Definition static_first (rs : list PipelineResourceDesc) : Prop :=
  forall i j ri rj, (i < j)%nat ->
    rs !! i = Some ri -> rs !! j = Some rj ->
    is_static rj = true -> is_static ri = true.

(** A cache that was initialised with the slot counts [Counts] of the four
    ranges. *)
Definition cache_sized (Counts : list Z) (C : ShaderResourceCacheGL) : Prop :=
  Counts !! 0%nat = Some (Z.of_nat (length (cache_UBs C))) /\
  Counts !! 1%nat = Some (Z.of_nat (length (cache_Textures C))) /\
  Counts !! 2%nat = Some (Z.of_nat (length (cache_Images C))) /\
  Counts !! 3%nat = Some (Z.of_nat (length (cache_SSBOs C))).

(** The slot of a call that binds a resource, with the binding range whose
    slots the setter writes and the object it binds. *)
Definition bound_slot (c : CacheCall) : option (BINDING_RANGE * Z * option nat) :=
  match c with
  | SetUniformBuffer Offset p => Some (BINDING_RANGE_UNIFORM_BUFFER, Offset, p)
  | SetSSBO Offset p => Some (BINDING_RANGE_STORAGE_BUFFER, Offset, p)
  | SetTexture Offset p _ => Some (BINDING_RANGE_TEXTURE, Offset, p)
  | SetTexelBuffer Offset p => Some (BINDING_RANGE_TEXTURE, Offset, p)
  | SetTexImage Offset p => Some (BINDING_RANGE_IMAGE, Offset, p)
  | SetBufImage Offset p => Some (BINDING_RANGE_IMAGE, Offset, p)
  | _ => None
  end.

(** The object bound at a slot of a range of a cache. *)
Definition cached_object (C : ShaderResourceCacheGL) (Range : BINDING_RANGE)
  (Offset : Z) : option (option nat) :=
  match Range with
  | BINDING_RANGE_UNIFORM_BUFFER => cache_UBs C !! Z.to_nat Offset
  | BINDING_RANGE_STORAGE_BUFFER => cache_SSBOs C !! Z.to_nat Offset
  | BINDING_RANGE_TEXTURE => pView <$> cache_Textures C !! Z.to_nat Offset
  | BINDING_RANGE_IMAGE => pView <$> cache_Images C !! Z.to_nat Offset
  | BINDING_RANGE_UNKNOWN => None
  end.

(** What [DvpValidateCommittedResource] asks the cache about a slot of the
    resource [ResDesc]. *)
Definition slot_bound (ResourceCache : ShaderResourceCacheGL)
  (ResDesc : PipelineResourceDesc) (Offset : Z) : bool :=
  match PipelineResourceToBindingRange ResDesc with
  | BINDING_RANGE_UNIFORM_BUFFER => IsUBBound ResourceCache Offset
  | BINDING_RANGE_STORAGE_BUFFER => IsSSBOBound ResourceCache Offset
  | BINDING_RANGE_TEXTURE =>
      IsTextureBound ResourceCache Offset
        (bool_decide (ResourceType ResDesc = SHADER_RESOURCE_TYPE_TEXTURE_SRV)
         || bool_decide (ResourceType ResDesc = SHADER_RESOURCE_TYPE_INPUT_ATTACHMENT))
  | BINDING_RANGE_IMAGE =>
      IsImageBound ResourceCache Offset
        (bool_decide (ResourceType ResDesc = SHADER_RESOURCE_TYPE_TEXTURE_SRV)
         || bool_decide (ResourceType ResDesc = SHADER_RESOURCE_TYPE_TEXTURE_UAV))
  | BINDING_RANGE_UNKNOWN => true
  end.

End CacheGL.

(** *** Stand-ins for the closed examples *)

(** The rank of a variable type in the sorting of the resources. *)
Definition VarType_rank (vt : SHADER_RESOURCE_VARIABLE_TYPE) : nat :=
  match vt with
  | SHADER_RESOURCE_VARIABLE_TYPE_STATIC => 0
  | SHADER_RESOURCE_VARIABLE_TYPE_MUTABLE => 1
  | SHADER_RESOURCE_VARIABLE_TYPE_DYNAMIC => 2
  end.

(** The index range of a variable type in a sorted resource array: after
    the resources of lower rank, as many as there are of the type. *)
Definition ex_GetResourceIndexRange (this : PipelineResourceSignatureGLImpl)
  (vt : SHADER_RESOURCE_VARIABLE_TYPE) : nat * nat :=
  let rs := Resources (m_Desc this) in
  let first :=
    length (filter (fun r => (VarType_rank (VarType r) < VarType_rank vt)%nat) rs) in
  (first, (first + length (filter (fun r => VarType r = vt) rs))%nat).

Definition ex_GetImmutableSamplerIdx (ResAttr : ResourceAttribs) : Z :=
  if ImtblSamplerAssigned ResAttr then SamplerInd ResAttr else ex_InvalidIndex.

Definition ex_IsBufferBound (slots : list (option nat)) (Offset : Z) : bool :=
  match slots !! Z.to_nat Offset with
  | Some (Some _) => true
  | _ => false
  end.

Definition ex_IsViewBound (slots : list CachedResourceView) (Offset : Z)
  (IsTexView : bool) : bool :=
  match slots !! Z.to_nat Offset with
  | Some v =>
      bool_decide (pView v <> None) &&
      Bool.eqb IsTexView (bool_decide (pTexture v <> None))
  | None => false
  end.

Definition ex_CacheEnv : CacheEnv :=
  {| GetResourceIndexRange := ex_GetResourceIndexRange;
     GetImmutableSamplerIdx := ex_GetImmutableSamplerIdx;
     IsUBBound := fun C => ex_IsBufferBound (cache_UBs C);
     IsSSBOBound := fun C => ex_IsBufferBound (cache_SSBOs C);
     IsTextureBound := fun C => ex_IsViewBound (cache_Textures C);
     IsImageBound := fun C => ex_IsViewBound (cache_Images C) |}.

(** A look-up of immutable samplers by stage and name, the suffix being
    appended to the name of the sampler when there is one; and the base
    interface of the examples with it. *)
Fixpoint imm_find (Samplers : list ImmutableSamplerDesc) (Stages : Z)
  (Name_ : string) (Suffix : option string) (i : Z) : Z :=
  match Samplers with
  | [] => ex_InvalidIndex
  | Sam :: rest =>
      if negb (Z.land (ImtblSam_ShaderStages Sam) Stages =? 0) &&
         String.eqb Name_ (SamplerOrTextureName Sam +:+ default "" Suffix)
      then i
      else imm_find rest Stages Name_ Suffix (i + 1)
  end.

Definition imm_SignatureBase : SignatureBase :=
  {| InvalidCacheOffset := ex_InvalidIndex;
     InvalidSamplerInd := ex_InvalidSamplerInd;
     InvalidImmutableSamplerIndex := ex_InvalidIndex;
     FindImmutableSampler_member :=
       fun Desc Stages Name_ =>
         imm_find (ImmutableSamplers Desc) Stages Name_
           (CombinedSamplerSuffix Desc) 0;
     FindImmutableSampler :=
       fun Samplers Stages Name_ Suffix => imm_find Samplers Stages Name_ Suffix 0;
     FindAssignedSampler := ex_FindAssignedSampler;
     CalculatePipelineResourceSignatureDescHash := ex_DescHash;
     HashCombine := ex_HashCombine;
     PipelineResourceSignaturesCompatible := ex_SignaturesCompatible |}.

(** The static cache of the scenario, with its one uniform buffer bound;
    and a description with a static uniform buffer, a mutable texture of
    array size 2 that has an immutable sampler, and a dynamic storage
    buffer. *)
Definition scenario_static_cache : ShaderResourceCacheGL :=
  mkShaderResourceCacheGL [Some 100%nat] [] [] [].

Definition sampled_Desc : PipelineResourceSignatureDesc :=
  mkPipelineResourceSignatureDesc "sampled"
    [ mkPipelineResourceDesc 1 "g_Constants" 1
        SHADER_RESOURCE_TYPE_CONSTANT_BUFFER SHADER_RESOURCE_VARIABLE_TYPE_STATIC 0;
      mkPipelineResourceDesc 2 "g_Tex" 2
        SHADER_RESOURCE_TYPE_TEXTURE_SRV SHADER_RESOURCE_VARIABLE_TYPE_MUTABLE 0;
      mkPipelineResourceDesc 2 "g_Data" 1
        SHADER_RESOURCE_TYPE_BUFFER_UAV SHADER_RESOURCE_VARIABLE_TYPE_DYNAMIC 0 ]
    [mkImmutableSamplerDesc 2 "g_Tex"] 0 1 false None.

(** ** The Vulkan pipeline state: more specification-side definitions *)

Section PipelineVkMore.

Context {RF : ResourceFlags} {PE : PipelineEnv}.

(** The resource [r] is what the handler of [CreateDefaultSignature] enters
    for a declaration of a shader of the pipeline: the name and the array
    size of the declaration, which is not 0, the stage mask and the variable
    type it resolves to, and the type and the flags of its SPIR-V type. *)
Definition declared_by (PSODesc : PipelineStateDesc)
  (ShaderStages : list ShaderStageInfo) (r : PipelineResourceDesc) : Prop :=
  exists Stage pShader A stages vt,
    Stage ∈ ShaderStages /\ pShader ∈ Shaders Stage /\
    A ∈ SR_Resources (GetShaderResources pShader) /\
    resolve_variable (ResourceLayout PSODesc) (Stage_Type Stage)
      (GetShaderResources pShader) A = Ok (stages, vt) /\
    SPIRV_ArraySize A <> 0 /\
    r = mkPipelineResourceDesc stages (SPIRV_Name A) (SPIRV_ArraySize A)
          (fst (GetShaderResourceTypeAndFlags (SPIRV_Type A))) vt
          (snd (GetShaderResourceTypeAndFlags (SPIRV_Type A))).

(** The shader takes part in the merging of the combined sampler suffixes:
    it uses combined samplers and has a separate sampler. *)
Definition merges_suffix (pShader : ShaderVkImpl) : bool :=
  IsUsingCombinedSamplers (GetShaderResources pShader) &&
  (0 <? GetNumSepSmplrs (GetShaderResources pShader)).

(** Every limit that [DvpValidateResourceLimits] checks is at least [n]. *)
Definition limits_at_least (n : Z) (Limits : DeviceLimits) : Prop :=
  n <= maxDescriptorSetSamplers Limits /\
  n <= maxDescriptorSetSampledImages Limits /\
  n <= maxDescriptorSetStorageImages Limits /\
  n <= maxDescriptorSetStorageBuffers Limits /\
  n <= maxDescriptorSetStorageBuffersDynamic Limits /\
  n <= maxDescriptorSetUniformBuffers Limits /\
  n <= maxDescriptorSetUniformBuffersDynamic Limits /\
  n <= maxDescriptorSetInputAttachments Limits /\
  n <= maxDescriptorSetAccelerationStructures Limits /\
  n <= maxPerStageResources Limits /\
  n <= maxPerStageDescriptorSamplers Limits /\
  n <= maxPerStageDescriptorSampledImages Limits /\
  n <= maxPerStageDescriptorStorageImages Limits /\
  n <= maxPerStageDescriptorStorageBuffers Limits /\
  n <= maxPerStageDescriptorUniformBuffers Limits /\
  n <= maxPerStageDescriptorInputAttachments Limits /\
  n <= maxPerStageDescriptorAccelerationStructures Limits.

(** The resources of the signatures of a pipeline, each with the name of
    its signature and its attributes, as [DvpValidateResourceLimits] walks
    them; a null signature has none. *)
Definition signature_resources
  (m_Signatures : list (option PipelineResourceSignatureVkImpl))
  : list (string * PipelineResourceDesc * ResourceAttribsVk) :=
  pSignature_ ← m_Signatures;
  match pSignature_ with
  | None => []
  | Some Sig =>
      (fun '(ResDesc, ResAttr) => (SignName (Vk_Desc Sig), ResDesc, ResAttr)) <$>
      zip (Resources (Vk_Desc Sig)) (Vk_ResourceAttribs Sig)
  end.

(** Invariant of the loops of [CreateDefaultSignature], continued: every
    resource entered so far was declared by a shader of the pipeline, and a
    suffix recorded so far is that of a shader that merges suffixes. *)
Definition dss_origin (PSODesc : PipelineStateDesc)
  (ShaderStages : list ShaderStageInfo) (st : DefaultSignatureState) : Prop :=
  (forall r, r ∈ dss_Resources st -> declared_by PSODesc ShaderStages r) /\
  (forall s, pCombinedSamplerSuffix st = Some s ->
     exists Stage pShader,
       Stage ∈ ShaderStages /\ pShader ∈ Shaders Stage /\
       merges_suffix pShader = true /\
       GetCombinedSamplerSuffix (GetShaderResources pShader) = s).

(** The warnings [DvpValidateResourceLimits] logs for one resource of a
    signature: none unless the resource is a runtime-sized array. *)
Definition resource_warnings (Feats Props : DescriptorIndexing)
  (Res : string * PipelineResourceDesc * ResourceAttribsVk) : list Diagnostic :=
  let '(SignatureName, ResDesc, ResAttr) := Res in
  if negb (Z.land (Flags ResDesc) PIPELINE_RESOURCE_FLAG_RUNTIME_ARRAY =? 0) then
    if negb (fst (NonUniformIndexing Feats Props (Vk_DescrType ResAttr))) then
      [LOG_WARNING_MESSAGE
         (NonUniformIndexingNotSupported SignatureName (Name ResDesc))]
    else if negb (snd (NonUniformIndexing Feats Props (Vk_DescrType ResAttr))) then
      [LOG_WARNING_MESSAGE
         (NonUniformIndexingEmulated SignatureName (Name ResDesc))]
    else []
  else [].



(** The descriptor counts are [Uint32] values. *)
Definition counts_Uint32 (st : DvpState) : Prop :=
  (forall d, is_Uint32 (DescriptorCount st d)) /\
  (forall s d, is_Uint32 (PerStageDescriptorCount st s d)).

End PipelineVkMore.

(** A device whose limits are all the largest [Uint32]. *)
Definition unlimited : DeviceLimits :=
  mkDeviceLimits 4294967295 4294967295 4294967295 4294967295 4294967295
    4294967295 4294967295 4294967295 4294967295 4294967295 4294967295
    4294967295 4294967295 4294967295 4294967295 4294967295 4294967295.

(** ** The Vulkan pipeline state: stages, shader modules, shader groups and
       the implicit render pass *)

(** [spv_target_env], as far as [StripReflection] chooses from it. *)
Inductive spv_target_env : Set :=
| SPV_ENV_VULKAN_1_0
| SPV_ENV_VULKAN_1_1_SPIRV_1_4
| SPV_ENV_VULKAN_1_2.

(** What the functions of this part take from elsewhere: the values of
    [SHADER_TYPE_UNKNOWN], [VK_SHADER_UNUSED_KHR] and [TEX_FORMAT_UNKNOWN];
    of a shader its type ([GetDesc().ShaderType]), its byte code
    ([GetSPIRV]) and its entry point; the conversion of a shader type to a
    Vulkan stage flag; and the SPIR-V optimizer with the one pass
    [StripReflection] registers, which hands back the stripped byte code or
    fails. *)
Class ShaderEnv : Type := {
  SHADER_TYPE_UNKNOWN : Z;
  VK_SHADER_UNUSED_KHR : Z;
  TEX_FORMAT_UNKNOWN : Z;
  Shader_ShaderType : ShaderVkImpl -> Z;
  GetSPIRV : ShaderVkImpl -> list Z;
  GetEntryPoint : ShaderVkImpl -> string;
  ShaderTypeToVkShaderStageFlagBit : Z -> Z;
  SpirvOptimizer_Run : spv_target_env -> list Z -> option (list Z)
}.

(** What [StripReflection] reads of the enabled extension features. *)
Record ExtensionFeatures : Type := mkExtensionFeatures {
  Spirv14 : bool;
  Spirv15 : bool
}.

(** The shader module the device creates: the code it was given, the size
    of the code in bytes and the name. *)
Record ShaderModuleWrapper : Type := mkShaderModuleWrapper {
  pCode : list Z;
  codeSize : Z;
  ModuleName : string
}.

(** [VkPipelineShaderStageCreateInfo]: the stage flag, the module and the
    entry point.  The structure type is the one of the structure, the flags
    are 0 and the two pointers null in every one the pipeline state
    builds. *)
Record VkPipelineShaderStageCreateInfo : Type := mkVkPipelineShaderStageCreateInfo {
  stage : Z;
  module : ShaderModuleWrapper;
  pName : string
}.







(** [ATTACHMENT_LOAD_OP] and [ATTACHMENT_STORE_OP], with the values the
    implicit render pass uses. *)
Inductive ATTACHMENT_LOAD_OP : Set :=
| ATTACHMENT_LOAD_OP_LOAD
| ATTACHMENT_LOAD_OP_DISCARD.

Inductive ATTACHMENT_STORE_OP : Set :=
| ATTACHMENT_STORE_OP_STORE
| ATTACHMENT_STORE_OP_DISCARD.

Record RenderPassAttachmentDesc : Type := mkRenderPassAttachmentDesc {
  Att_Format : Z;
  Att_SampleCount : Z;
  LoadOp : ATTACHMENT_LOAD_OP;
  StoreOp : ATTACHMENT_STORE_OP;
  StencilLoadOp : ATTACHMENT_LOAD_OP;
  StencilStoreOp : ATTACHMENT_STORE_OP;
  InitialState : RESOURCE_STATE;
  FinalState : RESOURCE_STATE
}.

Record AttachmentReference : Type := mkAttachmentReference {
  AttachmentIndex : Z;
  Ref_State : RESOURCE_STATE
}.

(** [SubpassDesc]: a pointer into the array [AttachmentReferences] is the
    index it points at, a null pointer [None]. *)
Record SubpassDesc : Type := mkSubpassDesc {
  InputAttachmentCount : Z;
  pInputAttachments : option nat;
  RenderTargetAttachmentCount : Z;
  pRenderTargetAttachments : option nat;
  pResolveAttachments : option nat;
  pDepthStencilAttachment : option nat;
  PreserveAttachmentCount : Z;
  pPreserveAttachments : option nat
}.

(** [RenderPassDesc]: [pAttachments] points at the array [Attachments] and
    [pSubpasses] at the one subpass, which are returned beside it;
    [pDependencies] is null. *)
Record RenderPassDesc : Type := mkRenderPassDesc {
  AttachmentCount : Z;
  SubpassCount : Z;
  DependencyCount : Z
}.

(** Modelled from the spec: [LOG_ERROR] is a macro of a header that is not
    among the sources; like the other logging macros that do not throw, it
    reports and goes on. *)
Inductive ShaderStageMessage : Type :=
| FailedToStripReflection (Shader : string).

Section PipelineStages.

Context {SE : ShaderEnv}.

(** [ShaderStageInfo::ShaderStageInfo(const ShaderVkImpl* pShader)]. *)
Definition ShaderStageInfo_ctor (pShader : ShaderVkImpl) : ShaderStageInfo :=
  mkShaderStageInfo (Shader_ShaderType pShader) [pShader] [GetSPIRV pShader].

(** [ShaderStageInfo::Append]. *)
Definition Append (this : ShaderStageInfo) (pShader : ShaderVkImpl)
  : ShaderStageInfo :=
  let NewShaderType := Shader_ShaderType pShader in
  mkShaderStageInfo
    (if Stage_Type this =? SHADER_TYPE_UNKNOWN then NewShaderType
     else Stage_Type this)
    (Shaders this ++ [pShader])
    (SPIRVs this ++ [GetSPIRV pShader]).

(** [ShaderStageInfo::Count]. *)
Definition Count (this : ShaderStageInfo) : nat := length (Shaders this).

(** [StripReflection]: the answer and the byte code afterwards.  The build
    configuration [DILIGENT_NO_HLSL] is the first argument. *)
Definition StripReflection (DILIGENT_NO_HLSL : bool) (ExtFeats : ExtensionFeatures)
  (SPIRV : list Z) : bool * list Z :=
  if DILIGENT_NO_HLSL then (true, SPIRV)
  else
    let Target :=
      if Spirv15 ExtFeats then SPV_ENV_VULKAN_1_2
      else if Spirv14 ExtFeats then SPV_ENV_VULKAN_1_1_SPIRV_1_4
      else SPV_ENV_VULKAN_1_0 in
    match SpirvOptimizer_Run Target SPIRV with
    | Some StrippedSPIRV => (true, StrippedSPIRV)
    | None => (false, SPIRV)
    end.

(** What [InitPipelineShaderStages] has built so far: the byte code of the
    stage it works on, the two vectors it appends to, and what it logged. *)
Record ShaderStagesState : Type := mkShaderStagesState {
  iss_SPIRVs : list (list Z);
  ShaderModules : list ShaderModuleWrapper;
  Stages : list VkPipelineShaderStageCreateInfo;
  iss_log : list ShaderStageMessage
}.

(** The body of the loop over the shaders of a stage, at index [i]. *)
Definition InitPipelineShaderStages_shader (DILIGENT_NO_HLSL : bool)
  (ExtFeats : ExtensionFeatures) (ShaderType : Z)
  (st : ShaderStagesState) (i : nat) (pShader : ShaderVkImpl)
  : option ShaderStagesState :=
  SPIRV ← iss_SPIRVs st !! i;
  let '(ok, SPIRV') := StripReflection DILIGENT_NO_HLSL ExtFeats SPIRV in
  let Module :=
    mkShaderModuleWrapper SPIRV' (Z.of_nat (length SPIRV') * 4)
      (Shader_Name pShader) in
  Some (mkShaderStagesState
          (<[i := SPIRV']> (iss_SPIRVs st))
          (ShaderModules st ++ [Module])
          (Stages st ++
             [mkVkPipelineShaderStageCreateInfo
                (ShaderTypeToVkShaderStageFlagBit ShaderType) Module
                (GetEntryPoint pShader)])
          (iss_log st ++
             if ok then [] else [FailedToStripReflection (Shader_Name pShader)])).

(** The loop over the shaders of a stage, from index [i]. *)
Fixpoint InitPipelineShaderStages_shaders (DILIGENT_NO_HLSL : bool)
  (ExtFeats : ExtensionFeatures) (ShaderType : Z)
  (Shaders_ : list ShaderVkImpl) (i : nat) (st : ShaderStagesState)
  : option ShaderStagesState :=
  match Shaders_ with
  | [] => Some st
  | pShader :: rest =>
      st' ← InitPipelineShaderStages_shader DILIGENT_NO_HLSL ExtFeats ShaderType
              st i pShader;
      InitPipelineShaderStages_shaders DILIGENT_NO_HLSL ExtFeats ShaderType
        rest (S i) st'
  end.

(** [InitPipelineShaderStages]: the stages with their byte code stripped,
    the two vectors and the log; [None] when a stage has fewer byte codes
    than shaders. *)
Fixpoint InitPipelineShaderStages (DILIGENT_NO_HLSL : bool)
  (ExtFeats : ExtensionFeatures) (ShaderStages : list ShaderStageInfo)
  (ShaderModules_ : list ShaderModuleWrapper)
  (Stages_ : list VkPipelineShaderStageCreateInfo)
  (log : list ShaderStageMessage)
  : option (list ShaderStageInfo * list ShaderModuleWrapper *
            list VkPipelineShaderStageCreateInfo * list ShaderStageMessage) :=
  match ShaderStages with
  | [] => Some ([], ShaderModules_, Stages_, log)
  | Stage :: rest =>
      st ← InitPipelineShaderStages_shaders DILIGENT_NO_HLSL ExtFeats
             (Stage_Type Stage) (Shaders Stage) 0
             (mkShaderStagesState (SPIRVs Stage) ShaderModules_ Stages_ log);
      '(rest', ShaderModules', Stages', log') ←
        InitPipelineShaderStages DILIGENT_NO_HLSL ExtFeats rest
          (ShaderModules st) (Stages st) (iss_log st);
      Some (mkShaderStageInfo (Stage_Type Stage) (Shaders Stage) (iss_SPIRVs st)
              :: rest',
            ShaderModules', Stages', log')
  end.

(** The inner loop of the lambda [GetShaderModuleIndex]:
    [for (Uint32 i = 0; i < Stage.Shaders.size(); ++i, ++idx)].  The test
    [Stage.Shaders[i] == pShader] compares two pointers, that is the
    addresses of the two objects. *)
Fixpoint find_in_stage (Shaders_ : list ShaderVkImpl) (pShader : ShaderVkImpl)
  (idx : Z) : Z :=
  match Shaders_ with
  | [] => VK_SHADER_UNUSED_KHR
  | p :: rest =>
      if decide (Shader_Address p = Shader_Address pShader) then idx
      else find_in_stage rest pShader (Uint32_add idx 1)
  end.

(** The outer loop of [GetShaderModuleIndex]. *)
Fixpoint find_in_stages (ShaderStages : list ShaderStageInfo)
  (pShader : ShaderVkImpl) (idx : Z) : Z :=
  match ShaderStages with
  | [] => VK_SHADER_UNUSED_KHR
  | Stage :: rest =>
      if Shader_ShaderType pShader =? Stage_Type Stage
      then find_in_stage (Shaders Stage) pShader idx
      else find_in_stages rest pShader
             (Uint32_add idx (Z.of_nat (Count Stage) mod Uint32_modulus))
  end.

(** The lambda [GetShaderModuleIndex] of [BuildRTShaderGroupDescription]. *)
Definition GetShaderModuleIndex (ShaderStages : list ShaderStageInfo)
  (pShader : option ShaderVkImpl) : Z :=
  match pShader with
  | None => VK_SHADER_UNUSED_KHR
  | Some p => find_in_stages ShaderStages p 0
  end.


(** [Array[Index] = Value] on a [std::array]. *)
Definition write_at {A : Type} (l : list A) (i : nat) (x : A) : option (list A) :=
  if decide (i < length l)%nat then Some (<[i := x]> l) else None.

(** The loop over the render targets of [GetImplicitRenderPassDesc], from
    [rt], with the running [AttachmentInd]. *)
Fixpoint color_attachments (RTVFormats : list Z) (SampleCount : Z)
  (rts : list nat) (AttachmentInd : Z)
  (Attachments : list RenderPassAttachmentDesc)
  (AttachmentReferences : list AttachmentReference)
  : option (list RenderPassAttachmentDesc * list AttachmentReference) :=
  match rts with
  | [] => Some (Attachments, AttachmentReferences)
  | rt :: rest =>
      Format ← RTVFormats !! rt;
      Attachments' ←
        write_at Attachments (Z.to_nat AttachmentInd)
          (mkRenderPassAttachmentDesc Format SampleCount
             ATTACHMENT_LOAD_OP_LOAD ATTACHMENT_STORE_OP_STORE
             ATTACHMENT_LOAD_OP_DISCARD ATTACHMENT_STORE_OP_DISCARD
             RESOURCE_STATE_RENDER_TARGET RESOURCE_STATE_RENDER_TARGET);
      AttachmentReferences' ←
        write_at AttachmentReferences (Z.to_nat AttachmentInd)
          (mkAttachmentReference AttachmentInd RESOURCE_STATE_RENDER_TARGET);
      color_attachments RTVFormats SampleCount rest (Uint32_add AttachmentInd 1)
        Attachments' AttachmentReferences'
  end.

(** [GetImplicitRenderPassDesc]: the description, the two arrays it fills
    and the subpass. *)
Definition GetImplicitRenderPassDesc (NumRenderTargets : Z) (RTVFormats : list Z)
  (DSVFormat SampleCount : Z)
  (Attachments : list RenderPassAttachmentDesc)
  (AttachmentReferences : list AttachmentReference)
  : option (RenderPassDesc * list RenderPassAttachmentDesc *
            list AttachmentReference * SubpassDesc) :=
  let AttachmentCount_ :=
    Uint32_add (if negb (DSVFormat =? TEX_FORMAT_UNKNOWN) then 1 else 0)
      NumRenderTargets in
  '(Attachments1, AttachmentReferences1, AttachmentInd, pDepthAttachmentReference) ←
    (if negb (DSVFormat =? TEX_FORMAT_UNKNOWN) then
       Attachments' ←
         write_at Attachments 0
           (mkRenderPassAttachmentDesc DSVFormat SampleCount
              ATTACHMENT_LOAD_OP_LOAD ATTACHMENT_STORE_OP_STORE
              ATTACHMENT_LOAD_OP_LOAD ATTACHMENT_STORE_OP_STORE
              RESOURCE_STATE_DEPTH_WRITE RESOURCE_STATE_DEPTH_WRITE);
       AttachmentReferences' ←
         write_at AttachmentReferences 0
           (mkAttachmentReference 0 RESOURCE_STATE_DEPTH_WRITE);
       Some (Attachments', AttachmentReferences', 1, Some 0%nat)
     else Some (Attachments, AttachmentReferences, 0, None));
  let pColorAttachmentsReference :=
    if 0 <? NumRenderTargets then Some (Z.to_nat AttachmentInd) else None in
  '(Attachments2, AttachmentReferences2) ←
    color_attachments RTVFormats SampleCount
      (seq 0 (Z.to_nat NumRenderTargets)) AttachmentInd
      Attachments1 AttachmentReferences1;
  Some (mkRenderPassDesc AttachmentCount_ 1 0,
        Attachments2, AttachmentReferences2,
        mkSubpassDesc 0 None NumRenderTargets pColorAttachmentsReference
          None pDepthAttachmentReference 0 None).

(** *** Specification-side definitions *)

(** The shaders of the stages, each with the type of its stage, in the
    order in which [InitPipelineShaderStages] walks them. *)
Definition typed_shaders (ShaderStages : list ShaderStageInfo)
  : list (Z * ShaderVkImpl) :=
  Stage ← ShaderStages; (fun pShader => (Stage_Type Stage, pShader)) <$> Shaders Stage.

(** The stage create info and the module that
    [InitPipelineShaderStages] builds for a shader of a stage of type
    [ShaderType]: the flag of the stage type, the name and the entry point
    of the shader. *)
Definition built_for (ShaderType : Z) (pShader : ShaderVkImpl)
  (StageCI : VkPipelineShaderStageCreateInfo) : Prop :=
  stage StageCI = ShaderTypeToVkShaderStageFlagBit ShaderType /\
  ModuleName (module StageCI) = Shader_Name pShader /\
  pName StageCI = GetEntryPoint pShader.


(** The attachment the implicit render pass describes for a depth-stencil
    buffer and for a render target, and the number of depth-stencil
    attachments, 0 or 1. *)
Definition depth_attachment (DSVFormat SampleCount : Z) : RenderPassAttachmentDesc :=
  mkRenderPassAttachmentDesc DSVFormat SampleCount
    ATTACHMENT_LOAD_OP_LOAD ATTACHMENT_STORE_OP_STORE
    ATTACHMENT_LOAD_OP_LOAD ATTACHMENT_STORE_OP_STORE
    RESOURCE_STATE_DEPTH_WRITE RESOURCE_STATE_DEPTH_WRITE.

Definition color_attachment (Format SampleCount : Z) : RenderPassAttachmentDesc :=
  mkRenderPassAttachmentDesc Format SampleCount
    ATTACHMENT_LOAD_OP_LOAD ATTACHMENT_STORE_OP_STORE
    ATTACHMENT_LOAD_OP_DISCARD ATTACHMENT_STORE_OP_DISCARD
    RESOURCE_STATE_RENDER_TARGET RESOURCE_STATE_RENDER_TARGET.

Definition depth_count (DSVFormat : Z) : nat :=
  if DSVFormat =? TEX_FORMAT_UNKNOWN then 0%nat else 1%nat.

End PipelineStages.

(** ** More inputs for the closed examples *)

(** Stand-ins for what the stage functions take from the shader objects and
    the device: the type of a shader is read off its name, every shader has
    the entry point ["main"] and a byte code of one word, the stage flag of
    a shader type is the type, and the optimizer hands the byte code back
    as it is. *)
Definition ex_Shader_ShaderType (pShader : ShaderVkImpl) : Z :=
  if String.eqb (Shader_Name pShader) "VS" then SHADER_TYPE_VERTEX
  else if String.eqb (Shader_Name pShader) "PS" then SHADER_TYPE_PIXEL
  else 0.

Definition ex_ShaderEnv : ShaderEnv :=
  {| SHADER_TYPE_UNKNOWN := 0;
     VK_SHADER_UNUSED_KHR := 4294967295;
     TEX_FORMAT_UNKNOWN := 0;
     Shader_ShaderType := ex_Shader_ShaderType;
     GetSPIRV := fun _ => [119734787];
     GetEntryPoint := fun _ => "main"%string;
     ShaderTypeToVkShaderStageFlagBit := fun ShaderType => ShaderType;
     SpirvOptimizer_Run := fun _ SPIRV => Some SPIRV |}.

(** A vertex stage whose shader declares no resource; and a pixel stage
    whose shader uses combined samplers with the suffix ["_sampler"] and
    has one separate sampler. *)
Definition bare_stages : list ShaderStageInfo :=
  [ mkShaderStageInfo SHADER_TYPE_VERTEX [shader_with "VS" []]
      [[7; 7; 7; 7; 7; 7]] ].

Definition combined_shader : ShaderVkImpl :=
  mkShaderVkImpl 2 "PS" (mkSPIRVShaderResources [g_Tex 1] true "_sampler" 1).

Definition combined_stages : list ShaderStageInfo :=
  [ mkShaderStageInfo SHADER_TYPE_PIXEL [combined_shader] [[9; 9; 9; 9; 9; 9]] ].

(** The attributes of the scenario with other sampler indices. *)
Definition scenario_attribs_resampled : list ResourceAttribs :=
  [ mkResourceAttribs 0 3 true; mkResourceAttribs 0 5 false ].

(** The arrays [GetImplicitRenderPassDesc] is handed: nine attachments and
    nine references, for eight render targets and a depth-stencil buffer. *)
Definition blank_attachments : list RenderPassAttachmentDesc :=
  replicate 9
    (mkRenderPassAttachmentDesc 0 1 ATTACHMENT_LOAD_OP_LOAD
       ATTACHMENT_STORE_OP_STORE ATTACHMENT_LOAD_OP_LOAD ATTACHMENT_STORE_OP_STORE
       RESOURCE_STATE_UNKNOWN RESOURCE_STATE_UNKNOWN).

Definition blank_references : list AttachmentReference :=
  replicate 9 (mkAttachmentReference 0 RESOURCE_STATE_UNKNOWN).

(** The signature the constructor builds from [sampled_Desc] when the
    immutable samplers are looked up by [imm_find]; and the calls of
    [InitSRBResourceCache] on it when the one immutable sampler is the
    object 7. *)
Definition sampled_Signature : PipelineResourceSignatureGLImpl :=
  mkSignatureGL sampled_Desc
    [ mkResourceAttribs 0 ex_InvalidSamplerInd false;
      mkResourceAttribs 0 0 true;
      mkResourceAttribs 0 ex_InvalidSamplerInd false ]
    [1; 2; 0; 1]
    (ex_HashCombine
       (ex_HashCombine (ex_HashCombine (ex_DescHash sampled_Desc) 0) 0) 0).

Definition sampled_SRB_calls : list CacheCall :=
  [ Cache_Initialize [1; 2; 0; 1];
    SetSampler 0 (Some 7%nat); SetSampler 1 (Some 7%nat) ].

(** Two pixel shader objects with the same name and the same resources, at
    the addresses 5 and 6, in one stage after the vertex stage; and the
    shader groups of a ray tracing pipeline over these stages: a general
    group for the vertex shader, a triangle hit group whose closest hit
    shader is the second twin, and a procedural hit group whose
    intersection shader is an object at address 7, which no stage holds. *)
Definition twin_shader (Address : nat) : ShaderVkImpl :=
  mkShaderVkImpl Address "PS" (mkSPIRVShaderResources [] false "" 0).

Definition twin_stages : list ShaderStageInfo :=
  [ mkShaderStageInfo SHADER_TYPE_VERTEX [shader_with "VS" []] [[7]];
    mkShaderStageInfo SHADER_TYPE_PIXEL [twin_shader 5; twin_shader 6]
      [[9]; [8]] ].


(** ** The operations on the instance of the examples *)

Definition ex_CreateLayout : PipelineResourceSignatureDesc -> option Layout :=
  CreateLayout (RF := ex_ResourceFlags) (SB := ex_SignatureBase).

Definition ex_ctor : PipelineResourceSignatureDesc ->
                     option PipelineResourceSignatureGLImpl :=
  PipelineResourceSignatureGLImpl_ctor (RF := ex_ResourceFlags)
    (SB := ex_SignatureBase).

Definition ex_IsCompatibleWith :
  gmap nat PipelineResourceSignatureGLImpl -> nat -> nat -> option bool :=
  IsCompatibleWith (SB := ex_SignatureBase).

Definition ex_collect : PipelineStateDesc -> list ShaderStageInfo ->
                        Result DefaultSignatureState :=
  CreateDefaultSignature_collect (RF := ex_ResourceFlags) (PE := ex_PipelineEnv).

Definition ex_CreateDefaultSignature :
  PipelineStateDesc -> list ShaderStageInfo ->
  Result (option PipelineResourceSignatureVkImpl) :=
  CreateDefaultSignature (RF := ex_ResourceFlags) (PE := ex_PipelineEnv).

Definition ex_InitPipelineLayout :
  bool -> PipelineStateDesc -> DeviceLimits ->
  DescriptorIndexing -> DescriptorIndexing -> bool ->
  list (option PipelineResourceSignatureVkImpl) -> list ShaderStageInfo ->
  list Diagnostic *
  Result (list (option PipelineResourceSignatureVkImpl) * list ShaderStageInfo) :=
  InitPipelineLayout (RF := ex_ResourceFlags) (PE := ex_PipelineEnv).

(** The two signatures the constructor builds from the empty descriptions
    with binding index 0 and 1, as two objects of a store. *)
Definition empty_Signature (Binding : Z) : PipelineResourceSignatureGLImpl :=
  mkSignatureGL (empty_Desc Binding) [] [0; 0; 0; 0] 0.

Definition two_empty_signatures : gmap nat PipelineResourceSignatureGLImpl :=
  <[1%nat := empty_Signature 0]> (<[2%nat := empty_Signature 1]> ∅).

(** The signature the constructor builds from the scenario, twice in a
    store. *)
Definition scenario_Signature : PipelineResourceSignatureGLImpl :=
  mkSignatureGL scenario_Desc
    [ mkResourceAttribs 0 ex_InvalidSamplerInd false;
      mkResourceAttribs 0 ex_InvalidSamplerInd false ]
    [1; 4; 0; 0]
    (ex_HashCombine (ex_HashCombine (ex_DescHash scenario_Desc) 0) 0).

Definition two_scenario_signatures : gmap nat PipelineResourceSignatureGLImpl :=
  <[1%nat := scenario_Signature]> (<[2%nat := scenario_Signature]> ∅).

(** The two resources the default signature gets from [two_stages n] when
    the layout has no variable. *)
Definition g_Tex_per_stage (n : Z) : list PipelineResourceDesc :=
  [ mkPipelineResourceDesc SHADER_TYPE_VERTEX "g_Tex" 1
      SHADER_RESOURCE_TYPE_TEXTURE_SRV SHADER_RESOURCE_VARIABLE_TYPE_STATIC 0;
    mkPipelineResourceDesc SHADER_TYPE_PIXEL "g_Tex" n
      SHADER_RESOURCE_TYPE_TEXTURE_SRV SHADER_RESOURCE_VARIABLE_TYPE_STATIC 0 ].

(** * Theorems *)

Section Theorems.

Context {RF : ResourceFlags} {SB : SignatureBase} {PE : PipelineEnv}.

(** ** Machine integers *)

Lemma Uint32_add_small a b :
  0 <= a -> 0 <= b -> a + b < Uint32_modulus -> Uint32_add a b = a + b.
Proof. intros. unfold Uint32_add. apply Z.mod_small. lia. Qed.

Lemma Uint32_add_range a b : is_Uint32 (Uint32_add a b).
Proof. unfold is_Uint32, Uint32_add. apply Z.mod_pos_bound. reflexivity. Qed.

(** ** Binding ranges *)

(** C8: constant buffers are classified into the uniform-buffer range,
    texture SRVs and input attachments into the texture range, texture UAVs
    into the image range; a buffer SRV goes to the texture range when the
    formatted-buffer flag is set and to the storage-buffer range otherwise; a
    buffer UAV goes to the image range when the flag is set and to the
    storage-buffer range otherwise. *)
Theorem PipelineResourceToBindingRange_classification (Desc : PipelineResourceDesc) :
  let flagged := Z.land (Flags Desc) PIPELINE_RESOURCE_FLAG_FORMATTED_BUFFER <> 0 in
  let range := PipelineResourceToBindingRange Desc in
  (ResourceType Desc = SHADER_RESOURCE_TYPE_CONSTANT_BUFFER ->
   range = BINDING_RANGE_UNIFORM_BUFFER) /\
  (ResourceType Desc = SHADER_RESOURCE_TYPE_TEXTURE_SRV ->
   range = BINDING_RANGE_TEXTURE) /\
  (ResourceType Desc = SHADER_RESOURCE_TYPE_INPUT_ATTACHMENT ->
   range = BINDING_RANGE_TEXTURE) /\
  (ResourceType Desc = SHADER_RESOURCE_TYPE_TEXTURE_UAV ->
   range = BINDING_RANGE_IMAGE) /\
  (ResourceType Desc = SHADER_RESOURCE_TYPE_BUFFER_SRV ->
   (flagged -> range = BINDING_RANGE_TEXTURE) /\
   (~ flagged -> range = BINDING_RANGE_STORAGE_BUFFER)) /\
  (ResourceType Desc = SHADER_RESOURCE_TYPE_BUFFER_UAV ->
   (flagged -> range = BINDING_RANGE_IMAGE) /\
   (~ flagged -> range = BINDING_RANGE_STORAGE_BUFFER)).
Proof.
  cbv zeta. unfold PipelineResourceToBindingRange, is_formatted_buffer.
  destruct (Z.eqb_spec (Z.land (Flags Desc)
              PIPELINE_RESOURCE_FLAG_FORMATTED_BUFFER) 0) as [E|E]; simpl.
  all: repeat apply conj; intros Hty; rewrite Hty; try reflexivity.
  all: split; intros Hflag; first [reflexivity | contradiction].
Qed.

Lemma range_index_inj R1 R2 k :
  range_index R1 = Some k -> range_index R2 = Some k -> R1 = R2.
Proof. destruct R1, R2; simpl; congruence. Qed.

Lemma range_index_lt Range k : range_index Range = Some k -> (k < 4)%nat.
Proof. destruct Range; simpl; intros [= <-]; lia. Qed.

Lemma valid_resource_range r :
  valid_resource r -> is_sampler r = false ->
  exists k, range_index (PipelineResourceToBindingRange r) = Some k.
Proof.
  intros (_ & Hacc & Hunk) Hs. unfold is_sampler in Hs.
  apply bool_decide_eq_false in Hs.
  unfold PipelineResourceToBindingRange.
  destruct (ResourceType r); try contradiction;
    try destruct (is_formatted_buffer r); simpl; eauto.
Qed.

(** ** Layout creation *)

Lemma sum_ArraySize_cons sel r rs :
  sum_ArraySize sel (r :: rs) =
  if sel r then ArraySize r + sum_ArraySize sel rs else sum_ArraySize sel rs.
Proof. reflexivity. Qed.

Lemma sum_ArraySize_nil sel : sum_ArraySize sel [] = 0.
Proof. reflexivity. Qed.

Lemma sum_ArraySize_nonneg sel rs :
  Forall valid_resource rs -> 0 <= sum_ArraySize sel rs.
Proof.
  induction 1 as [|r rs [Hr _] _ IH]; [reflexivity|].
  rewrite sum_ArraySize_cons. destruct (sel r); lia.
Qed.

Lemma sum_ArraySize_le sel1 sel2 rs :
  Forall valid_resource rs ->
  (forall r, sel1 r = true -> sel2 r = true) ->
  sum_ArraySize sel1 rs <= sum_ArraySize sel2 rs.
Proof.
  intros Hv Hsel. induction Hv as [|r rs [Hr _] _ IH]; [reflexivity|].
  rewrite !sum_ArraySize_cons. specialize (Hsel r).
  destruct (sel1 r), (sel2 r); lia.
Qed.

Lemma sum_ArraySize_app sel rs1 rs2 :
  sum_ArraySize sel (rs1 ++ rs2) = sum_ArraySize sel rs1 + sum_ArraySize sel rs2.
Proof.
  induction rs1 as [|r rs1 IH]; [reflexivity|].
  simpl app. rewrite !sum_ArraySize_cons, IH. destruct (sel r); lia.
Qed.

(** A standalone sampler gets no cache slot and leaves both counters as
    they are. *)
Lemma CreateLayout_resource_sampler Desc r bc sc :
  is_sampler r = true ->
  CreateLayout_resource Desc r bc sc =
  Some (mkResourceAttribs InvalidCacheOffset
          (if FindImmutableSampler_member Desc (ShaderStages r) (Name r)
              =? InvalidImmutableSamplerIndex
           then InvalidSamplerInd
           else FindImmutableSampler_member Desc (ShaderStages r) (Name r))
          (negb (FindImmutableSampler_member Desc (ShaderStages r) (Name r)
                 =? InvalidImmutableSamplerIndex)),
        bc, sc).
Proof.
  intros Hs. apply bool_decide_eq_true in Hs.
  unfold CreateLayout_resource. rewrite decide_True by exact Hs. reflexivity.
Qed.

(** Every other resource takes the running counter of its range as its
    offset; the counter, and the static counter of a static resource, then
    advance by the array size. *)
Lemma CreateLayout_resource_slot Desc r bc sc k c s :
  is_sampler r = false ->
  range_index (PipelineResourceToBindingRange r) = Some k ->
  bc !! k = Some c -> sc !! k = Some s ->
  exists a,
    CreateLayout_resource Desc r bc sc =
    Some (a, <[k := Uint32_add c (ArraySize r)]> bc,
          if is_static r then <[k := Uint32_add s (ArraySize r)]> sc else sc) /\
    CacheOffset a = c.
Proof.
  intros Hs Hk Hc Hsc. apply bool_decide_eq_false in Hs.
  unfold CreateLayout_resource. rewrite decide_False by exact Hs.
  cbv zeta. rewrite Hk. simpl. rewrite Hc. simpl.
  unfold is_static. destruct (decide (VarType r = _)) as [Er|Er].
  - rewrite Hsc. simpl. rewrite bool_decide_eq_true_2 by exact Er.
    eexists. split; reflexivity.
  - rewrite bool_decide_eq_false_2 by exact Er.
    eexists. split; reflexivity.
Qed.

Lemma lookup_length4 (l : list Z) Range k :
  length l = 4%nat -> range_index Range = Some k -> exists c, l !! k = Some c.
Proof.
  intros Hl Hk. apply range_index_lt in Hk.
  destruct (l !! k) eqn:E; [eauto|].
  apply lookup_ge_None in E. lia.
Qed.

Lemma in_range_true Range r :
  in_range Range r = true <->
  is_sampler r = false /\ PipelineResourceToBindingRange r = Range.
Proof.
  unfold in_range. rewrite andb_true_iff, negb_true_iff, bool_decide_eq_true.
  reflexivity.
Qed.

Lemma in_range_own r :
  is_sampler r = false -> in_range (PipelineResourceToBindingRange r) r = true.
Proof. intros. apply in_range_true. auto. Qed.

Lemma in_range_other Range r :
  PipelineResourceToBindingRange r <> Range -> in_range Range r = false.
Proof.
  intros Hne. destruct (in_range Range r) eqn:E; [|reflexivity].
  apply in_range_true in E. destruct E; contradiction.
Qed.

Lemma in_range_sampler Range r : is_sampler r = true -> in_range Range r = false.
Proof. intros Hs. unfold in_range. rewrite Hs. reflexivity. Qed.

Lemma counters_step sel cs r rs R k c :
  (forall Range, sel Range r = true -> Range = R) ->
  0 <= ArraySize r -> Forall valid_resource rs ->
  range_index R = Some k -> cs !! k = Some c ->
  counters_fit sel cs (r :: rs) ->
  let cs' := if sel R r then <[k := Uint32_add c (ArraySize r)]> cs else cs in
  counters_fit sel cs' rs /\
  forall Range' k' c', range_index Range' = Some k' -> cs !! k' = Some c' ->
    cs' !! k' = Some (c' + sum_ArraySize (sel Range') [r]).
Proof.
  intros Hown Hsz Hv Hk Hc Hfit. cbv zeta.
  assert (Hother : forall Range', Range' <> R -> sel Range' r = false).
  { intros Range' Hne. destruct (sel Range' r) eqn:E; [|reflexivity].
    apply Hown in E. contradiction. }
  destruct (sel R r) eqn:HselR.
  - destruct (Hfit R k c Hk Hc) as [Hc0 Hcfit].
    rewrite sum_ArraySize_cons, HselR in Hcfit.
    pose proof (sum_ArraySize_nonneg (sel R) rs Hv) as Hnn.
    rewrite Uint32_add_small by lia.
    assert (Hlt : (k < length cs)%nat) by (eapply lookup_lt_Some; eauto).
    split.
    + intros Range' k' c' Hk' Hc'.
      destruct (decide (k = k')) as [<-|Hne].
      * rewrite list_lookup_insert_eq in Hc' by exact Hlt.
        injection Hc' as <-.
        rewrite (range_index_inj _ _ _ Hk' Hk). lia.
      * rewrite list_lookup_insert_ne in Hc' by exact Hne.
        destruct (Hfit Range' k' c' Hk' Hc') as [H0 H1].
        rewrite sum_ArraySize_cons, Hother in H1; [lia|].
        intros ->. rewrite Hk in Hk'. congruence.
    + intros Range' k' c' Hk' Hc'.
      destruct (decide (k = k')) as [<-|Hne].
      * rewrite list_lookup_insert_eq by exact Hlt.
        rewrite (range_index_inj _ _ _ Hk' Hk).
        rewrite sum_ArraySize_cons, HselR.
        rewrite Hc in Hc'. injection Hc' as <-.
        rewrite sum_ArraySize_nil. f_equal. lia.
      * rewrite list_lookup_insert_ne by exact Hne.
        rewrite sum_ArraySize_cons, Hother;
          [rewrite sum_ArraySize_nil, Z.add_0_r; exact Hc'|].
        intros ->. rewrite Hk in Hk'. congruence.
  - assert (Hnone : forall Range', sel Range' r = false).
    { intros Range'. destruct (decide (Range' = R)) as [->|Hne]; auto. }
    split.
    + intros Range' k' c' Hk' Hc'.
      destruct (Hfit Range' k' c' Hk' Hc') as [H0 H1].
      rewrite sum_ArraySize_cons, Hnone in H1. lia.
    + intros Range' k' c' Hk' Hc'.
      rewrite sum_ArraySize_cons, Hnone, sum_ArraySize_nil, Z.add_0_r. exact Hc'.
Qed.

Lemma counters_skip sel cs r rs :
  (forall Range, sel Range r = false) ->
  counters_fit sel cs (r :: rs) -> counters_fit sel cs rs.
Proof.
  intros Hnone Hfit Range k c Hk Hc.
  destruct (Hfit Range k c Hk Hc) as [H0 H1].
  rewrite sum_ArraySize_cons, Hnone in H1. lia.
Qed.

Lemma attrib_spec_shift_sampler Desc bc prefix r0 r a :
  is_sampler r0 = true ->
  attrib_spec Desc bc prefix r a -> attrib_spec Desc bc (r0 :: prefix) r a.
Proof.
  intros Hs0. unfold attrib_spec. destruct (is_sampler r); [exact (fun H => H)|].
  intros (k & c & Hk & Hc & Ha). exists k, c. repeat split; try assumption.
  unfold range_total. rewrite sum_ArraySize_cons, in_range_sampler by exact Hs0.
  exact Ha.
Qed.

Lemma attrib_spec_shift_slot Desc bc bc' prefix r0 r a :
  length bc = 4%nat -> is_sampler r0 = false ->
  (forall Range' k' c', range_index Range' = Some k' -> bc !! k' = Some c' ->
     bc' !! k' = Some (c' + sum_ArraySize (in_range Range') [r0])) ->
  attrib_spec Desc bc' prefix r a -> attrib_spec Desc bc (r0 :: prefix) r a.
Proof.
  intros Hlen Hs0 Htr. unfold attrib_spec.
  destruct (is_sampler r); [exact (fun H => H)|].
  intros (k & c & Hk & Hc & Ha).
  destruct (lookup_length4 bc _ k Hlen Hk) as [c0 Hc0].
  exists k, c0. repeat split; try assumption.
  rewrite (Htr _ _ _ Hk Hc0) in Hc. injection Hc as <-.
  rewrite Ha. unfold range_total. rewrite !sum_ArraySize_cons, sum_ArraySize_nil.
  destruct (in_range (PipelineResourceToBindingRange r) r0); lia.
Qed.

Lemma CreateLayout_loop_spec Desc rs :
  Forall valid_resource rs ->
  forall bc sc,
  length bc = 4%nat -> length sc = 4%nat ->
  counters_fit in_range bc rs ->
  counters_fit (fun Range r => in_range Range r && is_static r) sc rs ->
  exists L,
    CreateLayout_loop Desc rs bc sc = Some L /\
    length (lay_Attribs L) = length rs /\
    (forall Range k c, range_index Range = Some k -> bc !! k = Some c ->
       lay_BindingCount L !! k = Some (c + range_total Range rs)) /\
    (forall Range k c, range_index Range = Some k -> sc !! k = Some c ->
       lay_StaticResCounter L !! k = Some (c + static_total Range rs)) /\
    (forall i r a, rs !! i = Some r -> lay_Attribs L !! i = Some a ->
       attrib_spec Desc bc (take i rs) r a).
Proof.
  induction 1 as [|r rs Hr Hrs IH]; intros bc sc Hlbc Hlsc Hfb Hfs.
  - exists (mkLayout [] bc sc). simpl. repeat split.
    + intros Range k c _ Hc. unfold range_total.
      rewrite sum_ArraySize_nil, Z.add_0_r. exact Hc.
    + intros Range k c _ Hc. unfold static_total.
      rewrite sum_ArraySize_nil, Z.add_0_r. exact Hc.
    + intros i r a Hi. destruct i; discriminate Hi.
  - destruct (is_sampler r) eqn:Hs.
    + assert (Hnb : forall Range, in_range Range r = false)
        by (intros; apply in_range_sampler; exact Hs).
      assert (Hns : forall Range, in_range Range r && is_static r = false)
        by (intros; rewrite Hnb; reflexivity).
      destruct (IH bc sc Hlbc Hlsc (counters_skip _ _ _ _ Hnb Hfb)
                  (counters_skip _ _ _ _ Hns Hfs))
        as (L & HL & Hlen & Hbc & Hsc & Hat).
      simpl. rewrite CreateLayout_resource_sampler by exact Hs. simpl.
      rewrite HL. simpl. eexists; split; [reflexivity|]. simpl.
      split; [congruence|]. split; [|split].
      * intros Range k c Hk Hc. rewrite (Hbc _ _ _ Hk Hc).
        unfold range_total. rewrite sum_ArraySize_cons, Hnb. reflexivity.
      * intros Range k c Hk Hc. rewrite (Hsc _ _ _ Hk Hc).
        unfold static_total. rewrite sum_ArraySize_cons, Hns. reflexivity.
      * intros [|i] r' a Hr' Ha; simpl in Hr', Ha; simpl.
        -- injection Hr' as <-. injection Ha as <-.
           unfold attrib_spec. rewrite Hs. split; reflexivity.
        -- apply attrib_spec_shift_sampler; [exact Hs|]. eapply Hat; eauto.
    + destruct (valid_resource_range r Hr Hs) as [k Hk].
      destruct (lookup_length4 bc _ k Hlbc Hk) as [c Hc].
      destruct (lookup_length4 sc _ k Hlsc Hk) as [s Hsc0].
      destruct (CreateLayout_resource_slot Desc r bc sc k c s Hs Hk Hc Hsc0)
        as (a0 & Hstep & Ha0).
      assert (Hsz : 0 <= ArraySize r) by (destruct Hr; lia).
      pose proof (in_range_own r Hs) as Hown.
      destruct (counters_step in_range bc r rs _ k c
                  (fun Range H => eq_sym (proj2 (proj1 (in_range_true Range r) H)))
                  Hsz Hrs Hk Hc Hfb) as [Hfb' Htb].
      destruct (counters_step (fun Range r => in_range Range r && is_static r)
                  sc r rs (PipelineResourceToBindingRange r) k s) as [Hfs' Hts];
        try assumption.
      { intros Range H. apply andb_true_iff in H. destruct H as [H _].
        apply in_range_true in H. symmetry. apply H. }
      cbv zeta in Htb, Hfb', Hfs', Hts.
      rewrite Hown in Htb, Hfb', Hfs', Hts. simpl andb in Hfs', Hts.
      destruct (IH _ _ ltac:(rewrite length_insert; exact Hlbc)
                  (ltac:(destruct (is_static r); rewrite ?length_insert; exact Hlsc)
                    : length (if is_static r
                              then <[k:=Uint32_add s (ArraySize r)]> sc else sc) = 4%nat)
                  Hfb' Hfs')
        as (L & HL & Hlen & Hbc & Hsc & Hat).
      simpl. rewrite Hstep. simpl. rewrite HL. simpl.
      eexists; split; [reflexivity|]. simpl.
      split; [congruence|]. split; [|split].
      * intros Range k' c' Hk' Hc'. rewrite (Hbc _ _ _ Hk' (Htb _ _ _ Hk' Hc')).
        f_equal. unfold range_total.
        rewrite !sum_ArraySize_cons, sum_ArraySize_nil.
        destruct (in_range Range r); lia.
      * intros Range k' c' Hk' Hc'. rewrite (Hsc _ _ _ Hk' (Hts _ _ _ Hk' Hc')).
        f_equal. unfold static_total.
        rewrite !sum_ArraySize_cons, sum_ArraySize_nil.
        destruct (in_range Range r && is_static r); lia.
      * intros [|i] r' a Hr' Ha; simpl in Hr', Ha; simpl.
        -- injection Hr' as <-. injection Ha as <-.
           unfold attrib_spec. rewrite Hs. exists k, c.
           repeat split; try assumption.
           unfold range_total. rewrite sum_ArraySize_nil. lia.
        -- eapply attrib_spec_shift_slot; eauto.
Qed.

Lemma counters_fit_zero sel rs :
  Forall valid_resource rs ->
  (forall Range r, sel Range r = true -> is_sampler r = false) ->
  sum_ArraySize (fun r => negb (is_sampler r)) rs < Uint32_modulus ->
  counters_fit sel TBindings_zero rs.
Proof.
  intros Hv Hsel Hsum Range k c Hk Hc.
  assert (c = 0) as ->.
  { apply range_index_lt in Hk. unfold TBindings_zero in Hc.
    apply lookup_replicate in Hc. apply Hc. }
  split; [lia|].
  pose proof (sum_ArraySize_le (sel Range) (fun r => negb (is_sampler r)) rs Hv) as Hle.
  assert (sum_ArraySize (sel Range) rs
          <= sum_ArraySize (fun r => negb (is_sampler r)) rs); [|lia].
  apply Hle. intros r Hr. rewrite (Hsel _ _ Hr). reflexivity.
Qed.

Lemma TBindings_zero_lookup Range k :
  range_index Range = Some k -> TBindings_zero !! k = Some 0.
Proof.
  intros Hk. apply range_index_lt in Hk. unfold TBindings_zero.
  apply lookup_replicate. split; [reflexivity|exact Hk].
Qed.

Lemma take_split_at (rs : list PipelineResourceDesc) i j ri :
  (i < j)%nat -> rs !! i = Some ri ->
  take j rs = take i rs ++ ri :: drop (S i) (take j rs).
Proof.
  intros Hij Hi.
  assert (Hi' : take j rs !! i = Some ri).
  { rewrite lookup_take_lt by exact Hij. exact Hi. }
  rewrite <- (take_drop i (take j rs)) at 1.
  rewrite take_take, Nat.min_l by lia.
  rewrite (drop_S _ _ _ Hi'). reflexivity.
Qed.

(** C2: layout creation walks the resources in declaration order.  A
    standalone sampler gets no cache slot, only its immutable-sampler
    association.  Every other resource gets as offset the running counter of
    its binding range, which is the sum of the array sizes of the earlier
    resources of that range; so within one range offsets are strictly
    increasing and each array is followed directly by the next one, the
    total of a range is the sum of the array sizes of its resources, and the
    static counter is the sum over its static resources.  For one static
    uniform buffer of size 1 and one dynamic texture of size 4 the totals are
    1 and 4, and the static count is 1. *)
Theorem CreateLayout_assigns_slots (Desc : PipelineResourceSignatureDesc) :
  valid_desc Desc ->
  (exists L,
     CreateLayout Desc = Some L /\
     length (lay_Attribs L) = length (Resources Desc) /\
     (forall i r a,
        Resources Desc !! i = Some r -> lay_Attribs L !! i = Some a ->
        if is_sampler r then
          CacheOffset a = InvalidCacheOffset /\
          ImtblSamplerAssigned a =
            negb (FindImmutableSampler_member Desc (ShaderStages r) (Name r)
                  =? InvalidImmutableSamplerIndex)
        else
          CacheOffset a =
            range_total (PipelineResourceToBindingRange r) (take i (Resources Desc))) /\
     (forall i j ri rj ai aj,
        (i < j)%nat ->
        Resources Desc !! i = Some ri -> Resources Desc !! j = Some rj ->
        lay_Attribs L !! i = Some ai -> lay_Attribs L !! j = Some aj ->
        is_sampler ri = false -> is_sampler rj = false ->
        PipelineResourceToBindingRange ri = PipelineResourceToBindingRange rj ->
        CacheOffset ai < CacheOffset aj /\
        CacheOffset aj =
          CacheOffset ai + ArraySize ri +
          range_total (PipelineResourceToBindingRange ri)
            (drop (S i) (take j (Resources Desc)))) /\
     (forall Range k, range_index Range = Some k ->
        lay_BindingCount L !! k = Some (range_total Range (Resources Desc)) /\
        lay_StaticResCounter L !! k = Some (static_total Range (Resources Desc)))) /\
  (exists Attribs,
     CreateLayout scenario_Desc = Some (mkLayout Attribs [1; 4; 0; 0] [1; 0; 0; 0])).
Proof.
  intros [Hv Hsum]. split.
  - destruct (CreateLayout_loop_spec Desc (Resources Desc) Hv
                TBindings_zero TBindings_zero eq_refl eq_refl)
      as (L & HL & Hlen & Hbc & Hsc & Hat).
    { apply counters_fit_zero; try assumption.
      intros Range r H. apply in_range_true in H. apply H. }
    { apply counters_fit_zero; try assumption.
      intros Range r H. apply andb_true_iff in H. destruct H as [H _].
      apply in_range_true in H. apply H. }
    assert (Hoff : forall i r a,
               Resources Desc !! i = Some r -> lay_Attribs L !! i = Some a ->
               is_sampler r = false ->
               CacheOffset a =
                 range_total (PipelineResourceToBindingRange r)
                   (take i (Resources Desc))).
    { intros i r a Hr Ha Hs. specialize (Hat i r a Hr Ha).
      unfold attrib_spec in Hat. rewrite Hs in Hat.
      destruct Hat as (k & c & Hk & Hc & ->).
      rewrite (TBindings_zero_lookup _ _ Hk) in Hc. injection Hc as <-. lia. }
    exists L. split; [exact HL|]. split; [exact Hlen|]. split; [|split].
    + intros i r a Hr Ha. destruct (is_sampler r) eqn:Hs.
      * specialize (Hat i r a Hr Ha). unfold attrib_spec in Hat.
        rewrite Hs in Hat. exact Hat.
      * apply Hoff; assumption.
    + intros i j ri rj ai aj Hij Hri Hrj Hai Haj Hsi Hsj Hsame.
      rewrite (Hoff _ _ _ Hri Hai Hsi), (Hoff _ _ _ Hrj Haj Hsj), <- Hsame.
      pose proof (take_split_at _ i j ri Hij Hri) as Esplit.
      pose proof (sum_ArraySize_nonneg
                    (in_range (PipelineResourceToBindingRange ri))
                    (drop (S i) (take j (Resources Desc)))
                    (Forall_drop _ _ _ (Forall_take _ _ _ Hv))) as Hnn.
      set (mid := drop (S i) (take j (Resources Desc))) in Esplit, Hnn |- *.
      rewrite Esplit. unfold range_total.
      rewrite sum_ArraySize_app, sum_ArraySize_cons, (in_range_own ri Hsi).
      assert (Hri_valid : valid_resource ri).
      { eapply Forall_lookup_1; eauto. }
      destruct Hri_valid as [H1 _]. lia.
    + intros Range k Hk. split.
      * rewrite (Hbc _ _ _ Hk (TBindings_zero_lookup _ _ Hk)). reflexivity.
      * rewrite (Hsc _ _ _ Hk (TBindings_zero_lookup _ _ Hk)). reflexivity.
  - eexists. unfold CreateLayout. simpl. reflexivity.
Qed.

(** ** Hash and compatibility *)

Lemma CreateLayout_loop_length Desc rs bc sc L :
  CreateLayout_loop Desc rs bc sc = Some L ->
  length (lay_Attribs L) = length rs.
Proof.
  revert bc sc L. induction rs as [|r rs IH]; intros bc sc L; simpl.
  - intros [= <-]. reflexivity.
  - destruct (CreateLayout_resource Desc r bc sc) as [[[a bc'] sc']|]; simpl;
      [|discriminate].
    destruct (CreateLayout_loop Desc rs bc' sc') as [L'|] eqn:E; simpl;
      [|discriminate].
    intros [= <-]. simpl. f_equal. eapply IH; eauto.
  Qed.

Lemma ctor_attribs_length Desc S :
  PipelineResourceSignatureGLImpl_ctor Desc = Some S ->
  m_Desc S = Desc /\
  length (m_pResourceAttribs S) = length (Resources Desc).
Proof.
  unfold PipelineResourceSignatureGLImpl_ctor, CreateLayout.
  destruct (CreateLayout_loop Desc (Resources Desc) TBindings_zero TBindings_zero)
    as [L|] eqn:E; simpl; [|discriminate].
  destruct (CalculateHash Desc (lay_Attribs L)) as [h|]; simpl; [|discriminate].
  intros [= <-]. simpl. split; [reflexivity|].
  eapply CreateLayout_loop_length; eauto.
Qed.

Lemma ResourcesCompatible_iff lhs rhs :
  ResourcesCompatible lhs rhs = true <->
  CacheOffset lhs = CacheOffset rhs /\
  ImtblSamplerAssigned lhs = ImtblSamplerAssigned rhs.
Proof.
  unfold ResourcesCompatible.
  rewrite andb_true_iff, Z.eqb_eq, Bool.eqb_true_iff. reflexivity.
Qed.

Lemma IsCompatibleWith_loop_true This Other n r :
  IsCompatibleWith_loop This Other r n = Some true <->
  forall i, (r <= i < r + n)%nat ->
    exists lhs rhs, This !! i = Some lhs /\ Other !! i = Some rhs /\
      ResourcesCompatible lhs rhs = true.
Proof.
  revert r. induction n as [|n IH]; intros r; simpl.
  - split; [intros _ i Hi; lia|reflexivity].
  - destruct (This !! r) as [lhs|] eqn:El; simpl.
    2:{ split; [discriminate|]. intros H.
        destruct (H r ltac:(lia)) as (? & ? & E & _). congruence. }
    destruct (Other !! r) as [rhs|] eqn:Er; simpl.
    2:{ split; [discriminate|]. intros H.
        destruct (H r ltac:(lia)) as (? & ? & _ & E & _). congruence. }
    destruct (ResourcesCompatible lhs rhs) eqn:Ec; simpl.
    + rewrite IH. split.
      * intros H i Hi. destruct (decide (i = r)) as [->|Hne].
        -- exists lhs, rhs. auto.
        -- apply H. lia.
      * intros H i Hi. apply H. lia.
    + split; [discriminate|]. intros H.
      destruct (H r ltac:(lia)) as (l' & r' & E1 & E2 & E3). congruence.
Qed.

(** C10: a signature that declares no resource and no immutable sampler has
    hash 0, whatever the description hash is; two such signatures pass the
    hash test of the compatibility check. *)
Theorem empty_signature_hash_is_zero (D1 D2 : PipelineResourceSignatureDesc) :
  Resources D1 = [] -> ImmutableSamplers D1 = [] ->
  Resources D2 = [] -> ImmutableSamplers D2 = [] ->
  (forall Attribs, CalculateHash D1 Attribs = Some 0) /\
  exists S T,
    PipelineResourceSignatureGLImpl_ctor D1 = Some S /\
    PipelineResourceSignatureGLImpl_ctor D2 = Some T /\
    m_Hash S = 0 /\ m_Hash T = 0 /\
    negb (m_Hash S =? m_Hash T) = false.
Proof.
  intros R1 I1 R2 I2.
  assert (H1 : forall Attribs, CalculateHash D1 Attribs = Some 0).
  { intros. unfold CalculateHash, NumResources, NumImmutableSamplers.
    rewrite R1, I1. reflexivity. }
  assert (H2 : forall Attribs, CalculateHash D2 Attribs = Some 0).
  { intros. unfold CalculateHash, NumResources, NumImmutableSamplers.
    rewrite R2, I2. reflexivity. }
  split; [exact H1|].
  unfold PipelineResourceSignatureGLImpl_ctor, CreateLayout.
  rewrite R1, R2. simpl. rewrite H1, H2. simpl.
  do 2 eexists. repeat split.
Qed.

Lemma IsCompatibleWith_characterisation
  (heap : gmap nat PipelineResourceSignatureGLImpl) (this Other : nat)
  (S T : PipelineResourceSignatureGLImpl) :
  heap !! this = Some S -> heap !! Other = Some T ->
  (IsCompatibleWith heap this Other = Some true <->
   this = Other \/
   (m_Hash S = m_Hash T /\
    m_BindingCount S = m_BindingCount T /\
    PipelineResourceSignaturesCompatible (m_Desc S) (m_Desc T) = true /\
    forall r, (r < length (Resources (m_Desc S)))%nat ->
      exists lhs rhs,
        m_pResourceAttribs S !! r = Some lhs /\
        m_pResourceAttribs T !! r = Some rhs /\
        CacheOffset lhs = CacheOffset rhs /\
        ImtblSamplerAssigned lhs = ImtblSamplerAssigned rhs)).
Proof.
  intros HS HT.
  unfold IsCompatibleWith.
  destruct (decide (this = Other)) as [->|Hne];
    [split; [intros _; left; reflexivity|reflexivity]|].
  rewrite HS, HT. simpl.
  destruct (Z.eqb_spec (m_Hash S) (m_Hash T)) as [Eh|Eh]; simpl.
  2:{ split; [discriminate|]. intros [?|(? & _)]; contradiction. }
  destruct (decide (m_BindingCount S = m_BindingCount T)) as [Eb|Eb].
  2:{ rewrite bool_decide_eq_true_2 by exact Eb.
      split; [discriminate|]. intros [?|(_ & ? & _)]; contradiction. }
  rewrite bool_decide_eq_false_2 by (intros H; exact (H Eb)).
  destruct (PipelineResourceSignaturesCompatible (m_Desc S) (m_Desc T)) eqn:Ed;
    simpl.
  2:{ split; [discriminate|]. intros [?|(_ & _ & ? & _)];
        [contradiction|discriminate]. }
  rewrite IsCompatibleWith_loop_true. split.
  - intros H. right. repeat split; try assumption.
    intros r Hr. destruct (H r ltac:(lia)) as (lhs & rhs & El & Er & Ec).
    apply ResourcesCompatible_iff in Ec. destruct Ec as [Ec1 Ec2].
    exists lhs, rhs. repeat split; assumption.
  - intros [?|(_ & _ & _ & H)]; [contradiction|].
    intros i Hi. destruct (H i ltac:(lia)) as (lhs & rhs & El & Er & Ec).
    exists lhs, rhs. repeat split; try assumption.
    apply ResourcesCompatible_iff. exact Ec.
Qed.


(** C1, as the code has it: [IsCompatibleWith] answers true exactly when
    the two signatures are the same object, or their hashes are equal, their
    per-range slot totals are equal, their descriptions pass
    [PipelineResourceSignaturesCompatible], and at every resource index the
    cache offsets and the immutable-sampler flags agree.  The sampler
    indices are not compared. *)
Theorem IsCompatibleWith_iff
  (heap : gmap nat PipelineResourceSignatureGLImpl) (this Other : nat)
  (S T : PipelineResourceSignatureGLImpl) :
  heap !! this = Some S -> heap !! Other = Some T ->
  (IsCompatibleWith heap this Other = Some true <->
   this = Other \/
   (m_Hash S = m_Hash T /\
    m_BindingCount S = m_BindingCount T /\
    PipelineResourceSignaturesCompatible (m_Desc S) (m_Desc T) = true /\
    forall r, (r < length (Resources (m_Desc S)))%nat ->
      exists lhs rhs,
        m_pResourceAttribs S !! r = Some lhs /\
        m_pResourceAttribs T !! r = Some rhs /\
        CacheOffset lhs = CacheOffset rhs /\
        ImtblSamplerAssigned lhs = ImtblSamplerAssigned rhs)) /\
  (forall lhs rhs s1 s2,
     ResourcesCompatible
       (mkResourceAttribs (CacheOffset lhs) s1 (ImtblSamplerAssigned lhs))
       (mkResourceAttribs (CacheOffset rhs) s2 (ImtblSamplerAssigned rhs)) =
     ResourcesCompatible lhs rhs).
Proof.
  intros HS HT. split; [|reflexivity].
  apply IsCompatibleWith_characterisation; assumption.
Qed.

(** C7: two signatures built from the same description are compatible,
    provided the description comparison accepts a description against
    itself; and a signature is always compatible with itself. *)
Theorem IsCompatibleWith_same_description
  (heap : gmap nat PipelineResourceSignatureGLImpl) (this Other : nat)
  (Desc : PipelineResourceSignatureDesc) (S T : PipelineResourceSignatureGLImpl) :
  (forall d, PipelineResourceSignaturesCompatible d d = true) ->
  PipelineResourceSignatureGLImpl_ctor Desc = Some S ->
  PipelineResourceSignatureGLImpl_ctor Desc = Some T ->
  heap !! this = Some S -> heap !! Other = Some T ->
  IsCompatibleWith heap this Other = Some true /\
  IsCompatibleWith heap this this = Some true.
Proof.
  intros Hrefl HcS HcT HS HT.
  assert (S = T) as <- by congruence.
  split.
  - apply (proj2 (IsCompatibleWith_characterisation heap this Other S S HS HT)).
    right. repeat split; [apply Hrefl|].
    destruct (ctor_attribs_length _ _ HcS) as [-> Hlen].
    intros r Hr. rewrite <- Hlen in Hr.
    destruct (lookup_lt_is_Some_2 _ _ Hr) as [a Ha].
    exists a, a. auto.
  - unfold IsCompatibleWith. rewrite decide_True by reflexivity. reflexivity.
Qed.
(** ** Default signatures *)

Lemma for_each_inv {A St : Type} (body : St -> A -> Result St)
  (P : St -> Prop) (R : St -> St -> Prop) (Q : A -> St -> Prop) :
  (forall st, R st st) ->
  (forall st1 st2 st3, R st1 st2 -> R st2 st3 -> R st1 st3) ->
  (forall a st st', R st st' -> Q a st -> Q a st') ->
  (forall st a st', P st -> body st a = Ok st' -> P st' /\ R st st' /\ Q a st') ->
  forall l st st',
    P st -> for_each body l st = Ok st' ->
    P st' /\ R st st' /\ forall a, a ∈ l -> Q a st'.
Proof.
  intros Hrefl Htrans Hmono Hstep.
  induction l as [|a l IH]; intros st st' HP Hrun; simpl in Hrun.
  - injection Hrun as <-. split; [exact HP|]. split; [apply Hrefl|].
    intros a Ha. apply elem_of_nil in Ha. contradiction.
  - destruct (body st a) as [st1| |] eqn:Eb; simpl in Hrun; try discriminate.
    destruct (Hstep _ _ _ HP Eb) as (HP1 & HR1 & HQ1).
    destruct (IH _ _ HP1 Hrun) as (HP' & HR' & HQ').
    split; [exact HP'|]. split; [eapply Htrans; eassumption|].
    intros b Hb. apply elem_of_cons in Hb. destruct Hb as [->|Hb].
    + eapply Hmono; eassumption.
    + apply HQ'. exact Hb.
Qed.

Lemma for_each_defined {A St : Type} (body : St -> A -> Result St) :
  (forall st a, body st a <> Undefined) ->
  forall l st, for_each body l st <> Undefined.
Proof.
  intros Hbody. induction l as [|a l IH]; intros st; simpl; [discriminate|].
  destruct (body st a) as [st1| |] eqn:Eb; simpl.
  - apply IH.
  - discriminate.
  - exfalso. exact (Hbody _ _ Eb).
Qed.

Lemma VerifyResourceMerge_Ok E A :
  VerifyResourceMerge E A = Ok tt <-> declared_alike E A.
Proof.
  unfold VerifyResourceMerge, declared_alike.
  destruct (decide (SPIRV_Type E = SPIRV_Type A)) as [E1|E1].
  2:{ rewrite bool_decide_eq_false_2 by exact E1. simpl.
      split; [discriminate|]. intros [? _]. contradiction. }
  rewrite bool_decide_eq_true_2 by exact E1. simpl.
  destruct (Z.eqb_spec (ResourceDim E) (ResourceDim A)) as [E2|E2]; simpl.
  2:{ split; [discriminate|]. intros (_ & ? & _). contradiction. }
  destruct (Z.eqb_spec (SPIRV_ArraySize E) (SPIRV_ArraySize A)) as [E3|E3]; simpl.
  2:{ split; [discriminate|]. intros (_ & _ & ? & _). contradiction. }
  destruct (Bool.eqb (IsMS E) (IsMS A)) eqn:E4; simpl.
  - apply Bool.eqb_prop in E4. split; [intros _|reflexivity].
    repeat split; assumption.
  - split; [discriminate|]. intros (_ & _ & _ & E5).
    rewrite E5, Bool.eqb_reflx in E4. discriminate.
Qed.

Lemma VerifyResourceMerge_defined E A :
  VerifyResourceMerge E A = Ok tt \/
  exists PropertyName,
    VerifyResourceMerge E A = Throw (ResourceMergeError (SPIRV_Name A) PropertyName).
Proof.
  unfold VerifyResourceMerge.
  repeat match goal with
         | |- context [if negb ?b then _ else _] => destruct b; simpl
         end; eauto.
Qed.

Lemma declared_alike_refl A : declared_alike A A.
Proof. repeat split. Qed.

Lemma declared_alike_trans_sym E A B :
  declared_alike E A -> declared_alike E B -> declared_alike A B.
Proof.
  intros (H1 & H2 & H3 & H4) (G1 & G2 & G3 & G4).
  repeat split; congruence.
Qed.

Lemma accounted_mono PSODesc StageType pShader A st st' :
  UniqueResources st ⊆ UniqueResources st' ->
  accounted PSODesc StageType pShader A st ->
  accounted PSODesc StageType pShader A st'.
Proof.
  intros Hsub (stages & vt & E & Hres & Hlook & Halike).
  exists stages, vt, E. split; [exact Hres|]. split; [|exact Halike].
  eapply lookup_weaken; eassumption.
Qed.

(** One reflected resource: a new key is entered with the attributes of the
    declaration, a known key is checked against the declaration first seen. *)
Lemma CreateDefaultSignature_resource_inv PSODesc StageType pShader st A st' :
  dss_inv st ->
  CreateDefaultSignature_resource PSODesc StageType pShader st A = Ok st' ->
  dss_inv st' /\
  UniqueResources st ⊆ UniqueResources st' /\
  accounted PSODesc StageType pShader A st'.
Proof.
  intros (Ha & Hb & Hc & Hd) Hrun.
  unfold CreateDefaultSignature_resource in Hrun.
  destruct (resolve_variable (ResourceLayout PSODesc) StageType
              (GetShaderResources pShader) A) as [[stages vt]| |] eqn:Eres;
    simpl in Hrun; try discriminate.
  destruct (UniqueResources st !! (SPIRV_Name A, stages)) as [E|] eqn:Elook.
  - destruct (VerifyResourceMerge E A) as [[]| |] eqn:Ever; simpl in Hrun;
      try discriminate.
    injection Hrun as <-.
    split; [repeat split; assumption|]. split; [reflexivity|].
    exists stages, vt, E. split; [exact Eres|]. split; [exact Elook|].
    apply VerifyResourceMerge_Ok. exact Ever.
  - destruct (Z.eqb_spec (SPIRV_ArraySize A) 0) as [E0|E0]; [discriminate|].
    destruct (GetShaderResourceTypeAndFlags (SPIRV_Type A)) as [ResType Flags_] eqn:Etf.
    injection Hrun as <-. simpl.
    set (r := mkPipelineResourceDesc stages (SPIRV_Name A) (SPIRV_ArraySize A)
                ResType vt Flags_).
    split; [|split].
    + unfold dss_inv. simpl. repeat split.
      * intros k E Hk. apply lookup_insert_Some in Hk.
        destruct Hk as [[_ <-]|[_ Hk]]; [exact E0|eapply Ha; eauto].
      * rewrite fmap_app. apply NoDup_app. split; [exact Hb|]. split.
        -- intros k Hk Hin. simpl in Hin. apply list_elem_of_singleton in Hin.
           subst k. apply list_elem_of_fmap in Hk.
           destruct Hk as (r0 & Hkey & Hr0).
           destruct (Hc r0 Hr0) as [E HE]. rewrite <- Hkey in HE.
           change (res_key r) with (SPIRV_Name A, stages) in HE.
           rewrite Elook in HE. discriminate.
        -- simpl. apply NoDup_singleton.
      * intros r0 Hr0. apply elem_of_app in Hr0. destruct Hr0 as [Hr0|Hr0].
        -- destruct (Hc r0 Hr0) as [E HE]. exists E.
           eapply lookup_weaken; [exact HE|]. apply insert_subseteq. exact Elook.
        -- apply list_elem_of_singleton in Hr0. subst r0. unfold res_key. simpl.
           rewrite lookup_insert_eq. eauto.
      * intros k E Hk. apply lookup_insert_Some in Hk.
        destruct Hk as [[<- <-]|[_ Hk]].
        -- exists r. split; [apply elem_of_app; right; apply list_elem_of_singleton; reflexivity|].
           repeat split. simpl. symmetry. exact Etf.
        -- destruct (Hd k E Hk) as (r0 & Hr0 & Hrest).
           exists r0. split; [apply elem_of_app; left; exact Hr0|exact Hrest].
    + apply insert_subseteq. exact Elook.
    + exists stages, vt, A. split; [exact Eres|].
      split; [simpl; apply lookup_insert_eq|apply declared_alike_refl].
Qed.

Lemma CreateDefaultSignature_shader_inv PSODesc StageType st pShader st' :
  dss_inv st ->
  CreateDefaultSignature_shader PSODesc StageType st pShader = Ok st' ->
  dss_inv st' /\
  UniqueResources st ⊆ UniqueResources st' /\
  forall A, A ∈ SR_Resources (GetShaderResources pShader) ->
    accounted PSODesc StageType pShader A st'.
Proof.
  intros Hinv Hrun. unfold CreateDefaultSignature_shader in Hrun.
  destruct (for_each (CreateDefaultSignature_resource PSODesc StageType pShader)
              (SR_Resources (GetShaderResources pShader)) st)
    as [st1| |] eqn:Eloop; simpl in Hrun; try discriminate.
  destruct (for_each_inv
              (CreateDefaultSignature_resource PSODesc StageType pShader)
              dss_inv
              (fun s s' => UniqueResources s ⊆ UniqueResources s')
              (accounted PSODesc StageType pShader)) with
    (l := SR_Resources (GetShaderResources pShader)) (st := st) (st' := st1)
    as (Hinv1 & Hsub1 & Hacc1); try assumption.
  { intros s. reflexivity. }
  { intros s1 s2 s3 H1 H2. etrans; eassumption. }
  { intros a s s' Hs Ha. eapply accounted_mono; eassumption. }
  { intros s a s' Hs Hb. eapply CreateDefaultSignature_resource_inv; eassumption. }
  assert (Hsame : UniqueResources st' = UniqueResources st1 /\
                  dss_Resources st' = dss_Resources st1).
  { destruct (IsUsingCombinedSamplers (GetShaderResources pShader) &&
              (0 <? GetNumSepSmplrs (GetShaderResources pShader))).
    - destruct (pCombinedSamplerSuffix st1) as [Suffix|].
      + destruct (negb (String.eqb Suffix _)); [discriminate|].
        injection Hrun as <-. split; reflexivity.
      + injection Hrun as <-. split; reflexivity.
    - injection Hrun as <-. split; reflexivity. }
  destruct Hsame as [HU HR].
  split; [|split].
  - unfold dss_inv. rewrite HU, HR. exact Hinv1.
  - rewrite HU. exact Hsub1.
  - intros A HA. destruct (Hacc1 A HA) as (stages & vt & E & H1 & H2 & H3).
    exists stages, vt, E. rewrite HU. split; [exact H1|]. split; assumption.
Qed.

Lemma CreateDefaultSignature_stage_inv PSODesc st Stage st' :
  dss_inv st ->
  CreateDefaultSignature_stage PSODesc st Stage = Ok st' ->
  dss_inv st' /\
  UniqueResources st ⊆ UniqueResources st' /\
  forall pShader A,
    pShader ∈ Shaders Stage -> A ∈ SR_Resources (GetShaderResources pShader) ->
    accounted PSODesc (Stage_Type Stage) pShader A st'.
Proof.
  intros Hinv Hrun. unfold CreateDefaultSignature_stage in Hrun.
  destruct (for_each_inv
              (CreateDefaultSignature_shader PSODesc (Stage_Type Stage))
              dss_inv
              (fun s s' => UniqueResources s ⊆ UniqueResources s')
              (fun pShader s =>
                 forall A, A ∈ SR_Resources (GetShaderResources pShader) ->
                   accounted PSODesc (Stage_Type Stage) pShader A s)) with
    (l := Shaders Stage) (st := st) (st' := st')
    as (Hinv1 & Hsub1 & Hacc1); try assumption.
  { intros s. reflexivity. }
  { intros s1 s2 s3 H1 H2. etrans; eassumption. }
  { intros a s s' Hs Ha A HA. eapply accounted_mono; [eassumption|]. apply Ha, HA. }
  { intros s a s' Hs Hb. eapply CreateDefaultSignature_shader_inv; eassumption. }
  split; [exact Hinv1|]. split; [exact Hsub1|].
  intros pShader A Hsh HA. apply (Hacc1 pShader Hsh A HA).
Qed.

Lemma dss_inv_init : dss_inv (mkDefaultSignatureState ∅ [] None).
Proof.
  unfold dss_inv. simpl. repeat split.
  - intros k E Hk. rewrite lookup_empty in Hk. discriminate.
  - apply NoDup_nil_2.
  - intros r Hr. apply elem_of_nil in Hr. contradiction.
  - intros k E Hk. rewrite lookup_empty in Hk. discriminate.
Qed.

(** When the loops of [CreateDefaultSignature] run to their end, every
    reflected declaration is accounted for. *)
Lemma CreateDefaultSignature_collect_inv PSODesc ShaderStages st :
  CreateDefaultSignature_collect PSODesc ShaderStages = Ok st ->
  dss_inv st /\
  forall Stage pShader A,
    Stage ∈ ShaderStages -> pShader ∈ Shaders Stage ->
    A ∈ SR_Resources (GetShaderResources pShader) ->
    accounted PSODesc (Stage_Type Stage) pShader A st.
Proof.
  intros Hrun. unfold CreateDefaultSignature_collect in Hrun.
  destruct (for_each_inv
              (CreateDefaultSignature_stage PSODesc)
              dss_inv
              (fun s s' => UniqueResources s ⊆ UniqueResources s')
              (fun Stage s =>
                 forall pShader A,
                   pShader ∈ Shaders Stage ->
                   A ∈ SR_Resources (GetShaderResources pShader) ->
                   accounted PSODesc (Stage_Type Stage) pShader A s)) with
    (l := ShaderStages) (st := mkDefaultSignatureState ∅ [] None) (st' := st)
    as (Hinv1 & _ & Hacc1); try assumption.
  { intros s. reflexivity. }
  { intros s1 s2 s3 H1 H2. etrans; eassumption. }
  { intros a s s' Hs Ha pShader A Hsh HA.
    eapply accounted_mono; [eassumption|]. apply Ha; assumption. }
  { intros s a s' Hs Hb. eapply CreateDefaultSignature_stage_inv; eassumption. }
  { apply dss_inv_init. }
  split; [exact Hinv1|].
  intros Stage pShader A HS Hsh HA. apply (Hacc1 Stage HS pShader A Hsh HA).
Qed.

Lemma resolve_variable_defined LayoutDesc StageType SR A :
  find_variable_in_range LayoutDesc ->
  exists p, resolve_variable LayoutDesc StageType SR A = Ok p.
Proof.
  intros Hfind. unfold resolve_variable. cbv zeta.
  match goal with |- context [FindPipelineResourceLayoutVariable ?a ?b ?c ?d] =>
    specialize (Hfind b c d); cbv zeta in Hfind;
    set (i := FindPipelineResourceLayoutVariable a b c d) in *
  end.
  destruct (Z.eqb_spec i InvalidPipelineResourceLayoutVariableIndex) as [Ei|Ei];
    simpl; [eauto|].
  destruct Hfind as [Hi|[_ Hi]]; [contradiction|].
  unfold at_index. destruct (lookup_lt_is_Some_2 _ _ Hi) as [Var HVar].
  rewrite HVar. simpl. eauto.
Qed.

Lemma CreateDefaultSignature_resource_defined PSODesc StageType pShader st A :
  find_variable_in_range (ResourceLayout PSODesc) ->
  CreateDefaultSignature_resource PSODesc StageType pShader st A <> Undefined.
Proof.
  intros Hfind. unfold CreateDefaultSignature_resource.
  destruct (resolve_variable_defined _ StageType (GetShaderResources pShader) A Hfind)
    as [[stages vt] ->]. simpl.
  destruct (UniqueResources st !! (SPIRV_Name A, stages)) as [E|].
  - destruct (VerifyResourceMerge_defined E A) as [->|[p ->]]; discriminate.
  - destruct (SPIRV_ArraySize A =? 0); [discriminate|].
    destruct (GetShaderResourceTypeAndFlags (SPIRV_Type A)). discriminate.
Qed.

Lemma CreateDefaultSignature_defined PSODesc ShaderStages :
  find_variable_in_range (ResourceLayout PSODesc) ->
  CreateDefaultSignature PSODesc ShaderStages <> Undefined.
Proof.
  intros Hfind. unfold CreateDefaultSignature.
  assert (Hcollect : CreateDefaultSignature_collect PSODesc ShaderStages <> Undefined).
  { apply for_each_defined. intros st Stage.
    apply for_each_defined. intros st1 pShader.
    unfold CreateDefaultSignature_shader.
    pose proof (for_each_defined
                  (CreateDefaultSignature_resource PSODesc (Stage_Type Stage) pShader)
                  (fun s a => CreateDefaultSignature_resource_defined
                                PSODesc (Stage_Type Stage) pShader s a Hfind)
                  (SR_Resources (GetShaderResources pShader)) st1) as Hres.
    destruct (for_each _ (SR_Resources (GetShaderResources pShader)) st1)
      as [st2| |]; simpl; [|discriminate|contradiction].
    destruct (_ && _); [|discriminate].
    destruct (pCombinedSamplerSuffix st2); [|discriminate].
    destruct (negb _); discriminate. }
  destruct (CreateDefaultSignature_collect PSODesc ShaderStages) as [st| |];
    simpl; [|discriminate|contradiction].
  destruct (negb _); [|discriminate].
  destruct (CreatePipelineResourceSignature _ _); discriminate.
Qed.

Lemma CreateDefaultSignature_Ok_collect PSODesc ShaderStages r :
  CreateDefaultSignature PSODesc ShaderStages = Ok r ->
  exists st, CreateDefaultSignature_collect PSODesc ShaderStages = Ok st.
Proof.
  unfold CreateDefaultSignature.
  destruct (CreateDefaultSignature_collect PSODesc ShaderStages) as [st| |];
    simpl; [eauto|discriminate|discriminate].
Qed.

(** A reflected declaration of array size 0 is never accounted for. *)
Lemma runtime_sized_array_not_collected PSODesc ShaderStages Stage pShader A st :
  Stage ∈ ShaderStages -> pShader ∈ Shaders Stage ->
  A ∈ SR_Resources (GetShaderResources pShader) ->
  SPIRV_ArraySize A = 0 ->
  CreateDefaultSignature_collect PSODesc ShaderStages <> Ok st.
Proof.
  intros HS Hsh HA Hzero Hrun.
  destruct (CreateDefaultSignature_collect_inv _ _ _ Hrun) as [(Hnz & _) Hacc].
  destruct (Hacc Stage pShader A HS Hsh HA) as (stages & vt & E & _ & HE & Halike).
  destruct Halike as (_ & _ & Hsize & _).
  apply (Hnz _ _ HE). congruence.
Qed.

(** C5: when a pipeline has no explicit signature and one of its reflected
    shader resources has array size 0, the default signature is not created:
    [CreateDefaultSignature] never returns one, so neither does
    [InitPipelineLayout]; and when the layout look-up keeps its promise, what
    it does is throw. *)
Theorem CreateDefaultSignature_rejects_runtime_sized_arrays
  (PSODesc : PipelineStateDesc) (ShaderStages : list ShaderStageInfo)
  (Stage : ShaderStageInfo) (pShader : ShaderVkImpl)
  (Attribs : SPIRVShaderResourceAttribs) :
  Stage ∈ ShaderStages -> pShader ∈ Shaders Stage ->
  Attribs ∈ SR_Resources (GetShaderResources pShader) ->
  SPIRV_ArraySize Attribs = 0 ->
  (forall r, CreateDefaultSignature PSODesc ShaderStages <> Ok r) /\
  (forall DILIGENT_DEVELOPMENT Limits Feats Props m_Signatures r,
     snd (InitPipelineLayout DILIGENT_DEVELOPMENT PSODesc Limits Feats Props
            true m_Signatures ShaderStages) <> Ok r) /\
  (find_variable_in_range (ResourceLayout PSODesc) ->
   exists e, CreateDefaultSignature PSODesc ShaderStages = Throw e).
Proof.
  intros HS Hsh HA Hzero.
  assert (Hnot : forall r, CreateDefaultSignature PSODesc ShaderStages <> Ok r).
  { intros r Hr. destruct (CreateDefaultSignature_Ok_collect _ _ _ Hr) as [st Hst].
    exact (runtime_sized_array_not_collected _ _ _ _ _ _ HS Hsh HA Hzero Hst). }
  split; [exact Hnot|]. split.
  - intros dev Limits Feats Props m_Signatures r. unfold InitPipelineLayout.
    destruct (CreateDefaultSignature PSODesc ShaderStages) as [s| |] eqn:Ec;
      simpl; [|discriminate|discriminate].
    exfalso. exact (Hnot s eq_refl).
  - intros Hfind. pose proof (CreateDefaultSignature_defined _ ShaderStages Hfind) as Hdef.
    destruct (CreateDefaultSignature PSODesc ShaderStages) as [s|e|] eqn:Ec.
    + exfalso. exact (Hnot s eq_refl).
    + exists e. reflexivity.
    + contradiction.
Qed.

(** The three cases of the handler, once the key of the declaration is
    known. *)
Lemma CreateDefaultSignature_resource_new PSODesc StageType pShader st A stages vt :
  resolve_variable (ResourceLayout PSODesc) StageType
    (GetShaderResources pShader) A = Ok (stages, vt) ->
  UniqueResources st !! (SPIRV_Name A, stages) = None ->
  SPIRV_ArraySize A <> 0 ->
  CreateDefaultSignature_resource PSODesc StageType pShader st A =
  Ok (mkDefaultSignatureState
        (<[(SPIRV_Name A, stages) := A]> (UniqueResources st))
        (dss_Resources st ++
           [mkPipelineResourceDesc stages (SPIRV_Name A) (SPIRV_ArraySize A)
              (fst (GetShaderResourceTypeAndFlags (SPIRV_Type A))) vt
              (snd (GetShaderResourceTypeAndFlags (SPIRV_Type A)))])
        (pCombinedSamplerSuffix st)).
Proof.
  intros Hres Hlook Hnz. unfold CreateDefaultSignature_resource.
  rewrite Hres. simpl. rewrite Hlook.
  destruct (Z.eqb_spec (SPIRV_ArraySize A) 0) as [E0|_]; [contradiction|].
  destruct (GetShaderResourceTypeAndFlags (SPIRV_Type A)). reflexivity.
Qed.

Lemma CreateDefaultSignature_resource_known PSODesc StageType pShader st A stages vt E :
  resolve_variable (ResourceLayout PSODesc) StageType
    (GetShaderResources pShader) A = Ok (stages, vt) ->
  UniqueResources st !! (SPIRV_Name A, stages) = Some E ->
  (declared_alike E A ->
   CreateDefaultSignature_resource PSODesc StageType pShader st A = Ok st) /\
  (~ declared_alike E A ->
   exists PropertyName,
     CreateDefaultSignature_resource PSODesc StageType pShader st A =
     Throw (ResourceMergeError (SPIRV_Name A) PropertyName)).
Proof.
  intros Hres Hlook. unfold CreateDefaultSignature_resource.
  rewrite Hres. simpl. rewrite Hlook. split.
  - intros Halike. apply VerifyResourceMerge_Ok in Halike. rewrite Halike.
    reflexivity.
  - intros Hdiff. destruct (VerifyResourceMerge_defined E A) as [Hok|[p Hp]].
    + exfalso. apply Hdiff. apply VerifyResourceMerge_Ok. exact Hok.
    + exists p. rewrite Hp. reflexivity.
Qed.

(** On success the vector [Resources] has one entry per key, and every
    reflected declaration has its entry. *)
Lemma CreateDefaultSignature_collect_resources PSODesc ShaderStages st :
  CreateDefaultSignature_collect PSODesc ShaderStages = Ok st ->
  NoDup (res_key <$> dss_Resources st) /\
  forall Stage pShader A,
    Stage ∈ ShaderStages -> pShader ∈ Shaders Stage ->
    A ∈ SR_Resources (GetShaderResources pShader) ->
    exists stages vt r,
      resolve_variable (ResourceLayout PSODesc) (Stage_Type Stage)
        (GetShaderResources pShader) A = Ok (stages, vt) /\
      r ∈ dss_Resources st /\
      res_key r = (SPIRV_Name A, stages) /\
      ArraySize r = SPIRV_ArraySize A /\
      (ResourceType r, Flags r) = GetShaderResourceTypeAndFlags (SPIRV_Type A).
Proof.
  intros Hrun.
  destruct (CreateDefaultSignature_collect_inv _ _ _ Hrun)
    as [(_ & Hnd & _ & Hd) Hacc].
  split; [exact Hnd|].
  intros Stage pShader A HS Hsh HA.
  destruct (Hacc Stage pShader A HS Hsh HA)
    as (stages & vt & E & Hres & HE & (Ht & _ & Hsz & _)).
  destruct (Hd _ _ HE) as (r & Hr & Hkey & Hsize & Htf).
  exists stages, vt, r. rewrite <- Ht, <- Hsz. repeat split; assumption.
Qed.

(** Two declarations under one key that differ in what is compared keep
    the signature from being created. *)
Lemma CreateDefaultSignature_collect_conflict PSODesc ShaderStages
  Stage1 pShader1 A1 Stage2 pShader2 A2 stages vt1 vt2 st :
  Stage1 ∈ ShaderStages -> pShader1 ∈ Shaders Stage1 ->
  A1 ∈ SR_Resources (GetShaderResources pShader1) ->
  Stage2 ∈ ShaderStages -> pShader2 ∈ Shaders Stage2 ->
  A2 ∈ SR_Resources (GetShaderResources pShader2) ->
  resolve_variable (ResourceLayout PSODesc) (Stage_Type Stage1)
    (GetShaderResources pShader1) A1 = Ok (stages, vt1) ->
  resolve_variable (ResourceLayout PSODesc) (Stage_Type Stage2)
    (GetShaderResources pShader2) A2 = Ok (stages, vt2) ->
  SPIRV_Name A1 = SPIRV_Name A2 ->
  ~ declared_alike A1 A2 ->
  CreateDefaultSignature_collect PSODesc ShaderStages <> Ok st.
Proof.
  intros HS1 Hsh1 HA1 HS2 Hsh2 HA2 Hr1 Hr2 Hname Hdiff Hrun.
  destruct (CreateDefaultSignature_collect_inv _ _ _ Hrun) as [_ Hacc].
  destruct (Hacc _ _ _ HS1 Hsh1 HA1) as (s1 & v1 & E1 & Hr1' & HE1 & Hal1).
  destruct (Hacc _ _ _ HS2 Hsh2 HA2) as (s2 & v2 & E2 & Hr2' & HE2 & Hal2).
  rewrite Hr1 in Hr1'. rewrite Hr2 in Hr2'.
  injection Hr1' as <- <-. injection Hr2' as <- <-.
  rewrite Hname, HE2 in HE1. injection HE1 as <-.
  apply Hdiff. eapply declared_alike_trans_sym; eassumption.
Qed.

Lemma resolve_variable_found LayoutDesc StageType SR A i Var :
  IsUsingCombinedSamplers SR = false ->
  FindPipelineResourceLayoutVariable LayoutDesc (SPIRV_Name A) StageType None = i ->
  i <> InvalidPipelineResourceLayoutVariableIndex ->
  Variables LayoutDesc !! Z.to_nat i = Some Var ->
  resolve_variable LayoutDesc StageType SR A = Ok (Var_ShaderStages Var, Var_Type Var).
Proof.
  intros Hcomb Hfind Hvalid HVar. unfold resolve_variable.
  rewrite Hcomb. simpl. rewrite Hfind.
  destruct (Z.eqb_spec i InvalidPipelineResourceLayoutVariableIndex);
    [contradiction|]. simpl.
  unfold at_index. rewrite HVar. reflexivity.
Qed.

Lemma resolve_variable_not_found LayoutDesc StageType SR A :
  IsUsingCombinedSamplers SR = false ->
  FindPipelineResourceLayoutVariable LayoutDesc (SPIRV_Name A) StageType None =
    InvalidPipelineResourceLayoutVariableIndex ->
  resolve_variable LayoutDesc StageType SR A =
  Ok (StageType, DefaultVariableType LayoutDesc).
Proof.
  intros Hcomb Hfind. unfold resolve_variable.
  rewrite Hcomb. simpl. rewrite Hfind, Z.eqb_refl. reflexivity.
Qed.

(** The scenario when the layout has a variable ["g_Tex"] for both stages:
    the second declaration meets the first one under the key
    [("g_Tex", 3)]. *)
Lemma collect_shared_variable n :
  FindPipelineResourceLayoutVariable layout_shared_variable "g_Tex"
    SHADER_TYPE_VERTEX None = 0 ->
  FindPipelineResourceLayoutVariable layout_shared_variable "g_Tex"
    SHADER_TYPE_PIXEL None = 0 ->
  0 <> InvalidPipelineResourceLayoutVariableIndex ->
  CreateDefaultSignature_collect (PSO_with layout_shared_variable) (two_stages n) =
  _ ← VerifyResourceMerge (g_Tex 1) (g_Tex n);
  Ok (mkDefaultSignatureState
        (<[("g_Tex", 3) := g_Tex 1]> ∅)
        [mkPipelineResourceDesc 3 "g_Tex" 1 SHADER_RESOURCE_TYPE_TEXTURE_SRV
           SHADER_RESOURCE_VARIABLE_TYPE_MUTABLE PIPELINE_RESOURCE_FLAG_UNKNOWN]
        None).
Proof.
  intros HfV HfP Hvalid.
  unfold CreateDefaultSignature_collect, two_stages, CreateDefaultSignature_stage.
  cbn [for_each Shaders Stage_Type].
  unfold CreateDefaultSignature_shader, shader_with.
  cbn [for_each GetShaderResources SR_Resources IsUsingCombinedSamplers andb].
  rewrite (CreateDefaultSignature_resource_new _ _ _ _ (g_Tex 1) 3
             SHADER_RESOURCE_VARIABLE_TYPE_MUTABLE).
  2:{ apply (resolve_variable_found layout_shared_variable _ _ (g_Tex 1) 0
               (mkShaderResourceVariableDesc 3 "g_Tex"
                  SHADER_RESOURCE_VARIABLE_TYPE_MUTABLE));
      [reflexivity|exact HfV|exact Hvalid|reflexivity]. }
  2:{ apply lookup_empty. }
  2:{ discriminate. }
  cbn [mbind Result_mbind Result_bind for_each UniqueResources dss_Resources
       pCombinedSamplerSuffix app SPIRV_Name g_Tex SPIRV_ArraySize SPIRV_Type
       GetShaderResourceTypeAndFlags fst snd].
  unfold CreateDefaultSignature_resource.
  rewrite (resolve_variable_found layout_shared_variable _ _ (g_Tex n) 0
             (mkShaderResourceVariableDesc 3 "g_Tex"
                SHADER_RESOURCE_VARIABLE_TYPE_MUTABLE));
    [|reflexivity|exact HfP|exact Hvalid|reflexivity].
  cbn [mbind Result_mbind Result_bind Var_ShaderStages Var_Type UniqueResources
       SPIRV_Name g_Tex].
  rewrite lookup_insert_eq.
  destruct (VerifyResourceMerge _ _) as [[]| |]; reflexivity.
Qed.

(** The scenario when the layout has no variable: each declaration is
    entered under the stage of its own shader. *)
Lemma collect_no_variables n :
  FindPipelineResourceLayoutVariable layout_no_variables "g_Tex"
    SHADER_TYPE_VERTEX None = InvalidPipelineResourceLayoutVariableIndex ->
  FindPipelineResourceLayoutVariable layout_no_variables "g_Tex"
    SHADER_TYPE_PIXEL None = InvalidPipelineResourceLayoutVariableIndex ->
  n <> 0 ->
  CreateDefaultSignature_collect (PSO_with layout_no_variables) (two_stages n) =
  Ok (mkDefaultSignatureState
        (<[("g_Tex", SHADER_TYPE_PIXEL) := g_Tex n]>
           (<[("g_Tex", SHADER_TYPE_VERTEX) := g_Tex 1]> ∅))
        [mkPipelineResourceDesc SHADER_TYPE_VERTEX "g_Tex" 1
           SHADER_RESOURCE_TYPE_TEXTURE_SRV
           SHADER_RESOURCE_VARIABLE_TYPE_STATIC PIPELINE_RESOURCE_FLAG_UNKNOWN;
         mkPipelineResourceDesc SHADER_TYPE_PIXEL "g_Tex" n
           SHADER_RESOURCE_TYPE_TEXTURE_SRV
           SHADER_RESOURCE_VARIABLE_TYPE_STATIC PIPELINE_RESOURCE_FLAG_UNKNOWN]
        None).
Proof.
  intros HfV HfP Hn.
  unfold CreateDefaultSignature_collect, two_stages, CreateDefaultSignature_stage.
  cbn [for_each Shaders Stage_Type].
  unfold CreateDefaultSignature_shader, shader_with.
  cbn [for_each GetShaderResources SR_Resources IsUsingCombinedSamplers andb].
  rewrite (CreateDefaultSignature_resource_new _ _ _ _ (g_Tex 1)
             SHADER_TYPE_VERTEX SHADER_RESOURCE_VARIABLE_TYPE_STATIC).
  2:{ apply (resolve_variable_not_found layout_no_variables _ _ (g_Tex 1));
      [reflexivity|exact HfV]. }
  2:{ apply lookup_empty. }
  2:{ discriminate. }
  cbn [mbind Result_mbind Result_bind for_each UniqueResources dss_Resources
       pCombinedSamplerSuffix app SPIRV_Name g_Tex SPIRV_ArraySize SPIRV_Type
       GetShaderResourceTypeAndFlags fst snd].
  rewrite (CreateDefaultSignature_resource_new _ _ _ _ (g_Tex n)
             SHADER_TYPE_PIXEL SHADER_RESOURCE_VARIABLE_TYPE_STATIC).
  2:{ apply (resolve_variable_not_found layout_no_variables _ _ (g_Tex n));
      [reflexivity|exact HfP]. }
  2:{ cbn [UniqueResources SPIRV_Name g_Tex]. rewrite lookup_insert_ne by discriminate.
      apply lookup_empty. }
  2:{ exact Hn. }
  reflexivity.
Qed.

(** C4, as the code has it: reflected declarations are merged when they
    have the same name and resolve to the same stage mask, which is the mask
    of the layout variable found for the declaration, or else the stage of
    its own shader.  On success the resource list has one entry per such key
    and every declaration has its entry; a declaration that meets an earlier
    one under its key leaves the list as it is when the two agree in type,
    dimension, array size and multisample flag, and throws the merge error
    when they do not, so that two declarations under one key that differ keep
    the signature from being created.  Two stages that both declare
    ["g_Tex"] as a 2D texture of array size 1 give a single resource when a
    layout variable ["g_Tex"] covers both stages, and array size 2 in one of
    them then throws the merge error for the array size; without such a
    variable the two declarations stay two resources. *)
Theorem CreateDefaultSignature_merges_by_name_and_stages
  (PSODesc : PipelineStateDesc) (ShaderStages : list ShaderStageInfo) :
  FindPipelineResourceLayoutVariable layout_shared_variable "g_Tex"
    SHADER_TYPE_VERTEX None = 0 ->
  FindPipelineResourceLayoutVariable layout_shared_variable "g_Tex"
    SHADER_TYPE_PIXEL None = 0 ->
  0 <> InvalidPipelineResourceLayoutVariableIndex ->
  FindPipelineResourceLayoutVariable layout_no_variables "g_Tex"
    SHADER_TYPE_VERTEX None = InvalidPipelineResourceLayoutVariableIndex ->
  FindPipelineResourceLayoutVariable layout_no_variables "g_Tex"
    SHADER_TYPE_PIXEL None = InvalidPipelineResourceLayoutVariableIndex ->
  (forall st,
     CreateDefaultSignature_collect PSODesc ShaderStages = Ok st ->
     NoDup (res_key <$> dss_Resources st) /\
     forall Stage pShader A,
       Stage ∈ ShaderStages -> pShader ∈ Shaders Stage ->
       A ∈ SR_Resources (GetShaderResources pShader) ->
       exists stages vt r,
         resolve_variable (ResourceLayout PSODesc) (Stage_Type Stage)
           (GetShaderResources pShader) A = Ok (stages, vt) /\
         r ∈ dss_Resources st /\
         res_key r = (SPIRV_Name A, stages) /\
         ArraySize r = SPIRV_ArraySize A /\
         (ResourceType r, Flags r) = GetShaderResourceTypeAndFlags (SPIRV_Type A)) /\
  (forall StageType pShader st A stages vt E,
     resolve_variable (ResourceLayout PSODesc) StageType
       (GetShaderResources pShader) A = Ok (stages, vt) ->
     UniqueResources st !! (SPIRV_Name A, stages) = Some E ->
     (declared_alike E A ->
      CreateDefaultSignature_resource PSODesc StageType pShader st A = Ok st) /\
     (~ declared_alike E A ->
      exists PropertyName,
        CreateDefaultSignature_resource PSODesc StageType pShader st A =
        Throw (ResourceMergeError (SPIRV_Name A) PropertyName))) /\
  (forall Stage1 pShader1 A1 Stage2 pShader2 A2 stages vt1 vt2,
     Stage1 ∈ ShaderStages -> pShader1 ∈ Shaders Stage1 ->
     A1 ∈ SR_Resources (GetShaderResources pShader1) ->
     Stage2 ∈ ShaderStages -> pShader2 ∈ Shaders Stage2 ->
     A2 ∈ SR_Resources (GetShaderResources pShader2) ->
     resolve_variable (ResourceLayout PSODesc) (Stage_Type Stage1)
       (GetShaderResources pShader1) A1 = Ok (stages, vt1) ->
     resolve_variable (ResourceLayout PSODesc) (Stage_Type Stage2)
       (GetShaderResources pShader2) A2 = Ok (stages, vt2) ->
     SPIRV_Name A1 = SPIRV_Name A2 ->
     ~ declared_alike A1 A2 ->
     forall r, CreateDefaultSignature PSODesc ShaderStages <> Ok r) /\
  (exists st,
     CreateDefaultSignature_collect (PSO_with layout_shared_variable)
       (two_stages 1) = Ok st /\
     dss_Resources st =
       [mkPipelineResourceDesc 3 "g_Tex" 1 SHADER_RESOURCE_TYPE_TEXTURE_SRV
          SHADER_RESOURCE_VARIABLE_TYPE_MUTABLE PIPELINE_RESOURCE_FLAG_UNKNOWN]) /\
  CreateDefaultSignature (PSO_with layout_shared_variable) (two_stages 2) =
    Throw (ResourceMergeError "g_Tex" "array size") /\
  (forall n, n <> 0 ->
     exists st,
       CreateDefaultSignature_collect (PSO_with layout_no_variables)
         (two_stages n) = Ok st /\
       dss_Resources st =
         [mkPipelineResourceDesc SHADER_TYPE_VERTEX "g_Tex" 1
            SHADER_RESOURCE_TYPE_TEXTURE_SRV
            SHADER_RESOURCE_VARIABLE_TYPE_STATIC PIPELINE_RESOURCE_FLAG_UNKNOWN;
          mkPipelineResourceDesc SHADER_TYPE_PIXEL "g_Tex" n
            SHADER_RESOURCE_TYPE_TEXTURE_SRV
            SHADER_RESOURCE_VARIABLE_TYPE_STATIC PIPELINE_RESOURCE_FLAG_UNKNOWN]).
Proof.
  intros HsV HsP Hvalid HnV HnP.
  split; [apply CreateDefaultSignature_collect_resources|].
  split; [intros; eapply CreateDefaultSignature_resource_known; eassumption|].
  split.
  { intros Stage1 pShader1 A1 Stage2 pShader2 A2 stages vt1 vt2
      HS1 Hsh1 HA1 HS2 Hsh2 HA2 Hr1 Hr2 Hname Hdiff r Hr.
    destruct (CreateDefaultSignature_Ok_collect _ _ _ Hr) as [st Hst].
    exact (CreateDefaultSignature_collect_conflict _ _ _ _ _ _ _ _ _ _ _ _
             HS1 Hsh1 HA1 HS2 Hsh2 HA2 Hr1 Hr2 Hname Hdiff Hst). }
  split.
  { eexists. rewrite (collect_shared_variable 1 HsV HsP Hvalid).
    split; reflexivity. }
  split.
  { unfold CreateDefaultSignature.
    rewrite (collect_shared_variable 2 HsV HsP Hvalid). reflexivity. }
  intros n Hn. eexists. rewrite (collect_no_variables n HnV HnP Hn).
  split; reflexivity.
Qed.

(** ** Byte-code patching *)

Lemma write_word_Ok SPIRV Offset Value SPIRV' :
  write_word SPIRV Offset Value = Ok SPIRV' ->
  (Offset < length SPIRV)%nat /\ SPIRV' = <[Offset := Value]> SPIRV.
Proof.
  unfold write_word. destruct (decide (Offset < length SPIRV)%nat); [|discriminate].
  intros [= <-]. split; [assumption|reflexivity].
Qed.

Lemma resolve_binding_Ok pShader Sig RA A b s :
  resolve_binding pShader Sig RA A = Ok (b, s) ->
  (ResourceIndex RA <> InvalidResourceIndex ->
   exists ResAttribs,
     Vk_ResourceAttribs Sig !! Z.to_nat (ResourceIndex RA) = Some ResAttribs /\
     b = Vk_BindingIndex ResAttribs /\ s = Vk_DescrSet ResAttribs) /\
  (ResourceIndex RA = InvalidResourceIndex ->
   ImmutableSamplerIndex RA <> InvalidResourceIndex ->
   exists SamAttribs,
     Vk_ImmutableSamplerAttribs Sig !! Z.to_nat (ImmutableSamplerIndex RA)
       = Some SamAttribs /\
     b = Sam_BindingIndex SamAttribs /\ s = Sam_DescrSet SamAttribs).
Proof.
  unfold resolve_binding.
  destruct (GetShaderResourceTypeAndFlags (SPIRV_Type A)) as [Type_ Flags_].
  destruct (Z.eqb_spec (ResourceIndex RA) InvalidResourceIndex) as [Er|Er]; simpl.
  - destruct (Z.eqb_spec (ImmutableSamplerIndex RA) InvalidResourceIndex)
      as [Ei|Ei]; simpl.
    + intros _. split; intros; contradiction.
    + destruct (negb _); [discriminate|].
      unfold at_index.
      destruct (Vk_ImmutableSamplerAttribs Sig !! _) as [Sam|]; simpl; [|discriminate].
      intros [= <- <-]. split; [intros; contradiction|]. intros _ _. eauto.
  - unfold at_index.
    destruct (Resources (Vk_Desc Sig) !! _) as [ResDesc|]; simpl; [|discriminate].
    destruct (negb _); [discriminate|].
    destruct (Vk_ResourceAttribs Sig !! _) as [ResAttribs|]; simpl; [|discriminate].
    intros [= <- <-]. split; [intros _; eauto|intros; contradiction].
Qed.

Lemma InitPipelineLayout_resource_Ok m_Signatures ShaderType pShader SPIRV A SPIRV' :
  InitPipelineLayout_resource m_Signatures ShaderType pShader SPIRV A = Ok SPIRV' ->
  exists Sig b s,
    pSignature (GetResourceAttribution m_Signatures (SPIRV_Name A) ShaderType)
      = Some Sig /\
    resolve_binding pShader Sig
      (GetResourceAttribution m_Signatures (SPIRV_Name A) ShaderType) A = Ok (b, s) /\
    (BindingDecorationOffset A < length SPIRV)%nat /\
    (DescriptorSetDecorationOffset A < length SPIRV)%nat /\
    SPIRV' =
      <[DescriptorSetDecorationOffset A :=
          Uint32_add (GetFirstDescrSetIndex m_Signatures (BindingIndex (Vk_Desc Sig))) s]>
        (<[BindingDecorationOffset A := b]> SPIRV).
Proof.
  unfold InitPipelineLayout_resource. cbv zeta.
  destruct (negb (ResourceAttribution_bool _)); [discriminate|].
  destruct (pSignature _) as [Sig|]; [|discriminate].
  destruct (resolve_binding _ _ _ _) as [[b s]| |] eqn:Eb; simpl; try discriminate.
  destruct (write_word SPIRV _ b) as [SPIRV1| |] eqn:E1; simpl; try discriminate.
  intros E2. apply write_word_Ok in E1. destruct E1 as [H1 ->].
  apply write_word_Ok in E2. destruct E2 as [H2 ->].
  rewrite length_insert in H2.
  exists Sig, b, s. repeat split; assumption.
Qed.

Lemma patch_resources_frame m_Signatures ShaderType pShader l :
  forall SPIRV SPIRV',
    for_each (InitPipelineLayout_resource m_Signatures ShaderType pShader) l SPIRV
      = Ok SPIRV' ->
    length SPIRV' = length SPIRV /\
    forall k,
      (forall A, A ∈ l ->
         k <> BindingDecorationOffset A /\ k <> DescriptorSetDecorationOffset A) ->
      SPIRV' !! k = SPIRV !! k.
Proof.
  induction l as [|A l IH]; intros SPIRV SPIRV' Hrun; simpl in Hrun.
  - injection Hrun as <-. split; reflexivity.
  - destruct (InitPipelineLayout_resource m_Signatures ShaderType pShader SPIRV A)
      as [SPIRV1| |] eqn:E1; simpl in Hrun; try discriminate.
    destruct (InitPipelineLayout_resource_Ok _ _ _ _ _ _ E1)
      as (Sig & b & s & _ & _ & _ & _ & ->).
    destruct (IH _ _ Hrun) as [Hlen Hframe].
    rewrite !length_insert in Hlen. split; [exact Hlen|].
    intros k Hk. rewrite Hframe.
    + destruct (Hk A ltac:(left)) as [Hb Hs].
      rewrite !list_lookup_insert_ne by congruence. reflexivity.
    + intros A' HA'. apply Hk. right. exact HA'.
Qed.

Lemma patch_resources_words m_Signatures ShaderType pShader l :
  forall SPIRV SPIRV',
    for_each (InitPipelineLayout_resource m_Signatures ShaderType pShader) l SPIRV
      = Ok SPIRV' ->
    NoDup (A ← l; [BindingDecorationOffset A; DescriptorSetDecorationOffset A]) ->
    forall A, A ∈ l -> patched_words m_Signatures ShaderType pShader A SPIRV'.
Proof.
  induction l as [|A0 l IH]; intros SPIRV SPIRV' Hrun Hnd A HA.
  - apply elem_of_nil in HA. contradiction.
  - simpl in Hrun.
    destruct (InitPipelineLayout_resource m_Signatures ShaderType pShader SPIRV A0)
      as [SPIRV1| |] eqn:E1; simpl in Hrun; try discriminate.
    change (A ← A0 :: l; [BindingDecorationOffset A; DescriptorSetDecorationOffset A])
      with ([BindingDecorationOffset A0; DescriptorSetDecorationOffset A0] ++
            (A ← l; [BindingDecorationOffset A; DescriptorSetDecorationOffset A]))
      in Hnd.
    apply NoDup_app in Hnd. destruct Hnd as (Hnd0 & Hdisj & Hnd').
    apply elem_of_cons in HA. destruct HA as [->|HA]; [|eapply IH; eassumption].
    destruct (InitPipelineLayout_resource_Ok _ _ _ _ _ _ E1)
      as (Sig & b & s & HSig & Hbind & HoffB & HoffS & ->).
    destruct (patch_resources_frame _ _ _ _ _ _ Hrun) as [_ Hframe].
    assert (Hne : BindingDecorationOffset A0 <> DescriptorSetDecorationOffset A0).
    { intros Heq. apply NoDup_cons in Hnd0. destruct Hnd0 as [Hnotin _].
      apply Hnotin. rewrite Heq. left. }
    assert (Hout : forall k,
               k ∈ [BindingDecorationOffset A0; DescriptorSetDecorationOffset A0] ->
               forall A', A' ∈ l ->
                 k <> BindingDecorationOffset A' /\
                 k <> DescriptorSetDecorationOffset A').
    { intros k Hk A' HA'. specialize (Hdisj k Hk).
      split; intros ->; apply Hdisj; apply list_elem_of_bind; exists A';
        (split; [|exact HA']); [left|right; left]. }
    exists Sig, b, s. split; [exact HSig|]. split; [exact Hbind|]. split.
    + rewrite Hframe by (apply Hout; left).
      rewrite list_lookup_insert_ne by congruence.
      apply list_lookup_insert_eq. exact HoffB.
    + rewrite Hframe by (apply Hout; right; left).
      apply list_lookup_insert_eq. rewrite length_insert. exact HoffS.
Qed.

Lemma InitPipelineLayout_shaders_frame m_Signatures ShaderType Shaders_ :
  forall i SPIRVs_ SPIRVs',
    InitPipelineLayout_shaders m_Signatures ShaderType Shaders_ i SPIRVs_
      = Ok SPIRVs' ->
    length SPIRVs' = length SPIRVs_ /\
    (forall j, (j < i \/ i + length Shaders_ <= j)%nat ->
       SPIRVs' !! j = SPIRVs_ !! j) /\
    (forall j pShader, Shaders_ !! j = Some pShader ->
       exists code code',
         SPIRVs_ !! (i + j)%nat = Some code /\
         SPIRVs' !! (i + j)%nat = Some code' /\
         for_each (InitPipelineLayout_resource m_Signatures ShaderType pShader)
           (SR_Resources (GetShaderResources pShader)) code = Ok code').
Proof.
  induction Shaders_ as [|pShader rest IH]; intros i SPIRVs_ SPIRVs' Hrun;
    simpl in Hrun.
  - injection Hrun as <-. split; [reflexivity|]. split; [reflexivity|].
    intros j p Hj. destruct j; discriminate.
  - unfold at_index in Hrun.
    destruct (SPIRVs_ !! i) as [SPIRV|] eqn:Ei; simpl in Hrun; [|discriminate].
    destruct (for_each _ (SR_Resources (GetShaderResources pShader)) SPIRV)
      as [SPIRV'| |] eqn:Ep; simpl in Hrun; try discriminate.
    destruct (IH _ _ _ Hrun) as (Hlen & Hout & Hin).
    rewrite length_insert in Hlen.
    assert (Hi : (i < length SPIRVs_)%nat) by (eapply lookup_lt_Some; eauto).
    split; [exact Hlen|]. split.
    + intros j Hj. simpl in Hj. rewrite Hout by lia.
      apply list_lookup_insert_ne. lia.
    + intros [|j] p Hp; simpl in Hp.
      * injection Hp as <-. rewrite Nat.add_0_r.
        exists SPIRV, SPIRV'. split; [exact Ei|]. split.
        -- rewrite Hout by lia. apply list_lookup_insert_eq. exact Hi.
        -- exact Ep.
      * destruct (Hin j p Hp) as (code & code' & H1 & H2 & H3).
        exists code, code'. replace (i + S j)%nat with (S i + j)%nat by lia.
        split; [|split; assumption].
        rewrite list_lookup_insert_ne in H1 by lia. exact H1.
Qed.

Lemma InitPipelineLayout_stages_frame m_Signatures ShaderStages :
  forall ShaderStages',
    InitPipelineLayout_stages m_Signatures ShaderStages = Ok ShaderStages' ->
    length ShaderStages' = length ShaderStages /\
    forall s Stage, ShaderStages !! s = Some Stage ->
      exists Stage',
        ShaderStages' !! s = Some Stage' /\
        Stage_Type Stage' = Stage_Type Stage /\
        Shaders Stage' = Shaders Stage /\
        length (SPIRVs Stage') = length (SPIRVs Stage) /\
        (forall j, (length (Shaders Stage) <= j)%nat ->
           SPIRVs Stage' !! j = SPIRVs Stage !! j) /\
        (forall j pShader, Shaders Stage !! j = Some pShader ->
           exists code code',
             SPIRVs Stage !! j = Some code /\
             SPIRVs Stage' !! j = Some code' /\
             for_each
               (InitPipelineLayout_resource m_Signatures (Stage_Type Stage) pShader)
               (SR_Resources (GetShaderResources pShader)) code = Ok code').
Proof.
  induction ShaderStages as [|Stage rest IH]; intros ShaderStages' Hrun;
    simpl in Hrun.
  - injection Hrun as <-. split; [reflexivity|]. intros s St Hs.
    destruct s; discriminate.
  - destruct (InitPipelineLayout_shaders _ _ _ _ _) as [SPIRVs'| |] eqn:Es;
      simpl in Hrun; try discriminate.
    destruct (InitPipelineLayout_stages m_Signatures rest) as [rest'| |] eqn:Er;
      simpl in Hrun; try discriminate.
    injection Hrun as <-.
    destruct (IH _ eq_refl) as [Hlen Hrest].
    destruct (InitPipelineLayout_shaders_frame _ _ _ _ _ _ Es) as (Hl & Hout & Hin).
    split; [simpl; congruence|].
    intros [|s] St Hs; simpl in Hs.
    + injection Hs as <-. eexists. split; [reflexivity|]. simpl.
      split; [reflexivity|]. split; [reflexivity|]. split; [exact Hl|]. split.
      * intros j Hj. apply Hout. lia.
      * intros j p Hp. apply (Hin j p Hp).
    + apply (Hrest s St Hs).
Qed.

Lemma InitPipelineLayout_Ok_stages dev PSODesc Limits Feats Props implicit
  m_Signatures ShaderStages m_Signatures' ShaderStages' :
  snd (InitPipelineLayout dev PSODesc Limits Feats Props implicit
         m_Signatures ShaderStages) = Ok (m_Signatures', ShaderStages') ->
  InitPipelineLayout_stages m_Signatures' ShaderStages = Ok ShaderStages'.
Proof.
  unfold InitPipelineLayout.
  destruct (if implicit then _ else _) as [sigs| |]; simpl; try discriminate.
  destruct (PipelineLayout_Create Limits Feats Props sigs) as [[]| |];
    simpl; try discriminate.
  destruct (InitPipelineLayout_stages sigs ShaderStages) as [st| |] eqn:E;
    simpl; try discriminate.
  intros [= <- <-]. exact E.
Qed.


(** C6: the layout builder changes the byte code of a shader only through
    the handler it runs on each reflected resource, and the handler, when
    the resource resolves, writes two words: the binding index of the
    resource (or of the immutable sampler) at the binding decoration offset,
    and the first descriptor set of the signature plus the descriptor set of
    the resource at the descriptor-set decoration offset.  Every other word
    is left as it was: after [InitPipelineLayout] the byte code of each
    shader has its length and differs at most at the decoration offsets of
    the resources of that shader, where it holds the words written for them
    when the offsets of the shader are pairwise distinct; the stages and
    shaders are the same. *)
Theorem InitPipelineLayout_patches_decoration_words
  (DILIGENT_DEVELOPMENT : bool) (PSODesc : PipelineStateDesc)
  (Limits : DeviceLimits) (Feats Props : DescriptorIndexing)
  (m_UsingImplicitSignature : bool)
  (m_Signatures m_Signatures' : list (option PipelineResourceSignatureVkImpl))
  (ShaderStages ShaderStages' : list ShaderStageInfo) :
  snd (InitPipelineLayout DILIGENT_DEVELOPMENT PSODesc Limits Feats Props
         m_UsingImplicitSignature m_Signatures ShaderStages)
    = Ok (m_Signatures', ShaderStages') ->
  (forall ShaderType pShader SPIRV A SPIRV',
     InitPipelineLayout_resource m_Signatures' ShaderType pShader SPIRV A
       = Ok SPIRV' ->
     let RA := GetResourceAttribution m_Signatures' (SPIRV_Name A) ShaderType in
     exists Sig b s,
       pSignature RA = Some Sig /\
       (ResourceIndex RA <> InvalidResourceIndex ->
        exists ResAttribs,
          Vk_ResourceAttribs Sig !! Z.to_nat (ResourceIndex RA) = Some ResAttribs /\
          b = Vk_BindingIndex ResAttribs /\ s = Vk_DescrSet ResAttribs) /\
       (ResourceIndex RA = InvalidResourceIndex ->
        ImmutableSamplerIndex RA <> InvalidResourceIndex ->
        exists SamAttribs,
          Vk_ImmutableSamplerAttribs Sig !! Z.to_nat (ImmutableSamplerIndex RA)
            = Some SamAttribs /\
          b = Sam_BindingIndex SamAttribs /\ s = Sam_DescrSet SamAttribs) /\
       length SPIRV' = length SPIRV /\
       SPIRV' !! DescriptorSetDecorationOffset A =
         Some (Uint32_add
                 (GetFirstDescrSetIndex m_Signatures' (BindingIndex (Vk_Desc Sig))) s) /\
       (BindingDecorationOffset A <> DescriptorSetDecorationOffset A ->
        SPIRV' !! BindingDecorationOffset A = Some b) /\
       (forall k, k <> BindingDecorationOffset A ->
                  k <> DescriptorSetDecorationOffset A ->
                  SPIRV' !! k = SPIRV !! k)) /\
  length ShaderStages' = length ShaderStages /\
  (forall s Stage, ShaderStages !! s = Some Stage ->
     exists Stage',
       ShaderStages' !! s = Some Stage' /\
       Stage_Type Stage' = Stage_Type Stage /\
       Shaders Stage' = Shaders Stage /\
       length (SPIRVs Stage') = length (SPIRVs Stage) /\
       (forall j, (length (Shaders Stage) <= j)%nat ->
          SPIRVs Stage' !! j = SPIRVs Stage !! j) /\
       (forall j pShader, Shaders Stage !! j = Some pShader ->
          exists code code',
            SPIRVs Stage !! j = Some code /\
            SPIRVs Stage' !! j = Some code' /\
            patched_only_at pShader code code' /\
            (NoDup (decoration_offsets pShader) ->
             forall A, A ∈ SR_Resources (GetShaderResources pShader) ->
               patched_words m_Signatures' (Stage_Type Stage) pShader A code'))).
Proof.
  intros Hrun. split.
  - intros ShaderType pShader SPIRV A SPIRV' Hres. cbv zeta.
    destruct (InitPipelineLayout_resource_Ok _ _ _ _ _ _ Hres)
      as (Sig & b & s & HSig & Hbind & HoffB & HoffS & ->).
    destruct (resolve_binding_Ok _ _ _ _ _ _ Hbind) as [Hr Hi].
    exists Sig, b, s.
    split; [exact HSig|]. split; [exact Hr|]. split; [exact Hi|].
    split; [rewrite !length_insert; reflexivity|]. split; [|split].
    + apply list_lookup_insert_eq. rewrite length_insert. exact HoffS.
    + intros Hne. rewrite list_lookup_insert_ne by congruence.
      apply list_lookup_insert_eq. exact HoffB.
    + intros k Hb Hs. rewrite !list_lookup_insert_ne by congruence. reflexivity.
  - destruct (InitPipelineLayout_stages_frame m_Signatures' ShaderStages
                ShaderStages'
                (InitPipelineLayout_Ok_stages _ _ _ _ _ _ _ _ _ _ Hrun))
      as [Hlen Hstages].
    split; [exact Hlen|].
    intros s Stage HStage.
    destruct (Hstages s Stage HStage)
      as (Stage' & HS' & Hty & Hsh & Hl & Hout & Hin).
    exists Stage'. split; [exact HS'|]. split; [exact Hty|]. split; [exact Hsh|].
    split; [exact Hl|]. split; [exact Hout|].
    intros j pShader Hj.
    destruct (Hin j pShader Hj) as (code & code' & Hc & Hc' & Hpatch).
    exists code, code'. split; [exact Hc|]. split; [exact Hc'|]. split.
    + exact (patch_resources_frame _ _ _ _ _ _ Hpatch).
    + intros Hnd. exact (patch_resources_words _ _ _ _ _ _ Hpatch Hnd).
Qed.


(** ** Resource states *)

(** Closes a goal about an unchanged tracker that emitted nothing, or one
    event for another resource. *)
Ltac unknown_kept Hr Hne :=
  split;
  [ first [exact Hr | rewrite lookup_insert_ne by exact Hne; exact Hr]
  | let e := fresh "e" in
    let He := fresh "He" in
    intros e He;
    first [ apply elem_of_nil in He; contradiction
          | apply list_elem_of_singleton in He; subst e; exact Hne ] ].

Lemma request_state_unknown states Resource Required Mode r :
  states !! r = Some RESOURCE_STATE_UNKNOWN ->
  fst (request_state states Resource Required Mode) !! r
    = Some RESOURCE_STATE_UNKNOWN /\
  forall e, e ∈ snd (request_state states Resource Required Mode) ->
    event_resource e <> r.
Proof.
  intros Hr. unfold request_state.
  destruct (decide (Resource = r)) as [->|Hne].
  - rewrite Hr. destruct Mode; simpl; unknown_kept Hr I.
  - destruct Mode; simpl; [unknown_kept Hr Hne| |].
    + destruct (states !! Resource) as [Recorded|]; [|unknown_kept Hr Hne].
      repeat case_decide; simpl; unknown_kept Hr Hne.
    + destruct (states !! Resource) as [Recorded|]; [|unknown_kept Hr Hne].
      repeat case_decide; simpl; unknown_kept Hr Hne.
Qed.

Lemma tracker_fold_unknown ops :
  forall st r,
    fst st !! r = Some RESOURCE_STATE_UNKNOWN ->
    (forall e, e ∈ snd st -> event_resource e <> r) ->
    Forall (not_reset r) ops ->
    fst (foldl tracker_step st ops) !! r = Some RESOURCE_STATE_UNKNOWN /\
    forall e, e ∈ snd (foldl tracker_step st ops) -> event_resource e <> r.
Proof.
  induction ops as [|op ops IH]; intros st r Hr Hev Hops; simpl.
  - split; assumption.
  - apply Forall_cons in Hops. destruct Hops as [Hop Hops].
    apply IH; [| |exact Hops].
    + destruct op as [Resource Required Mode|Resource State]; simpl.
      * destruct (request_state_unknown (fst st) Resource Required Mode r Hr)
          as [H1 _].
        destruct (request_state (fst st) Resource Required Mode). exact H1.
      * simpl in Hop. rewrite lookup_insert_ne by exact Hop. exact Hr.
    + destruct op as [Resource Required Mode|Resource State]; simpl.
      * destruct (request_state_unknown (fst st) Resource Required Mode r Hr)
          as [_ H2].
        destruct (request_state (fst st) Resource Required Mode) as [s' ev].
        simpl in *. intros e He. apply elem_of_app in He.
        destruct He as [He|He]; [apply Hev|apply H2]; exact He.
      * exact Hev.
Qed.

(** C3: a resource whose recorded state is [UNKNOWN] stays [UNKNOWN], and
    nothing is emitted or reported for it, through any sequence of requests,
    in whatever transition mode and for whatever resource, as long as no
    operation sets its state explicitly.  In particular a single request in
    mode [TRANSITION] leaves the tracker as it is and emits nothing. *)
Theorem unknown_state_is_never_transitioned
  (states : gmap nat RESOURCE_STATE) (Resource : nat) (ops : list TrackerOp) :
  states !! Resource = Some RESOURCE_STATE_UNKNOWN ->
  Forall (not_reset Resource) ops ->
  (forall Required,
     request_state states Resource Required
       RESOURCE_STATE_TRANSITION_MODE_TRANSITION = (states, [])) /\
  fst (tracker_run states ops) !! Resource = Some RESOURCE_STATE_UNKNOWN /\
  forall e, e ∈ snd (tracker_run states ops) -> event_resource e <> Resource.
Proof.
  intros Hr Hops. split.
  - intros Required. unfold request_state. rewrite Hr.
    rewrite decide_True by reflexivity. reflexivity.
  - apply tracker_fold_unknown; [exact Hr| |exact Hops].
    intros e He. apply elem_of_nil in He. contradiction.
Qed.
(** ** More on the OpenGL signature: layout, hash and compatibility *)

(** A step of the layout loop keeps the size of the two counter arrays. *)
Lemma CreateLayout_resource_length Desc r bc sc a bc' sc' :
  CreateLayout_resource Desc r bc sc = Some (a, bc', sc') ->
  length bc' = length bc /\ length sc' = length sc.
Proof.
  unfold CreateLayout_resource.
  destruct (decide (ResourceType r = SHADER_RESOURCE_TYPE_SAMPLER)).
  - intros [= _ <- <-]. split; reflexivity.
  - cbv zeta.
    destruct (range_index (PipelineResourceToBindingRange r)) as [k|]; simpl;
      [|discriminate].
    destruct (bc !! k) as [c|]; simpl; [|discriminate].
    destruct (decide (VarType r = SHADER_RESOURCE_VARIABLE_TYPE_STATIC)).
    + destruct (sc !! k) as [s|]; simpl; [|discriminate].
      intros [= _ <- <-]. rewrite !length_insert. split; reflexivity.
    + intros [= _ <- <-]. rewrite !length_insert. split; reflexivity.
Qed.

(** The binding range is unknown for a resource that is no sampler exactly
    when its type is an acceleration structure or the unknown type. *)
Lemma range_index_None r :
  ResourceType r <> SHADER_RESOURCE_TYPE_SAMPLER ->
  (range_index (PipelineResourceToBindingRange r) = None <->
   ResourceType r = SHADER_RESOURCE_TYPE_ACCEL_STRUCT \/
   ResourceType r = SHADER_RESOURCE_TYPE_UNKNOWN).
Proof.
  intros Hs. unfold PipelineResourceToBindingRange.
  destruct (ResourceType r); try contradiction;
    repeat match goal with
           | |- context [if ?b then _ else _] => destruct b
           end; simpl;
    (split; [intros H; first [discriminate H | auto]
            |intros [H|H]; first [discriminate H | reflexivity]]).
Qed.

(** With counter arrays of [BINDING_RANGE_COUNT] entries, a step of the
    layout loop leaves the arrays exactly for those two types. *)
Lemma CreateLayout_resource_None Desc r bc sc :
  length bc = 4%nat -> length sc = 4%nat ->
  (CreateLayout_resource Desc r bc sc = None <->
   ResourceType r = SHADER_RESOURCE_TYPE_ACCEL_STRUCT \/
   ResourceType r = SHADER_RESOURCE_TYPE_UNKNOWN).
Proof.
  intros Hbc Hsc. unfold CreateLayout_resource.
  destruct (decide (ResourceType r = SHADER_RESOURCE_TYPE_SAMPLER)) as [Es|Es].
  - split; [discriminate|]. intros [H|H]; congruence.
  - cbv zeta. rewrite <- (range_index_None r Es).
    destruct (range_index (PipelineResourceToBindingRange r)) as [k|] eqn:Ek;
      simpl; [|split; reflexivity].
    pose proof (range_index_lt _ _ Ek) as Hk.
    destruct (lookup_lt_is_Some_2 bc k ltac:(lia)) as [c ->].
    destruct (lookup_lt_is_Some_2 sc k ltac:(lia)) as [s ->]. simpl.
    destruct (decide (VarType r = SHADER_RESOURCE_VARIABLE_TYPE_STATIC));
      split; discriminate.
Qed.

Lemma CreateLayout_loop_None Desc rs :
  forall bc sc,
    length bc = 4%nat -> length sc = 4%nat ->
    (CreateLayout_loop Desc rs bc sc = None <->
     exists r, r ∈ rs /\
       (ResourceType r = SHADER_RESOURCE_TYPE_ACCEL_STRUCT \/
        ResourceType r = SHADER_RESOURCE_TYPE_UNKNOWN)).
Proof.
  induction rs as [|r rs IH]; intros bc sc Hbc Hsc; simpl.
  - split; [discriminate|]. intros (r & Hr & _). apply elem_of_nil in Hr.
    contradiction.
  - pose proof (CreateLayout_resource_None Desc r bc sc Hbc Hsc) as Hstep.
    destruct (CreateLayout_resource Desc r bc sc) as [[[a bc'] sc']|] eqn:E;
      simpl.
    + destruct (CreateLayout_resource_length _ _ _ _ _ _ _ E) as [Hbc' Hsc'].
      specialize (IH bc' sc' ltac:(lia) ltac:(lia)).
      destruct (CreateLayout_loop Desc rs bc' sc') as [L|]; simpl.
      * split; [discriminate|]. intros (r' & Hr' & Hu).
        apply elem_of_cons in Hr'. destruct Hr' as [->|Hr'].
        -- apply Hstep in Hu. discriminate Hu.
        -- assert (Hn : Some L = None); [|discriminate Hn].
           apply IH. exists r'. split; assumption.
      * split; [|reflexivity]. intros _.
        destruct (proj1 IH eq_refl) as (r' & Hr' & Hu).
        exists r'. split; [apply elem_of_cons; right; exact Hr'|exact Hu].
    + split; [|reflexivity]. intros _. exists r.
      split; [apply elem_of_cons; left; reflexivity|]. apply Hstep. reflexivity.
Qed.

(** The hash loop reads the attributes [i .. i + n - 1]. *)
Lemma CalculateHash_loop_defined Attribs : forall n Hash i,
  (i + n <= length Attribs)%nat ->
  is_Some (CalculateHash_loop Attribs Hash i n).
Proof.
  induction n as [|n IH]; intros Hash i Hlen; simpl.
  - eexists. reflexivity.
  - destruct (lookup_lt_is_Some_2 Attribs i ltac:(lia)) as [a ->]. simpl.
    apply IH. lia.
Qed.

(** X1: the layout loop indexes [m_BindingCount] with the binding range of
    every resource that is no sampler, and the range of an acceleration
    structure or of a resource of unknown type is [BINDING_RANGE_UNKNOWN],
    which is no index of the array.  So [CreateLayout], and with it the
    constructor, runs into that access exactly when the description holds
    such a resource; for every other description both complete, whatever
    the array sizes are. *)
Theorem CreateLayout_completes_unless_unsupported_type
  (Desc : PipelineResourceSignatureDesc) :
  (CreateLayout Desc = None <->
   exists r, r ∈ Resources Desc /\
     (ResourceType r = SHADER_RESOURCE_TYPE_ACCEL_STRUCT \/
      ResourceType r = SHADER_RESOURCE_TYPE_UNKNOWN)) /\
  (PipelineResourceSignatureGLImpl_ctor Desc = None <->
   exists r, r ∈ Resources Desc /\
     (ResourceType r = SHADER_RESOURCE_TYPE_ACCEL_STRUCT \/
      ResourceType r = SHADER_RESOURCE_TYPE_UNKNOWN)).
Proof.
  assert (HL : CreateLayout Desc = None <->
               exists r, r ∈ Resources Desc /\
                 (ResourceType r = SHADER_RESOURCE_TYPE_ACCEL_STRUCT \/
                  ResourceType r = SHADER_RESOURCE_TYPE_UNKNOWN)).
  { unfold CreateLayout. apply CreateLayout_loop_None; reflexivity. }
  split; [exact HL|]. rewrite <- HL.
  unfold PipelineResourceSignatureGLImpl_ctor.
  destruct (CreateLayout Desc) as [L|] eqn:EL; simpl; [|split; reflexivity].
  pose proof (CreateLayout_loop_length _ _ _ _ _ EL) as Hlen.
  assert (Hh : is_Some (CalculateHash Desc (lay_Attribs L))).
  { unfold CalculateHash. destruct (_ && _); [eexists; reflexivity|].
    apply CalculateHash_loop_defined. lia. }
  destruct Hh as [h ->]. simpl. split; discriminate.
Qed.

(** What the layout of a valid description is, for the theorems below: it
    exists, a resource that is no sampler starts at the sum of the array
    sizes of the earlier resources of its range, and the counters end at the
    totals. *)
Lemma CreateLayout_valid Desc :
  valid_desc Desc ->
  exists L,
    CreateLayout Desc = Some L /\
    length (lay_Attribs L) = length (Resources Desc) /\
    (forall i r a,
       Resources Desc !! i = Some r -> lay_Attribs L !! i = Some a ->
       is_sampler r = false ->
       CacheOffset a =
         range_total (PipelineResourceToBindingRange r) (take i (Resources Desc))) /\
    (forall Range k, range_index Range = Some k ->
       lay_BindingCount L !! k = Some (range_total Range (Resources Desc)) /\
       lay_StaticResCounter L !! k = Some (static_total Range (Resources Desc))).
Proof.
  intros [Hv Hsum].
  destruct (CreateLayout_loop_spec Desc (Resources Desc) Hv
              TBindings_zero TBindings_zero eq_refl eq_refl)
    as (L & HL & Hlen & Hbc & Hsc & Hat).
  { apply counters_fit_zero; try assumption.
    intros Range r H. apply in_range_true in H. apply H. }
  { apply counters_fit_zero; try assumption.
    intros Range r H. apply andb_true_iff in H. destruct H as [H _].
    apply in_range_true in H. apply H. }
  exists L. split; [exact HL|]. split; [exact Hlen|]. split.
  - intros i r a Hr Ha Hs. specialize (Hat i r a Hr Ha).
    unfold attrib_spec in Hat. rewrite Hs in Hat.
    destruct Hat as (k & c & Hk & Hc & ->).
    rewrite (TBindings_zero_lookup _ _ Hk) in Hc. injection Hc as <-. lia.
  - intros Range k Hk. split.
    + rewrite (Hbc _ _ _ Hk (TBindings_zero_lookup _ _ Hk)). reflexivity.
    + rewrite (Hsc _ _ _ Hk (TBindings_zero_lookup _ _ Hk)). reflexivity.
Qed.

Lemma sum_ArraySize_ext sel1 sel2 rs :
  Forall (fun r => sel1 r = sel2 r) rs ->
  sum_ArraySize sel1 rs = sum_ArraySize sel2 rs.
Proof.
  induction 1 as [|r rs Hr _ IH]; [reflexivity|].
  rewrite !sum_ArraySize_cons, Hr, IH. reflexivity.
Qed.

Lemma sum_ArraySize_none sel rs :
  Forall (fun r => sel r = false) rs -> sum_ArraySize sel rs = 0.
Proof.
  induction 1 as [|r rs Hr _ IH]; [reflexivity|].
  rewrite sum_ArraySize_cons, Hr, IH. reflexivity.
Qed.

(** The slots of a resource end where the total of its range ends, at the
    latest. *)
Lemma range_total_take_S Range rs i r :
  Forall valid_resource rs -> rs !! i = Some r -> in_range Range r = true ->
  0 <= range_total Range (take i rs) /\
  range_total Range (take i rs) + ArraySize r = range_total Range (take (S i) rs) /\
  range_total Range (take (S i) rs) <= range_total Range rs.
Proof.
  intros Hv Hr Hin. unfold range_total.
  assert (E1 : sum_ArraySize (in_range Range) (take (S i) rs) =
               sum_ArraySize (in_range Range) (take i rs) + ArraySize r).
  { rewrite (take_S_r _ _ _ Hr), sum_ArraySize_app, sum_ArraySize_cons, Hin,
      sum_ArraySize_nil. lia. }
  assert (E2 : sum_ArraySize (in_range Range) rs =
               sum_ArraySize (in_range Range) (take (S i) rs) +
               sum_ArraySize (in_range Range) (drop (S i) rs)).
  { rewrite <- sum_ArraySize_app, take_drop. reflexivity. }
  pose proof (sum_ArraySize_nonneg (in_range Range) (take i rs)
                (Forall_take _ _ _ Hv)) as H0.
  pose proof (sum_ArraySize_nonneg (in_range Range) (drop (S i) rs)
                (Forall_drop _ _ _ Hv)) as H1.
  lia.
Qed.

(** With the static resources first, the static slots of a range are its
    first slots. *)
Lemma static_slots_prefix rs i r :
  Forall valid_resource rs -> static_first rs ->
  rs !! i = Some r -> is_sampler r = false ->
  let Range := PipelineResourceToBindingRange r in
  (is_static r = true ->
   range_total Range (take i rs) + ArraySize r <= static_total Range rs) /\
  (is_static r = false ->
   static_total Range rs <= range_total Range (take i rs)).
Proof.
  intros Hv Hsf Hr Hs Range. split; intros Hst.
  - assert (Hall : Forall (fun r' => is_static r' = true) (take (S i) rs)).
    { apply Forall_lookup. intros j r' Hj.
      apply lookup_take_Some in Hj. destruct Hj as [Hj Hlt].
      destruct (decide (j = i)) as [->|Hne]; [congruence|].
      apply (Hsf j i r' r); [lia|assumption..]. }
    destruct (range_total_take_S Range rs i r Hv Hr (in_range_own r Hs))
      as (_ & -> & _).
    unfold range_total, static_total.
    assert (E2 : sum_ArraySize (fun r0 => in_range Range r0 && is_static r0) rs =
                 sum_ArraySize (fun r0 => in_range Range r0 && is_static r0)
                   (take (S i) rs) +
                 sum_ArraySize (fun r0 => in_range Range r0 && is_static r0)
                   (drop (S i) rs)).
    { rewrite <- sum_ArraySize_app, take_drop. reflexivity. }
    pose proof (sum_ArraySize_nonneg
                  (fun r0 => in_range Range r0 && is_static r0) (drop (S i) rs)
                  (Forall_drop _ _ _ Hv)) as H1.
    assert (E3 : sum_ArraySize (in_range Range) (take (S i) rs) =
                 sum_ArraySize (fun r0 => in_range Range r0 && is_static r0)
                   (take (S i) rs)).
    { apply sum_ArraySize_ext. eapply Forall_impl; [exact Hall|].
      intros r' Hr'. simpl. rewrite Hr', andb_true_r. reflexivity. }
    lia.
  - assert (Hnone : Forall (fun r' => in_range Range r' && is_static r' = false)
                      (drop i rs)).
    { apply Forall_lookup. intros j r' Hj. rewrite lookup_drop in Hj.
      destruct (is_static r') eqn:Hst'; [|apply andb_false_r].
      destruct (decide (j = 0)%nat) as [->|Hne].
      - rewrite Nat.add_0_r in Hj. congruence.
      - rewrite (Hsf i (i + j)%nat r r') in Hst;
          [discriminate|lia|assumption..]. }
    unfold range_total, static_total.
    assert (E2 : sum_ArraySize (fun r0 => in_range Range r0 && is_static r0) rs =
                 sum_ArraySize (fun r0 => in_range Range r0 && is_static r0)
                   (take i rs) +
                 sum_ArraySize (fun r0 => in_range Range r0 && is_static r0)
                   (drop i rs)).
    { rewrite <- sum_ArraySize_app, take_drop. reflexivity. }
    rewrite E2, (sum_ArraySize_none _ _ Hnone), Z.add_0_r.
    apply sum_ArraySize_le; [apply Forall_take; exact Hv|].
    intros r' H. apply andb_true_iff in H. apply H.
Qed.

(** X2: when no static resource follows one that is not static, which is
    what the sorting by variable type gives, the static resources of a
    binding range take the first slots of the range: the slots of a static
    resource end at or before the count [CreateLayout] hands to the static
    cache for the range, and every other resource of the range starts at or
    after it.  The offsets of the signature are thus valid offsets into the
    static cache as well, for the static resources. *)
Theorem CreateLayout_static_slots_come_first
  (Desc : PipelineResourceSignatureDesc) (L : Layout)
  (i k : nat) (r : PipelineResourceDesc) (a : ResourceAttribs) :
  valid_desc Desc -> static_first (Resources Desc) ->
  CreateLayout Desc = Some L ->
  Resources Desc !! i = Some r -> lay_Attribs L !! i = Some a ->
  is_sampler r = false ->
  range_index (PipelineResourceToBindingRange r) = Some k ->
  exists StaticCount,
    lay_StaticResCounter L !! k = Some StaticCount /\
    0 <= CacheOffset a /\
    (is_static r = true -> CacheOffset a + ArraySize r <= StaticCount) /\
    (is_static r = false -> StaticCount <= CacheOffset a).
Proof.
  intros Hvd Hsf HL Hr Ha Hs Hk.
  destruct (CreateLayout_valid Desc Hvd) as (L' & HL' & _ & Hoff & Htot).
  assert (L' = L) as -> by congruence.
  destruct (Htot _ _ Hk) as [_ Hsc].
  exists (static_total (PipelineResourceToBindingRange r) (Resources Desc)).
  split; [exact Hsc|].
  rewrite (Hoff _ _ _ Hr Ha Hs).
  destruct Hvd as [Hv _].
  destruct (static_slots_prefix _ _ _ Hv Hsf Hr Hs) as [H1 H2].
  destruct (range_total_take_S _ _ _ _ Hv Hr (in_range_own r Hs)) as (H0 & _).
  split; [exact H0|]. split; assumption.
Qed.

(** ** The hash and the compatibility check, once more *)

Lemma CalculateHash_loop_offsets A B : forall n Hash i,
  (i + n <= length A)%nat ->
  CacheOffset <$> A = CacheOffset <$> B ->
  is_Some (CalculateHash_loop A Hash i n) /\
  CalculateHash_loop A Hash i n = CalculateHash_loop B Hash i n.
Proof.
  intros n Hash i Hlen Hoff. revert Hash i Hlen.
  induction n as [|n IH]; intros Hash i Hlen; simpl.
  - split; [eexists|]; reflexivity.
  - destruct (lookup_lt_is_Some_2 A i ltac:(lia)) as [a Ha].
    assert (Hb : (CacheOffset <$> B) !! i = Some (CacheOffset a)).
    { rewrite <- Hoff, list_lookup_fmap, Ha. reflexivity. }
    rewrite list_lookup_fmap in Hb.
    destruct (B !! i) as [b|]; [|discriminate Hb].
    injection Hb as Hb. rewrite Ha. simpl. rewrite Hb. apply IH. lia.
Qed.

(** X3: the hash of a signature is computed from its description and from
    the cache offsets of its resources, in order, and from nothing else:
    two attribute arrays with one entry per resource and the same offsets
    give the same hash, whatever their sampler indices and immutable-sampler
    flags are; with one entry per resource the hash loop reads no entry
    outside the array. *)
Theorem CalculateHash_reads_only_cache_offsets
  (Desc : PipelineResourceSignatureDesc) (A B : list ResourceAttribs) :
  length A = length (Resources Desc) ->
  CacheOffset <$> A = CacheOffset <$> B ->
  exists Hash, CalculateHash Desc A = Some Hash /\ CalculateHash Desc B = Some Hash.
Proof.
  intros HA Hoff. unfold CalculateHash.
  destruct (_ && _); [exists 0; split; reflexivity|].
  destruct (CalculateHash_loop_offsets A B (length (Resources Desc))
              (CalculatePipelineResourceSignatureDescHash Desc) 0
              ltac:(lia) Hoff) as [[h Hh] Heq].
  exists h. split; [exact Hh|]. rewrite <- Heq. exact Hh.
Qed.

Lemma IsCompatibleWith_loop_defined This Other : forall n r,
  (r + n <= length This)%nat -> (r + n <= length Other)%nat ->
  is_Some (IsCompatibleWith_loop This Other r n).
Proof.
  induction n as [|n IH]; intros r H1 H2; simpl.
  - eexists. reflexivity.
  - destruct (lookup_lt_is_Some_2 This r ltac:(lia)) as [lhs ->].
    destruct (lookup_lt_is_Some_2 Other r ltac:(lia)) as [rhs ->]. simpl.
    destruct (negb _); [eexists; reflexivity|]. apply IH; lia.
Qed.

(** On two signatures that have one attribute entry per resource, the check
    reads no entry outside the arrays, provided descriptions that compare
    compatible have the same number of resources. *)
Lemma IsCompatibleWith_defined
  (heap : gmap nat PipelineResourceSignatureGLImpl) (this Other : nat)
  (S T : PipelineResourceSignatureGLImpl) :
  (forall d1 d2, PipelineResourceSignaturesCompatible d1 d2 = true ->
     length (Resources d1) = length (Resources d2)) ->
  heap !! this = Some S -> heap !! Other = Some T ->
  length (m_pResourceAttribs S) = length (Resources (m_Desc S)) ->
  length (m_pResourceAttribs T) = length (Resources (m_Desc T)) ->
  is_Some (IsCompatibleWith heap this Other).
Proof.
  intros Hnum HS HT HlS HlT. unfold IsCompatibleWith.
  destruct (decide (this = Other)); [eexists; reflexivity|].
  rewrite HS, HT. simpl.
  destruct (negb (m_Hash S =? m_Hash T)); [eexists; reflexivity|].
  destruct (bool_decide _); [eexists; reflexivity|].
  destruct (PipelineResourceSignaturesCompatible (m_Desc S) (m_Desc T)) eqn:Ec;
    simpl; [|eexists; reflexivity].
  apply Hnum in Ec. apply IsCompatibleWith_loop_defined; lia.
Qed.

(** X4: compatibility does not depend on the side it is asked from.  When
    the comparison of descriptions is symmetric and accepts only
    descriptions with the same number of resources, and the two signatures
    have one attribute entry per resource, [IsCompatibleWith] gives an
    answer, and the same answer with the two signatures exchanged. *)
Theorem IsCompatibleWith_symmetric
  (heap : gmap nat PipelineResourceSignatureGLImpl) (this Other : nat)
  (S T : PipelineResourceSignatureGLImpl) :
  (forall d1 d2, PipelineResourceSignaturesCompatible d1 d2 =
                 PipelineResourceSignaturesCompatible d2 d1) ->
  (forall d1 d2, PipelineResourceSignaturesCompatible d1 d2 = true ->
     length (Resources d1) = length (Resources d2)) ->
  heap !! this = Some S -> heap !! Other = Some T ->
  length (m_pResourceAttribs S) = length (Resources (m_Desc S)) ->
  length (m_pResourceAttribs T) = length (Resources (m_Desc T)) ->
  exists b,
    IsCompatibleWith heap this Other = Some b /\
    IsCompatibleWith heap Other this = Some b.
Proof.
  intros Hsym Hnum HS HT HlS HlT.
  destruct (IsCompatibleWith_defined heap this Other S T Hnum HS HT HlS HlT)
    as [b1 H1].
  destruct (IsCompatibleWith_defined heap Other this T S Hnum HT HS HlT HlS)
    as [b2 H2].
  exists b1. split; [exact H1|]. rewrite H2. f_equal.
  assert (Hdir : forall x y X Y bx,
            heap !! x = Some X -> heap !! y = Some Y ->
            IsCompatibleWith heap x y = Some true ->
            IsCompatibleWith heap y x = Some bx -> bx = true).
  { intros x y X Y bx HX HY Hxy Hyx.
    apply (IsCompatibleWith_characterisation heap x y X Y HX HY) in Hxy.
    assert (Hyx' : IsCompatibleWith heap y x = Some true); [|congruence].
    apply (IsCompatibleWith_characterisation heap y x Y X HY HX).
    destruct Hxy as [->|(Hh & Hb & Hd & Hres)]; [left; reflexivity|].
    right. split; [congruence|]. split; [congruence|].
    split; [rewrite Hsym; exact Hd|].
    intros r Hr. rewrite <- (Hnum _ _ Hd) in Hr.
    destruct (Hres r Hr) as (lhs & rhs & El & Er & E1 & E2).
    exists rhs, lhs. repeat split; congruence. }
  destruct b1, b2; try reflexivity.
  - eapply Hdir; [exact HS|exact HT|exact H1|exact H2].
  - symmetry. eapply Hdir; [exact HT|exact HS|exact H2|exact H1].
Qed.

(** X5: compatibility carries over a chain.  When the comparison of
    descriptions is transitive and accepts only descriptions with the same
    number of resources, a signature that is compatible with a second one,
    which is compatible with a third, is compatible with the third. *)
Theorem IsCompatibleWith_transitive
  (heap : gmap nat PipelineResourceSignatureGLImpl) (s1 s2 s3 : nat)
  (S1 S2 S3 : PipelineResourceSignatureGLImpl) :
  (forall d1 d2 d3, PipelineResourceSignaturesCompatible d1 d2 = true ->
     PipelineResourceSignaturesCompatible d2 d3 = true ->
     PipelineResourceSignaturesCompatible d1 d3 = true) ->
  (forall d1 d2, PipelineResourceSignaturesCompatible d1 d2 = true ->
     length (Resources d1) = length (Resources d2)) ->
  heap !! s1 = Some S1 -> heap !! s2 = Some S2 -> heap !! s3 = Some S3 ->
  IsCompatibleWith heap s1 s2 = Some true ->
  IsCompatibleWith heap s2 s3 = Some true ->
  IsCompatibleWith heap s1 s3 = Some true.
Proof.
  intros Htrans Hnum H1 H2 H3 H12 H23.
  apply (IsCompatibleWith_characterisation heap s1 s2 S1 S2 H1 H2) in H12.
  apply (IsCompatibleWith_characterisation heap s2 s3 S2 S3 H2 H3) in H23.
  apply (IsCompatibleWith_characterisation heap s1 s3 S1 S3 H1 H3).
  destruct H12 as [E12|(Hh12 & Hb12 & Hd12 & Hr12)].
  { subst s2. assert (S2 = S1) as -> by congruence. exact H23. }
  destruct H23 as [E23|(Hh23 & Hb23 & Hd23 & Hr23)].
  { subst s3. assert (S3 = S2) as -> by congruence.
    right. repeat split; assumption. }
  right. split; [congruence|]. split; [congruence|].
  split; [eapply Htrans; eassumption|].
  intros r Hr.
  destruct (Hr12 r Hr) as (a1 & a2 & E1 & E2 & Eo & Ei).
  rewrite (Hnum _ _ Hd12) in Hr.
  destruct (Hr23 r Hr) as (a2' & a3 & E2' & E3 & Eo' & Ei').
  assert (a2' = a2) as -> by congruence.
  exists a1, a3. repeat split; congruence.
Qed.

(** ** Sampler indices *)

(** Every entry of the attribute array was made by a step of the layout
    loop. *)
Lemma CreateLayout_loop_lookup Desc rs : forall bc sc L i r a,
  CreateLayout_loop Desc rs bc sc = Some L ->
  rs !! i = Some r -> lay_Attribs L !! i = Some a ->
  exists bc0 sc0 bc1 sc1,
    CreateLayout_resource Desc r bc0 sc0 = Some (a, bc1, sc1).
Proof.
  induction rs as [|r0 rs IH]; intros bc sc L i r a Hrun Hr Ha;
    [destruct i; discriminate Hr|].
  simpl in Hrun.
  destruct (CreateLayout_resource Desc r0 bc sc) as [[[a0 bc'] sc']|] eqn:E0;
    simpl in Hrun; [|discriminate].
  destruct (CreateLayout_loop Desc rs bc' sc') as [L'|] eqn:EL; simpl in Hrun;
    [|discriminate].
  injection Hrun as <-. destruct i as [|i]; simpl in Hr, Ha.
  - injection Hr as <-. injection Ha as <-. eauto.
  - eapply IH; eassumption.
Qed.

(** X12: only separate samplers and texture SRVs get an immutable sampler.
    When the layout marks a resource as having one, the resource is a
    sampler or a texture SRV and its sampler index is the index that the
    immutable-sampler look-up found for it, which is not the invalid index.
    When it does not, the sampler index is the invalid sampler index,
    except for a texture SRV, where it is what [FindAssignedSampler]
    answers. *)
Theorem CreateLayout_immutable_sampler_assignment
  (Desc : PipelineResourceSignatureDesc) (L : Layout) (i : nat)
  (r : PipelineResourceDesc) (a : ResourceAttribs) :
  CreateLayout Desc = Some L ->
  Resources Desc !! i = Some r -> lay_Attribs L !! i = Some a ->
  (ImtblSamplerAssigned a = true ->
   SamplerInd a <> InvalidImmutableSamplerIndex /\
   ((ResourceType r = SHADER_RESOURCE_TYPE_SAMPLER /\
     SamplerInd a = FindImmutableSampler_member Desc (ShaderStages r) (Name r)) \/
    (ResourceType r = SHADER_RESOURCE_TYPE_TEXTURE_SRV /\
     SamplerInd a = FindImmutableSampler (ImmutableSamplers Desc)
                      (ShaderStages r) (Name r) None))) /\
  (ImtblSamplerAssigned a = false ->
   SamplerInd a =
     if decide (ResourceType r = SHADER_RESOURCE_TYPE_TEXTURE_SRV)
     then FindAssignedSampler Desc r InvalidSamplerInd
     else InvalidSamplerInd).
Proof.
  intros HL Hr Ha.
  destruct (CreateLayout_loop_lookup _ _ _ _ _ _ _ _ HL Hr Ha)
    as (bc0 & sc0 & bc1 & sc1 & Hstep).
  unfold CreateLayout_resource in Hstep.
  destruct (decide (ResourceType r = SHADER_RESOURCE_TYPE_SAMPLER)) as [Es|Es].
  - injection Hstep as <- _ _. simpl.
    destruct (Z.eqb_spec (FindImmutableSampler_member Desc (ShaderStages r) (Name r))
                InvalidImmutableSamplerIndex) as [Ei|Ei]; simpl.
    + split; [discriminate|]. intros _.
      rewrite decide_False by (rewrite Es; discriminate). reflexivity.
    + split; [|discriminate]. intros _. split; [exact Ei|]. left. auto.
  - cbv zeta in Hstep.
    destruct (range_index (PipelineResourceToBindingRange r)) as [k|];
      simpl in Hstep; [|discriminate].
    destruct (bc0 !! k) as [c|]; simpl in Hstep; [|discriminate].
    assert (Ea : a =
              mkResourceAttribs c
                (if decide (ResourceType r = SHADER_RESOURCE_TYPE_TEXTURE_SRV)
                 then
                   if negb
                        ((if decide (ResourceType r = SHADER_RESOURCE_TYPE_TEXTURE_SRV)
                          then FindImmutableSampler (ImmutableSamplers Desc)
                                 (ShaderStages r) (Name r) None
                          else InvalidImmutableSamplerIndex)
                         =? InvalidImmutableSamplerIndex)
                   then
                     if decide (ResourceType r = SHADER_RESOURCE_TYPE_TEXTURE_SRV)
                     then FindImmutableSampler (ImmutableSamplers Desc)
                            (ShaderStages r) (Name r) None
                     else InvalidImmutableSamplerIndex
                   else FindAssignedSampler Desc r InvalidSamplerInd
                 else InvalidSamplerInd)
                (negb
                   ((if decide (ResourceType r = SHADER_RESOURCE_TYPE_TEXTURE_SRV)
                     then FindImmutableSampler (ImmutableSamplers Desc)
                            (ShaderStages r) (Name r) None
                     else InvalidImmutableSamplerIndex)
                    =? InvalidImmutableSamplerIndex))).
    { destruct (decide (VarType r = SHADER_RESOURCE_VARIABLE_TYPE_STATIC)).
      - destruct (sc0 !! k); simpl in Hstep; [|discriminate].
        injection Hstep as <- _ _. reflexivity.
      - injection Hstep as <- _ _. reflexivity. }
    subst a. simpl.
    destruct (decide (ResourceType r = SHADER_RESOURCE_TYPE_TEXTURE_SRV)) as [Et|Et].
    + destruct (Z.eqb_spec (FindImmutableSampler (ImmutableSamplers Desc)
                              (ShaderStages r) (Name r) None)
                  InvalidImmutableSamplerIndex) as [Ei|Ei]; simpl.
      * split; [discriminate|]. reflexivity.
      * split; [|discriminate]. intros _. split; [exact Ei|]. right. auto.
    + rewrite Z.eqb_refl. simpl. split; [discriminate|]. reflexivity.
Qed.
(** ** The OpenGL signature and the resource caches *)

Section CacheTheorems.

Context {CE : CacheEnv}.

(** What a loop that collects the calls of its iterations returns is made
    of what the iterations return. *)
Lemma mapM_join_elem {A B : Type} (f : A -> option (list B))
  (l : list A) (k : list (list B)) (x : B) :
  mapM f l = Some k -> x ∈ mjoin k ->
  exists a ys, a ∈ l /\ f a = Some ys /\ x ∈ ys.
Proof.
  intros Hm Hx. apply mapM_Some_1 in Hm.
  apply list_elem_of_join in Hx. destruct Hx as (ys & Hx & Hys).
  apply list_elem_of_lookup in Hys. destruct Hys as [j Hj].
  destruct (Forall2_lookup_r _ _ _ _ _ Hm Hj) as (a & Ha & Hfa).
  exists a, ys. split; [eapply list_elem_of_lookup_2; exact Ha|]. auto.
Qed.

Lemma mapM_join_intro {A B : Type} (f : A -> option (list B))
  (l : list A) (k : list (list B)) (a : A) (ys : list B) (x : B) :
  mapM f l = Some k -> a ∈ l -> f a = Some ys -> x ∈ ys -> x ∈ mjoin k.
Proof.
  intros Hm Ha Hfa Hx. apply mapM_Some_1 in Hm.
  apply list_elem_of_lookup in Ha. destruct Ha as [j Hj].
  destruct (Forall2_lookup_l _ _ _ _ _ Hm Hj) as (ys' & Hys' & Hfa').
  assert (ys' = ys) as -> by congruence.
  apply list_elem_of_join. exists ys. split; [exact Hx|].
  eapply list_elem_of_lookup_2; exact Hys'.
Qed.

Lemma for_ArrInd_elem n body calls c :
  for_ArrInd n body = Some calls -> c ∈ calls ->
  exists ArrInd ys, 0 <= ArrInd < n /\ body ArrInd = Some ys /\ c ∈ ys.
Proof.
  unfold for_ArrInd. intros Hrun Hc.
  destruct (mapM body _) as [k|] eqn:Hm; simpl in Hrun; [|discriminate].
  injection Hrun as <-.
  destruct (mapM_join_elem _ _ _ _ Hm Hc) as (a & ys & Ha & Hfa & Hys).
  apply list_elem_of_fmap in Ha. destruct Ha as (j & -> & Hj).
  apply elem_of_seq in Hj.
  exists (Z.of_nat j), ys. split; [lia|]. auto.
Qed.

Lemma for_ArrInd_is_Some n body :
  (forall ArrInd, 0 <= ArrInd < n -> is_Some (body ArrInd)) ->
  is_Some (for_ArrInd n body).
Proof.
  intros Hbody. unfold for_ArrInd.
  destruct (mapM_is_Some_2 body (Z.of_nat <$> seq 0 (Z.to_nat n))) as [k ->];
    [|eexists; reflexivity].
  apply Forall_forall. intros a Ha.
  apply list_elem_of_fmap in Ha. destruct Ha as (j & -> & Hj).
  apply elem_of_seq in Hj. apply Hbody. lia.
Qed.

(** A binding call of the body of the copy loop binds, at a slot of the
    resource, what the static cache holds at that slot of the range of the
    resource. *)
Lemma CopyStaticResources_resource_call Desc Src ResDesc ResAttr calls c
  Range Offset p :
  CopyStaticResources_resource Desc Src ResDesc ResAttr = Some calls ->
  c ∈ calls -> bound_slot c = Some (Range, Offset, p) ->
  ResourceType ResDesc <> SHADER_RESOURCE_TYPE_SAMPLER /\
  PipelineResourceToBindingRange ResDesc = Range /\
  cached_object Src Range Offset = Some p /\
  exists ArrInd, 0 <= ArrInd < ArraySize ResDesc /\
    Offset = Uint32_add (CacheOffset ResAttr) ArrInd.
Proof.
  unfold CopyStaticResources_resource. intros Hrun Hc Hb.
  destruct (decide (ResourceType ResDesc = SHADER_RESOURCE_TYPE_SAMPLER)) as [Es|Es].
  { injection Hrun as <-. apply elem_of_nil in Hc. contradiction. }
  split; [exact Es|].
  assert (Hlog : forall ArrInd q, c ∈ log_unassigned Desc ResDesc ArrInd q -> False).
  { intros ArrInd q Hq. destruct q; simpl in Hq.
    - apply elem_of_nil in Hq. contradiction.
    - apply list_elem_of_singleton in Hq. subst c. discriminate Hb. }
  destruct (PipelineResourceToBindingRange ResDesc) eqn:ER.
  - destruct (for_ArrInd_elem _ _ _ _ Hrun Hc) as (ArrInd & ys & Hi & Hbody & Hys).
    cbv zeta in Hbody.
    destruct (cache_UBs Src !! _) as [q|] eqn:Eq; simpl in Hbody; [|discriminate].
    injection Hbody as <-. apply elem_of_app in Hys.
    destruct Hys as [Hys|Hys]; [destruct (Hlog _ _ Hys)|].
    apply list_elem_of_singleton in Hys. subst c. simpl in Hb.
    injection Hb as <- <- <-. split; [reflexivity|]. split; [exact Eq|].
    exists ArrInd. split; [exact Hi|reflexivity].
  - destruct (for_ArrInd_elem _ _ _ _ Hrun Hc) as (ArrInd & ys & Hi & Hbody & Hys).
    cbv zeta in Hbody.
    destruct (cache_Textures Src !! _) as [q|] eqn:Eq; simpl in Hbody;
      [|discriminate].
    injection Hbody as <-. apply elem_of_app in Hys.
    destruct Hys as [Hys|Hys]; [destruct (Hlog _ _ Hys)|].
    assert (Hgoal : bound_slot c
                    = Some (BINDING_RANGE_TEXTURE,
                            Uint32_add (CacheOffset ResAttr) ArrInd, pView q)).
    { destruct (_ || _).
      - apply list_elem_of_singleton in Hys. subst c. reflexivity.
      - destruct (bool_decide _).
        + apply list_elem_of_singleton in Hys. subst c. reflexivity.
        + apply elem_of_nil in Hys. contradiction. }
    rewrite Hgoal in Hb. injection Hb as <- <- <-.
    split; [reflexivity|]. split; [simpl; rewrite Eq; reflexivity|].
    exists ArrInd. split; [exact Hi|reflexivity].
  - destruct (for_ArrInd_elem _ _ _ _ Hrun Hc) as (ArrInd & ys & Hi & Hbody & Hys).
    cbv zeta in Hbody.
    destruct (cache_Images Src !! _) as [q|] eqn:Eq; simpl in Hbody;
      [|discriminate].
    injection Hbody as <-. apply elem_of_app in Hys.
    destruct Hys as [Hys|Hys]; [destruct (Hlog _ _ Hys)|].
    assert (Hgoal : bound_slot c
                    = Some (BINDING_RANGE_IMAGE,
                            Uint32_add (CacheOffset ResAttr) ArrInd, pView q)).
    { destruct (bool_decide _).
      - apply list_elem_of_singleton in Hys. subst c. reflexivity.
      - destruct (_ || _).
        + apply list_elem_of_singleton in Hys. subst c. reflexivity.
        + apply elem_of_nil in Hys. contradiction. }
    rewrite Hgoal in Hb. injection Hb as <- <- <-.
    split; [reflexivity|]. split; [simpl; rewrite Eq; reflexivity|].
    exists ArrInd. split; [exact Hi|reflexivity].
  - destruct (for_ArrInd_elem _ _ _ _ Hrun Hc) as (ArrInd & ys & Hi & Hbody & Hys).
    cbv zeta in Hbody.
    destruct (cache_SSBOs Src !! _) as [q|] eqn:Eq; simpl in Hbody; [|discriminate].
    injection Hbody as <-. apply elem_of_app in Hys.
    destruct Hys as [Hys|Hys]; [destruct (Hlog _ _ Hys)|].
    apply list_elem_of_singleton in Hys. subst c. simpl in Hb.
    injection Hb as <- <- <-. split; [reflexivity|]. split; [exact Eq|].
    exists ArrInd. split; [exact Hi|reflexivity].
  - injection Hrun as <-. apply elem_of_nil in Hc. contradiction.
Qed.

(** The calls of the copy loop come from the resources of the index
    range. *)
Lemma CopyStaticResources_loop_elem this Src first second calls c :
  CopyStaticResources_loop this Src first second = Some calls -> c ∈ calls ->
  exists r ResDesc ResAttr ys,
    (first <= r < second)%nat /\
    Resources (m_Desc this) !! r = Some ResDesc /\
    m_pResourceAttribs this !! r = Some ResAttr /\
    CopyStaticResources_resource (m_Desc this) Src ResDesc ResAttr = Some ys /\
    c ∈ ys.
Proof.
  unfold CopyStaticResources_loop. intros Hrun Hc.
  destruct (mapM _ _) as [k|] eqn:Hm; simpl in Hrun; [|discriminate].
  injection Hrun as <-.
  destruct (mapM_join_elem _ _ _ _ Hm Hc) as (r & ys & Hr & Hfr & Hys).
  apply elem_of_seq in Hr.
  destruct (Resources (m_Desc this) !! r) as [ResDesc|] eqn:ED; simpl in Hfr;
    [|discriminate].
  destruct (m_pResourceAttribs this !! r) as [ResAttr|] eqn:EA; simpl in Hfr;
    [|discriminate].
  exists r, ResDesc, ResAttr, ys. split; [lia|].
  split; [exact ED|]. split; [exact EA|]. split; assumption.
Qed.

(** X6: [CopyStaticResources] copies, it does not rebind: every object it
    binds in the destination cache is the object the static cache of the
    signature holds at the same slot of the same binding range, null or
    not, and the slot is one of the slots of a resource of the static index
    range that is no sampler, in the range that resource is classified
    into. *)
Theorem CopyStaticResources_copies_from_static_cache
  (DILIGENT_DEVELOPMENT : bool) (this : PipelineResourceSignatureGLImpl)
  (SrcResourceCache : ShaderResourceCacheGL) (calls : list CacheCall)
  (c : CacheCall) (Range : BINDING_RANGE) (Offset : Z) (p : option nat) :
  CopyStaticResources DILIGENT_DEVELOPMENT this (Some SrcResourceCache)
    = Some calls ->
  c ∈ calls -> bound_slot c = Some (Range, Offset, p) ->
  cached_object SrcResourceCache Range Offset = Some p /\
  exists r ResDesc ResAttr ArrInd,
    (fst (GetResourceIndexRange this SHADER_RESOURCE_VARIABLE_TYPE_STATIC) <= r
     < snd (GetResourceIndexRange this SHADER_RESOURCE_VARIABLE_TYPE_STATIC))%nat /\
    Resources (m_Desc this) !! r = Some ResDesc /\
    m_pResourceAttribs this !! r = Some ResAttr /\
    ResourceType ResDesc <> SHADER_RESOURCE_TYPE_SAMPLER /\
    PipelineResourceToBindingRange ResDesc = Range /\
    0 <= ArrInd < ArraySize ResDesc /\
    Offset = Uint32_add (CacheOffset ResAttr) ArrInd.
Proof.
  unfold CopyStaticResources. cbv zeta. intros Hrun Hc Hb.
  destruct (CopyStaticResources_loop this SrcResourceCache _ _) as [body|] eqn:El;
    simpl in Hrun; [|discriminate].
  injection Hrun as <-. apply elem_of_app in Hc. destruct Hc as [Hc|Hc].
  - destruct (CopyStaticResources_loop_elem _ _ _ _ _ _ El Hc)
      as (r & ResDesc & ResAttr & ys & Hr & HD & HA & Hys & Hcy).
    destruct (CopyStaticResources_resource_call _ _ _ _ _ _ _ _ _ Hys Hcy Hb)
      as (Hs & HR & Hobj & ArrInd & Hi & Ho).
    split; [exact Hobj|].
    exists r, ResDesc, ResAttr, ArrInd. repeat split; try assumption; lia.
  - destruct DILIGENT_DEVELOPMENT.
    + apply list_elem_of_singleton in Hc. subst c. discriminate Hb.
    + apply elem_of_nil in Hc. contradiction.
Qed.

(** The body of the copy loop binds and logs, and does nothing else. *)
Lemma CopyStaticResources_resource_kinds Desc Src ResDesc ResAttr calls c :
  CopyStaticResources_resource Desc Src ResDesc ResAttr = Some calls ->
  c ∈ calls ->
  is_Some (bound_slot c) \/ exists msg, c = LOG_ERROR_MESSAGE msg.
Proof.
  unfold CopyStaticResources_resource. intros Hrun Hc.
  destruct (decide (ResourceType ResDesc = SHADER_RESOURCE_TYPE_SAMPLER)) as [Es|Es].
  { injection Hrun as <-. apply elem_of_nil in Hc. contradiction. }
  assert (Hlog : forall ArrInd q, c ∈ log_unassigned Desc ResDesc ArrInd q ->
                   exists msg, c = LOG_ERROR_MESSAGE msg).
  { intros ArrInd q Hq. destruct q; simpl in Hq.
    - apply elem_of_nil in Hq. contradiction.
    - apply list_elem_of_singleton in Hq. subst c. eauto. }
  destruct (PipelineResourceToBindingRange ResDesc) eqn:ER;
    try (injection Hrun as <-; apply elem_of_nil in Hc; contradiction);
    destruct (for_ArrInd_elem _ _ _ _ Hrun Hc) as (ArrInd & ys & Hi & Hbody & Hys);
    cbv zeta in Hbody;
    match type of Hbody with
    | context [?l !! ?i] => destruct (l !! i) as [q|]; simpl in Hbody;
                            [|discriminate]
    end;
    injection Hbody as <-; apply elem_of_app in Hys;
    (destruct Hys as [Hys|Hys]; [right; eapply Hlog; exact Hys|]); left;
    repeat match type of Hys with
           | context [if ?b then _ else _] => destruct b
           end;
    first [ apply list_elem_of_singleton in Hys; subst c; eexists; reflexivity
          | apply elem_of_nil in Hys; contradiction ].
Qed.

(** X7: a signature without static cache leaves the destination cache
    alone.  With one, [CopyStaticResources] binds and logs and does nothing
    else in a build without [DILIGENT_DEVELOPMENT]; a development build
    does the same and then, as its last call and only there, marks the
    static resources of the destination as initialised. *)
Theorem CopyStaticResources_marks_initialised_last
  (this : PipelineResourceSignatureGLImpl)
  (SrcResourceCache : ShaderResourceCacheGL) :
  (forall DILIGENT_DEVELOPMENT,
     CopyStaticResources DILIGENT_DEVELOPMENT this None = Some []) /\
  (forall calls,
     CopyStaticResources true this (Some SrcResourceCache) = Some calls ->
     exists copies,
       CopyStaticResources false this (Some SrcResourceCache) = Some copies /\
       calls = copies ++ [SetStaticResourcesInitialized] /\
       forall c, c ∈ copies ->
         is_Some (bound_slot c) \/ exists msg, c = LOG_ERROR_MESSAGE msg).
Proof.
  split; [reflexivity|].
  unfold CopyStaticResources. cbv zeta. intros calls Hrun.
  destruct (CopyStaticResources_loop this SrcResourceCache _ _) as [body|] eqn:El;
    simpl in Hrun |- *; [|discriminate].
  injection Hrun as <-. exists body. rewrite app_nil_r.
  split; [reflexivity|]. split; [reflexivity|].
  intros c Hc.
  destruct (CopyStaticResources_loop_elem _ _ _ _ _ _ El Hc)
    as (r & ResDesc & ResAttr & ys & _ & _ & _ & Hys & Hcy).
  eapply CopyStaticResources_resource_kinds; eassumption.
Qed.

(** The constructor stores the description and what [CreateLayout]
    computed. *)
Lemma ctor_layout Desc L this :
  CreateLayout Desc = Some L ->
  PipelineResourceSignatureGLImpl_ctor Desc = Some this ->
  m_Desc this = Desc /\ m_pResourceAttribs this = lay_Attribs L /\
  m_BindingCount this = lay_BindingCount L.
Proof.
  unfold PipelineResourceSignatureGLImpl_ctor. intros ->. simpl.
  destruct (CalculateHash Desc (lay_Attribs L)); simpl; [|discriminate].
  intros [= <-]. repeat split; reflexivity.
Qed.

(** In the layout of a valid description a slot of a resource is a slot of
    the cache of its range: below the count of the range, and below the
    static count of the range for a static resource when the static
    resources come first.  The offset arithmetic does not wrap around. *)
Lemma slot_in_range Desc L i r a k ArrInd :
  valid_desc Desc -> CreateLayout Desc = Some L ->
  Resources Desc !! i = Some r -> lay_Attribs L !! i = Some a ->
  is_sampler r = false ->
  range_index (PipelineResourceToBindingRange r) = Some k ->
  0 <= ArrInd < ArraySize r ->
  exists Count StaticCount,
    lay_BindingCount L !! k = Some Count /\
    lay_StaticResCounter L !! k = Some StaticCount /\
    0 <= Uint32_add (CacheOffset a) ArrInd < Count /\
    (static_first (Resources Desc) -> is_static r = true ->
     Uint32_add (CacheOffset a) ArrInd < StaticCount).
Proof.
  intros Hvd HL Hr Ha Hs Hk Hi.
  destruct (CreateLayout_valid Desc Hvd) as (L' & HL' & _ & Hoff & Htot).
  assert (L' = L) as -> by congruence.
  destruct (Htot _ _ Hk) as [Hbc Hsc].
  destruct Hvd as [Hv Hsum].
  destruct (range_total_take_S _ _ _ _ Hv Hr (in_range_own r Hs)) as (H0 & H1 & H2).
  pose proof (sum_ArraySize_le (in_range (PipelineResourceToBindingRange r))
                (fun r0 => negb (is_sampler r0)) (Resources Desc) Hv) as Hle.
  assert (Hlt : range_total (PipelineResourceToBindingRange r) (Resources Desc)
                < Uint32_modulus).
  { unfold range_total.
    assert (sum_ArraySize (in_range (PipelineResourceToBindingRange r))
              (Resources Desc)
            <= sum_ArraySize (fun r0 => negb (is_sampler r0)) (Resources Desc));
      [|lia].
    apply Hle. intros r0 Hr0. apply in_range_true in Hr0.
    destruct Hr0 as [-> _]. reflexivity. }
  assert (Eadd : Uint32_add (CacheOffset a) ArrInd = CacheOffset a + ArrInd).
  { rewrite (Hoff _ _ _ Hr Ha Hs). apply Uint32_add_small; lia. }
  eexists _, _. split; [exact Hbc|]. split; [exact Hsc|].
  rewrite Eadd, (Hoff _ _ _ Hr Ha Hs). split; [lia|].
  intros Hsf Hst.
  destruct (static_slots_prefix _ _ _ Hv Hsf Hr Hs) as [Hp _].
  specialize (Hp Hst). lia.
Qed.

(** X8: with the layout of a valid, sorted description, a static cache
    that was initialised with the static counts of [CreateLayout], and a
    static index range that lies within the resource array and holds static
    resources only, [CopyStaticResources] reads no slot outside the static
    cache and no resource outside the arrays of the signature: it runs to
    its end. *)
Theorem CopyStaticResources_reads_within_static_cache
  (DILIGENT_DEVELOPMENT : bool) (Desc : PipelineResourceSignatureDesc)
  (L : Layout) (this : PipelineResourceSignatureGLImpl)
  (SrcResourceCache : ShaderResourceCacheGL) :
  valid_desc Desc -> static_first (Resources Desc) ->
  CreateLayout Desc = Some L ->
  PipelineResourceSignatureGLImpl_ctor Desc = Some this ->
  cache_sized (lay_StaticResCounter L) SrcResourceCache ->
  (snd (GetResourceIndexRange this SHADER_RESOURCE_VARIABLE_TYPE_STATIC)
   <= length (Resources Desc))%nat ->
  (forall r ResDesc,
     (fst (GetResourceIndexRange this SHADER_RESOURCE_VARIABLE_TYPE_STATIC) <= r
      < snd (GetResourceIndexRange this SHADER_RESOURCE_VARIABLE_TYPE_STATIC))%nat ->
     Resources Desc !! r = Some ResDesc -> is_static ResDesc = true) ->
  is_Some (CopyStaticResources DILIGENT_DEVELOPMENT this (Some SrcResourceCache)).
Proof.
  intros Hvd Hsf HL Hctor Hsized Hsnd Hstatic.
  destruct (ctor_layout _ _ _ HL Hctor) as (ED & EA & _).
  pose proof (CreateLayout_loop_length _ _ _ _ _ HL) as Hlen.
  unfold CopyStaticResources. cbv zeta.
  set (first := fst (GetResourceIndexRange this _)) in *.
  set (second := snd (GetResourceIndexRange this _)) in *.
  assert (Hloop : is_Some (CopyStaticResources_loop this SrcResourceCache
                             first second)).
  { unfold CopyStaticResources_loop.
    destruct (mapM_is_Some_2
                (fun r =>
                   ResDesc ← Resources (m_Desc this) !! r;
                   ResAttr ← m_pResourceAttribs this !! r;
                   CopyStaticResources_resource (m_Desc this) SrcResourceCache
                     ResDesc ResAttr)
                (seq first (second - first))) as [k ->];
      [|eexists; reflexivity].
    apply Forall_forall. intros r Hr. apply elem_of_seq in Hr. simpl.
    rewrite ED, EA.
    destruct (lookup_lt_is_Some_2 (Resources Desc) r ltac:(lia)) as [ResDesc HD].
    destruct (lookup_lt_is_Some_2 (lay_Attribs L) r ltac:(lia)) as [ResAttr HA].
    rewrite HD, HA. simpl.
    assert (Hst : is_static ResDesc = true).
    { apply (Hstatic r); [lia|exact HD]. }
    unfold CopyStaticResources_resource.
    destruct (decide (ResourceType ResDesc = SHADER_RESOURCE_TYPE_SAMPLER))
      as [Es|Es]; [eexists; reflexivity|].
    assert (Hs : is_sampler ResDesc = false).
    { apply bool_decide_eq_false. exact Es. }
    assert (Hvr : valid_resource ResDesc).
    { destruct Hvd as [Hv _]. eapply Forall_lookup_1; eassumption. }
    destruct (valid_resource_range _ Hvr Hs) as [k Hk].
    assert (Hslot : forall ArrInd, 0 <= ArrInd < ArraySize ResDesc ->
              exists n, lay_StaticResCounter L !! k = Some n /\
                0 <= Uint32_add (CacheOffset ResAttr) ArrInd < n).
    { intros ArrInd Hi.
      destruct (slot_in_range Desc L r ResDesc ResAttr k ArrInd Hvd HL HD HA Hs Hk Hi)
        as (Count & n & _ & Hn & [H0 _] & Hlt).
      exists n. split; [exact Hn|]. split; [exact H0|]. apply Hlt; assumption. }
    destruct Hsized as (S0 & S1 & S2 & S3).
    destruct (PipelineResourceToBindingRange ResDesc) eqn:ER; simpl in Hk;
      try discriminate Hk; injection Hk as <-;
      try (apply for_ArrInd_is_Some; intros ArrInd Hi; cbv zeta;
           destruct (Hslot ArrInd Hi) as (n & Hn & Hlo & Hhi)).
    - rewrite S0 in Hn. injection Hn as <-.
      destruct (lookup_lt_is_Some_2 (cache_UBs SrcResourceCache)
                  (Z.to_nat (Uint32_add (CacheOffset ResAttr) ArrInd))
                  ltac:(lia)) as [q ->].
      eexists. reflexivity.
    - rewrite S1 in Hn. injection Hn as <-.
      destruct (lookup_lt_is_Some_2 (cache_Textures SrcResourceCache)
                  (Z.to_nat (Uint32_add (CacheOffset ResAttr) ArrInd))
                  ltac:(lia)) as [q ->].
      eexists. reflexivity.
    - rewrite S2 in Hn. injection Hn as <-.
      destruct (lookup_lt_is_Some_2 (cache_Images SrcResourceCache)
                  (Z.to_nat (Uint32_add (CacheOffset ResAttr) ArrInd))
                  ltac:(lia)) as [q ->].
      eexists. reflexivity.
    - rewrite S3 in Hn. injection Hn as <-.
      destruct (lookup_lt_is_Some_2 (cache_SSBOs SrcResourceCache)
                  (Z.to_nat (Uint32_add (CacheOffset ResAttr) ArrInd))
                  ltac:(lia)) as [q ->].
      eexists. reflexivity. }
  destruct Hloop as [calls ->]. simpl. eexists. reflexivity.
Qed.

(** The calls of the sampler loop of [InitSRBResourceCache]. *)
Lemma InitSRBResourceCache_calls this m_ImmutableSamplers calls :
  InitSRBResourceCache this m_ImmutableSamplers = Some calls ->
  exists rest,
    calls = Cache_Initialize (m_BindingCount this) :: rest /\
    forall c, c ∈ rest ->
      exists r ResDesc ResAttr ArrInd p,
        Resources (m_Desc this) !! r = Some ResDesc /\
        m_pResourceAttribs this !! r = Some ResAttr /\
        ResourceType ResDesc = SHADER_RESOURCE_TYPE_TEXTURE_SRV /\
        GetImmutableSamplerIdx ResAttr <> InvalidImmutableSamplerIndex /\
        m_ImmutableSamplers !! Z.to_nat (GetImmutableSamplerIdx ResAttr) = Some p /\
        0 <= ArrInd < ArraySize ResDesc /\
        c = SetSampler (Uint32_add (CacheOffset ResAttr) ArrInd) p.
Proof.
  unfold InitSRBResourceCache. intros Hrun.
  destruct (mapM _ _) as [k|] eqn:Hm; simpl in Hrun; [|discriminate].
  injection Hrun as <-. eexists. split; [reflexivity|].
  intros c Hc.
  destruct (mapM_join_elem _ _ _ _ Hm Hc) as (r & ys & Hr & Hfr & Hys).
  destruct (Resources (m_Desc this) !! r) as [ResDesc|] eqn:ED; simpl in Hfr;
    [|discriminate].
  destruct (m_pResourceAttribs this !! r) as [ResAttr|] eqn:EA; simpl in Hfr;
    [|discriminate].
  unfold InitSRBResourceCache_resource in Hfr.
  destruct (decide (ResourceType ResDesc <> SHADER_RESOURCE_TYPE_TEXTURE_SRV))
    as [Et|Et].
  { injection Hfr as <-. apply elem_of_nil in Hys. contradiction. }
  apply dec_stable in Et. cbv zeta in Hfr.
  destruct (Z.eqb_spec (GetImmutableSamplerIdx ResAttr) InvalidImmutableSamplerIndex)
    as [Ei|Ei]; simpl in Hfr.
  { injection Hfr as <-. apply elem_of_nil in Hys. contradiction. }
  destruct (m_ImmutableSamplers !! _) as [p|] eqn:Ep; simpl in Hfr; [|discriminate].
  destruct (for_ArrInd_elem _ _ _ _ Hfr Hys) as (ArrInd & zs & Hi & Hbody & Hzs).
  injection Hbody as <-. apply list_elem_of_singleton in Hzs.
  exists r, ResDesc, ResAttr, ArrInd, p. repeat split; try assumption; lia.
Qed.

(** X9: [InitSRBResourceCache] first initialises the cache with the slot
    counts of the signature, and after that only sets samplers: one call for
    every array element of every texture SRV that has an immutable sampler,
    at the slot of the element, with the sampler object the signature holds
    at the index of that immutable sampler.  No other resource gets a
    sampler, and nothing else is bound. *)
Theorem InitSRBResourceCache_sets_immutable_samplers
  (this : PipelineResourceSignatureGLImpl)
  (m_ImmutableSamplers : list (option nat)) (calls : list CacheCall) :
  InitSRBResourceCache this m_ImmutableSamplers = Some calls ->
  exists rest,
    calls = Cache_Initialize (m_BindingCount this) :: rest /\
    (forall c, c ∈ rest ->
       exists r ResDesc ResAttr ArrInd p,
         Resources (m_Desc this) !! r = Some ResDesc /\
         m_pResourceAttribs this !! r = Some ResAttr /\
         ResourceType ResDesc = SHADER_RESOURCE_TYPE_TEXTURE_SRV /\
         GetImmutableSamplerIdx ResAttr <> InvalidImmutableSamplerIndex /\
         m_ImmutableSamplers !! Z.to_nat (GetImmutableSamplerIdx ResAttr) = Some p /\
         0 <= ArrInd < ArraySize ResDesc /\
         c = SetSampler (Uint32_add (CacheOffset ResAttr) ArrInd) p) /\
    (forall r ResDesc ResAttr ArrInd,
       Resources (m_Desc this) !! r = Some ResDesc ->
       m_pResourceAttribs this !! r = Some ResAttr ->
       ResourceType ResDesc = SHADER_RESOURCE_TYPE_TEXTURE_SRV ->
       GetImmutableSamplerIdx ResAttr <> InvalidImmutableSamplerIndex ->
       0 <= ArrInd < ArraySize ResDesc ->
       exists p,
         m_ImmutableSamplers !! Z.to_nat (GetImmutableSamplerIdx ResAttr) = Some p /\
         SetSampler (Uint32_add (CacheOffset ResAttr) ArrInd) p ∈ rest).
Proof.
  intros Hrun.
  destruct (InitSRBResourceCache_calls _ _ _ Hrun) as (rest & -> & Hrest).
  exists rest. split; [reflexivity|]. split; [exact Hrest|].
  intros r ResDesc ResAttr ArrInd HD HA Et Ei Hi.
  unfold InitSRBResourceCache in Hrun.
  destruct (mapM _ _) as [k|] eqn:Hm; simpl in Hrun; [|discriminate].
  injection Hrun as <-.
  assert (Hr : r ∈ seq 0 (length (Resources (m_Desc this)))).
  { apply elem_of_seq. apply lookup_lt_Some in HD. lia. }
  pose proof (mapM_Some_1 _ _ _ Hm) as HF.
  apply list_elem_of_lookup in Hr. destruct Hr as [j Hj].
  destruct (Forall2_lookup_l _ _ _ _ _ HF Hj) as (ys & Hys & Hfr).
  simpl in Hfr. rewrite HD, HA in Hfr. simpl in Hfr.
  unfold InitSRBResourceCache_resource in Hfr.
  rewrite decide_False in Hfr by (intros H; exact (H Et)).
  cbv zeta in Hfr.
  destruct (Z.eqb_spec (GetImmutableSamplerIdx ResAttr) InvalidImmutableSamplerIndex)
    as [Ei'|_]; [contradiction|]. simpl in Hfr.
  destruct (m_ImmutableSamplers !! _) as [p|] eqn:Ep; simpl in Hfr; [|discriminate].
  exists p. split; [reflexivity|].
  apply list_elem_of_join. exists ys.
  split; [|eapply list_elem_of_lookup_2; exact Hys].
  unfold for_ArrInd in Hfr.
  destruct (mapM _ (Z.of_nat <$> _)) as [zs|] eqn:Hz; simpl in Hfr; [|discriminate].
  injection Hfr as <-.
  eapply (mapM_join_intro _ _ _ ArrInd); [exact Hz| |reflexivity|].
  - apply list_elem_of_fmap. exists (Z.to_nat ArrInd).
    split; [lia|]. apply elem_of_seq. lia.
  - apply list_elem_of_singleton. reflexivity.
Qed.

(** X10: for a signature built from a valid description, the samplers that
    [InitSRBResourceCache] sets go to texture slots the cache has: every
    slot it names is below the texture count of the [m_BindingCount] it
    initialised the cache with. *)
Theorem InitSRBResourceCache_samplers_within_texture_slots
  (Desc : PipelineResourceSignatureDesc) (this : PipelineResourceSignatureGLImpl)
  (m_ImmutableSamplers : list (option nat)) (calls : list CacheCall)
  (Offset : Z) (p : option nat) :
  valid_desc Desc ->
  PipelineResourceSignatureGLImpl_ctor Desc = Some this ->
  InitSRBResourceCache this m_ImmutableSamplers = Some calls ->
  SetSampler Offset p ∈ calls ->
  exists Counts TextureCount,
    head calls = Some (Cache_Initialize Counts) /\
    Counts !! 1%nat = Some TextureCount /\
    0 <= Offset < TextureCount.
Proof.
  intros Hvd Hctor Hrun Hc.
  destruct (CreateLayout_valid Desc Hvd) as (L & HL & _ & _ & _).
  destruct (ctor_layout _ _ _ HL Hctor) as (ED & EA & EB).
  destruct (InitSRBResourceCache_calls _ _ _ Hrun) as (rest & -> & Hrest).
  apply elem_of_cons in Hc. destruct Hc as [Hc|Hc]; [discriminate Hc|].
  destruct (Hrest _ Hc)
    as (r & ResDesc & ResAttr & ArrInd & q & HD & HA & Et & _ & _ & Hi & Heq).
  injection Heq as -> ->. rewrite ED in HD. rewrite EA in HA.
  assert (Hs : is_sampler ResDesc = false).
  { apply bool_decide_eq_false. rewrite Et. discriminate. }
  assert (Hk : range_index (PipelineResourceToBindingRange ResDesc) = Some 1%nat).
  { unfold PipelineResourceToBindingRange. rewrite Et. reflexivity. }
  destruct (slot_in_range Desc L r ResDesc ResAttr 1%nat ArrInd Hvd HL HD HA Hs Hk Hi)
    as (Count & n & Hn & _ & Hlo & _).
  exists (m_BindingCount this), Count. split; [reflexivity|].
  rewrite EB. split; [exact Hn|exact Hlo].
Qed.

(** The validation loops: the answer is the conjunction of the answers of
    the iterations, and the messages are those of the unbound slots. *)
Lemma Dvp_slots_spec (q : Z -> bool) (log : Z -> CacheCall)
  (body : Z -> option (bool * list CacheCall)) :
  (forall x b cs, body x = Some (b, cs) ->
     b = q x /\
     if q x then forall m, LOG_ERROR_MESSAGE m ∉ cs else cs = [log x]) ->
  forall l ok0 ok calls,
    Dvp_slots body l ok0 = Some (ok, calls) ->
    ok = ok0 && forallb q l /\
    forall m, LOG_ERROR_MESSAGE m ∈ calls <->
              exists x, x ∈ l /\ q x = false /\ LOG_ERROR_MESSAGE m = log x.
Proof.
  intros Hbody. induction l as [|x l IH]; intros ok0 ok calls Hrun;
    simpl in Hrun.
  - injection Hrun as <- <-. split; [rewrite andb_true_r; reflexivity|].
    intros m. split.
    + intros H. apply elem_of_nil in H. contradiction.
    + intros (x & Hx & _). apply elem_of_nil in Hx. contradiction.
  - destruct (body x) as [[b cs]|] eqn:Eb; simpl in Hrun; [|discriminate].
    destruct (Dvp_slots body l (ok0 && b)) as [[ok' calls']|] eqn:Er;
      simpl in Hrun; [|discriminate].
    injection Hrun as <- <-.
    destruct (Hbody _ _ _ Eb) as [-> Hcs].
    destruct (IH _ _ _ Er) as [-> Hlog].
    split; [simpl; rewrite andb_assoc; reflexivity|].
    intros m. rewrite elem_of_app, Hlog. split.
    + intros [Hm|(y & Hy & Hq & Em)].
      * destruct (q x) eqn:Eq; [destruct (Hcs m Hm)|].
        subst cs. apply list_elem_of_singleton in Hm.
        exists x. split; [apply elem_of_cons; left; reflexivity|]. auto.
      * exists y. split; [apply elem_of_cons; right; exact Hy|]. auto.
    + intros (y & Hy & Hq & Em). apply elem_of_cons in Hy.
      destruct Hy as [->|Hy].
      * left. rewrite Hq in Hcs. subst cs. rewrite Em.
        apply list_elem_of_singleton. reflexivity.
      * right. exists y. auto.
Qed.

Lemma forallb_ArrInd (q : Z -> bool) n :
  forallb q (Z.of_nat <$> seq 0 (Z.to_nat n)) = true <->
  forall ArrInd, 0 <= ArrInd < n -> q ArrInd = true.
Proof.
  rewrite forallb_forall. split.
  - intros H ArrInd Hi. apply H. apply list_elem_of_In.
    apply list_elem_of_fmap. exists (Z.to_nat ArrInd).
    split; [lia|]. apply elem_of_seq. lia.
  - intros H x Hx. apply list_elem_of_In in Hx.
    apply list_elem_of_fmap in Hx. destruct Hx as (j & -> & Hj).
    apply elem_of_seq in Hj. apply H. lia.
Qed.

(** X11: [DvpValidateCommittedResource] passes a separate sampler without
    looking at the cache.  For any other resource it answers true exactly
    when the cache reports every array element of the resource as bound, at
    the slot of the element in the range of the resource; and it logs the
    "no resource is bound" message for an array element exactly when the
    cache reports that element unbound, going on to the next element
    afterwards. *)
Theorem DvpValidateCommittedResource_true_iff_all_bound
  (this : PipelineResourceSignatureGLImpl) (GLAttribs : GLResourceAttribs)
  (ResourceDim_ : Z) (IsMultisample : bool) (ResIndex : nat)
  (ResourceCache : ShaderResourceCacheGL) (ShaderName PSOName : string)
  (ResDesc : PipelineResourceDesc) (ResAttr : ResourceAttribs)
  (BindingsOK : bool) (calls : list CacheCall) :
  DvpValidateCommittedResource this GLAttribs ResourceDim_ IsMultisample
    ResIndex ResourceCache ShaderName PSOName = Some (BindingsOK, calls) ->
  Resources (m_Desc this) !! ResIndex = Some ResDesc ->
  m_pResourceAttribs this !! ResIndex = Some ResAttr ->
  (ResourceType ResDesc = SHADER_RESOURCE_TYPE_SAMPLER ->
   BindingsOK = true /\ calls = []) /\
  (ResourceType ResDesc <> SHADER_RESOURCE_TYPE_SAMPLER ->
   (BindingsOK = true <->
    forall ArrInd, 0 <= ArrInd < ArraySize ResDesc ->
      slot_bound ResourceCache ResDesc
        (Uint32_add (CacheOffset ResAttr) ArrInd) = true) /\
   (forall ArrInd, 0 <= ArrInd < ArraySize ResDesc ->
      (slot_bound ResourceCache ResDesc
         (Uint32_add (CacheOffset ResAttr) ArrInd) = false <->
       LOG_ERROR_MESSAGE
         (NoResourceBound (GL_Name GLAttribs) ArrInd ShaderName PSOName)
       ∈ calls))).
Proof.
  unfold DvpValidateCommittedResource. intros Hrun HD HA.
  rewrite HD, HA in Hrun. simpl in Hrun.
  destruct (decide (ResourceType ResDesc = SHADER_RESOURCE_TYPE_SAMPLER)) as [Es|Es].
  { injection Hrun as <- <-. split; [auto|]. intros H. contradiction. }
  split; [intros H; contradiction|]. intros _. cbv zeta in Hrun.
  set (q := fun ArrInd =>
              slot_bound ResourceCache ResDesc
                (Uint32_add (CacheOffset ResAttr) ArrInd)).
  set (log := fun ArrInd =>
                LOG_ERROR_MESSAGE
                  (NoResourceBound (GL_Name GLAttribs) ArrInd ShaderName PSOName)).
  assert (Hspec :
            BindingsOK = forallb q (Z.of_nat <$> seq 0 (Z.to_nat (ArraySize ResDesc))) /\
            forall m, LOG_ERROR_MESSAGE m ∈ calls <->
              exists x, x ∈ Z.of_nat <$> seq 0 (Z.to_nat (ArraySize ResDesc)) /\
                q x = false /\ LOG_ERROR_MESSAGE m = log x).
  { unfold q, slot_bound.
    destruct (PipelineResourceToBindingRange ResDesc) eqn:ER.
    - apply (Dvp_slots_spec
               (fun ArrInd => IsUBBound ResourceCache
                                (Uint32_add (CacheOffset ResAttr) ArrInd)) log)
        in Hrun; [exact Hrun|].
      intros x b cs. cbv beta zeta.
      destruct (IsUBBound _ _); simpl; intros [= <- <-].
      + split; [reflexivity|]. intros m H. apply elem_of_nil in H. contradiction.
      + split; reflexivity.
    - apply (Dvp_slots_spec
               (fun ArrInd =>
                  IsTextureBound ResourceCache
                    (Uint32_add (CacheOffset ResAttr) ArrInd)
                    (bool_decide (ResourceType ResDesc
                                  = SHADER_RESOURCE_TYPE_TEXTURE_SRV)
                     || bool_decide (ResourceType ResDesc
                                     = SHADER_RESOURCE_TYPE_INPUT_ATTACHMENT))) log)
        in Hrun; [exact Hrun|].
      intros x b cs. cbv beta zeta. destruct (IsTextureBound _ _ _); simpl.
      + destruct (cache_Textures ResourceCache !! _); simpl; [|discriminate].
        intros [= <- <-]. split; [reflexivity|]. intros m H.
        apply list_elem_of_singleton in H. discriminate H.
      + intros [= <- <-]. split; reflexivity.
    - apply (Dvp_slots_spec
               (fun ArrInd =>
                  IsImageBound ResourceCache
                    (Uint32_add (CacheOffset ResAttr) ArrInd)
                    (bool_decide (ResourceType ResDesc
                                  = SHADER_RESOURCE_TYPE_TEXTURE_SRV)
                     || bool_decide (ResourceType ResDesc
                                     = SHADER_RESOURCE_TYPE_TEXTURE_UAV))) log)
        in Hrun; [exact Hrun|].
      intros x b cs. cbv beta zeta. destruct (IsImageBound _ _ _); simpl.
      + destruct (cache_Images ResourceCache !! _); simpl; [|discriminate].
        intros [= <- <-]. split; [reflexivity|]. intros m H.
        apply list_elem_of_singleton in H. discriminate H.
      + intros [= <- <-]. split; reflexivity.
    - apply (Dvp_slots_spec
               (fun ArrInd => IsSSBOBound ResourceCache
                                (Uint32_add (CacheOffset ResAttr) ArrInd)) log)
        in Hrun; [exact Hrun|].
      intros x b cs. cbv beta zeta.
      destruct (IsSSBOBound _ _); simpl; intros [= <- <-].
      + split; [reflexivity|]. intros m H. apply elem_of_nil in H. contradiction.
      + split; reflexivity.
    - injection Hrun as <- <-. split.
      + symmetry. apply forallb_forall. reflexivity.
      + intros m. split.
        * intros H. apply elem_of_nil in H. contradiction.
        * intros (x & _ & Hx & _). discriminate Hx. }
  destruct Hspec as [-> Hlog]. split.
  - apply forallb_ArrInd.
  - intros ArrInd Hi. rewrite Hlog. split.
    + intros Hq. exists ArrInd. split; [|split; [exact Hq|reflexivity]].
      apply list_elem_of_fmap. exists (Z.to_nat ArrInd).
      split; [lia|]. apply elem_of_seq. lia.
    + intros (x & _ & Hq & Em). unfold log in Em. injection Em as ->. exact Hq.
Qed.

End CacheTheorems.
(** ** More on default signatures *)

(** The loop invariant rule, with a body that is only known on the elements
    of the list. *)
Lemma for_each_inv_in {A St : Type} (body : St -> A -> Result St)
  (P : St -> Prop) (R : St -> St -> Prop) (Q : A -> St -> Prop) (l : list A) :
  (forall st, R st st) ->
  (forall st1 st2 st3, R st1 st2 -> R st2 st3 -> R st1 st3) ->
  (forall a st st', R st st' -> Q a st -> Q a st') ->
  (forall st a st', a ∈ l -> P st -> body st a = Ok st' ->
     P st' /\ R st st' /\ Q a st') ->
  forall st st',
    P st -> for_each body l st = Ok st' ->
    P st' /\ R st st' /\ forall a, a ∈ l -> Q a st'.
Proof.
  intros Hrefl Htrans Hmono Hstep.
  assert (Hgen : forall l', (forall a, a ∈ l' -> a ∈ l) ->
            forall st st', P st -> for_each body l' st = Ok st' ->
              P st' /\ R st st' /\ forall a, a ∈ l' -> Q a st').
  { induction l' as [|a l' IH]; intros Hsub st st' HP Hrun; simpl in Hrun.
    - injection Hrun as <-. split; [exact HP|]. split; [apply Hrefl|].
      intros a Ha. apply elem_of_nil in Ha. contradiction.
    - destruct (body st a) as [st1| |] eqn:Eb; simpl in Hrun; try discriminate.
      destruct (Hstep _ _ _ (Hsub a ltac:(apply elem_of_cons; left; reflexivity))
                  HP Eb) as (HP1 & HR1 & HQ1).
      destruct (IH (fun b Hb => Hsub b ltac:(apply elem_of_cons; right; exact Hb))
                  _ _ HP1 Hrun) as (HP' & HR' & HQ').
      split; [exact HP'|]. split; [eapply Htrans; eassumption|].
      intros b Hb. apply elem_of_cons in Hb. destruct Hb as [->|Hb].
      + eapply Hmono; eassumption.
      + apply HQ'. exact Hb. }
  apply Hgen. auto.
Qed.

Lemma CreateDefaultSignature_resource_origin PSODesc ShaderStages Stage pShader
  st A st' :
  Stage ∈ ShaderStages -> pShader ∈ Shaders Stage ->
  A ∈ SR_Resources (GetShaderResources pShader) ->
  dss_origin PSODesc ShaderStages st ->
  CreateDefaultSignature_resource PSODesc (Stage_Type Stage) pShader st A = Ok st' ->
  dss_origin PSODesc ShaderStages st' /\
  pCombinedSamplerSuffix st' = pCombinedSamplerSuffix st.
Proof.
  intros HS Hsh HA [Hres Hsuf] Hrun.
  unfold CreateDefaultSignature_resource in Hrun.
  destruct (resolve_variable (ResourceLayout PSODesc) (Stage_Type Stage)
              (GetShaderResources pShader) A) as [[stages vt]| |] eqn:Eres;
    simpl in Hrun; try discriminate.
  destruct (UniqueResources st !! (SPIRV_Name A, stages)) as [E|].
  - destruct (VerifyResourceMerge E A) as [[]| |]; simpl in Hrun; try discriminate.
    injection Hrun as <-. split; [split; assumption|reflexivity].
  - destruct (Z.eqb_spec (SPIRV_ArraySize A) 0) as [E0|E0]; [discriminate|].
    destruct (GetShaderResourceTypeAndFlags (SPIRV_Type A)) as [ResType Flags_] eqn:Etf.
    injection Hrun as <-. simpl. split; [|reflexivity]. split; simpl; [|exact Hsuf].
    intros r Hr. apply elem_of_app in Hr. destruct Hr as [Hr|Hr]; [auto|].
    apply list_elem_of_singleton in Hr. subst r.
    exists Stage, pShader, A, stages, vt. rewrite Etf. simpl.
    repeat split; assumption.
Qed.

(** One shader: the resources it enters are its own, and afterwards the
    recorded suffix is its suffix if it merges suffixes. *)
Lemma CreateDefaultSignature_shader_origin PSODesc ShaderStages Stage st pShader st' :
  Stage ∈ ShaderStages -> pShader ∈ Shaders Stage ->
  dss_origin PSODesc ShaderStages st ->
  CreateDefaultSignature_shader PSODesc (Stage_Type Stage) st pShader = Ok st' ->
  dss_origin PSODesc ShaderStages st' /\
  (forall s, pCombinedSamplerSuffix st = Some s ->
             pCombinedSamplerSuffix st' = Some s) /\
  (merges_suffix pShader = true ->
   pCombinedSamplerSuffix st' =
     Some (GetCombinedSamplerSuffix (GetShaderResources pShader))).
Proof.
  intros HS Hsh Horig Hrun. unfold CreateDefaultSignature_shader in Hrun.
  destruct (for_each (CreateDefaultSignature_resource PSODesc (Stage_Type Stage)
                        pShader)
              (SR_Resources (GetShaderResources pShader)) st)
    as [st1| |] eqn:Eloop; simpl in Hrun; try discriminate.
  destruct (for_each_inv_in
              (CreateDefaultSignature_resource PSODesc (Stage_Type Stage) pShader)
              (dss_origin PSODesc ShaderStages)
              (fun s s' => pCombinedSamplerSuffix s' = pCombinedSamplerSuffix s)
              (fun _ _ => True)
              (SR_Resources (GetShaderResources pShader)))
    with (st := st) (st' := st1) as (Horig1 & Hsame & _); try assumption.
  { reflexivity. }
  { intros s1 s2 s3 H1 H2. congruence. }
  { auto. }
  { intros s a s' Ha Hs Hb.
    destruct (CreateDefaultSignature_resource_origin _ _ _ _ _ _ _ HS Hsh Ha Hs Hb).
    auto. }
  fold (merges_suffix pShader) in Hrun.
  destruct (merges_suffix pShader) eqn:Em.
  - destruct (pCombinedSamplerSuffix st1) as [Suffix|] eqn:Es.
    + destruct (String.eqb Suffix _) eqn:Eeq; simpl in Hrun; [|discriminate].
      apply String.eqb_eq in Eeq. injection Hrun as <-.
      split; [exact Horig1|]. split.
      * intros s Hs. congruence.
      * intros _. congruence.
    + injection Hrun as <-. destruct Horig1 as [Hres1 _]. split; [split|].
      * exact Hres1.
      * simpl. intros s [= <-]. exists Stage, pShader. auto.
      * split; [|reflexivity]. simpl. intros s Hs. congruence.
  - injection Hrun as <-. split; [exact Horig1|].
    split; [intros s Hs; congruence|discriminate].
Qed.

Lemma CreateDefaultSignature_collect_origin PSODesc ShaderStages st :
  CreateDefaultSignature_collect PSODesc ShaderStages = Ok st ->
  dss_origin PSODesc ShaderStages st /\
  forall Stage pShader,
    Stage ∈ ShaderStages -> pShader ∈ Shaders Stage ->
    merges_suffix pShader = true ->
    pCombinedSamplerSuffix st =
      Some (GetCombinedSamplerSuffix (GetShaderResources pShader)).
Proof.
  intros Hrun. unfold CreateDefaultSignature_collect in Hrun.
  destruct (for_each_inv_in
              (CreateDefaultSignature_stage PSODesc)
              (dss_origin PSODesc ShaderStages)
              (fun s s' => forall x, pCombinedSamplerSuffix s = Some x ->
                                     pCombinedSamplerSuffix s' = Some x)
              (fun Stage s =>
                 forall pShader, pShader ∈ Shaders Stage ->
                   merges_suffix pShader = true ->
                   pCombinedSamplerSuffix s =
                     Some (GetCombinedSamplerSuffix (GetShaderResources pShader)))
              ShaderStages)
    with (st := mkDefaultSignatureState ∅ [] None) (st' := st)
    as (Horig & _ & HQ); try assumption.
  { auto. }
  { auto. }
  { intros Stage s s' Hs HQ pShader Hsh Hm. apply Hs. apply HQ; assumption. }
  { intros s Stage s' HS Hs Hb. unfold CreateDefaultSignature_stage in Hb.
    apply (for_each_inv_in
             (CreateDefaultSignature_shader PSODesc (Stage_Type Stage))
             (dss_origin PSODesc ShaderStages)
             (fun s s' => forall x, pCombinedSamplerSuffix s = Some x ->
                                    pCombinedSamplerSuffix s' = Some x)
             (fun pShader s =>
                merges_suffix pShader = true ->
                pCombinedSamplerSuffix s =
                  Some (GetCombinedSamplerSuffix (GetShaderResources pShader)))
             (Shaders Stage)) with (st := s); try assumption.
    - auto.
    - auto.
    - intros pShader s1 s2 H12 HQ1 Hm. apply H12. apply HQ1. exact Hm.
    - intros s1 pShader s2 Hsh Hs1 Hb1.
      eapply CreateDefaultSignature_shader_origin; eassumption. }
  { split; simpl.
    - intros r Hr. apply elem_of_nil in Hr. contradiction.
    - discriminate. }
  split; [exact Horig|].
  intros Stage pShader HS Hsh Hm. apply (HQ Stage HS pShader Hsh Hm).
Qed.

(** X13: the implicit signature is null exactly when the shaders of the
    pipeline declare no resource at all.  When [CreateDefaultSignature]
    returns, it returns no signature if no shader of any stage reflects a
    resource, and a signature as soon as one of them does. *)
Theorem CreateDefaultSignature_null_iff_no_resources
  (PSODesc : PipelineStateDesc) (ShaderStages : list ShaderStageInfo)
  (pSignature_ : option PipelineResourceSignatureVkImpl) :
  CreateDefaultSignature PSODesc ShaderStages = Ok pSignature_ ->
  (pSignature_ = None <->
   forall Stage pShader,
     Stage ∈ ShaderStages -> pShader ∈ Shaders Stage ->
     SR_Resources (GetShaderResources pShader) = []).
Proof.
  unfold CreateDefaultSignature. intros Hrun.
  destruct (CreateDefaultSignature_collect PSODesc ShaderStages) as [st| |] eqn:Ec;
    simpl in Hrun; try discriminate.
  destruct (CreateDefaultSignature_collect_inv _ _ _ Ec) as [(_ & _ & _ & Hd) Hacc].
  destruct (CreateDefaultSignature_collect_origin _ _ _ Ec) as [[Horig _] _].
  assert (Hempty : dss_Resources st = [] <->
            forall Stage pShader,
              Stage ∈ ShaderStages -> pShader ∈ Shaders Stage ->
              SR_Resources (GetShaderResources pShader) = []).
  { split.
    - intros Hnil Stage pShader HS Hsh.
      destruct (SR_Resources (GetShaderResources pShader)) as [|A rest] eqn:ER;
        [reflexivity|].
      destruct (Hacc Stage pShader A HS Hsh) as (stages & vt & E & _ & HE & _).
      { rewrite ER. apply elem_of_cons. left. reflexivity. }
      destruct (Hd _ _ HE) as (r & Hr & _). rewrite Hnil in Hr.
      apply elem_of_nil in Hr. contradiction.
    - intros Hnone. destruct (dss_Resources st) as [|r rest] eqn:ER; [reflexivity|].
      destruct (Horig r) as (Stage & pShader & A & _ & _ & HS & Hsh & HA & _).
      { apply elem_of_cons. left. reflexivity. }
      rewrite (Hnone Stage pShader HS Hsh) in HA.
      apply elem_of_nil in HA. contradiction. }
  rewrite <- Hempty.
  destruct (decide (dss_Resources st = [])) as [En|En].
  - rewrite bool_decide_eq_true_2 in Hrun by exact En. simpl in Hrun.
    injection Hrun as <-. split; auto.
  - rewrite bool_decide_eq_false_2 in Hrun by exact En. simpl in Hrun.
    destruct (CreatePipelineResourceSignature _ _); [|discriminate].
    injection Hrun as <-. split; [discriminate|]. intros H. contradiction.
Qed.

(** X14: the implicit signature holds nothing that the shaders do not
    declare.  The description [CreateDefaultSignature] hands to the device
    has binding index 0 and at least one resource, and each of its resources
    carries the name and the array size, which is not 0, of a declaration
    of a shader of the pipeline, the type and the flags of the SPIR-V type
    of that declaration, and the stage mask and the variable type of the
    layout variable found for it, or else the stage of the shader and the
    default variable type. *)
Theorem CreateDefaultSignature_resources_are_declared
  (PSODesc : PipelineStateDesc) (ShaderStages : list ShaderStageInfo)
  (Sig : PipelineResourceSignatureVkImpl) :
  CreateDefaultSignature PSODesc ShaderStages = Ok (Some Sig) ->
  exists ResSignDesc,
    CreatePipelineResourceSignature ResSignDesc true = Some Sig /\
    BindingIndex ResSignDesc = 0 /\
    Resources ResSignDesc <> [] /\
    forall r, r ∈ Resources ResSignDesc ->
      exists Stage pShader A stages vt,
        Stage ∈ ShaderStages /\ pShader ∈ Shaders Stage /\
        A ∈ SR_Resources (GetShaderResources pShader) /\
        resolve_variable (ResourceLayout PSODesc) (Stage_Type Stage)
          (GetShaderResources pShader) A = Ok (stages, vt) /\
        SPIRV_ArraySize A <> 0 /\
        r = mkPipelineResourceDesc stages (SPIRV_Name A) (SPIRV_ArraySize A)
              (fst (GetShaderResourceTypeAndFlags (SPIRV_Type A))) vt
              (snd (GetShaderResourceTypeAndFlags (SPIRV_Type A))).
Proof.
  unfold CreateDefaultSignature. intros Hrun.
  destruct (CreateDefaultSignature_collect PSODesc ShaderStages) as [st| |] eqn:Ec;
    simpl in Hrun; try discriminate.
  destruct (CreateDefaultSignature_collect_origin _ _ _ Ec) as [[Horig _] _].
  destruct (decide (dss_Resources st = [])) as [En|En].
  { rewrite bool_decide_eq_true_2 in Hrun by exact En. discriminate Hrun. }
  rewrite bool_decide_eq_false_2 in Hrun by exact En. simpl in Hrun.
  destruct (CreatePipelineResourceSignature _ _) as [Sig'|] eqn:Edev;
    [|discriminate].
  injection Hrun as <-.
  exists (default_signature_desc PSODesc st).
  split; [exact Edev|]. split; [reflexivity|]. split; [exact En|].
  intros r Hr. apply (Horig r Hr).
Qed.

(** X15: one suffix for all.  When the collection of the resources runs to
    its end, the description of the implicit signature uses combined
    texture samplers exactly when some shader of the pipeline uses them and
    has a separate sampler, and its suffix is then the suffix of every such
    shader: two of them with different suffixes keep the signature from
    being created. *)
Theorem CreateDefaultSignature_merges_sampler_suffixes
  (PSODesc : PipelineStateDesc) (ShaderStages : list ShaderStageInfo)
  (st : DefaultSignatureState) :
  CreateDefaultSignature_collect PSODesc ShaderStages = Ok st ->
  let ResSignDesc := default_signature_desc PSODesc st in
  (forall Stage pShader,
     Stage ∈ ShaderStages -> pShader ∈ Shaders Stage ->
     IsUsingCombinedSamplers (GetShaderResources pShader) = true ->
     0 < GetNumSepSmplrs (GetShaderResources pShader) ->
     UseCombinedTextureSamplers ResSignDesc = true /\
     CombinedSamplerSuffix ResSignDesc =
       Some (GetCombinedSamplerSuffix (GetShaderResources pShader))) /\
  (UseCombinedTextureSamplers ResSignDesc = true ->
   exists Stage pShader,
     Stage ∈ ShaderStages /\ pShader ∈ Shaders Stage /\
     IsUsingCombinedSamplers (GetShaderResources pShader) = true /\
     0 < GetNumSepSmplrs (GetShaderResources pShader)) /\
  (UseCombinedTextureSamplers ResSignDesc = false ->
   CombinedSamplerSuffix ResSignDesc = None).
Proof.
  intros Hrun ResSignDesc.
  destruct (CreateDefaultSignature_collect_origin _ _ _ Hrun) as [[_ Hsuf] HQ].
  unfold ResSignDesc, default_signature_desc. simpl. split; [|split].
  - intros Stage pShader HS Hsh Hu Hn.
    assert (Hm : merges_suffix pShader = true).
    { unfold merges_suffix. rewrite Hu. simpl. apply Z.ltb_lt. exact Hn. }
    rewrite (HQ Stage pShader HS Hsh Hm).
    split; [apply bool_decide_eq_true; discriminate|reflexivity].
  - intros Hb. apply bool_decide_eq_true in Hb.
    destruct (pCombinedSamplerSuffix st) as [s|]; [|contradiction].
    destruct (Hsuf s eq_refl) as (Stage & pShader & HS & Hsh & Hm & _).
    unfold merges_suffix in Hm. apply andb_true_iff in Hm. destruct Hm as [Hu Hn].
    apply Z.ltb_lt in Hn. exists Stage, pShader. auto.
  - intros Hb. apply bool_decide_eq_false in Hb.
    destruct (pCombinedSamplerSuffix st) as [s|]; [|reflexivity].
    exfalso. apply Hb. discriminate.
Qed.

(** ** More on the pipeline layout *)

(** A separate sampler is the only SPIR-V resource that becomes a sampler
    of the signature. *)
Lemma GetShaderResourceTypeAndFlags_sampler Type_ :
  fst (GetShaderResourceTypeAndFlags Type_) = SHADER_RESOURCE_TYPE_SAMPLER <->
  Type_ = SPIRVResourceType.SeparateSampler.
Proof. destruct Type_; simpl; split; intros H; first [discriminate H|reflexivity]. Qed.

(** What the handler of [InitPipelineLayout] has checked when it returns. *)
Lemma InitPipelineLayout_resource_checks m_Signatures ShaderType pShader SPIRV A SPIRV' :
  InitPipelineLayout_resource m_Signatures ShaderType pShader SPIRV A = Ok SPIRV' ->
  let RA := GetResourceAttribution m_Signatures (SPIRV_Name A) ShaderType in
  ResourceAttribution_bool RA = true /\
  exists Sig,
    pSignature RA = Some Sig /\
    (ResourceIndex RA <> InvalidResourceIndex ->
     exists ResDesc,
       Resources (Vk_Desc Sig) !! Z.to_nat (ResourceIndex RA) = Some ResDesc /\
       ValidatePipelineResourceCompatibility ResDesc
         (fst (GetShaderResourceTypeAndFlags (SPIRV_Type A)))
         (snd (GetShaderResourceTypeAndFlags (SPIRV_Type A)))
         (SPIRV_ArraySize A) = true) /\
    (ResourceIndex RA = InvalidResourceIndex ->
     ImmutableSamplerIndex RA <> InvalidResourceIndex ->
     SPIRV_Type A = SPIRVResourceType.SeparateSampler).
Proof.
  unfold InitPipelineLayout_resource. cbv zeta.
  destruct (ResourceAttribution_bool _) eqn:Eb; simpl; [|discriminate].
  destruct (pSignature _) as [Sig|]; [|discriminate].
  destruct (resolve_binding _ _ _ _) as [[b s]| |] eqn:Er; simpl; try discriminate.
  intros _. split; [reflexivity|]. exists Sig. split; [reflexivity|].
  unfold resolve_binding in Er.
  pose proof (GetShaderResourceTypeAndFlags_sampler (SPIRV_Type A)) as Hsam.
  destruct (GetShaderResourceTypeAndFlags (SPIRV_Type A)) as [Type_ Flags_].
  simpl in Hsam |- *.
  destruct (Z.eqb_spec (ResourceIndex
                          (GetResourceAttribution m_Signatures (SPIRV_Name A)
                             ShaderType)) InvalidResourceIndex) as [Ei|Ei];
    simpl in Er.
  - split; [intros H; contradiction|]. intros _ Hs.
    destruct (Z.eqb_spec (ImmutableSamplerIndex
                            (GetResourceAttribution m_Signatures (SPIRV_Name A)
                               ShaderType)) InvalidResourceIndex) as [Ej|Ej];
      [contradiction|]. simpl in Er.
    destruct (decide (Type_ = SHADER_RESOURCE_TYPE_SAMPLER)) as [Et|Et].
    + apply Hsam. exact Et.
    + rewrite bool_decide_eq_false_2 in Er by exact Et. discriminate Er.
  - split; [|intros H; contradiction]. intros _.
    unfold at_index in Er.
    destruct (Resources (Vk_Desc Sig) !! _) as [ResDesc|]; simpl in Er;
      [|discriminate].
    destruct (ValidatePipelineResourceCompatibility _ _ _ _) eqn:Ev; simpl in Er;
      [|discriminate].
    exists ResDesc. split; [reflexivity|exact Ev].
Qed.

(** A loop that runs to its end ran its body on every element. *)
Lemma for_each_Ok_elem {A St : Type} (body : St -> A -> Result St) l :
  forall st st', for_each body l st = Ok st' ->
    forall a, a ∈ l -> exists s s', body s a = Ok s'.
Proof.
  induction l as [|a0 l IH]; intros st st' Hrun a Ha; simpl in Hrun.
  - apply elem_of_nil in Ha. contradiction.
  - destruct (body st a0) as [st1| |] eqn:Eb; simpl in Hrun; try discriminate.
    apply elem_of_cons in Ha. destruct Ha as [->|Ha]; [eauto|].
    eapply IH; eassumption.
Qed.

(** X16: when [InitPipelineLayout] returns, every resource that a shader
    of the pipeline reflects has been found in a signature of the pipeline.
    If it is attributed to a resource of the signature, that resource passed
    the compatibility check against the type, the flags and the array size
    of the declaration; if it is attributed to an immutable sampler, the
    declaration is a separate sampler.  A shader resource that no signature
    declares, or that is declared incompatibly, therefore keeps the
    pipeline from being created. *)
Theorem InitPipelineLayout_Ok_resources_attributed
  (DILIGENT_DEVELOPMENT : bool) (PSODesc : PipelineStateDesc)
  (Limits : DeviceLimits) (Feats Props : DescriptorIndexing)
  (m_UsingImplicitSignature : bool)
  (m_Signatures m_Signatures' : list (option PipelineResourceSignatureVkImpl))
  (ShaderStages ShaderStages' : list ShaderStageInfo)
  (Stage : ShaderStageInfo) (pShader : ShaderVkImpl)
  (A : SPIRVShaderResourceAttribs) :
  snd (InitPipelineLayout DILIGENT_DEVELOPMENT PSODesc Limits Feats Props
         m_UsingImplicitSignature m_Signatures ShaderStages)
    = Ok (m_Signatures', ShaderStages') ->
  Stage ∈ ShaderStages -> pShader ∈ Shaders Stage ->
  A ∈ SR_Resources (GetShaderResources pShader) ->
  let RA := GetResourceAttribution m_Signatures' (SPIRV_Name A) (Stage_Type Stage) in
  ResourceAttribution_bool RA = true /\
  exists Sig,
    pSignature RA = Some Sig /\
    (ResourceIndex RA <> InvalidResourceIndex ->
     exists ResDesc,
       Resources (Vk_Desc Sig) !! Z.to_nat (ResourceIndex RA) = Some ResDesc /\
       ValidatePipelineResourceCompatibility ResDesc
         (fst (GetShaderResourceTypeAndFlags (SPIRV_Type A)))
         (snd (GetShaderResourceTypeAndFlags (SPIRV_Type A)))
         (SPIRV_ArraySize A) = true) /\
    (ResourceIndex RA = InvalidResourceIndex ->
     ImmutableSamplerIndex RA <> InvalidResourceIndex ->
     SPIRV_Type A = SPIRVResourceType.SeparateSampler).
Proof.
  intros Hrun HS Hsh HA.
  pose proof (InitPipelineLayout_Ok_stages _ _ _ _ _ _ _ _ _ _ Hrun) as Hst.
  destruct (InitPipelineLayout_stages_frame _ _ _ Hst) as [_ Hframe].
  apply list_elem_of_lookup in HS. destruct HS as [s Hs].
  destruct (Hframe s Stage Hs) as (Stage' & _ & _ & _ & _ & _ & Hin).
  apply list_elem_of_lookup in Hsh. destruct Hsh as [j Hj].
  destruct (Hin j pShader Hj) as (code & code' & _ & _ & Hloop).
  destruct (for_each_Ok_elem _ _ _ _ Hloop A HA) as (c & c' & Hc).
  exact (InitPipelineLayout_resource_checks _ _ _ _ _ _ Hc).
Qed.






(** ** More on the validation of the device limits *)

Lemma check_err_Uint32 x Limit msg :
  is_Uint32 x -> Uint32_max <= Limit -> check_err (x <=? Limit) msg = [].
Proof.
  unfold is_Uint32, Uint32_max, check_err. intros Hx Hl.
  destruct (Z.leb_spec x Limit); [reflexivity|lia].
Qed.

Lemma check_err_elem Expr msg e :
  e ∈ check_err Expr msg -> Expr = false /\ e = DEV_CHECK_ERR msg.
Proof.
  unfold check_err. destruct Expr; intros He.
  - apply elem_of_nil in He. contradiction.
  - apply list_elem_of_singleton in He. auto.
Qed.

Lemma add_count_Uint32 Count DescIndex n :
  (forall d, is_Uint32 (Count d)) -> forall d, is_Uint32 (add_count Count DescIndex n d).
Proof.
  intros HC d. unfold add_count. destruct (decide (d = DescIndex));
    [apply Uint32_add_range|apply HC].
Qed.

Lemma Dvp_resource_spec PSODesc Feats Props SignatureName st Res :
  counts_Uint32 st ->
  counts_Uint32 (Dvp_resource PSODesc Feats Props SignatureName st Res) /\
  dvp_log (Dvp_resource PSODesc Feats Props SignatureName st Res) =
    dvp_log st ++ resource_warnings Feats Props (SignatureName, Res.1, Res.2).
Proof.
  intros [HD HP]. destruct Res as [ResDesc ResAttr]. unfold Dvp_resource.
  split.
  - split; simpl.
    + apply add_count_Uint32. exact HD.
    + generalize (stage_bits (ShaderStages ResDesc)).
      generalize (ShaderStagePresented st).
      revert HP. generalize (PerStageDescriptorCount st).
      intros Count HC Presented l. revert Count HC Presented.
      induction l as [|Stage l IH]; intros Count HC Presented; simpl.
      * exact HC.
      * apply IH. intros s d. destruct (decide (s = _)); [|apply HC].
        apply add_count_Uint32. apply HC.
  - simpl. f_equal.
    destruct (negb (Z.land (Flags ResDesc) PIPELINE_RESOURCE_FLAG_RUNTIME_ARRAY =? 0));
      [|reflexivity].
    destruct (NonUniformIndexing Feats Props (Vk_DescrType ResAttr))
      as [Supported Native]. simpl. reflexivity.
Qed.

Lemma Dvp_resources_spec PSODesc Feats Props SignatureName l : forall st,
  counts_Uint32 st ->
  counts_Uint32 (foldl (Dvp_resource PSODesc Feats Props SignatureName) st l) /\
  dvp_log (foldl (Dvp_resource PSODesc Feats Props SignatureName) st l) =
    dvp_log st ++
    (Res ← l; resource_warnings Feats Props (SignatureName, Res.1, Res.2)).
Proof.
  induction l as [|Res l IH]; intros st Hst; simpl.
  - split; [exact Hst|]. rewrite app_nil_r. reflexivity.
  - destruct (Dvp_resource_spec PSODesc Feats Props SignatureName st Res Hst)
      as [H1 E1].
    destruct (IH _ H1) as [H2 E2]. split; [exact H2|].
    rewrite E2, E1, <- app_assoc. reflexivity.
Qed.

Lemma Dvp_signatures_spec PSODesc Feats Props m_Signatures : forall st,
  counts_Uint32 st ->
  counts_Uint32 (foldl (Dvp_signature PSODesc Feats Props) st m_Signatures) /\
  dvp_log (foldl (Dvp_signature PSODesc Feats Props) st m_Signatures) =
    dvp_log st ++
    (Res ← signature_resources m_Signatures; resource_warnings Feats Props Res).
Proof.
  induction m_Signatures as [|pSig rest IH]; intros st Hst.
  - simpl. split; [exact Hst|]. rewrite app_nil_r. reflexivity.
  - cbn [foldl].
    assert (Hone : counts_Uint32 (Dvp_signature PSODesc Feats Props st pSig) /\
                   dvp_log (Dvp_signature PSODesc Feats Props st pSig) =
                     dvp_log st ++
                     (Res ← signature_resources [pSig];
                      resource_warnings Feats Props Res)).
    { destruct pSig as [Sig|]; simpl.
      - destruct (Dvp_resources_spec PSODesc Feats Props (SignName (Vk_Desc Sig))
                    (zip (Resources (Vk_Desc Sig)) (Vk_ResourceAttribs Sig)) st Hst)
          as [H1 E1].
        split; [exact H1|]. rewrite E1. f_equal. rewrite app_nil_r.
        generalize (zip (Resources (Vk_Desc Sig)) (Vk_ResourceAttribs Sig)).
        intros l. induction l as [|[r a] l IHl]; [reflexivity|].
        simpl. f_equal. exact IHl.
      - split; [exact Hst|]. rewrite app_nil_r. reflexivity. }
    destruct Hone as [H1 E1]. destruct (IH _ H1) as [H2 E2].
    split; [exact H2|].
    assert (Esplit : signature_resources (pSig :: rest) =
                     signature_resources [pSig] ++ signature_resources rest).
    { unfold signature_resources. simpl. rewrite app_nil_r. reflexivity. }
    rewrite E2, E1, Esplit, bind_app, <- app_assoc. reflexivity.
Qed.

Lemma resource_warnings_elem Feats Props Res e :
  e ∈ resource_warnings Feats Props Res -> exists msg, e = LOG_WARNING_MESSAGE msg.
Proof.
  destruct Res as [[SignatureName ResDesc] ResAttr]. unfold resource_warnings.
  repeat match goal with
         | |- context [if ?b then _ else _] => destruct b
         end; intros He;
    first [ apply elem_of_nil in He; contradiction
          | apply list_elem_of_singleton in He; eauto ].
Qed.

(** X18: on a device whose limits are all the largest [Uint32], the
    validation of the limits reports no violation, whatever the signatures
    hold: the descriptor counts are [Uint32] sums, so none exceeds such a
    limit. *)
Theorem DvpValidateResourceLimits_no_error_without_limits
  (PSODesc : PipelineStateDesc) (Limits : DeviceLimits)
  (Feats Props : DescriptorIndexing)
  (m_Signatures : list (option PipelineResourceSignatureVkImpl))
  (msg : DvpMessage) :
  limits_at_least Uint32_max Limits ->
  DEV_CHECK_ERR msg ∉
    DvpValidateResourceLimits PSODesc Limits Feats Props m_Signatures.
Proof.
  intros HL Hin. unfold DvpValidateResourceLimits in Hin. cbv zeta in Hin.
  destruct (Dvp_signatures_spec PSODesc Feats Props m_Signatures
              (mkDvpState (fun _ => 0) (fun _ _ => 0) (fun _ => false) []))
    as [[HD HP] Elog].
  { split; intros; simpl; unfold is_Uint32, Uint32_modulus; lia. }
  set (st := foldl (Dvp_signature PSODesc Feats Props) _ m_Signatures) in *.
  destruct HL as (L1 & L2 & L3 & L4 & L5 & L6 & L7 & L8 & L9 & L10 & L11 & L12
                  & L13 & L14 & L15 & L16 & L17).
  assert (Htotal : Dvp_check_total Limits (DescriptorCount st) = []).
  { unfold Dvp_check_total. cbv zeta.
    rewrite !check_err_Uint32
      by first [apply Uint32_add_range | apply HD | assumption].
    reflexivity. }
  assert (Hstage : forall ShaderInd,
            Dvp_check_stage PSODesc Limits ShaderInd
              (PerStageDescriptorCount st ShaderInd) = []).
  { intros ShaderInd. unfold Dvp_check_stage. cbv zeta.
    rewrite !check_err_Uint32
      by first [apply Uint32_add_range | apply HP | assumption].
    reflexivity. }
  rewrite Htotal in Hin. simpl in Hin.
  apply elem_of_app in Hin. destruct Hin as [Hin|Hin].
  - rewrite Elog in Hin. simpl in Hin. apply list_elem_of_bind in Hin.
    destruct Hin as (Res & Hin & _).
    apply resource_warnings_elem in Hin. destruct Hin as [m Hm]. discriminate Hm.
  - apply list_elem_of_join in Hin. destruct Hin as (l & Hl & Hin).
    apply list_elem_of_fmap in Hin. destruct Hin as (ShaderInd & -> & _).
    rewrite Hstage in Hl. destruct (ShaderStagePresented st ShaderInd);
      apply elem_of_nil in Hl; contradiction.
Qed.

Lemma Dvp_check_total_elem Limits Count e :
  e ∈ Dvp_check_total Limits Count -> exists msg, e = DEV_CHECK_ERR msg.
Proof.
  unfold Dvp_check_total. cbv zeta. intros He.
  repeat (apply elem_of_app in He; destruct He as [He|He];
          [apply check_err_elem in He; destruct He as [_ ->]; eauto|]).
  apply check_err_elem in He. destruct He as [_ ->]. eauto.
Qed.

Lemma Dvp_check_stage_elem PSODesc Limits ShaderInd NumDesc e :
  e ∈ Dvp_check_stage PSODesc Limits ShaderInd NumDesc ->
  exists msg, e = DEV_CHECK_ERR msg.
Proof.
  unfold Dvp_check_stage. cbv zeta. intros He.
  repeat (apply elem_of_app in He; destruct He as [He|He];
          [apply check_err_elem in He; destruct He as [_ ->]; eauto|]).
  apply check_err_elem in He. destruct He as [_ ->]. eauto.
Qed.

(** X19: the validation warns about non-uniform indexing for the
    runtime-sized arrays of the signatures and for nothing else.  A warning
    is logged exactly when a resource of a signature of the pipeline has the
    flag [PIPELINE_RESOURCE_FLAG_RUNTIME_ARRAY] and the device either does
    not support non-uniform indexing for its descriptor type, or supports
    it without supporting it natively; the warning names the signature and
    the resource.  Null signatures are passed over. *)
Theorem DvpValidateResourceLimits_warns_about_runtime_arrays
  (PSODesc : PipelineStateDesc) (Limits : DeviceLimits)
  (Feats Props : DescriptorIndexing)
  (m_Signatures : list (option PipelineResourceSignatureVkImpl))
  (msg : DvpMessage) :
  LOG_WARNING_MESSAGE msg ∈
    DvpValidateResourceLimits PSODesc Limits Feats Props m_Signatures <->
  exists Sig ResDesc ResAttr,
    Some Sig ∈ m_Signatures /\
    (ResDesc, ResAttr) ∈ zip (Resources (Vk_Desc Sig)) (Vk_ResourceAttribs Sig) /\
    Z.land (Flags ResDesc) PIPELINE_RESOURCE_FLAG_RUNTIME_ARRAY <> 0 /\
    ((fst (NonUniformIndexing Feats Props (Vk_DescrType ResAttr)) = false /\
      msg = NonUniformIndexingNotSupported (SignName (Vk_Desc Sig)) (Name ResDesc)) \/
     (fst (NonUniformIndexing Feats Props (Vk_DescrType ResAttr)) = true /\
      snd (NonUniformIndexing Feats Props (Vk_DescrType ResAttr)) = false /\
      msg = NonUniformIndexingEmulated (SignName (Vk_Desc Sig)) (Name ResDesc))).
Proof.
  unfold DvpValidateResourceLimits. cbv zeta.
  destruct (Dvp_signatures_spec PSODesc Feats Props m_Signatures
              (mkDvpState (fun _ => 0) (fun _ _ => 0) (fun _ => false) []))
    as [_ Elog].
  { split; intros; simpl; unfold is_Uint32, Uint32_modulus; lia. }
  set (st := foldl (Dvp_signature PSODesc Feats Props) _ m_Signatures) in *.
  rewrite Elog. simpl.
  assert (Hwarn :
            LOG_WARNING_MESSAGE msg ∈
              (Res ← signature_resources m_Signatures;
               resource_warnings Feats Props Res) <->
            exists Sig ResDesc ResAttr,
              Some Sig ∈ m_Signatures /\
              (ResDesc, ResAttr)
                ∈ zip (Resources (Vk_Desc Sig)) (Vk_ResourceAttribs Sig) /\
              LOG_WARNING_MESSAGE msg ∈
                resource_warnings Feats Props
                  (SignName (Vk_Desc Sig), ResDesc, ResAttr)).
  { rewrite list_elem_of_bind. unfold signature_resources. split.
    - intros ([[SignatureName ResDesc] ResAttr] & Hw & Hin).
      apply list_elem_of_bind in Hin. destruct Hin as (pSig & Hin & HpSig).
      destruct pSig as [Sig|]; [|apply elem_of_nil in Hin; contradiction].
      apply list_elem_of_fmap in Hin. destruct Hin as ([r a] & Heq & Hin).
      injection Heq as -> -> ->. exists Sig, r, a. auto.
    - intros (Sig & ResDesc & ResAttr & HSig & Hin & Hw).
      exists (SignName (Vk_Desc Sig), ResDesc, ResAttr). split; [exact Hw|].
      apply list_elem_of_bind. exists (Some Sig). split; [|exact HSig].
      apply list_elem_of_fmap. exists (ResDesc, ResAttr). auto. }
  assert (Hres : forall SignatureName ResDesc ResAttr,
            LOG_WARNING_MESSAGE msg ∈
              resource_warnings Feats Props (SignatureName, ResDesc, ResAttr) <->
            Z.land (Flags ResDesc) PIPELINE_RESOURCE_FLAG_RUNTIME_ARRAY <> 0 /\
            ((fst (NonUniformIndexing Feats Props (Vk_DescrType ResAttr)) = false /\
              msg = NonUniformIndexingNotSupported SignatureName (Name ResDesc)) \/
             (fst (NonUniformIndexing Feats Props (Vk_DescrType ResAttr)) = true /\
              snd (NonUniformIndexing Feats Props (Vk_DescrType ResAttr)) = false /\
              msg = NonUniformIndexingEmulated SignatureName (Name ResDesc)))).
  { intros SignatureName ResDesc ResAttr. unfold resource_warnings.
    destruct (Z.eqb_spec (Z.land (Flags ResDesc) PIPELINE_RESOURCE_FLAG_RUNTIME_ARRAY) 0)
      as [E0|E0]; simpl.
    { split; [intros H; apply elem_of_nil in H; contradiction|].
      intros [H _]. contradiction. }
    destruct (fst (NonUniformIndexing Feats Props (Vk_DescrType ResAttr))); simpl.
    - destruct (snd (NonUniformIndexing Feats Props (Vk_DescrType ResAttr))); simpl.
      + split; [intros H; apply elem_of_nil in H; contradiction|].
        intros [_ [[H _]|(_ & H & _)]]; discriminate H.
      + rewrite list_elem_of_singleton. split.
        * intros [= ->]. split; [exact E0|]. right. auto.
        * intros [_ [[H _]|(_ & _ & ->)]]; [discriminate H|reflexivity].
    - rewrite list_elem_of_singleton. split.
      + intros [= ->]. split; [exact E0|]. left. auto.
      + intros [_ [[_ ->]|(H & _)]]; [reflexivity|discriminate H]. }
  split.
  - intros Hin. apply elem_of_app in Hin. destruct Hin as [Hin|Hin].
    + apply Hwarn in Hin. destruct Hin as (Sig & ResDesc & ResAttr & HS & Hz & Hw).
      apply Hres in Hw. exists Sig, ResDesc, ResAttr. auto.
    + exfalso. apply elem_of_app in Hin. destruct Hin as [Hin|Hin].
      * apply Dvp_check_total_elem in Hin. destruct Hin as [m Hm]. discriminate Hm.
      * apply list_elem_of_join in Hin. destruct Hin as (l & Hl & Hin).
        apply list_elem_of_fmap in Hin. destruct Hin as (ShaderInd & -> & _).
        destruct (ShaderStagePresented st ShaderInd).
        -- apply Dvp_check_stage_elem in Hl. destruct Hl as [m Hm]. discriminate Hm.
        -- apply elem_of_nil in Hl. contradiction.
  - intros (Sig & ResDesc & ResAttr & HS & Hz & Hflag & Hcase).
    apply elem_of_app. left. apply Hwarn.
    exists Sig, ResDesc, ResAttr. split; [exact HS|]. split; [exact Hz|].
    apply Hres. auto.
Qed.
(** ** Device limits *)







(** ** Stages, shader modules and shader groups *)

Section PipelineStagesTheorems.

Context {SE : ShaderEnv}.

Lemma Append_all (ps : list ShaderVkImpl) : forall this,
  Shaders (foldl Append this ps) = Shaders this ++ ps /\
  SPIRVs (foldl Append this ps) = SPIRVs this ++ (GetSPIRV <$> ps) /\
  (forall T, Stage_Type this = T ->
     (forall p, p ∈ ps -> Shader_ShaderType p = T) ->
     Stage_Type (foldl Append this ps) = T).
Proof.
  induction ps as [|p ps IH]; intros this; simpl.
  - rewrite !app_nil_r. auto.
  - destruct (IH (Append this p)) as (H1 & H2 & H3). simpl in H1, H2.
    rewrite H1, H2, <- !app_assoc. split; [reflexivity|]. split; [reflexivity|].
    intros T HT Hall. apply H3.
    + simpl. rewrite HT. destruct (T =? SHADER_TYPE_UNKNOWN); [|reflexivity].
      apply Hall. apply elem_of_cons. left. reflexivity.
    + intros q Hq. apply Hall. apply elem_of_cons. right. exact Hq.
Qed.

(** X20: a stage keeps its two arrays in step.  [Append] adds the shader
    at the end of [Shaders] and its byte code at the end of [SPIRVs], so a
    stage that is built by the constructor and any number of appends holds
    the shaders in the order they were given and, at the same index, the
    byte code of each; [Count] is their number, and the type of the stage
    is the type of the shaders when they all have the same type. *)
Theorem ShaderStageInfo_Append_keeps_arrays_in_step
  (pShader : ShaderVkImpl) (ps : list ShaderVkImpl) :
  let Stage := foldl Append (ShaderStageInfo_ctor pShader) ps in
  Shaders Stage = pShader :: ps /\
  SPIRVs Stage = GetSPIRV <$> Shaders Stage /\
  Count Stage = S (length ps) /\
  length (SPIRVs Stage) = Count Stage /\
  (forall T, (forall p, p ∈ pShader :: ps -> Shader_ShaderType p = T) ->
     Stage_Type Stage = T).
Proof.
  intros Stage. unfold Stage, Count.
  destruct (Append_all ps (ShaderStageInfo_ctor pShader)) as (H1 & H2 & H3).
  simpl in H1, H2. rewrite H1, H2. simpl.
  split; [reflexivity|]. split; [reflexivity|]. split; [reflexivity|].
  split; [rewrite length_fmap; reflexivity|].
  intros T Hall. apply H3.
  - simpl. apply Hall. apply elem_of_cons. left. reflexivity.
  - intros q Hq. apply Hall. apply elem_of_cons. right. exact Hq.
Qed.

(** The loop over the shaders of a stage appends one module and one stage
    create info for each shader, in order. *)
Lemma InitPipelineShaderStages_shaders_spec noHLSL ExtFeats ShaderType Shaders_ :
  forall i st st',
    InitPipelineShaderStages_shaders noHLSL ExtFeats ShaderType Shaders_ i st
      = Some st' ->
    exists NewModules NewStages,
      ShaderModules st' = ShaderModules st ++ NewModules /\
      Stages st' = Stages st ++ NewStages /\
      length NewModules = length Shaders_ /\
      length NewStages = length Shaders_ /\
      forall k pShader, Shaders_ !! k = Some pShader ->
        exists StageCI,
          NewStages !! k = Some StageCI /\
          NewModules !! k = Some (module StageCI) /\
          built_for ShaderType pShader StageCI.
Proof.
  induction Shaders_ as [|p rest IH]; intros i st st' Hrun; simpl in Hrun.
  - injection Hrun as <-. exists [], []. rewrite !app_nil_r.
    repeat split; try reflexivity. intros k q Hk. destruct k; discriminate Hk.
  - destruct (InitPipelineShaderStages_shader noHLSL ExtFeats ShaderType st i p)
      as [st1|] eqn:E1; simpl in Hrun; [|discriminate].
    destruct (IH _ _ _ Hrun) as (NM & NS & HM & HS & HlM & HlS & Hk).
    unfold InitPipelineShaderStages_shader in E1.
    destruct (iss_SPIRVs st !! i) as [SPIRV|]; simpl in E1; [|discriminate].
    destruct (StripReflection noHLSL ExtFeats SPIRV) as [ok SPIRV'].
    injection E1 as <-. simpl in HM, HS.
    eexists (_ :: NM), (_ :: NS).
    split; [rewrite HM, <- app_assoc; reflexivity|].
    split; [rewrite HS, <- app_assoc; reflexivity|].
    split; [simpl; congruence|]. split; [simpl; congruence|].
    intros [|k] q Hq; simpl in Hq.
    + injection Hq as <-. eexists. split; [reflexivity|].
      split; [reflexivity|]. repeat split.
    + apply (Hk k q Hq).
Qed.

Lemma typed_shaders_cons Stage rest :
  typed_shaders (Stage :: rest) =
  ((fun pShader => (Stage_Type Stage, pShader)) <$> Shaders Stage) ++
  typed_shaders rest.
Proof. reflexivity. Qed.

Lemma InitPipelineShaderStages_spec noHLSL ExtFeats ShaderStages :
  forall Modules0 Stages0 log0 ShaderStages' Modules' Stages' log',
    InitPipelineShaderStages noHLSL ExtFeats ShaderStages Modules0 Stages0 log0
      = Some (ShaderStages', Modules', Stages', log') ->
    (Stage_Type <$> ShaderStages' = Stage_Type <$> ShaderStages /\
     Shaders <$> ShaderStages' = Shaders <$> ShaderStages) /\
    exists NewModules NewStages,
      Modules' = Modules0 ++ NewModules /\
      Stages' = Stages0 ++ NewStages /\
      length NewModules = length (typed_shaders ShaderStages) /\
      length NewStages = length (typed_shaders ShaderStages) /\
      forall k ShaderType pShader,
        typed_shaders ShaderStages !! k = Some (ShaderType, pShader) ->
        exists StageCI,
          NewStages !! k = Some StageCI /\
          NewModules !! k = Some (module StageCI) /\
          built_for ShaderType pShader StageCI.
Proof.
  induction ShaderStages as [|Stage rest IH];
    intros Modules0 Stages0 log0 ShaderStages' Modules' Stages' log' Hrun;
    simpl in Hrun.
  - injection Hrun as <- <- <- <-. split; [split; reflexivity|].
    exists [], []. rewrite !app_nil_r. repeat split; try reflexivity.
    intros k T p Hk. destruct k; discriminate Hk.
  - destruct (InitPipelineShaderStages_shaders noHLSL ExtFeats (Stage_Type Stage)
                (Shaders Stage) 0 _) as [st|] eqn:Es; simpl in Hrun; [|discriminate].
    destruct (InitPipelineShaderStages noHLSL ExtFeats rest (ShaderModules st)
                (Stages st) (iss_log st)) as [[[[rest' M'] S'] l']|] eqn:Er;
      simpl in Hrun; [|discriminate].
    injection Hrun as <- <- <- <-.
    destruct (InitPipelineShaderStages_shaders_spec _ _ _ _ _ _ _ Es)
      as (NM1 & NS1 & HM1 & HS1 & HlM1 & HlS1 & Hk1).
    simpl in HM1, HS1.
    destruct (IH _ _ _ _ _ _ _ Er)
      as ((HT & HSh) & NM2 & NS2 & HM2 & HS2 & HlM2 & HlS2 & Hk2).
    split; [split; rewrite !fmap_cons; simpl; f_equal; assumption|].
    exists (NM1 ++ NM2), (NS1 ++ NS2).
    split; [rewrite HM2, HM1, <- app_assoc; reflexivity|].
    split; [rewrite HS2, HS1, <- app_assoc; reflexivity|].
    rewrite typed_shaders_cons, !length_app, length_fmap.
    split; [congruence|]. split; [congruence|].
    intros k T p Hk.
    destruct (decide (k < length (Shaders Stage))%nat) as [Hlt|Hge].
    + rewrite lookup_app_l in Hk by (rewrite length_fmap; exact Hlt).
      rewrite list_lookup_fmap in Hk.
      destruct (Shaders Stage !! k) as [q|] eqn:Eq; [|discriminate Hk].
      injection Hk as <- <-.
      destruct (Hk1 k q Eq) as (CI & H1 & H2 & H3).
      exists CI. rewrite !lookup_app_l by lia. auto.
    + rewrite lookup_app_r in Hk by (rewrite length_fmap; lia).
      rewrite length_fmap in Hk.
      destruct (Hk2 _ _ _ Hk) as (CI & H1 & H2 & H3).
      exists CI. rewrite !lookup_app_r by lia.
      rewrite HlS1, HlM1. auto.
Qed.

(** X21: [InitPipelineShaderStages] appends to its two vectors one shader
    module and one stage create info for every shader of every stage, in
    the order of the stages and, within a stage, of the shaders, and nothing
    else: the k-th new entry carries the stage flag of the stage of the
    k-th shader, the name of that shader on its module and its entry point,
    and the k-th new module is the module of the k-th new entry.  The two
    vectors grow by the same amount, and the stages keep their types and
    shaders. *)
Theorem InitPipelineShaderStages_one_module_per_shader
  (DILIGENT_NO_HLSL : bool) (ExtFeats : ExtensionFeatures)
  (ShaderStages ShaderStages' : list ShaderStageInfo)
  (ShaderModules0 ShaderModules' : list ShaderModuleWrapper)
  (Stages0 Stages' : list VkPipelineShaderStageCreateInfo)
  (log0 log' : list ShaderStageMessage) :
  InitPipelineShaderStages DILIGENT_NO_HLSL ExtFeats ShaderStages
    ShaderModules0 Stages0 log0
    = Some (ShaderStages', ShaderModules', Stages', log') ->
  Stage_Type <$> ShaderStages' = Stage_Type <$> ShaderStages /\
  Shaders <$> ShaderStages' = Shaders <$> ShaderStages /\
  exists NewModules NewStages,
    ShaderModules' = ShaderModules0 ++ NewModules /\
    Stages' = Stages0 ++ NewStages /\
    length NewModules = length (typed_shaders ShaderStages) /\
    length NewStages = length (typed_shaders ShaderStages) /\
    forall k ShaderType pShader,
      typed_shaders ShaderStages !! k = Some (ShaderType, pShader) ->
      exists StageCI,
        NewStages !! k = Some StageCI /\
        NewModules !! k = Some (module StageCI) /\
        stage StageCI = ShaderTypeToVkShaderStageFlagBit ShaderType /\
        ModuleName (module StageCI) = Shader_Name pShader /\
        pName StageCI = GetEntryPoint pShader.
Proof.
  intros Hrun.
  destruct (InitPipelineShaderStages_spec _ _ _ _ _ _ _ _ _ _ Hrun)
    as ((HT & HSh) & NM & NS & HM & HS & HlM & HlS & Hk).
  split; [exact HT|]. split; [exact HSh|].
  exists NM, NS. split; [exact HM|]. split; [exact HS|].
  split; [exact HlM|]. split; [exact HlS|]. exact Hk.
Qed.


(** It finds a shader of the stage when one lives at the address. *)
Lemma find_in_stage_complete Shaders_ pShader : forall idx,
  0 <= idx -> idx + Z.of_nat (length Shaders_) < Uint32_modulus ->
  (exists q, q ∈ Shaders_ /\ Shader_Address q = Shader_Address pShader) ->
  exists j p, Shaders_ !! j = Some p /\
              Shader_Address p = Shader_Address pShader /\
              find_in_stage Shaders_ pShader idx = idx + Z.of_nat j.
Proof.
  induction Shaders_ as [|p rest IH]; intros idx H0 Hlen (q & Hin & Eq); simpl.
  - apply elem_of_nil in Hin. contradiction.
  - destruct (decide (Shader_Address p = Shader_Address pShader)) as [Ea|Hne].
    + exists 0%nat, p. split; [reflexivity|]. split; [exact Ea|lia].
    + cbn [length] in Hlen. rewrite Nat2Z.inj_succ in Hlen.
      assert (Eadd : Uint32_add idx 1 = idx + 1)
        by (apply Uint32_add_small; lia).
      rewrite Eadd. apply elem_of_cons in Hin.
      destruct Hin as [->|Hin]; [contradiction|].
      destruct (IH (idx + 1) ltac:(lia) ltac:(lia)
                  (ex_intro _ q (conj Hin Eq))) as (j & r & Hj & Ea & Ej).
      exists (S j), r. split; [exact Hj|]. split; [exact Ea|]. rewrite Ej. lia.
Qed.

Lemma typed_lookup_stage Stage rest j pShader :
  Shaders Stage !! j = Some pShader ->
  typed_shaders (Stage :: rest) !! j = Some (Stage_Type Stage, pShader).
Proof.
  intros Hj. rewrite typed_shaders_cons, lookup_app_l.
  - rewrite list_lookup_fmap, Hj. reflexivity.
  - rewrite length_fmap. eapply lookup_lt_Some. exact Hj.
Qed.

Lemma typed_lookup_rest Stage rest k x :
  typed_shaders rest !! k = Some x ->
  typed_shaders (Stage :: rest) !! (length (Shaders Stage) + k)%nat = Some x.
Proof.
  intros Hk. rewrite typed_shaders_cons, lookup_app_r by (rewrite length_fmap; lia).
  rewrite length_fmap. replace (length (Shaders Stage) + k - length (Shaders Stage))%nat
    with k by lia. exact Hk.
Qed.


Lemma find_in_stages_step Stage idx :
  0 <= idx -> idx + Z.of_nat (length (Shaders Stage)) < Uint32_modulus ->
  Uint32_add idx (Z.of_nat (Count Stage) mod Uint32_modulus) =
  idx + Z.of_nat (length (Shaders Stage)).
Proof.
  intros H0 Hlen. unfold Count.
  rewrite (Z.mod_small (Z.of_nat (length (Shaders Stage)))) by lia.
  apply Uint32_add_small; lia.
Qed.


(** When the stages have pairwise different types, the search finds a
    shader that lives at the address asked for in the stage of the type. *)
Lemma find_in_stages_complete ShaderStages pShader Stage : forall idx,
  0 <= idx ->
  idx + Z.of_nat (length (typed_shaders ShaderStages)) < Uint32_modulus ->
  NoDup (Stage_Type <$> ShaderStages) ->
  Stage ∈ ShaderStages -> Stage_Type Stage = Shader_ShaderType pShader ->
  (exists q, q ∈ Shaders Stage /\ Shader_Address q = Shader_Address pShader) ->
  exists k j p,
    Shaders Stage !! j = Some p /\
    typed_shaders ShaderStages !! k = Some (Shader_ShaderType pShader, p) /\
    Shader_Address p = Shader_Address pShader /\
    find_in_stages ShaderStages pShader idx = idx + Z.of_nat k.
Proof.
  induction ShaderStages as [|Stage0 rest IH];
    intros idx H0 Hlen Hnd HS HT Hin; simpl.
  - apply elem_of_nil in HS. contradiction.
  - rewrite typed_shaders_cons, length_app, length_fmap in Hlen.
    rewrite fmap_cons in Hnd. apply NoDup_cons in Hnd. destruct Hnd as [Hnotin Hnd].
    apply elem_of_cons in HS.
    destruct (Z.eqb_spec (Shader_ShaderType pShader) (Stage_Type Stage0)) as [Et|Et].
    + assert (Stage = Stage0) as ->.
      { destruct HS as [->|HS]; [reflexivity|]. exfalso. apply Hnotin.
        rewrite <- Et, <- HT. apply list_elem_of_fmap. exists Stage. auto. }
      destruct (find_in_stage_complete (Shaders Stage0) pShader idx H0 ltac:(lia) Hin)
        as (j & p & Hj & Ea & Ej).
      exists j, j, p. split; [exact Hj|]. split; [|split; [exact Ea|exact Ej]].
      rewrite Et. apply typed_lookup_stage. exact Hj.
    + destruct HS as [->|HS]; [congruence|].
      rewrite find_in_stages_step by lia.
      destruct (IH (idx + Z.of_nat (length (Shaders Stage0)))
                  ltac:(lia) ltac:(lia) Hnd HS HT Hin) as (k & j & p & Hj & Hk & Ea & Ek).
      exists (length (Shaders Stage0) + k)%nat, j, p. split; [exact Hj|].
      split; [apply typed_lookup_rest; exact Hk|]. split; [exact Ea|].
      rewrite Ek. lia.
Qed.



(** X23: [GetShaderModuleIndex] does find the shaders of the pipeline.
    When the stages have pairwise different types and fewer than 2^32
    shaders together, the index answered for a shader object that is in the
    stage of its type, no other object of that stage living at its
    address, is the position of that object in the sequence of the shaders
    of all stages. *)
Theorem GetShaderModuleIndex_finds_shader_of_stage
  (ShaderStages : list ShaderStageInfo) (Stage : ShaderStageInfo)
  (pShader : ShaderVkImpl) :
  Z.of_nat (length (typed_shaders ShaderStages)) < Uint32_modulus ->
  NoDup (Stage_Type <$> ShaderStages) ->
  Stage ∈ ShaderStages -> Stage_Type Stage = Shader_ShaderType pShader ->
  pShader ∈ Shaders Stage ->
  (forall p, p ∈ Shaders Stage ->
     Shader_Address p = Shader_Address pShader -> p = pShader) ->
  0 <= GetShaderModuleIndex ShaderStages (Some pShader)
    < Z.of_nat (length (typed_shaders ShaderStages)) /\
  typed_shaders ShaderStages
    !! Z.to_nat (GetShaderModuleIndex ShaderStages (Some pShader))
    = Some (Shader_ShaderType pShader, pShader).
Proof.
  intros Hlen Hnd HS HT Hin Hid. unfold GetShaderModuleIndex.
  destruct (find_in_stages_complete ShaderStages pShader Stage 0
              ltac:(lia) ltac:(lia) Hnd HS HT
              (ex_intro _ pShader (conj Hin eq_refl)))
    as (k & j & p & Hj & Hk & Ea & Ek).
  assert (p = pShader) as ->.
  { apply Hid; [|exact Ea]. exact (list_elem_of_lookup_2 _ _ _ Hj). }
  rewrite Ek, Z.add_0_l, Nat2Z.id. split; [|exact Hk].
  apply lookup_lt_Some in Hk. lia.
Qed.


(** ** The implicit render pass *)

Lemma write_at_Some {A : Type} (l : list A) (i : nat) (x : A) :
  (i < length l)%nat -> write_at l i x = Some (<[i := x]> l).
Proof. intros Hi. unfold write_at. rewrite decide_True by exact Hi. reflexivity. Qed.

(** The loop over the render targets fills the entries from
    [AttachmentInd] on, one for each render target, and no other. *)
Lemma color_attachments_spec RTVFormats SampleCount : forall n rt0 ind Atts Refs,
  (rt0 + n <= length RTVFormats)%nat ->
  0 <= ind -> ind + Z.of_nat n < Uint32_modulus ->
  (Z.to_nat ind + n <= length Atts)%nat ->
  (Z.to_nat ind + n <= length Refs)%nat ->
  exists Atts' Refs',
    color_attachments RTVFormats SampleCount (seq rt0 n) ind Atts Refs
      = Some (Atts', Refs') /\
    length Atts' = length Atts /\ length Refs' = length Refs /\
    (forall i, (i < Z.to_nat ind \/ Z.to_nat ind + n <= i)%nat ->
       Atts' !! i = Atts !! i /\ Refs' !! i = Refs !! i) /\
    (forall j Format, (j < n)%nat -> RTVFormats !! (rt0 + j)%nat = Some Format ->
       Atts' !! (Z.to_nat ind + j)%nat = Some (color_attachment Format SampleCount) /\
       Refs' !! (Z.to_nat ind + j)%nat =
         Some (mkAttachmentReference (ind + Z.of_nat j) RESOURCE_STATE_RENDER_TARGET)).
Proof.
  induction n as [|n IH]; intros rt0 ind Atts Refs Hrt H0 Hwrap HA HR.
  - exists Atts, Refs. simpl. repeat split; try reflexivity; intros; lia.
  - cbn [seq color_attachments].
    destruct (lookup_lt_is_Some_2 RTVFormats rt0 ltac:(lia)) as [F HF].
    rewrite HF. cbn [mbind option_bind].
    rewrite write_at_Some by lia. cbn [mbind option_bind].
    rewrite write_at_Some by lia. cbn [mbind option_bind].
    rewrite Uint32_add_small by lia.
    destruct (IH (S rt0) (ind + 1)
                (<[Z.to_nat ind := color_attachment F SampleCount]> Atts)
                (<[Z.to_nat ind :=
                     mkAttachmentReference ind RESOURCE_STATE_RENDER_TARGET]> Refs))
      as (Atts' & Refs' & Hrun & HlA & HlR & Hframe & Hfill);
      try (rewrite ?length_insert; lia).
    exists Atts', Refs'.
    split; [exact Hrun|].
    rewrite length_insert in HlA. rewrite length_insert in HlR.
    split; [exact HlA|]. split; [exact HlR|]. split.
    + intros i Hi. destruct (Hframe i ltac:(lia)) as [E1 E2].
      rewrite E1, E2, !list_lookup_insert_ne by lia. split; reflexivity.
    + intros [|j] Format Hj HFj.
      * rewrite Nat.add_0_r in HFj |- *. assert (Format = F) as -> by congruence.
        destruct (Hframe (Z.to_nat ind) ltac:(lia)) as [E1 E2].
        rewrite E1, E2, !list_lookup_insert_eq by lia.
        replace (ind + Z.of_nat 0) with ind by lia. split; reflexivity.
      * replace (rt0 + S j)%nat with (S rt0 + j)%nat in HFj by lia.
        destruct (Hfill j Format ltac:(lia) HFj) as [E1 E2].
        replace (Z.to_nat ind + S j)%nat with (Z.to_nat (ind + 1) + j)%nat by lia.
        rewrite E1, E2. replace (ind + 1 + Z.of_nat j) with (ind + Z.of_nat (S j))
          by lia. split; reflexivity.
Qed.

Lemma GetImplicitRenderPassDesc_spec NumRenderTargets RTVFormats DSVFormat
  SampleCount Atts Refs :
  0 <= NumRenderTargets ->
  (Z.to_nat NumRenderTargets <= length RTVFormats)%nat ->
  (depth_count DSVFormat + Z.to_nat NumRenderTargets <= length Atts)%nat ->
  (depth_count DSVFormat + Z.to_nat NumRenderTargets <= length Refs)%nat ->
  Z.of_nat (depth_count DSVFormat) + NumRenderTargets < Uint32_modulus ->
  exists Atts' Refs',
    GetImplicitRenderPassDesc NumRenderTargets RTVFormats DSVFormat SampleCount
      Atts Refs =
    Some (mkRenderPassDesc (Z.of_nat (depth_count DSVFormat) + NumRenderTargets) 1 0,
          Atts', Refs',
          mkSubpassDesc 0 None NumRenderTargets
            (if 0 <? NumRenderTargets then Some (depth_count DSVFormat) else None)
            None
            (if DSVFormat =? TEX_FORMAT_UNKNOWN then None else Some 0%nat)
            0 None) /\
    length Atts' = length Atts /\ length Refs' = length Refs /\
    (forall i, (depth_count DSVFormat + Z.to_nat NumRenderTargets <= i)%nat ->
       Atts' !! i = Atts !! i /\ Refs' !! i = Refs !! i) /\
    (DSVFormat <> TEX_FORMAT_UNKNOWN ->
     Atts' !! 0%nat = Some (depth_attachment DSVFormat SampleCount) /\
     Refs' !! 0%nat = Some (mkAttachmentReference 0 RESOURCE_STATE_DEPTH_WRITE)) /\
    (forall rt Format, (rt < Z.to_nat NumRenderTargets)%nat ->
       RTVFormats !! rt = Some Format ->
       Atts' !! (depth_count DSVFormat + rt)%nat
         = Some (color_attachment Format SampleCount) /\
       Refs' !! (depth_count DSVFormat + rt)%nat
         = Some (mkAttachmentReference (Z.of_nat (depth_count DSVFormat + rt))
                   RESOURCE_STATE_RENDER_TARGET)).
Proof.
  intros H0 Hrt HA HR Hwrap. unfold GetImplicitRenderPassDesc, depth_count in *.
  destruct (Z.eqb_spec DSVFormat TEX_FORMAT_UNKNOWN) as [Ed|Ed];
    cbn [negb mbind option_bind].
  - destruct (color_attachments_spec RTVFormats SampleCount
                (Z.to_nat NumRenderTargets) 0 0 Atts Refs)
      as (Atts' & Refs' & Hrun & HlA & HlR & Hframe & Hfill); try lia.
    rewrite Hrun. cbn [mbind option_bind]. exists Atts', Refs'.
    rewrite Uint32_add_small by lia.
    split; [reflexivity|]. split; [exact HlA|]. split; [exact HlR|]. split.
    { intros i Hi. apply Hframe. lia. }
    split; [intros H; contradiction|].
    intros rt Format Hlt HF. destruct (Hfill rt Format Hlt HF) as [E1 E2].
    change (Z.to_nat 0 + rt)%nat with rt in E1, E2.
    change (0 + rt)%nat with rt.
    rewrite E1, E2. split; reflexivity.
  - rewrite write_at_Some by lia. cbn [mbind option_bind].
    rewrite write_at_Some by lia. cbn [mbind option_bind].
    destruct (color_attachments_spec RTVFormats SampleCount
                (Z.to_nat NumRenderTargets) 0 1
                (<[0%nat := depth_attachment DSVFormat SampleCount]> Atts)
                (<[0%nat := mkAttachmentReference 0 RESOURCE_STATE_DEPTH_WRITE]> Refs))
      as (Atts' & Refs' & Hrun & HlA & HlR & Hframe & Hfill);
      try (rewrite ?length_insert; lia).
    unfold depth_attachment in Hrun. rewrite Hrun. cbn [mbind option_bind].
    exists Atts', Refs'. rewrite Uint32_add_small by lia.
    rewrite length_insert in HlA. rewrite length_insert in HlR.
    split; [reflexivity|]. split; [exact HlA|]. split; [exact HlR|]. split.
    { intros i Hi. destruct (Hframe i ltac:(lia)) as [E1 E2].
      rewrite E1, E2, !list_lookup_insert_ne by lia. split; reflexivity. }
    split.
    { intros _. destruct (Hframe 0%nat ltac:(lia)) as [E1 E2].
      rewrite E1, E2, !list_lookup_insert_eq by lia. split; reflexivity. }
    intros rt Format Hlt HF. destruct (Hfill rt Format Hlt HF) as [E1 E2].
    change (Z.to_nat 1 + rt)%nat with (1 + rt)%nat in E1, E2.
    rewrite E1, E2. split; [reflexivity|]. do 2 f_equal. lia.
Qed.

(** X25: the implicit render pass has one attachment for the depth-stencil
    buffer, if the pipeline has one, and one for every render target.  When
    the formats of the render targets are given and the two arrays have
    room for the attachments, [GetImplicitRenderPassDesc] stays within the
    arrays; the attachment count is the number of render targets, plus one
    with a depth-stencil format; the arrays keep their size and their
    entries from that count on; and the one subpass has as many render
    target attachments as there are render targets. *)
Theorem GetImplicitRenderPassDesc_stays_within_arrays
  (NumRenderTargets : Z) (RTVFormats : list Z) (DSVFormat SampleCount : Z)
  (Attachments : list RenderPassAttachmentDesc)
  (AttachmentReferences : list AttachmentReference) :
  0 <= NumRenderTargets ->
  (Z.to_nat NumRenderTargets <= length RTVFormats)%nat ->
  (depth_count DSVFormat + Z.to_nat NumRenderTargets <= length Attachments)%nat ->
  (depth_count DSVFormat + Z.to_nat NumRenderTargets
   <= length AttachmentReferences)%nat ->
  Z.of_nat (depth_count DSVFormat) + NumRenderTargets < Uint32_modulus ->
  exists RPDesc Attachments' AttachmentReferences' Subpass,
    GetImplicitRenderPassDesc NumRenderTargets RTVFormats DSVFormat SampleCount
      Attachments AttachmentReferences
      = Some (RPDesc, Attachments', AttachmentReferences', Subpass) /\
    AttachmentCount RPDesc = Z.of_nat (depth_count DSVFormat) + NumRenderTargets /\
    SubpassCount RPDesc = 1 /\
    RenderTargetAttachmentCount Subpass = NumRenderTargets /\
    length Attachments' = length Attachments /\
    length AttachmentReferences' = length AttachmentReferences /\
    forall i, AttachmentCount RPDesc <= Z.of_nat i ->
      Attachments' !! i = Attachments !! i /\
      AttachmentReferences' !! i = AttachmentReferences !! i.
Proof.
  intros H0 Hrt HA HR Hwrap.
  destruct (GetImplicitRenderPassDesc_spec NumRenderTargets RTVFormats DSVFormat
              SampleCount Attachments AttachmentReferences H0 Hrt HA HR Hwrap)
    as (Atts' & Refs' & Hrun & HlA & HlR & Hframe & _).
  eexists _, Atts', Refs', _. split; [exact Hrun|]. cbn [AttachmentCount
    SubpassCount RenderTargetAttachmentCount].
  split; [reflexivity|]. split; [reflexivity|]. split; [reflexivity|].
  split; [exact HlA|]. split; [exact HlR|].
  intros i Hi. apply Hframe. lia.
Qed.

(** X26: in the implicit render pass the depth-stencil attachment comes
    first and the render targets follow in their order, and every
    attachment reference names its own position.  With a depth-stencil
    format, attachment 0 has that format and is loaded and stored in the
    depth-write state, and the subpass points at reference 0 for it;
    without, the subpass has no depth-stencil attachment.  Render target
    [rt] is the attachment after those before it, with its own format,
    loaded and stored in the render-target state with its stencil
    discarded; the render target references of the subpass start at the
    first of them. *)
Theorem GetImplicitRenderPassDesc_attachment_order
  (NumRenderTargets : Z) (RTVFormats : list Z) (DSVFormat SampleCount : Z)
  (Attachments Attachments' : list RenderPassAttachmentDesc)
  (AttachmentReferences AttachmentReferences' : list AttachmentReference)
  (RPDesc : RenderPassDesc) (Subpass : SubpassDesc) :
  0 <= NumRenderTargets ->
  (Z.to_nat NumRenderTargets <= length RTVFormats)%nat ->
  (depth_count DSVFormat + Z.to_nat NumRenderTargets <= length Attachments)%nat ->
  (depth_count DSVFormat + Z.to_nat NumRenderTargets
   <= length AttachmentReferences)%nat ->
  Z.of_nat (depth_count DSVFormat) + NumRenderTargets < Uint32_modulus ->
  GetImplicitRenderPassDesc NumRenderTargets RTVFormats DSVFormat SampleCount
    Attachments AttachmentReferences
    = Some (RPDesc, Attachments', AttachmentReferences', Subpass) ->
  (if DSVFormat =? TEX_FORMAT_UNKNOWN
   then pDepthStencilAttachment Subpass = None
   else pDepthStencilAttachment Subpass = Some 0%nat /\
        Attachments' !! 0%nat = Some (depth_attachment DSVFormat SampleCount) /\
        AttachmentReferences' !! 0%nat
          = Some (mkAttachmentReference 0 RESOURCE_STATE_DEPTH_WRITE)) /\
  pRenderTargetAttachments Subpass
    = (if 0 <? NumRenderTargets then Some (depth_count DSVFormat) else None) /\
  (forall rt Format, (rt < Z.to_nat NumRenderTargets)%nat ->
     RTVFormats !! rt = Some Format ->
     Attachments' !! (depth_count DSVFormat + rt)%nat
       = Some (color_attachment Format SampleCount) /\
     AttachmentReferences' !! (depth_count DSVFormat + rt)%nat
       = Some (mkAttachmentReference (Z.of_nat (depth_count DSVFormat + rt))
                 RESOURCE_STATE_RENDER_TARGET)) /\
  (forall i r, Z.of_nat i < AttachmentCount RPDesc ->
     AttachmentReferences' !! i = Some r -> AttachmentIndex r = Z.of_nat i).
Proof.
  intros H0 Hrt HA HR Hwrap Hrun.
  destruct (GetImplicitRenderPassDesc_spec NumRenderTargets RTVFormats DSVFormat
              SampleCount Attachments AttachmentReferences H0 Hrt HA HR Hwrap)
    as (Atts' & Refs' & Hrun' & _ & _ & _ & Hdepth & Hfill).
  rewrite Hrun in Hrun'. injection Hrun' as -> -> -> ->.
  cbn [pDepthStencilAttachment pRenderTargetAttachments AttachmentCount].
  split.
  { destruct (Z.eqb_spec DSVFormat TEX_FORMAT_UNKNOWN) as [Ed|Ed];
      [reflexivity|]. split; [reflexivity|]. exact (Hdepth Ed). }
  split; [reflexivity|]. split; [exact Hfill|].
  intros i r Hi Hr.
  assert (Hcase : (i < depth_count DSVFormat)%nat \/
                  exists rt, (rt < Z.to_nat NumRenderTargets)%nat /\
                             i = (depth_count DSVFormat + rt)%nat).
  { destruct (Nat.lt_ge_cases i (depth_count DSVFormat)) as [Hlt|Hge];
      [left; exact Hlt|right].
    exists (i - depth_count DSVFormat)%nat. split; lia. }
  destruct Hcase as [Hlt|(rt & Hlt & ->)].
  - unfold depth_count in Hlt.
    destruct (Z.eqb_spec DSVFormat TEX_FORMAT_UNKNOWN) as [Ed|Ed]; [lia|].
    assert (i = 0%nat) as -> by lia.
    destruct (Hdepth Ed) as [_ E2]. rewrite E2 in Hr. injection Hr as <-.
    reflexivity.
  - destruct (lookup_lt_is_Some_2 RTVFormats rt ltac:(lia)) as [F HF].
    destruct (Hfill rt F Hlt HF) as [_ E2]. rewrite E2 in Hr.
    injection Hr as <-. reflexivity.
Qed.

End PipelineStagesTheorems.
End Theorems.

(** * Closed examples *)

(** ** The OpenGL signature on the example inputs *)

Lemma scenario_Desc_valid : valid_desc scenario_Desc.
Proof.
  split.
  - repeat constructor; simpl; first [lia | discriminate].
  - vm_compute. reflexivity.
Defined.

(** The scenario through the general statement of C2: the uniform-buffer
    range ends at 1, the texture range at 4, one static slot. *)
Lemma CreateLayout_assigns_slots_witness :
  valid_desc scenario_Desc /\
  exists L,
    ex_CreateLayout scenario_Desc = Some L /\
    lay_BindingCount L !! 0%nat = Some 1 /\
    lay_BindingCount L !! 1%nat = Some 4 /\
    lay_StaticResCounter L !! 0%nat = Some 1 /\
    lay_StaticResCounter L !! 1%nat = Some 0.
Proof.
  split; [exact scenario_Desc_valid|].
  destruct (CreateLayout_assigns_slots (RF := ex_ResourceFlags)
              (SB := ex_SignatureBase) scenario_Desc scenario_Desc_valid)
    as [(L & HL & _ & _ & _ & Htot) _].
  exists L. split; [exact HL|].
  destruct (Htot BINDING_RANGE_UNIFORM_BUFFER 0%nat eq_refl) as [Hb0 Hs0].
  destruct (Htot BINDING_RANGE_TEXTURE 1%nat eq_refl) as [Hb1 Hs1].
  repeat split; assumption.
Defined.

Lemma empty_signature_hash_is_zero_witness :
  exists S T,
    ex_ctor (empty_Desc 0) = Some S /\ ex_ctor (empty_Desc 1) = Some T /\
    m_Hash S = 0 /\ m_Hash T = 0 /\ negb (m_Hash S =? m_Hash T) = false.
Proof.
  exact (proj2 (empty_signature_hash_is_zero (RF := ex_ResourceFlags)
                  (SB := ex_SignatureBase) (empty_Desc 0) (empty_Desc 1)
                  eq_refl eq_refl eq_refl eq_refl)).
Defined.

(** C1 as stated fails on two empty signatures that differ in their binding
    index: both are what the constructor builds, their hashes are 0, their
    slot totals are equal and there is no resource index to compare, yet
    [IsCompatibleWith] answers false, because the descriptions are compared
    as well. *)
Lemma IsCompatibleWith_compares_descriptions :
  ex_ctor (empty_Desc 0) = Some (empty_Signature 0) /\
  ex_ctor (empty_Desc 1) = Some (empty_Signature 1) /\
  two_empty_signatures !! 1%nat = Some (empty_Signature 0) /\
  two_empty_signatures !! 2%nat = Some (empty_Signature 1) /\
  m_Hash (empty_Signature 0) = m_Hash (empty_Signature 1) /\
  m_BindingCount (empty_Signature 0) = m_BindingCount (empty_Signature 1) /\
  m_pResourceAttribs (empty_Signature 0) = [] /\
  m_pResourceAttribs (empty_Signature 1) = [] /\
  ex_IsCompatibleWith two_empty_signatures 1 2 = Some false.
Proof. repeat split. Qed.

Lemma IsCompatibleWith_iff_witness :
  two_empty_signatures !! 1%nat = Some (empty_Signature 0) /\
  two_empty_signatures !! 2%nat = Some (empty_Signature 1) /\
  (ex_IsCompatibleWith two_empty_signatures 1 2 = Some true <->
   1%nat = 2%nat \/
   (m_Hash (empty_Signature 0) = m_Hash (empty_Signature 1) /\
    m_BindingCount (empty_Signature 0) = m_BindingCount (empty_Signature 1) /\
    ex_SignaturesCompatible (m_Desc (empty_Signature 0))
      (m_Desc (empty_Signature 1)) = true /\
    forall r, (r < length (Resources (m_Desc (empty_Signature 0))))%nat ->
      exists lhs rhs,
        m_pResourceAttribs (empty_Signature 0) !! r = Some lhs /\
        m_pResourceAttribs (empty_Signature 1) !! r = Some rhs /\
        CacheOffset lhs = CacheOffset rhs /\
        ImtblSamplerAssigned lhs = ImtblSamplerAssigned rhs)).
Proof.
  split; [reflexivity|]. split; [reflexivity|].
  exact (proj1 (IsCompatibleWith_iff (SB := ex_SignatureBase)
                  two_empty_signatures 1%nat 2%nat
                  (empty_Signature 0) (empty_Signature 1) eq_refl eq_refl)).
Defined.

Lemma ex_SignaturesCompatible_refl d : ex_SignaturesCompatible d d = true.
Proof.
  unfold ex_SignaturesCompatible.
  rewrite Z.eqb_refl, !bool_decide_eq_true_2 by reflexivity. reflexivity.
Defined.

Lemma IsCompatibleWith_same_description_witness :
  ex_ctor scenario_Desc = Some scenario_Signature /\
  ex_IsCompatibleWith two_scenario_signatures 1 2 = Some true /\
  ex_IsCompatibleWith two_scenario_signatures 1 1 = Some true.
Proof.
  split; [reflexivity|].
  exact (IsCompatibleWith_same_description (RF := ex_ResourceFlags)
           (SB := ex_SignatureBase)
           two_scenario_signatures 1%nat 2%nat scenario_Desc
           scenario_Signature scenario_Signature
           ex_SignaturesCompatible_refl eq_refl eq_refl eq_refl eq_refl).
Defined.

(** ** The Vulkan pipeline state on the example inputs *)

(** C4 as stated fails when the resource layout names no variable: the two
    declarations of ["g_Tex"] are entered under the stage of their own shader
    and stay two resources, and array size 2 in the pixel shader is no
    conflict. *)
Lemma CreateDefaultSignature_keeps_stages_apart :
  (exists st,
     ex_collect (PSO_with layout_no_variables) (two_stages 1) = Ok st /\
     dss_Resources st = g_Tex_per_stage 1) /\
  (exists st,
     ex_collect (PSO_with layout_no_variables) (two_stages 2) = Ok st /\
     dss_Resources st = g_Tex_per_stage 2).
Proof.
  split; eexists;
    (split; [apply (collect_no_variables (RF := ex_ResourceFlags)
                      (PE := ex_PipelineEnv));
             first [reflexivity | discriminate]|]);
    reflexivity.
Qed.

Lemma CreateDefaultSignature_merges_by_name_and_stages_witness :
  (exists st,
     ex_collect (PSO_with layout_shared_variable) (two_stages 1) = Ok st /\
     dss_Resources st =
       [mkPipelineResourceDesc 3 "g_Tex" 1 SHADER_RESOURCE_TYPE_TEXTURE_SRV
          SHADER_RESOURCE_VARIABLE_TYPE_MUTABLE 0]) /\
  ex_CreateDefaultSignature (PSO_with layout_shared_variable) (two_stages 2) =
    Throw (ResourceMergeError "g_Tex" "array size").
Proof.
  pose proof (CreateDefaultSignature_merges_by_name_and_stages
                (RF := ex_ResourceFlags) (PE := ex_PipelineEnv)
                (PSO_with layout_shared_variable) (two_stages 1)
                eq_refl eq_refl ltac:(discriminate) eq_refl eq_refl)
    as (_ & _ & _ & Hmerge & Hconflict & _).
  split; [exact Hmerge|exact Hconflict].
Defined.

Lemma ex_find_variable_range Vars Name_ Stage Suffix i :
  ex_find_variable Vars Name_ Stage Suffix i = ex_InvalidIndex \/
  i <= ex_find_variable Vars Name_ Stage Suffix i < i + Z.of_nat (length Vars).
Proof.
  revert i. induction Vars as [|Var rest IH]; intros i; simpl; [left; reflexivity|].
  destruct (_ && _); [right; lia|].
  destruct (IH (i + 1)) as [H|H]; [left; exact H|right; lia].
Qed.

Lemma ex_find_variable_in_range LayoutDesc :
  find_variable_in_range (PE := ex_PipelineEnv) LayoutDesc.
Proof.
  intros Name_ Stage Suffix. cbv zeta. simpl.
  unfold ex_FindPipelineResourceLayoutVariable.
  destruct (ex_find_variable_range (Variables LayoutDesc) Name_ Stage Suffix 0)
    as [H|H]; [left; exact H|right; lia].
Qed.

(** The pixel shader declares ["g_Tex"] as a runtime-sized array. *)
Lemma CreateDefaultSignature_rejects_runtime_sized_arrays_witness :
  g_Tex 0 ∈ SR_Resources (GetShaderResources (shader_with "PS" [g_Tex 0])) /\
  SPIRV_ArraySize (g_Tex 0) = 0 /\
  exists e,
    ex_CreateDefaultSignature (PSO_with layout_no_variables) (two_stages 0) = Throw e.
Proof.
  split; [left|]. split; [reflexivity|].
  refine (proj2 (proj2
    (CreateDefaultSignature_rejects_runtime_sized_arrays
       (RF := ex_ResourceFlags) (PE := ex_PipelineEnv)
       (PSO_with layout_no_variables) (two_stages 0)
       (mkShaderStageInfo SHADER_TYPE_PIXEL [shader_with "PS" [g_Tex 0]]
          [[9; 9; 9; 9; 9; 9]])
       (shader_with "PS" [g_Tex 0]) (g_Tex 0)
       _ _ _ eq_refl)) (ex_find_variable_in_range _)).
  - right. left.
  - left.
  - left.
Defined.

(** Both shaders of the example are patched at words 2 and 4 and nowhere
    else. *)
Lemma InitPipelineLayout_patches_decoration_words_witness :
  snd (ex_InitPipelineLayout false (PSO_with layout_no_variables) no_limits
         all_indexing all_indexing false [Some g_Tex_Signature] (two_stages 1))
    = Ok ([Some g_Tex_Signature], two_stages_patched) /\
  length two_stages_patched = length (two_stages 1).
Proof.
  split; [reflexivity|].
  exact (proj1 (proj2
    (InitPipelineLayout_patches_decoration_words
       (RF := ex_ResourceFlags) (PE := ex_PipelineEnv)
       false (PSO_with layout_no_variables) no_limits all_indexing all_indexing
       false [Some g_Tex_Signature] [Some g_Tex_Signature]
       (two_stages 1) two_stages_patched eq_refl))).
Defined.



(** ** The state tracker on the example *)

Lemma unknown_state_is_never_transitioned_witness :
  ex_states !! 1%nat = Some RESOURCE_STATE_UNKNOWN /\
  Forall (not_reset 1) ex_ops /\
  fst (tracker_run ex_states ex_ops) !! 1%nat = Some RESOURCE_STATE_UNKNOWN.
Proof.
  assert (H1 : ex_states !! 1%nat = Some RESOURCE_STATE_UNKNOWN) by reflexivity.
  assert (H2 : Forall (not_reset 1) ex_ops).
  { repeat constructor. simpl. discriminate. }
  split; [exact H1|]. split; [exact H2|].
  exact (proj1 (proj2 (unknown_state_is_never_transitioned ex_states 1 ex_ops H1 H2))).
Defined.
(** * Closed examples for the further properties *)

(** ** The OpenGL signature and its caches *)

Lemma sampled_Desc_valid : valid_desc sampled_Desc.
Proof.
  split.
  - repeat constructor; simpl; first [lia | discriminate].
  - vm_compute. reflexivity.
Defined.

Lemma scenario_static_first : static_first (Resources scenario_Desc).
Proof.
  intros i j ri rj Hij Hi Hj Hs.
  destruct j as [|[|j]]; [lia| |discriminate Hj].
  - injection Hj as <-. discriminate Hs.
Defined.

Lemma sampled_static_first : static_first (Resources sampled_Desc).
Proof.
  intros i j ri rj Hij Hi Hj Hs.
  destruct j as [|[|[|j]]]; [lia| | |discriminate Hj];
    injection Hj as <-; discriminate Hs.
Defined.

(** The static uniform buffer of the sampled description takes the one
    static uniform-buffer slot. *)
Lemma CreateLayout_static_slots_come_first_witness :
  valid_desc sampled_Desc /\ static_first (Resources sampled_Desc) /\
  exists L a StaticCount,
    CreateLayout (RF := ex_ResourceFlags) (SB := imm_SignatureBase) sampled_Desc
      = Some L /\
    lay_Attribs L !! 0%nat = Some a /\
    lay_StaticResCounter L !! 0%nat = Some StaticCount /\
    0 <= CacheOffset a /\ CacheOffset a + 1 <= StaticCount.
Proof.
  split; [exact sampled_Desc_valid|]. split; [exact sampled_static_first|].
  eexists _, _.
  destruct (CreateLayout_static_slots_come_first (RF := ex_ResourceFlags)
              (SB := imm_SignatureBase) sampled_Desc _ 0%nat 0%nat _ _
              sampled_Desc_valid sampled_static_first
              eq_refl eq_refl eq_refl eq_refl eq_refl)
    as (StaticCount & Hc & H0 & Hs & _).
  exists StaticCount. split; [reflexivity|]. split; [reflexivity|].
  split; [exact Hc|]. split; [exact H0|exact (Hs eq_refl)].
Defined.

(** The hash of the scenario does not change with the sampler indices. *)
Lemma CalculateHash_reads_only_cache_offsets_witness :
  CacheOffset <$> m_pResourceAttribs scenario_Signature
    = CacheOffset <$> scenario_attribs_resampled /\
  exists Hash,
    CalculateHash (SB := ex_SignatureBase) scenario_Desc
      (m_pResourceAttribs scenario_Signature) = Some Hash /\
    CalculateHash (SB := ex_SignatureBase) scenario_Desc
      scenario_attribs_resampled = Some Hash.
Proof.
  split; [reflexivity|].
  exact (CalculateHash_reads_only_cache_offsets
           (SB := ex_SignatureBase) scenario_Desc
           (m_pResourceAttribs scenario_Signature) scenario_attribs_resampled
           eq_refl eq_refl).
Defined.

Lemma ex_SignaturesCompatible_sym d1 d2 :
  ex_SignaturesCompatible d1 d2 = ex_SignaturesCompatible d2 d1.
Proof.
  unfold ex_SignaturesCompatible. rewrite (Z.eqb_sym (BindingIndex d1)).
  f_equal; [f_equal|]; apply bool_decide_ext; split; intros H; symmetry; exact H.
Qed.

Lemma ex_SignaturesCompatible_eq d1 d2 :
  ex_SignaturesCompatible d1 d2 = true ->
  BindingIndex d1 = BindingIndex d2 /\ Resources d1 = Resources d2 /\
  ImmutableSamplers d1 = ImmutableSamplers d2.
Proof.
  unfold ex_SignaturesCompatible. intros H.
  apply andb_true_iff in H as [H H3]. apply andb_true_iff in H as [H1 H2].
  apply Z.eqb_eq in H1. apply bool_decide_eq_true_1 in H2, H3.
  split; [exact H1|]. split; [exact H2|exact H3].
Qed.

Lemma ex_SignaturesCompatible_length d1 d2 :
  ex_SignaturesCompatible d1 d2 = true ->
  length (Resources d1) = length (Resources d2).
Proof.
  intros H. destruct (ex_SignaturesCompatible_eq d1 d2 H) as (_ & E & _).
  rewrite E. reflexivity.
Qed.

Lemma ex_SignaturesCompatible_trans d1 d2 d3 :
  ex_SignaturesCompatible d1 d2 = true -> ex_SignaturesCompatible d2 d3 = true ->
  ex_SignaturesCompatible d1 d3 = true.
Proof.
  intros H12 H23.
  destruct (ex_SignaturesCompatible_eq d1 d2 H12) as (E1 & E2 & E3).
  destruct (ex_SignaturesCompatible_eq d2 d3 H23) as (F1 & F2 & F3).
  unfold ex_SignaturesCompatible. rewrite E1, F1, E2, F2, E3, F3.
  rewrite Z.eqb_refl, !bool_decide_eq_true_2 by reflexivity. reflexivity.
Qed.

(** The two empty signatures with different binding indices, asked either
    way. *)
Lemma IsCompatibleWith_symmetric_witness :
  two_empty_signatures !! 1%nat = Some (empty_Signature 0) /\
  two_empty_signatures !! 2%nat = Some (empty_Signature 1) /\
  exists b,
    ex_IsCompatibleWith two_empty_signatures 1 2 = Some b /\
    ex_IsCompatibleWith two_empty_signatures 2 1 = Some b.
Proof.
  split; [reflexivity|]. split; [reflexivity|].
  exact (IsCompatibleWith_symmetric (SB := ex_SignatureBase)
           two_empty_signatures 1%nat 2%nat (empty_Signature 0) (empty_Signature 1)
           ex_SignaturesCompatible_sym ex_SignaturesCompatible_length
           eq_refl eq_refl eq_refl eq_refl).
Defined.

Lemma IsCompatibleWith_transitive_witness :
  ex_IsCompatibleWith two_scenario_signatures 1 2 = Some true /\
  ex_IsCompatibleWith two_scenario_signatures 2 1 = Some true /\
  ex_IsCompatibleWith two_scenario_signatures 1 1 = Some true.
Proof.
  split; [reflexivity|]. split; [reflexivity|].
  exact (IsCompatibleWith_transitive (SB := ex_SignatureBase)
           two_scenario_signatures 1%nat 2%nat 1%nat
           scenario_Signature scenario_Signature scenario_Signature
           ex_SignaturesCompatible_trans ex_SignaturesCompatible_length
           eq_refl eq_refl eq_refl eq_refl eq_refl).
Defined.

(** The texture of the sampled description has the immutable sampler 0. *)
Lemma CreateLayout_immutable_sampler_assignment_witness :
  exists L a,
    CreateLayout (RF := ex_ResourceFlags) (SB := imm_SignatureBase) sampled_Desc
      = Some L /\
    lay_Attribs L !! 1%nat = Some a /\
    ImtblSamplerAssigned a = true /\
    SamplerInd a <> ex_InvalidIndex /\
    SamplerInd a = imm_find (ImmutableSamplers sampled_Desc) 2 "g_Tex" None 0.
Proof.
  eexists _, _. split; [reflexivity|]. split; [reflexivity|].
  split; [reflexivity|].
  destruct (proj1 (CreateLayout_immutable_sampler_assignment
                     (RF := ex_ResourceFlags) (SB := imm_SignatureBase)
                     sampled_Desc _ 1%nat _ _ eq_refl eq_refl eq_refl) eq_refl)
    as [Hne [[Ht _]|[_ Hs]]]; [discriminate Ht|].
  split; [exact Hne|exact Hs].
Defined.

(** The scenario: the one static uniform buffer is copied from slot 0 of
    the static cache. *)
Lemma CopyStaticResources_copies_from_static_cache_witness :
  CopyStaticResources (RF := ex_ResourceFlags) (SB := ex_SignatureBase)
    (CE := ex_CacheEnv) true scenario_Signature (Some scenario_static_cache)
    = Some [SetUniformBuffer 0 (Some 100%nat); SetStaticResourcesInitialized] /\
  cached_object scenario_static_cache BINDING_RANGE_UNIFORM_BUFFER 0
    = Some (Some 100%nat).
Proof.
  split; [reflexivity|].
  refine (proj1 (CopyStaticResources_copies_from_static_cache
                   (RF := ex_ResourceFlags) (SB := ex_SignatureBase)
                   (CE := ex_CacheEnv) true scenario_Signature
                   scenario_static_cache _
                   (SetUniformBuffer 0 (Some 100%nat))
                   BINDING_RANGE_UNIFORM_BUFFER 0 (Some 100%nat)
                   eq_refl _ eq_refl)).
  left.
Defined.

Lemma CopyStaticResources_reads_within_static_cache_witness :
  valid_desc scenario_Desc /\
  ex_ctor scenario_Desc = Some scenario_Signature /\
  is_Some (CopyStaticResources (RF := ex_ResourceFlags) (SB := ex_SignatureBase)
             (CE := ex_CacheEnv) false scenario_Signature
             (Some scenario_static_cache)).
Proof.
  split; [exact scenario_Desc_valid|]. split; [reflexivity|].
  refine (CopyStaticResources_reads_within_static_cache
            (RF := ex_ResourceFlags) (SB := ex_SignatureBase) (CE := ex_CacheEnv)
            false scenario_Desc (mkLayout _ _ _) scenario_Signature
            scenario_static_cache
            scenario_Desc_valid scenario_static_first eq_refl eq_refl _ _ _).
  - repeat split.
  - vm_compute. lia.
  - intros r ResDesc Hr HD. vm_compute in Hr.
    assert (r = 0%nat) as -> by lia. injection HD as <-. reflexivity.
Defined.

(** The sampled description: the two slots of the texture get the immutable
    sampler, after the cache is initialised. *)
Lemma InitSRBResourceCache_sets_immutable_samplers_witness :
  PipelineResourceSignatureGLImpl_ctor (RF := ex_ResourceFlags)
    (SB := imm_SignatureBase) sampled_Desc = Some sampled_Signature /\
  InitSRBResourceCache (SB := imm_SignatureBase) (CE := ex_CacheEnv)
    sampled_Signature [Some 7%nat] = Some sampled_SRB_calls /\
  exists rest,
    sampled_SRB_calls = Cache_Initialize [1; 2; 0; 1] :: rest /\
    SetSampler (Uint32_add 0 1) (Some 7%nat) ∈ rest.
Proof.
  split; [reflexivity|]. split; [reflexivity|].
  destruct (InitSRBResourceCache_sets_immutable_samplers
              (SB := imm_SignatureBase) (CE := ex_CacheEnv)
              sampled_Signature [Some 7%nat] sampled_SRB_calls eq_refl)
    as (rest & Hrest & _ & Hall).
  exists rest. split; [exact Hrest|].
  destruct (Hall 1%nat _ _ 1 eq_refl eq_refl eq_refl ltac:(discriminate)
              ltac:(simpl; lia)) as (p & Hp & Hin).
  injection Hp as <-. exact Hin.
Defined.

Lemma InitSRBResourceCache_samplers_within_texture_slots_witness :
  valid_desc sampled_Desc /\
  SetSampler 1 (Some 7%nat) ∈ sampled_SRB_calls /\
  exists Counts TextureCount,
    head sampled_SRB_calls = Some (Cache_Initialize Counts) /\
    Counts !! 1%nat = Some TextureCount /\
    0 <= 1 < TextureCount.
Proof.
  split; [exact sampled_Desc_valid|].
  assert (Hin : SetSampler 1 (Some 7%nat) ∈ sampled_SRB_calls).
  { right. right. left. }
  split; [exact Hin|].
  exact (InitSRBResourceCache_samplers_within_texture_slots
           (RF := ex_ResourceFlags) (SB := imm_SignatureBase)
           (CE := ex_CacheEnv) sampled_Desc sampled_Signature [Some 7%nat]
           sampled_SRB_calls 1 (Some 7%nat)
           sampled_Desc_valid eq_refl eq_refl Hin).
Defined.

(** The textures of the scenario against a cache without textures: the
    answer is false and every element is logged. *)
Lemma DvpValidateCommittedResource_true_iff_all_bound_witness :
  exists calls,
    DvpValidateCommittedResource (RF := ex_ResourceFlags) (CE := ex_CacheEnv)
      scenario_Signature (mkGLResourceAttribs "g_Textures" 4)
      RESOURCE_DIM_TEX_2D false 1 scenario_static_cache "PS" "PSO"
      = Some (false, calls) /\
    (slot_bound (RF := ex_ResourceFlags) (CE := ex_CacheEnv)
       scenario_static_cache
       (mkPipelineResourceDesc 1 "g_Textures" 4 SHADER_RESOURCE_TYPE_TEXTURE_SRV
          SHADER_RESOURCE_VARIABLE_TYPE_DYNAMIC 0) (Uint32_add 0 2) = false <->
     LOG_ERROR_MESSAGE (NoResourceBound "g_Textures" 2 "PS" "PSO") ∈ calls).
Proof.
  eexists. split; [reflexivity|].
  destruct (DvpValidateCommittedResource_true_iff_all_bound
              (RF := ex_ResourceFlags) (CE := ex_CacheEnv)
              scenario_Signature (mkGLResourceAttribs "g_Textures" 4)
              RESOURCE_DIM_TEX_2D false 1 scenario_static_cache "PS" "PSO"
              _ _ _ _ eq_refl eq_refl eq_refl) as [_ H].
  destruct (H ltac:(discriminate)) as [_ Hlog].
  exact (Hlog 2 ltac:(simpl; lia)).
Defined.

(** ** The Vulkan pipeline state *)

(** A pipeline whose one shader declares nothing gets no default
    signature. *)
Lemma CreateDefaultSignature_null_iff_no_resources_witness :
  ex_CreateDefaultSignature (PSO_with layout_no_variables) bare_stages = Ok None /\
  forall Stage pShader,
    Stage ∈ bare_stages -> pShader ∈ Shaders Stage ->
    SR_Resources (GetShaderResources pShader) = [].
Proof.
  split; [reflexivity|].
  exact (proj1 (CreateDefaultSignature_null_iff_no_resources
                  (RF := ex_ResourceFlags) (PE := ex_PipelineEnv)
                  (PSO_with layout_no_variables) bare_stages None eq_refl)
           eq_refl).
Defined.

Lemma CreateDefaultSignature_resources_are_declared_witness :
  exists Sig ResSignDesc,
    ex_CreateDefaultSignature (PSO_with layout_no_variables) (two_stages 1)
      = Ok (Some Sig) /\
    ex_CreatePipelineResourceSignature ResSignDesc true = Some Sig /\
    BindingIndex ResSignDesc = 0 /\
    Resources ResSignDesc <> [].
Proof.
  eexists.
  destruct (CreateDefaultSignature_resources_are_declared
              (RF := ex_ResourceFlags) (PE := ex_PipelineEnv)
              (PSO_with layout_no_variables) (two_stages 1) _ eq_refl)
    as (ResSignDesc & Hc & Hb & Hne & _).
  exists ResSignDesc. split; [reflexivity|].
  split; [exact Hc|]. split; [exact Hb|exact Hne].
Defined.

(** The shader of [combined_stages] uses combined samplers and has a
    separate sampler, so the default signature takes its suffix. *)
Lemma CreateDefaultSignature_merges_sampler_suffixes_witness :
  exists st,
    ex_collect (PSO_with layout_no_variables) combined_stages = Ok st /\
    UseCombinedTextureSamplers
      (default_signature_desc (PSO_with layout_no_variables) st) = true /\
    CombinedSamplerSuffix
      (default_signature_desc (PSO_with layout_no_variables) st)
      = Some "_sampler"%string.
Proof.
  eexists. split; [reflexivity|].
  refine (proj1 (CreateDefaultSignature_merges_sampler_suffixes
                   (RF := ex_ResourceFlags) (PE := ex_PipelineEnv)
                   (PSO_with layout_no_variables) combined_stages _ eq_refl)
            (mkShaderStageInfo SHADER_TYPE_PIXEL [combined_shader]
               [[9; 9; 9; 9; 9; 9]])
            combined_shader _ _ eq_refl _).
  - left.
  - left.
  - simpl. lia.
Defined.

(** The texture of the vertex shader of the example is attributed to
    resource 0 of the explicit signature. *)
Lemma InitPipelineLayout_Ok_resources_attributed_witness :
  snd (ex_InitPipelineLayout false (PSO_with layout_no_variables) no_limits
         all_indexing all_indexing false [Some g_Tex_Signature] (two_stages 1))
    = Ok ([Some g_Tex_Signature], two_stages_patched) /\
  ex_ResourceAttribution_bool
    (ex_GetResourceAttribution [Some g_Tex_Signature] "g_Tex" SHADER_TYPE_VERTEX)
    = true.
Proof.
  split; [reflexivity|].
  refine (proj1 (InitPipelineLayout_Ok_resources_attributed
                   (RF := ex_ResourceFlags) (PE := ex_PipelineEnv)
                   false (PSO_with layout_no_variables) no_limits
                   all_indexing all_indexing false
                   [Some g_Tex_Signature] [Some g_Tex_Signature]
                   (two_stages 1) two_stages_patched
                   (mkShaderStageInfo SHADER_TYPE_VERTEX
                      [shader_with "VS" [g_Tex 1]] [[7; 7; 7; 7; 7; 7]])
                   (shader_with "VS" [g_Tex 1]) (g_Tex 1) eq_refl _ _ _)).
  - left.
  - left.
  - left.
Defined.


Lemma unlimited_at_least : limits_at_least Uint32_max unlimited.
Proof. vm_compute. repeat split; discriminate. Defined.

Lemma DvpValidateResourceLimits_no_error_without_limits_witness :
  limits_at_least Uint32_max unlimited /\
  DEV_CHECK_ERR (TotalCountExceedsLimit "sampled images" 1 0) ∉
    DvpValidateResourceLimits (RF := ex_ResourceFlags) (PE := ex_PipelineEnv)
      (PSO_with layout_no_variables) unlimited all_indexing all_indexing
      [Some g_Tex_Signature].
Proof.
  split; [exact unlimited_at_least|].
  exact (DvpValidateResourceLimits_no_error_without_limits
           (RF := ex_ResourceFlags) (PE := ex_PipelineEnv)
           (PSO_with layout_no_variables) unlimited all_indexing all_indexing
           [Some g_Tex_Signature] (TotalCountExceedsLimit "sampled images" 1 0)
           unlimited_at_least).
Defined.

(** The two stages of the example: the module and the stage of the pixel
    shader are entry 1 of the two vectors. *)
Lemma InitPipelineShaderStages_one_module_per_shader_witness :
  exists ShaderStages' ShaderModules' Stages' NewModules NewStages,
    InitPipelineShaderStages (SE := ex_ShaderEnv) false
      (mkExtensionFeatures false false) (two_stages 1) [] [] []
      = Some (ShaderStages', ShaderModules', Stages', []) /\
    ShaderModules' = [] ++ NewModules /\ Stages' = [] ++ NewStages /\
    length NewModules = 2%nat /\ length NewStages = 2%nat.
Proof.
  eexists _, _, _.
  destruct (InitPipelineShaderStages_one_module_per_shader (SE := ex_ShaderEnv)
              false (mkExtensionFeatures false false) (two_stages 1) _
              [] _ [] _ [] [] eq_refl)
    as (_ & _ & NewModules & NewStages & HM & HS & HlM & HlS & _).
  exists NewModules, NewStages. split; [reflexivity|].
  split; [exact HM|]. split; [exact HS|]. split; [exact HlM|exact HlS].
Defined.



Lemma GetShaderModuleIndex_finds_shader_of_stage_witness :
  NoDup (Stage_Type <$> twin_stages) /\
  GetShaderModuleIndex (SE := ex_ShaderEnv) twin_stages (Some (twin_shader 6)) = 2 /\
  0 <= GetShaderModuleIndex (SE := ex_ShaderEnv) twin_stages
         (Some (twin_shader 6)) < 3 /\
  typed_shaders twin_stages
    !! Z.to_nat (GetShaderModuleIndex (SE := ex_ShaderEnv) twin_stages
                   (Some (twin_shader 6)))
    = Some (SHADER_TYPE_PIXEL, twin_shader 6).
Proof.
  assert (Hnd : NoDup (Stage_Type <$> twin_stages)).
  { apply NoDup_cons. split; [|apply NoDup_singleton].
    intros H. apply list_elem_of_singleton in H. discriminate H. }
  split; [exact Hnd|]. split; [reflexivity|].
  refine (GetShaderModuleIndex_finds_shader_of_stage (SE := ex_ShaderEnv)
            twin_stages
            (mkShaderStageInfo SHADER_TYPE_PIXEL [twin_shader 5; twin_shader 6]
               [[9]; [8]])
            (twin_shader 6) eq_refl Hnd _ eq_refl _ _).
  - right. left.
  - right. left.
  - intros p Hp Ea. apply elem_of_cons in Hp. destruct Hp as [->|Hp].
    + discriminate Ea.
    + apply list_elem_of_singleton in Hp. exact Hp.
Defined.


(** Two render targets and a depth-stencil buffer: three attachments. *)
Lemma GetImplicitRenderPassDesc_stays_within_arrays_witness :
  exists RPDesc Attachments' AttachmentReferences' Subpass,
    GetImplicitRenderPassDesc (SE := ex_ShaderEnv) 2 [10; 20] 50 1
      blank_attachments blank_references
      = Some (RPDesc, Attachments', AttachmentReferences', Subpass) /\
    AttachmentCount RPDesc = 3 /\
    length Attachments' = 9%nat /\ length AttachmentReferences' = 9%nat.
Proof.
  destruct (GetImplicitRenderPassDesc_stays_within_arrays (SE := ex_ShaderEnv)
              2 [10; 20] 50 1 blank_attachments blank_references
              ltac:(lia) ltac:(simpl; lia) ltac:(vm_compute; lia)
              ltac:(vm_compute; lia) eq_refl)
    as (RPDesc & A' & R' & Subpass & Hrun & Hc & _ & _ & HlA & HlR & _).
  exists RPDesc, A', R', Subpass.
  split; [exact Hrun|]. split; [exact Hc|]. split; [exact HlA|exact HlR].
Defined.

Lemma GetImplicitRenderPassDesc_attachment_order_witness :
  exists RPDesc Attachments' AttachmentReferences' Subpass,
    GetImplicitRenderPassDesc (SE := ex_ShaderEnv) 2 [10; 20] 50 1
      blank_attachments blank_references
      = Some (RPDesc, Attachments', AttachmentReferences', Subpass) /\
    pRenderTargetAttachments Subpass = Some 1%nat /\
    Attachments' !! 2%nat = Some (color_attachment 20 1) /\
    AttachmentReferences' !! 2%nat
      = Some (mkAttachmentReference 2 RESOURCE_STATE_RENDER_TARGET).
Proof.
  eexists _, _, _, _. split; [reflexivity|].
  destruct (GetImplicitRenderPassDesc_attachment_order (SE := ex_ShaderEnv)
              2 [10; 20] 50 1 blank_attachments _ blank_references _ _ _
              ltac:(lia) ltac:(simpl; lia) ltac:(vm_compute; lia)
              ltac:(vm_compute; lia) eq_refl eq_refl)
    as (_ & Hp & Hfill & _).
  split; [exact Hp|]. exact (Hfill 1%nat 20 ltac:(simpl; lia) eq_refl).
Defined.
